(* ===== verification/_CoqProject ===== *)
-Q . S2P
Prelude.v
PyDict.v
PyValue.v
PyStr.v
DateTime.v
PyFloat.v
PyJson.v
Md5.v
World.v
DataObject.v
ConflictResolver.v
SyncMetadata.v
SyncEngine.v
GeoJson.v
RevitBridge.v
GhHelper.v
Config.v
Agol.v
IntegrationPipeline.v
GhTemplates.v
GhDisplay.v
GithubLoader.v
Package.v
