(* ===== verification/Prelude.v ===== *)
(** * Verification of the Revit / Grasshopper / ArcGIS synchronisation scripts

    This library is a shallow embedding in Rocq of the Python package under
    [src/] (TWagenvoort/revit-to-gis) together with the theorems that describe
    what its code does.  The package keeps a set of building elements (walls,
    floors, openings: each a JSON object with an id, a type, a property
    dictionary and a geometry) in step between an authoring tool (Revit), a
    processing client (Grasshopper) and a hosted GIS service (ArcGIS
    Online).  Its core is [src/scripts/merge_engine.py]: content hashing of
    an element, a version counter, a ledger of what was last seen, a
    three-way conflict detector and three resolution strategies.  Around it,
    [revit_gh_bridge.py] turns a Revit document into the records the engine
    imports, [gh_helper.py] is what a Grasshopper script uses to read and
    edit them, [agol_exporter.py] converts them to GeoJSON and sends them to
    the service, and [integration_pipeline.py] runs the five steps in order
    and reports.  [GH_TEMPLATES.py] holds ten blocks of code for the Python
    component of Grasshopper, [github_loader.py] downloads the scripts and
    loads them as modules, and [scripts/__init__.py] and [setup.py] make
    the package.

    ** How the program is modelled

    Python is dynamically typed and the program's data arrives from
    [json.load], so every value the program handles is a member of one type
    [pyval] (None, bool, int, float, str, list, dict) and every operation that
    Python checks at run time returns an [outcome]:
    - [Ok v]: the operation returned [v];
    - [Raise e]: it raised the Python exception [e];
    - [Unmodelled]: the input lies outside what the model describes (the
      places are listed below); nothing is claimed about the code there, and
      no handler of the model can catch it.
    Code that reads the clock, draws a UUID, reads or writes a file, sends a
    request or updates [self] lives in the monad [M S A := S -> outcome A * S]:
    the state reached when an exception propagates is kept, as in Python,
    where nothing is rolled back.  [try_except] models
    [try: ... except Exception].  A method of an object that is a field of
    another runs through [zoom], which reads the field, runs the method and
    writes the field back, on every outcome.

    Each class of the source is a [Module] of the same name in the file named
    after it, its instance a [Record t] with the attributes of the class, and
    a method keeps its Python name.  The block under
    [if __name__ == "__main__"] of a file is the definition [main] of its
    module.  Every definition is a function that evaluates: the examples at
    the end of each file run the methods on sample data by [vm_compute].

    A list whose objects are edited in place through references (the
    current data of the helper, the input of a template) is part of the
    state; an object is reached by its position and an assignment to one of
    its fields is written back at that position, so that an exception in
    the middle of a loop leaves the assignments made before it.

    ** Files, in dependency order

    The Python runtime and standard library, at the calls the program makes:
    - [Prelude] (this file): exceptions, [outcome], the monad [M], its
      notation, loops over lists, the predicates [preserves] and [ensures],
      the tactics ([mstep], [step_preserves]) and the hint databases ([py],
      [pyrw]) the other files use.
    - [PyDict]: Python's insertion-ordered [dict] as an association list with
      unique keys; [dict_get], [dict_set], [dict_update]; the refinement to
      stdpp's [gmap].
    - [PyValue]: [pykey], [pyval], their induction principle and decidable
      equality; the built-ins the program calls ([dict.get], subscripting,
      truthiness, [+], [*] by a number, slicing, [str.lower], iteration).
    - [PyStr]: decimal and hexadecimal printing and parsing of integers.
    - [DateTime]: [datetime] values, [isoformat], [strftime], [fromisoformat],
      ordering, and the seconds between two date-times.
    - [PyFloat]: [repr] of a binary64 number, the shortest digits that read
      back as the number, as [json.dumps] prints them.
    - [PyJson]: [json.dumps] with [sort_keys]; the image of a value under
      [json.dump] followed by [json.load].
    - [Md5]: [hashlib.md5(...).hexdigest()] on 32-bit words kept in [Z].
    - [World]: what the program sees of its environment: the clock, the UUID
      source and the file system.

    The program:
    - [DataObject]: class [DataObject] of merge_engine.py: the constructor,
      [_compute_hash], [to_dict], [from_dict].
    - [ConflictResolver]: class [ConflictResolver]: [detect_conflict],
      [resolve] and the three strategies.
    - [SyncMetadata]: class [SyncMetadata] (the ledger): [_load], [save],
      [register_object], [get_object_meta], [add_sync_event].
    - [SyncEngine]: class [SyncEngine]: the two imports, the export,
      [sync_revit_to_gh], [_check_conflicts], [_resolve_conflicts],
      [save_state], [load_state], and the example of the file.  Its state
      is the engine and [World].
    - [GeoJson]: class [GeoJSONConverter] of agol_exporter.py.
    - [RevitBridge]: classes [RevitExporter], [RevitImporter] and
      [RevitGHBridge] of revit_gh_bridge.py, and the script of the file.
    - [GhHelper]: classes [GrassholperDataHelper],
      [GrassholperGeometryHelper] and [GrassholperPipeline] of gh_helper.py,
      and the script of the file.
    - [Config]: the constants of config.py, related to the defaults the
      classes carry.
    - [Agol]: classes [AGOLAuthentication], [AGOLUploader] and
      [AGOLExporter] of agol_exporter.py, the script of the file, and the
      environment [Net]: [World], the answers of the remote service and the
      requests sent.
    - [IntegrationPipeline]: class [RevitGISIntegrationPipeline] of
      integration_pipeline.py and the example of its [__main__] block.  Its
      state is the pipeline (which owns an engine, a bridge and, with
      credentials, an exporter) and [Net].
    - [GhTemplates]: templates 1 to 7 of GH_TEMPLATES.py (module
      [GH_TEMPLATES]), each block a function from its inputs to its
      outputs, and the machinery for a list edited in place: the loop
      [for_objects] on the list, the pure traversal [pass], and the
      relation [sim] between the body of a loop on the list and on one
      object alone.
    - [GhDisplay]: templates 8 to 10 (module [GH_DISPLAY]): the Rhino
      geometry, the table and [safe_execute].
    - [GithubLoader]: github_loader.py (module [github_loader]); its state
      is [sys.modules] and the web.
    - [Package]: scripts/__init__.py (module [scripts]) and setup.py
      (module [setup_py]).

    ** Environment

    The clock and the UUID source are functions of a counter kept in the
    state ([World]): the n-th reading of the clock returns [clock n].  No
    monotonicity of the clock is assumed.  The file system maps a path to
    the JSON value stored there or to unreadable content; a path may be
    unwritable.  The remote service is an oracle: the n-th request receives
    [responses n], which is a JSON value, a body that is not JSON, or no
    connection; every request is recorded with its URL and its form, so that
    theorems can speak of what was sent.  The web of the loader is an
    oracle of the same kind: the n-th download receives a text, bytes that
    are not text, or no answer.  Nothing is assumed of the answers.

    What the program takes from outside and the model cannot compute is a
    parameter of the section that uses it, and the theorems hold for every
    choice: the text of an exception ([str_exn], for [str(e)]) and of a
    value ([py_str]); what happens to the environment during
    [time.sleep(5)] ([during_sleep]); the directory of the scripts and the
    home directory ([script_dir], [home]); whether [Rhino.Geometry] can be
    imported ([rhino]); the interpreter of the loader ([module_from_spec],
    [new_module] and [exec], which may change the whole state, return or
    raise); what the modules the package imports define, the text of
    README.md and the result of [find_packages].

    ** Bounds and fuel

    Integers are unbounded, as in Python.  MD5 works on 32-bit words, kept
    in [Z] and reduced modulo [2^32] after every addition and rotation;
    [md5_hex_words] shows that the words stay within 32 bits.  Floats are
    binary64 ([SpecFloat], precision 53, maximal exponent 1024).  The
    search for the digits of a float ([shortest]) takes the number of
    digits of the exact decimal expansion as fuel, which is enough: with
    all its digits the number is its own decimal ([shortest_spec]).  The
    only loop of the program that is not a loop over a list is the wait
    for the output of Grasshopper in [run_full_pipeline], which adds 5 to a
    counter until it reaches 300: [wait_for] takes the number of rounds as
    fuel, [run_full_pipeline] gives it 61 (sixty sleeps and the test that
    ends the loop), and [wait_for_terminates] shows that any larger fuel
    gives the same result, so the fuel never runs out.

    ** Boundaries of the model ([Unmodelled])

    - Dictionary keys are [None] or a string.  Python also accepts numbers and
      booleans as keys and identifies [1], [1.0] and [True]; an id that is a
      number or a boolean is [Unmodelled].  Lists and dictionaries used as a
      key raise [TypeError], as in Python.
    - Strings are sequences of code points below 256 (Rocq's [string]).
    - [x in s] for a string [s] (the search for a substring) is
      [Unmodelled]: so is an answer of the service that is a JSON string.
    - A float whose mantissa and exponent are not those of a binary64
      number has no text.
    - [fromisoformat] is modelled on the strings every supported Python
      version reads the same way, [YYYY-MM-DDTHH:MM:SS] with an optional
      fraction of three or six digits; other strings are [Unmodelled].
    - A duration of [2^53] microseconds (285 years) or more is [Unmodelled].
    - A product whose second factor is not a number (a sequence repeated),
      [round] of a float whose rounded decimal needs more than 53 bits, and
      a coordinate of a point that is a boolean are [Unmodelled].
    - [==] between two lists or two dictionaries, [update] with an iterable
      of pairs, a slice of a dictionary (the versions of Python differ), a
      dictionary subscripted by an integer, and the text in an f-string of
      a value that is not a string, a boolean or [None] are [Unmodelled].
    - In [_scale_coordinates] and [scale_coords], a sequence of
      coordinates that is not a list and starts with a list is
      [Unmodelled].
    - Tuples are lists.

    ** What is not modelled

    - Logging and printing: output only.  What is evaluated to build a
      printed text is kept where it can fail.
    - Directories: [mkdir] is left out; a file can be written wherever its
      path is writable.
    - The loading of integration_pipeline.py itself: the model takes the
      module as loaded (its annotation [Tuple] is imported after the class
      that uses it).  In the same way template 6 takes [datetime] as
      imported.
    - The search path of modules: the lines of the templates that extend
      [sys.path] are left out and the modules of the package are taken as
      importable; the set-up of [logging] at the top of each module.
    - The comments and the text of tips at the end of GH_TEMPLATES.py.

    Every other statement of the sources is a definition of the library.

    ** What is proved

    Each file states, after its definitions, the lemmas that describe every
    branch of every operation, the invariants the operations preserve, and
    the checks against the written specification ([spec.md]).
    - Content hashing ([DataObject], [Md5], [PyFloat]): the digest depends
      on type, properties and geometry only, and not on the order of their
      keys; it is a string of 32 hexadecimal digits; the words of MD5 stay
      within 32 bits; the digits printed for a float read back as the
      float and are the shortest; the dictionary round trip.
    - Conflicts ([ConflictResolver]): the decision table; what [resolve]
      returns under each strategy; that it returns one of its arguments.
    - Ledger ([SyncMetadata]): load and save; registering and looking up;
      the history only grows; the shape invariant [ledger_ok].
    - Engine ([SyncEngine]): what an imported item does; the invariant
      [engine_ok] on every outcome of every method; that conflicts are
      never detected by [sync_revit_to_gh].
    - Conversion ([GeoJson], [RevitBridge], [GhHelper]): the shape of what is
      produced, totality of the exporters, [export_all] in closed form, the
      errors of the helpers.
    - ArcGIS client ([Agol]): each method in closed form by the answer it
      receives; the invariant [extends] of the requests sent, and with it
      that the password is sent to the portal only.
    - Orchestrator ([IntegrationPipeline]): the log only grows, by entries
      of a known shape ([log_from]); no step raises; the waiting loop ends,
      finds the file when it appears and gives up when it does not; what
      the reports hold; and that the example of the module ends in
      [KeyError].
    - Templates ([GhTemplates], [GhDisplay]): no block raises; a loop that
      edits its list in place is the pure traversal [pass] of the list
      ([for_objects_pass], and [template_2_pass] for template 2);
      [scale_coords] of template 2 is [_scale_coordinates] of gh_helper.py;
      template 5 always reports success; the password of template 6 goes to
      the portal only; template 7 always ends in its handler; the counts of
      template 8.
    - Loader ([GithubLoader]): a failed load leaves the name without a
      module; a load that returns has registered what it returns; the keys
      of what [load_all_from_github] returns.
    - Package ([Package]): every name of [__all__] is bound when the
      package can be imported; the version of [setup.py] is the version of
      the package.
    - The scripts under [__main__] of the modules: what each of them reads,
      writes and sends.
    The places where the code and the specification disagree, or where the
    code fails, are theorems too. *)

From Stdlib Require Import ZArith String Ascii List Lia.
From stdpp Require Import base tactics option list.

Set Default Proof Using "Type".

(** ** Exceptions and outcomes *)

(** The exception classes raised by the operations the program uses; all are
    subclasses of [Exception], hence caught by [except Exception].
    [Exception] is an instance of the base class itself, as
    [raise Exception(...)] builds it. *)
Inductive exn : Type :=
| KeyError
| TypeError
| AttributeError
| ValueError
| IndexError
| OverflowError
| OSError
| ImportError
| Exception.

#[export] Instance exn_eq_dec : EqDecision exn.
Proof. solve_decision. Defined.

Inductive outcome (A : Type) : Type :=
| Ok (a : A)
| Raise (e : exn)
| Unmodelled.

Arguments Ok {A} a.
Arguments Raise {A} e.
Arguments Unmodelled {A}.

#[export] Instance outcome_eq_dec {A} `{EqDecision A} : EqDecision (outcome A).
Proof. solve_decision. Defined.

#[export] Instance outcome_ret : MRet outcome := @Ok.

#[export] Instance outcome_bind : MBind outcome := λ A B f m,
  match m with
  | Ok a => f a
  | Raise e => Raise e
  | Unmodelled => Unmodelled
  end.

#[export] Instance outcome_fmap : FMap outcome := λ A B f m,
  match m with
  | Ok a => Ok (f a)
  | Raise e => Raise e
  | Unmodelled => Unmodelled
  end.

Definition is_ok {A} (o : outcome A) : bool :=
  match o with Ok _ => true | _ => false end.

Definition is_raise {A} (o : outcome A) : bool :=
  match o with Raise _ => true | _ => false end.

(** [except Exception] on a pure computation. *)
Definition outcome_catch {A} (o : outcome A) (h : exn → outcome A) : outcome A :=
  match o with
  | Raise e => h e
  | _ => o
  end.

(** A list of computations, left to right, stopping at the first failure. *)
Fixpoint outcome_map {A B} (f : A → outcome B) (l : list A) : outcome (list B) :=
  match l with
  | [] => Ok []
  | x :: l' =>
      match f x with
      | Ok y =>
          match outcome_map f l' with
          | Ok ys => Ok (y :: ys)
          | Raise e => Raise e
          | Unmodelled => Unmodelled
          end
      | Raise e => Raise e
      | Unmodelled => Unmodelled
      end
  end.

(** ** The monad of stateful code that may raise *)

Definition M (S A : Type) : Type := S → outcome A * S.

Definition run {S A} (m : M S A) (s : S) : outcome A * S := m s.

#[export] Instance M_ret {S} : MRet (M S) := λ A a s, (Ok a, s).

#[export] Instance M_bind {S} : MBind (M S) := λ A B f m s,
  match m s with
  | (Ok a, s') => f a s'
  | (Raise e, s') => (Raise e, s')
  | (Unmodelled, s') => (Unmodelled, s')
  end.

Definition get {S} : M S S := λ s, (Ok s, s).
Definition gets {S A} (f : S → A) : M S A := λ s, (Ok (f s), s).
Definition put {S} (s : S) : M S unit := λ _, (Ok tt, s).
Definition modify {S} (f : S → S) : M S unit := λ s, (Ok tt, f s).
Definition raise {S A} (e : exn) : M S A := λ s, (Raise e, s).
Definition unmodelled {S A} : M S A := λ s, (Unmodelled, s).

(** A pure computation inside stateful code. *)
Definition lift {S A} (o : outcome A) : M S A := λ s, (o, s).

(** [try: m except Exception as e: h e].  The handler starts from the state
    the body reached. *)
Definition try_except {S A} (m : M S A) (h : exn → M S A) : M S A := λ s,
  match m s with
  | (Raise e, s') => h e s'
  | r => r
  end.

(** A computation on a part [T] of the state [S]. *)
Definition zoom {S T A} (proj : S → T) (upd : T → S → S) (m : M T A) : M S A :=
  λ s, let '(o, t) := m (proj s) in (o, upd t s).

(** [for x in l: body x]. *)
Fixpoint for_each {S A} (l : list A) (body : A → M S unit) : M S unit :=
  match l with
  | [] => mret tt
  | x :: l' => body x ;; for_each l' body
  end.

(** [[f x for x in l]] where [f] has effects. *)
Fixpoint map_each {S A B} (l : list A) (f : A → M S B) : M S (list B) :=
  match l with
  | [] => mret []
  | x :: l' => y ← f x; ys ← map_each l' f; mret (y :: ys)
  end.

Declare Scope py_scope.
Delimit Scope py_scope with py.

(** [m ⇓ s] is the pair of the outcome and the final state of [m] from [s]. *)
Notation "m ⇓ s" := (run m s) (at level 65, no associativity) : py_scope.
Open Scope py_scope.

(** ** Tactics *)

(** Unfold the monad's operations. *)
Ltac munfold :=
  unfold run, mbind, mret, M_bind, M_ret, outcome_bind, outcome_ret,
    get, gets, put, modify, raise, unmodelled, lift, try_except, zoom in *.

(** Case analysis on the computation a [match] of the goal inspects. *)
Ltac case_outcome :=
  match goal with
  | |- context [match ?m ?s with (_, _) => _ end] =>
      let o := fresh "o" in let s' := fresh "s" in let E := fresh "E" in
      destruct (m s) as [o s'] eqn:E; try destruct o
  | |- context [match ?o with Ok _ => _ | Raise _ => _ | Unmodelled => _ end] =>
      let E := fresh "E" in destruct o eqn:E
  end.

Ltac msimpl := munfold; simpl in *.

(** Run a computation symbolically: rewrite with the equations of the
    operations (the database [pyrw]) and reduce what they expose. *)
Ltac mstep := repeat (autorewrite with pyrw; cbn [fst snd]; cbv beta iota).

Create HintDb py discriminated.
Create Rewrite HintDb pyrw.

(** ** Laws of the two monads *)

Section Laws.
Context {S A B C : Type}.

Lemma outcome_bind_ok (a : A) (f : A → outcome B) : (Ok a ≫= f) = f a.
Proof. reflexivity. Qed.

Lemma outcome_bind_ret (m : outcome A) : (m ≫= mret) = m.
Proof. by destruct m. Qed.

Lemma outcome_bind_assoc (m : outcome A) (f : A → outcome B) (g : B → outcome C) :
  ((m ≫= f) ≫= g) = (m ≫= λ a, f a ≫= g).
Proof. by destruct m. Qed.

Lemma outcome_bind_inv_ok (m : outcome A) (f : A → outcome B) (b : B) :
  (m ≫= f) = Ok b ↔ ∃ a, m = Ok a ∧ f a = Ok b.
Proof.
  split; [destruct m; simpl; try done; eauto | by intros (a & -> & ?)].
Qed.

Lemma run_ret (a : A) (s : S) : (mret a : M S A) ⇓ s = (Ok a, s).
Proof. reflexivity. Qed.

Lemma run_bind (m : M S A) (f : A → M S B) (s : S) :
  (m ≫= f) ⇓ s =
  match m ⇓ s with
  | (Ok a, s') => f a ⇓ s'
  | (Raise e, s') => (Raise e, s')
  | (Unmodelled, s') => (Unmodelled, s')
  end.
Proof. reflexivity. Qed.

Lemma run_bind_ok (m : M S A) (f : A → M S B) (s s' : S) (a : A) :
  m ⇓ s = (Ok a, s') → (m ≫= f) ⇓ s = f a ⇓ s'.
Proof. intros H. by rewrite run_bind, H. Qed.

Lemma run_bind_raise (m : M S A) (f : A → M S B) (s s' : S) (e : exn) :
  m ⇓ s = (Raise e, s') → (m ≫= f) ⇓ s = (Raise e, s').
Proof. intros H. by rewrite run_bind, H. Qed.

Lemma run_bind_unmodelled (m : M S A) (f : A → M S B) (s s' : S) :
  m ⇓ s = (Unmodelled, s') → (m ≫= f) ⇓ s = (Unmodelled, s').
Proof. intros H. by rewrite run_bind, H. Qed.

Lemma run_bind_ret (m : M S A) (s : S) : (m ≫= mret) ⇓ s = m ⇓ s.
Proof. munfold. by destruct (m s) as [[] ?]. Qed.

Lemma run_bind_assoc (m : M S A) (f : A → M S B) (g : B → M S C) (s : S) :
  ((m ≫= f) ≫= g) ⇓ s = (m ≫= λ a, f a ≫= g) ⇓ s.
Proof. munfold. by destruct (m s) as [[] ?]. Qed.

Lemma run_lift (o : outcome A) (s : S) : lift o ⇓ s = (o, s).
Proof. reflexivity. Qed.

Lemma run_try_ok (m : M S A) (h : exn → M S A) (s s' : S) (a : A) :
  m ⇓ s = (Ok a, s') → try_except m h ⇓ s = (Ok a, s').
Proof. unfold run, try_except. by intros ->. Qed.

Lemma run_try_raise (m : M S A) (h : exn → M S A) (s s' : S) (e : exn) :
  m ⇓ s = (Raise e, s') → try_except m h ⇓ s = h e ⇓ s'.
Proof. unfold run, try_except. by intros ->. Qed.

(** A run whose outcome is known, with the state it reaches. *)
Lemma run_eq_fst (m : M S A) (s : S) (o : outcome A) :
  (m ⇓ s).1 = o → m ⇓ s = (o, (m ⇓ s).2).
Proof. intros <-. apply surjective_pairing. Qed.

Lemma run_try_except (m : M S A) (h : exn → M S A) (s : S) :
  try_except m h ⇓ s =
    match m ⇓ s with
    | (Raise e, s') => h e ⇓ s'
    | r => r
    end.
Proof. reflexivity. Qed.

(** A handler that cannot raise turns every exception into a value: the
    model's statement that [except Exception] swallows every error. *)
Lemma try_except_no_raise (m : M S A) (h : exn → M S A) (s : S) :
  (∀ e s0, is_raise (h e ⇓ s0).1 = false) →
  is_raise (try_except m h ⇓ s).1 = false.
Proof.
  intros Hh. unfold run, try_except in *.
  destruct (m s) as [[] ?]; simpl; auto.
Qed.

Lemma run_get (s : S) : get ⇓ s = (Ok s, s).
Proof. reflexivity. Qed.

Lemma run_gets (f : S → A) (s : S) : gets f ⇓ s = (Ok (f s), s).
Proof. reflexivity. Qed.

Lemma run_modify (f : S → S) (s : S) : modify f ⇓ s = (Ok tt, f s).
Proof. reflexivity. Qed.

Lemma run_raise (e : exn) (s : S) : (raise e : M S A) ⇓ s = (Raise e, s).
Proof. reflexivity. Qed.

Lemma run_zoom {T} (proj : S → T) (upd : T → S → S) (m : M T A) (s : S) :
  zoom proj upd m ⇓ s = ((m ⇓ proj s).1, upd (m ⇓ proj s).2 s).
Proof. unfold run, zoom. by destruct (m (proj s)). Qed.

(** What a continuation may assume of the value it receives. *)
Lemma run_bind_inv_ok (m : M S A) (f : A → M S B) (s s' : S) (b : B) :
  (m ≫= f) ⇓ s = (Ok b, s') → ∃ a s1, m ⇓ s = (Ok a, s1) ∧ f a ⇓ s1 = (Ok b, s').
Proof. rewrite run_bind. destruct (m ⇓ s) as [[a| |] s1]; try done. eauto. Qed.

End Laws.

#[export] Hint Rewrite @run_ret @run_bind @run_lift @run_get @run_gets
  @run_modify @run_raise : pyrw.

(** ** Loops *)

Section Loops.
Context {S A : Type}.

Lemma for_each_nil (body : A → M S unit) (s : S) :
  for_each [] body ⇓ s = (Ok tt, s).
Proof. reflexivity. Qed.

Lemma for_each_cons (x : A) (l : list A) (body : A → M S unit) (s : S) :
  for_each (x :: l) body ⇓ s =
  match body x ⇓ s with
  | (Ok _, s') => for_each l body ⇓ s'
  | (Raise e, s') => (Raise e, s')
  | (Unmodelled, s') => (Unmodelled, s')
  end.
Proof. reflexivity. Qed.

Lemma for_each_app (l1 l2 : list A) (body : A → M S unit) (s : S) :
  for_each (l1 ++ l2) body ⇓ s =
  match for_each l1 body ⇓ s with
  | (Ok _, s') => for_each l2 body ⇓ s'
  | (Raise e, s') => (Raise e, s')
  | (Unmodelled, s') => (Unmodelled, s')
  end.
Proof.
  revert s. induction l1 as [|x l1 IH]; intros s; [done|].
  simpl app. rewrite !for_each_cons.
  destruct (body x ⇓ s) as [[] s']; auto.
Qed.

(** An invariant kept by every iteration, whatever its outcome, holds of
    the state in which the loop stops. *)
Lemma for_each_invariant (I : S → Prop) (l : list A) (body : A → M S unit) :
  (∀ x s, x ∈ l → I s → I (body x ⇓ s).2) →
  ∀ s, I s → I (for_each l body ⇓ s).2.
Proof.
  induction l as [|x l IH]; intros Hb s Hs; [done|].
  rewrite for_each_cons.
  pose proof (Hb x s (list_elem_of_here _ _) Hs) as Hx.
  destruct (body x ⇓ s) as [[] s']; simpl in *; auto.
  apply IH; auto. intros y t Hy. apply Hb. by apply list_elem_of_further.
Qed.

(** A body that always returns makes the loop return. *)
Lemma for_each_ok (l : list A) (body : A → M S unit) :
  (∀ x s, x ∈ l → (body x ⇓ s).1 = Ok tt) →
  ∀ s, (for_each l body ⇓ s).1 = Ok tt.
Proof.
  induction l as [|x l IH]; intros Hb s; [done|].
  rewrite for_each_cons.
  pose proof (Hb x s (list_elem_of_here _ _)) as Hx.
  destruct (body x ⇓ s) as [[] s']; simpl in *; try done.
  apply IH. intros y t Hy. apply Hb. by apply list_elem_of_further.
Qed.

Lemma map_each_nil {B} (f : A → M S B) (s : S) : map_each [] f ⇓ s = (Ok [], s).
Proof. reflexivity. Qed.

Lemma map_each_cons {B} (x : A) (l : list A) (f : A → M S B) (s : S) :
  map_each (x :: l) f ⇓ s =
  match f x ⇓ s with
  | (Ok y, s') =>
      match map_each l f ⇓ s' with
      | (Ok ys, s'') => (Ok (y :: ys), s'')
      | (Raise e, s'') => (Raise e, s'')
      | (Unmodelled, s'') => (Unmodelled, s'')
      end
  | (Raise e, s') => (Raise e, s')
  | (Unmodelled, s') => (Unmodelled, s')
  end.
Proof.
  unfold run. simpl. unfold mbind, M_bind. by destruct (f x s) as [[] s'].
Qed.

(** The list a comprehension returns has one element per element read. *)
Lemma map_each_length {B} (l : list A) (f : A → M S B) (s s' : S) (ys : list B) :
  map_each l f ⇓ s = (Ok ys, s') → length ys = length l.
Proof.
  revert s ys. induction l as [|x l IH]; intros s ys.
  - rewrite map_each_nil. by intros [= <- _].
  - rewrite map_each_cons. destruct (f x ⇓ s) as [[y| |] s1]; try done.
    destruct (map_each l f ⇓ s1) as [[ys1| |] s2] eqn:E; try done.
    intros [= <- ->]. simpl. f_equal. by apply (IH s1).
Qed.

End Loops.

(** ** Invariants of stateful code

    [preserves I m]: from a state that satisfies [I], the computation [m]
    stops in a state that satisfies [I], whether it returns or raises. *)

Definition preserves {S A} (I : S → Prop) (m : M S A) : Prop :=
  ∀ s, I s → I (m ⇓ s).2.

Section Preserves.
Context {S : Type} (I : S → Prop).

Lemma preserves_ret {A} (a : A) : preserves I (mret a).
Proof. by intros s. Qed.

Lemma preserves_lift {A} (o : outcome A) : preserves I (lift o).
Proof. by intros s. Qed.

Lemma preserves_get : preserves I get.
Proof. by intros s. Qed.

Lemma preserves_gets {A} (f : S → A) : preserves I (gets f).
Proof. by intros s. Qed.

Lemma preserves_raise {A} (e : exn) : preserves I (raise e : M S A).
Proof. by intros s. Qed.

Lemma preserves_modify (f : S → S) : (∀ s, I s → I (f s)) → preserves I (modify f).
Proof. intros Hf s Hs. by apply Hf. Qed.

Lemma preserves_bind {A B} (m : M S A) (f : A → M S B) :
  preserves I m → (∀ a, preserves I (f a)) → preserves I (m ≫= f).
Proof.
  intros Hm Hf s Hs. specialize (Hm s Hs). rewrite run_bind.
  destruct (m ⇓ s) as [[a| |] s']; simpl in *; auto. by apply Hf.
Qed.

(** [ensures m Q]: [m] preserves [I], and what it returns satisfies [Q]. *)
Definition ensures {A} (m : M S A) (Q : A → Prop) : Prop :=
  ∀ s, I s → I (m ⇓ s).2 ∧ ∀ a, (m ⇓ s).1 = Ok a → Q a.

Lemma ensures_preserves {A} (m : M S A) (Q : A → Prop) :
  ensures m Q → preserves I m.
Proof. intros H s Hs. by apply H. Qed.

Lemma preserves_ensures {A} (m : M S A) : preserves I m → ensures m (λ _, True).
Proof. intros H s Hs. split; [by apply H|done]. Qed.

Lemma ensures_weaken {A} (m : M S A) (Q R : A → Prop) :
  ensures m Q → (∀ a, Q a → R a) → ensures m R.
Proof. intros H HQ s Hs. destruct (H s Hs). split; auto. Qed.

Lemma ensures_ret {A} (a : A) : ensures (mret a) (λ x, x = a).
Proof. intros s Hs. split; [done|]. by intros ? [= <-]. Qed.

Lemma ensures_lift {A} (o : outcome A) : ensures (lift o) (λ a, o = Ok a).
Proof. by intros s Hs. Qed.

Lemma ensures_get : ensures get I.
Proof. intros s Hs. split; [done|]. by intros ? [= <-]. Qed.

Lemma ensures_bind {A B} (m : M S A) (f : A → M S B) (Q : A → Prop) (R : B → Prop) :
  ensures m Q → (∀ a, Q a → ensures (f a) R) → ensures (m ≫= f) R.
Proof.
  intros Hm Hf s Hs. destruct (Hm s Hs) as [HI HQ]. rewrite run_bind.
  destruct (m ⇓ s) as [[a| |] s']; simpl in *; try done.
  by apply Hf; [apply HQ|].
Qed.

Lemma ensures_if {A} (b : bool) (m1 m2 : M S A) (Q : A → Prop) :
  ensures m1 Q → ensures m2 Q → ensures (if b then m1 else m2) Q.
Proof. by destruct b. Qed.

Lemma preserves_try {A} (m : M S A) (h : exn → M S A) :
  preserves I m → (∀ e, preserves I (h e)) → preserves I (try_except m h).
Proof.
  intros Hm Hh s Hs. specialize (Hm s Hs). unfold run, try_except in *.
  destruct (m s) as [[a|e|] s']; simpl in *; auto. by apply Hh.
Qed.

Lemma preserves_for_each {A} (l : list A) (body : A → M S unit) :
  (∀ x, x ∈ l → preserves I (body x)) → preserves I (for_each l body).
Proof. intros Hb s Hs. apply for_each_invariant; [|done]. intros x t ?. by apply Hb. Qed.

Lemma preserves_map_each {A B} (l : list A) (f : A → M S B) :
  (∀ x, x ∈ l → preserves I (f x)) → preserves I (map_each l f).
Proof.
  induction l as [|x l IH]; intros Hf; [apply preserves_ret|]. simpl.
  apply preserves_bind; [apply Hf; by left|]. intros y.
  apply preserves_bind; [|intros; apply preserves_ret].
  apply IH. intros z Hz. apply Hf. by right.
Qed.

Lemma preserves_if {A} (b : bool) (m1 m2 : M S A) :
  preserves I m1 → preserves I m2 → preserves I (if b then m1 else m2).
Proof. by destruct b. Qed.

End Preserves.

(** A computation on a part of the state preserves what depends on the
    rest, and what its part preserves. *)
Lemma preserves_zoom {S T A} (I : S → Prop) (J : T → Prop)
    (proj : S → T) (upd : T → S → S) (m : M T A) :
  (∀ s, I s → J (proj s)) → (∀ s t, I s → J t → I (upd t s)) →
  preserves J m → preserves I (zoom proj upd m).
Proof.
  intros Hp Hu Hm s Hs. unfold run, zoom.
  specialize (Hm (proj s) (Hp s Hs)). unfold run in Hm.
  destruct (m (proj s)) as [o t]. by apply Hu.
Qed.

#[export] Hint Resolve @preserves_ret @preserves_lift @preserves_get
  @preserves_gets @preserves_raise @preserves_if : py.

(** Prove that a sequence of steps preserves an invariant: the steps of the
    monad by the lemmas above, the steps of a component by the lemmas it
    put in the database [py]. *)
Ltac step_preserves :=
  repeat first
    [ apply preserves_ret | apply preserves_lift | apply preserves_get
    | apply preserves_gets
    | solve [auto with py]
    | apply preserves_bind; [|intros ?]
    | apply preserves_try; [|intros ?]
    | apply preserves_if
    | match goal with |- preserves _ (match ?x with _ => _ end) => destruct x end ].

(** ** Lists and options *)

Section Lists.
Context {A B : Type}.

Lemma outcome_map_ok_length (f : A → outcome B) (l : list A) (l' : list B) :
  outcome_map f l = Ok l' → length l' = length l.
Proof.
  revert l'. induction l as [|x l IH]; intros l'; simpl.
  - by intros [= <-].
  - destruct (f x); try done. destruct (outcome_map f l); try done.
    intros [= <-]. simpl. f_equal. by apply IH.
Qed.

Lemma outcome_map_total (f : A → outcome B) (g : A → B) (l : list A) :
  (∀ x, x ∈ l → f x = Ok (g x)) → outcome_map f l = Ok (map g l).
Proof.
  induction l as [|x l IH]; intros H; simpl; [done|].
  rewrite (H x (list_elem_of_here _ _)).
  rewrite IH; [done|]. intros y Hy. apply H. by apply list_elem_of_further.
Qed.

Lemma outcome_map_app (f : A → outcome B) (l1 l2 : list A) :
  outcome_map f (l1 ++ l2) =
  (ys1 ← outcome_map f l1; ys2 ← outcome_map f l2; mret (ys1 ++ ys2)).
Proof.
  induction l1 as [|x l1 IH]; simpl.
  - by destruct (outcome_map f l2).
  - destruct (f x); try done. rewrite IH.
    destruct (outcome_map f l1); try done. simpl.
    by destruct (outcome_map f l2).
Qed.

End Lists.
