(* ===== verification/PyDict.v ===== *)
(** * Python's [dict]: an insertion-ordered map

    A Python dictionary keeps its keys in the order of their first insertion;
    assigning to a key that is present replaces its value in place.  The
    program depends on that order (it iterates over [self.objects.items()]
    to build what it exports), so a dictionary is an association list in
    which every key occurs once, and the operations are those of [dict]:
    [d.get(k)], [k in d], [d[k] = v], [d.update(other)], [d.keys()],
    [d.values()].  The abstraction to stdpp's [gmap] forgets the order. *)

From stdpp Require Import base tactics option list fin_maps gmap.
From S2P Require Import Prelude.

Set Default Proof Using "Type".

Section PyDict.
Context {K V : Type} `{EqDecision K}.

Implicit Types (k : K) (v : V) (d : list (K * V)).

(** [d.get(k)]: the value of the first entry with key [k]. *)
Fixpoint dict_get k d : option V :=
  match d with
  | [] => None
  | (k', v) :: d' => if decide (k = k') then Some v else dict_get k d'
  end.

(** [k in d]. *)
Definition dict_mem k d : bool :=
  match dict_get k d with Some _ => true | None => false end.

(** [d[k] = v]: in place when [k] is present, appended otherwise.  The key
    object already stored is kept. *)
Fixpoint dict_set k v d : list (K * V) :=
  match d with
  | [] => [(k, v)]
  | (k', v') :: d' =>
      if decide (k = k') then (k', v) :: d' else (k', v') :: dict_set k v d'
  end.

(** [del d[k]] for a key that may be absent. *)
Fixpoint dict_del k d : list (K * V) :=
  match d with
  | [] => []
  | (k', v') :: d' =>
      if decide (k = k') then d' else (k', v') :: dict_del k d'
  end.

(** [d.update(other)]: the entries of [other], in its order. *)
Definition dict_update d (other : list (K * V)) : list (K * V) :=
  fold_left (λ acc kv, dict_set kv.1 kv.2 acc) other d.

(** [dict(items)]: build a dictionary from a sequence of pairs; a key that
    occurs twice keeps its first position and its last value. *)
Definition dict_of_list (items : list (K * V)) : list (K * V) :=
  dict_update [] items.

Definition dict_keys d : list K := d.*1.
Definition dict_values d : list V := d.*2.

(** Every key occurs once. *)
Definition dict_wf d : Prop := NoDup d.*1.

(** ** Lookup *)

Lemma dict_get_cons k k' v d :
  dict_get k ((k', v) :: d) = if decide (k = k') then Some v else dict_get k d.
Proof. reflexivity. Qed.

Lemma dict_get_nil k : dict_get k [] = None.
Proof. reflexivity. Qed.

Lemma dict_get_here k v d : dict_get k ((k, v) :: d) = Some v.
Proof. simpl. by rewrite decide_True. Qed.

Lemma dict_get_skip k k' v d : k ≠ k' → dict_get k ((k', v) :: d) = dict_get k d.
Proof. intros. simpl. by rewrite decide_False. Qed.

Lemma dict_set_nil k v : dict_set k v [] = [(k, v)].
Proof. reflexivity. Qed.

Lemma dict_set_here k v v' d : dict_set k v ((k, v') :: d) = (k, v) :: d.
Proof. simpl. by rewrite decide_True. Qed.

Lemma dict_set_skip k k' v v' d :
  k ≠ k' → dict_set k v ((k', v') :: d) = (k', v') :: dict_set k v d.
Proof. intros. simpl. by rewrite decide_False. Qed.

Lemma dict_get_None k d : dict_get k d = None ↔ k ∉ d.*1.
Proof.
  induction d as [|[k' v'] d IH]; simpl.
  - split; [intros _; apply not_elem_of_nil | done].
  - rewrite not_elem_of_cons, <- IH. case_decide; [|tauto].
    split; [done | intros [? _]; done].
Qed.

Lemma dict_get_Some_elem k v d : dict_get k d = Some v → (k, v) ∈ d.
Proof.
  induction d as [|[k' v'] d IH]; simpl; [done|].
  case_decide; [intros [= ->]; subst; left | right; auto].
Qed.

Lemma dict_get_wf_elem k v d : dict_wf d → (k, v) ∈ d → dict_get k d = Some v.
Proof.
  unfold dict_wf. induction d as [|[k' v'] d IH]; simpl.
  - intros _ ?%elem_of_nil. done.
  - rewrite NoDup_cons. intros [Hk Hd] [[= -> ->]|Hin]%elem_of_cons.
    + by rewrite decide_True.
    + rewrite decide_False; [auto|]. intros ->. apply Hk.
      apply list_elem_of_fmap. by exists (k', v).
Qed.

Lemma dict_get_app k d1 d2 :
  dict_get k (d1 ++ d2) =
  match dict_get k d1 with Some v => Some v | None => dict_get k d2 end.
Proof.
  induction d1 as [|[k' v'] d1 IH]; simpl; [done|]. by case_decide.
Qed.

Lemma dict_mem_spec k d : dict_mem k d = true ↔ k ∈ d.*1.
Proof.
  unfold dict_mem. destruct (dict_get k d) eqn:E.
  - split; [intros _|done]. apply dec_stable. intros Hn.
    apply dict_get_None in Hn. congruence.
  - apply dict_get_None in E. split; [done|]. intros. contradiction.
Qed.

(** ** Assignment *)

Lemma dict_get_set_eq k v d : dict_get k (dict_set k v d) = Some v.
Proof.
  induction d as [|[k' v'] d IH]; simpl.
  - by rewrite decide_True.
  - case_decide; simpl; [by rewrite decide_True | by rewrite decide_False].
Qed.

Lemma dict_get_set_ne k k' v d :
  k ≠ k' → dict_get k' (dict_set k v d) = dict_get k' d.
Proof.
  intros Hne. induction d as [|[k1 v1] d IH]; simpl.
  - by rewrite decide_False.
  - case_decide; subst; simpl; [|by rewrite IH].
    by rewrite !decide_False.
Qed.

Lemma dict_get_set k k' v d :
  dict_get k' (dict_set k v d) = if decide (k = k') then Some v else dict_get k' d.
Proof.
  case_decide; [subst; apply dict_get_set_eq | by apply dict_get_set_ne].
Qed.

(** Assigning to a key that is present keeps every key where it is. *)
Lemma dict_set_keys_present k v d :
  k ∈ d.*1 → (dict_set k v d).*1 = d.*1.
Proof.
  induction d as [|[k' v'] d IH]; simpl.
  - by intros ?%elem_of_nil.
  - intros Hin. case_decide; simpl; [done|]. f_equal. apply IH.
    apply elem_of_cons in Hin as [?|?]; [congruence|done].
Qed.

(** Assigning to a key that is absent appends the entry. *)
Lemma dict_set_absent k v d : k ∉ d.*1 → dict_set k v d = d ++ [(k, v)].
Proof.
  induction d as [|[k' v'] d IH]; simpl; [done|].
  rewrite not_elem_of_cons. intros [Hne Hnin].
  rewrite decide_False by done. by rewrite IH.
Qed.

Lemma dict_set_keys k v d :
  (dict_set k v d).*1 = if dict_mem k d then d.*1 else d.*1 ++ [k].
Proof.
  destruct (dict_mem k d) eqn:E.
  - apply dict_set_keys_present. by apply dict_mem_spec.
  - rewrite dict_set_absent, fmap_app; [done|].
    intros Hin%dict_mem_spec. congruence.
Qed.

Lemma dict_set_length k v d :
  length (dict_set k v d) = if dict_mem k d then length d else S (length d).
Proof.
  rewrite <- !(length_fmap fst), dict_set_keys.
  destruct (dict_mem k d); [done|]. rewrite length_app. simpl. lia.
Qed.

Lemma dict_set_wf k v d : dict_wf d → dict_wf (dict_set k v d).
Proof.
  unfold dict_wf. rewrite dict_set_keys. destruct (dict_mem k d) eqn:E; [done|].
  intros Hd. apply NoDup_app. split_and!; [done| |apply NoDup_singleton].
  intros x Hx ->%list_elem_of_singleton.
  apply dict_mem_spec in Hx. congruence.
Qed.

(** An entry of the dictionary after [d[k] = v]: the new entry or an old
    one. *)
Lemma dict_set_elem k v d k' v' :
  (k', v') ∈ dict_set k v d → (k' = k ∧ v' = v) ∨ (k', v') ∈ d.
Proof.
  induction d as [|[k0 v0] d IH]; simpl.
  - intros [= -> ->]%list_elem_of_singleton. by left.
  - case_decide as Hk; subst.
    + intros [[= -> ->]|?]%elem_of_cons; [by left|right; by right].
    + intros [[= -> ->]|Hin]%elem_of_cons; [right; by left|].
      destruct (IH Hin) as [?|?]; [by left|right; by right].
Qed.

(** The values of the dictionary after [d[k] = v], when [k] was absent. *)
Lemma dict_set_values_absent k v d :
  dict_get k d = None → (dict_set k v d).*2 = d.*2 ++ [v].
Proof.
  induction d as [|[k0 v0] d IH]; simpl; [done|].
  case_decide; [done|]. intros Hk. cbn. f_equal. by apply IH.
Qed.

(** Writing back the value a key already has changes nothing. *)
Lemma dict_set_id k v d : dict_get k d = Some v → dict_set k v d = d.
Proof.
  induction d as [|[k' v'] d IH]; simpl; [done|].
  case_decide; [by intros [= ->] | intros; f_equal; auto].
Qed.

Lemma dict_set_set k v v' d : dict_set k v' (dict_set k v d) = dict_set k v' d.
Proof.
  induction d as [|[k' v1] d IH]; simpl.
  - by rewrite decide_True.
  - case_decide; simpl; [by rewrite decide_True|].
    rewrite decide_False by done. by rewrite IH.
Qed.

(** ** Deletion *)

Lemma dict_get_del_eq k d : dict_wf d → dict_get k (dict_del k d) = None.
Proof.
  unfold dict_wf. induction d as [|[k' v'] d IH]; simpl; [done|].
  rewrite NoDup_cons. intros [Hk Hd]. case_decide; subst.
  - by apply dict_get_None.
  - simpl. rewrite decide_False by done. auto.
Qed.

Lemma dict_get_del_ne k k' d : k ≠ k' → dict_get k' (dict_del k d) = dict_get k' d.
Proof.
  intros Hne. induction d as [|[k1 v1] d IH]; simpl; [done|].
  case_decide; subst; simpl; [by rewrite decide_False|].
  case_decide; auto.
Qed.

(** ** Update *)

Lemma dict_update_nil d : dict_update d [] = d.
Proof. reflexivity. Qed.

Lemma dict_update_cons d k v other :
  dict_update d ((k, v) :: other) = dict_update (dict_set k v d) other.
Proof. reflexivity. Qed.

Lemma dict_update_wf d other : dict_wf d → dict_wf (dict_update d other).
Proof.
  revert d. induction other as [|[k v] other IH]; intros d Hd; [done|].
  rewrite dict_update_cons. by apply IH, dict_set_wf.
Qed.

(** [other] wins on the keys it has; the last entry of a repeated key wins. *)
Lemma dict_get_update k d other :
  dict_get k (dict_update d other) =
  match dict_get k (reverse other) with
  | Some v => Some v
  | None => dict_get k d
  end.
Proof.
  revert d. induction other as [|[k' v'] other IH]; intros d; [done|].
  rewrite dict_update_cons, IH, reverse_cons, dict_get_app, dict_get_set.
  destruct (dict_get k (reverse other)); simpl; [done|].
  case_decide; subst; [by rewrite decide_True | by rewrite decide_False].
Qed.

Lemma dict_of_list_wf items : dict_wf (dict_of_list items).
Proof. apply dict_update_wf, NoDup_nil_2. Qed.

End PyDict.

(** ** The finite map a dictionary denotes *)

Section Refinement.
Context {K V : Type} `{Countable K}.

Implicit Types (k : K) (v : V) (d : list (K * V)).

(** The abstraction function: the entries as a [gmap]. *)
Definition dict_map d : gmap K V := list_to_map d.

Lemma dict_map_lookup k d : dict_map d !! k = dict_get k d.
Proof.
  unfold dict_map. induction d as [|[k' v'] d IH]; simpl; [done|].
  case_decide; subst; [by rewrite lookup_insert_eq|].
  by rewrite lookup_insert_ne.
Qed.

(** [d[k] = v] implements the insertion of the finite map. *)
Lemma dict_map_set k v d : dict_map (dict_set k v d) = <[k:=v]> (dict_map d).
Proof.
  apply map_eq. intros k'. rewrite dict_map_lookup, dict_get_set.
  case_decide; subst; [by rewrite lookup_insert_eq|].
  by rewrite lookup_insert_ne, dict_map_lookup.
Qed.

Lemma dict_map_del k d : dict_wf d → dict_map (dict_del k d) = delete k (dict_map d).
Proof.
  intros Hd. apply map_eq. intros k'. rewrite dict_map_lookup.
  destruct (decide (k = k')) as [->|Hne].
  - by rewrite dict_get_del_eq, lookup_delete_eq.
  - by rewrite dict_get_del_ne, lookup_delete_ne, dict_map_lookup.
Qed.

Lemma dict_map_dom d : dom (dict_map d) = list_to_set d.*1.
Proof.
  unfold dict_map. induction d as [|[k' v'] d IH]; simpl.
  - apply dom_empty_L.
  - by rewrite dom_insert_L, IH.
Qed.

Lemma dict_map_size d : dict_wf d → size (dict_map d) = length d.
Proof.
  unfold dict_wf, dict_map. induction d as [|[k' v'] d IH]; simpl.
  - intros _. apply map_size_empty.
  - rewrite NoDup_cons. intros [Hk Hd].
    rewrite map_size_insert_None; [by rewrite IH|].
    by apply not_elem_of_list_to_map_1.
Qed.

End Refinement.

(** Evaluate lookups and assignments whose keys are known. *)
Ltac dict_eval :=
  repeat first
    [ rewrite dict_get_here | rewrite dict_get_skip by done
    | rewrite dict_get_nil
    | rewrite dict_set_here | rewrite dict_set_skip by done
    | rewrite dict_set_nil ].

#[export] Hint Rewrite @dict_get_set_eq @dict_update_nil : pyrw.
#[export] Hint Resolve dict_set_wf dict_update_wf dict_of_list_wf : py.
