(* ===== verification/PyValue.v ===== *)
(** * Python values and the built-in operations the program uses

    The values the program handles come out of [json.load] or are built by
    the program from such values: [None], booleans, integers, floats
    (IEEE binary64, as [SpecFloat.spec_float]), strings, lists and
    dictionaries.  A dictionary read from JSON has string keys; the program
    itself also uses [None] as a key (an element without an id), so a key is
    [None] or a string.

    Each built-in is a total function into [outcome]: it returns the value
    Python returns, raises the exception Python raises, or is [Unmodelled]
    where Python's behaviour depends on what the model leaves out. *)

From Stdlib Require Import ZArith String Ascii SpecFloat.
From stdpp Require Import base tactics option list strings countable.
From S2P Require Import Prelude PyDict.

Set Default Proof Using "Type".
Local Open Scope Z_scope.

(** ** Keys *)

Inductive pykey : Type :=
| KNone
| KStr (s : string).

#[export] Instance pykey_eq_dec : EqDecision pykey.
Proof. solve_decision. Defined.

#[export] Instance pykey_countable : Countable pykey.
Proof.
  refine (inj_countable'
    (λ k, match k with KNone => None | KStr s => Some s end)
    (λ o, match o with None => KNone | Some s => KStr s end) _).
  by intros [].
Defined.

(** ** Values *)

Unset Elimination Schemes.
Inductive pyval : Type :=
| PNone
| PBool (b : bool)
| PInt (z : Z)
| PFloat (f : spec_float)
| PStr (s : string)
| PList (l : list pyval)
| PDict (d : list (pykey * pyval)).
Set Elimination Schemes.

(** Induction with the hypothesis for every element of a list and every
    value of a dictionary. *)
Definition pyval_ind (P : pyval → Prop)
    (HNone : P PNone) (HBool : ∀ b, P (PBool b)) (HInt : ∀ z, P (PInt z))
    (HFloat : ∀ f, P (PFloat f)) (HStr : ∀ s, P (PStr s))
    (HList : ∀ l, Forall P l → P (PList l))
    (HDict : ∀ d, Forall (λ kv, P kv.2) d → P (PDict d)) : ∀ v, P v :=
  fix go (v : pyval) : P v :=
    match v with
    | PNone => HNone
    | PBool b => HBool b
    | PInt z => HInt z
    | PFloat f => HFloat f
    | PStr s => HStr s
    | PList l =>
        HList l
          ((fix go_list (l : list pyval) : Forall P l :=
              match l with
              | [] => Forall_nil_2 P
              | x :: l' => Forall_cons_2 P x l' (go x) (go_list l')
              end) l)
    | PDict d =>
        HDict d
          ((fix go_dict (d : list (pykey * pyval)) : Forall (λ kv, P kv.2) d :=
              match d with
              | [] => Forall_nil_2 _
              | kv :: d' => Forall_cons_2 _ kv d' (go kv.2) (go_dict d')
              end) d)
    end.

#[export] Instance spec_float_eq_dec : EqDecision spec_float.
Proof. solve_decision. Defined.

(** Structural equality (the meta-level one; Python's [==] is [py_eq]). *)
Fixpoint pyval_eqb (v w : pyval) : bool :=
  match v, w with
  | PNone, PNone => true
  | PBool a, PBool b => bool_decide (a = b)
  | PInt a, PInt b => bool_decide (a = b)
  | PFloat a, PFloat b => bool_decide (a = b)
  | PStr a, PStr b => bool_decide (a = b)
  | PList a, PList b =>
      (fix go (a b : list pyval) : bool :=
         match a, b with
         | [], [] => true
         | x :: a', y :: b' => pyval_eqb x y && go a' b'
         | _, _ => false
         end) a b
  | PDict a, PDict b =>
      (fix go (a b : list (pykey * pyval)) : bool :=
         match a, b with
         | [], [] => true
         | (k, x) :: a', (k', y) :: b' =>
             bool_decide (k = k') && pyval_eqb x y && go a' b'
         | _, _ => false
         end) a b
  | _, _ => false
  end.

Lemma pyval_eqb_spec (v w : pyval) : pyval_eqb v w = true ↔ v = w.
Proof.
  revert w. induction v as [| | | | |l IH|d IH] using pyval_ind; intros [];
    simpl; rewrite ?bool_decide_eq_true; try (split; congruence).
  - revert l0. induction IH as [|x l Hx _ IHl]; intros [|y l0];
      try (split; congruence).
    rewrite andb_true_iff, Hx, IHl. split; [intros [-> [=]]|intros [=]]; by subst.
  - revert d0. induction IH as [|[k x] d Hx _ IHd]; intros [|[k' y] d0];
      try (split; congruence).
    rewrite !andb_true_iff, bool_decide_eq_true, Hx, IHd. simpl.
    split; [intros [[-> ->] [=]]|intros [=]]; by subst.
Qed.

#[export] Instance pyval_eq_dec : EqDecision pyval.
Proof.
  intros v w. destruct (pyval_eqb v w) eqn:E.
  - left. by apply pyval_eqb_spec.
  - right. intros H%pyval_eqb_spec. congruence.
Defined.

(** A dictionary literal with string keys. *)
Definition pdict (items : list (string * pyval)) : pyval :=
  PDict (map (λ kv, (KStr kv.1, kv.2)) items).

Definition key_val (k : pykey) : pyval :=
  match k with KNone => PNone | KStr s => PStr s end.

(** ** Shapes of values *)

(** Every dictionary inside the value has each key once: what a Python
    value is.  The constructors of [pyval] allow more. *)
Fixpoint val_wfb (v : pyval) : bool :=
  match v with
  | PList l => forallb val_wfb l
  | PDict d =>
      bool_decide (NoDup d.*1) &&
      (fix go (d : list (pykey * pyval)) : bool :=
         match d with
         | [] => true
         | (_, x) :: d' => val_wfb x && go d'
         end) d
  | _ => true
  end.

(** Every key is a string: what [json.load] returns. *)
Fixpoint json_keysb (v : pyval) : bool :=
  match v with
  | PList l => forallb json_keysb l
  | PDict d =>
      (fix go (d : list (pykey * pyval)) : bool :=
         match d with
         | [] => true
         | (KStr _, x) :: d' => json_keysb x && go d'
         | (KNone, _) :: _ => false
         end) d
  | _ => true
  end.

(** ** Floats *)

Definition prec : Z := 53.
Definition emax : Z := 1024.

Definition float_zero : spec_float := S754_zero false.

(** [float(z)]: the nearest binary64, ties to even; [OverflowError] when
    the integer is too large. *)
Definition float_of_Z (z : Z) : outcome spec_float :=
  match z with
  | Z0 => Ok float_zero
  | Zpos p | Zneg p =>
      match binary_round prec emax (z <? 0) p 0 with
      | S754_infinity _ => Raise OverflowError
      | f => Ok f
      end
  end.

(** The integer a float equals, when it equals one. *)
Definition float_to_Z (f : spec_float) : option Z :=
  match f with
  | S754_zero _ => Some 0
  | S754_finite s m e =>
      let z := if s then Z.neg m else Z.pos m in
      if 0 <=? e then Some (z * 2 ^ e)
      else if Z.pos m mod 2 ^ (- e) =? 0 then Some (z / 2 ^ (- e)) else None
  | _ => None
  end.

(** ** Built-ins *)

(** [bool(v)]. *)
Definition py_truthy (v : pyval) : bool :=
  match v with
  | PNone => false
  | PBool b => b
  | PInt z => negb (z =? 0)
  | PFloat f => match f with S754_zero _ => false | _ => true end
  | PStr s => negb (bool_decide (s = ""%string))
  | PList l => match l with [] => false | _ => true end
  | PDict d => match d with [] => false | _ => true end
  end.

(** The key a value is when used as a dictionary key. *)
Definition to_key (v : pyval) : outcome pykey :=
  match v with
  | PNone => Ok KNone
  | PStr s => Ok (KStr s)
  | PList _ | PDict _ => Raise TypeError
  | PBool _ | PInt _ | PFloat _ => Unmodelled
  end.

(** [v.get(k, default)] with a string [k]: only dictionaries have [get]. *)
Definition py_get (v : pyval) (k : string) (default : pyval) : outcome pyval :=
  match v with
  | PDict d => Ok (match dict_get (KStr k) d with Some x => x | None => default end)
  | _ => Raise AttributeError
  end.

(** [k in v] with a string [k]. *)
Definition py_contains (v : pyval) (k : string) : outcome bool :=
  match v with
  | PDict d => Ok (dict_mem (KStr k) d)
  | PList l => Ok (bool_decide (PStr k ∈ l))
  | PStr s => Unmodelled
  | _ => Raise TypeError
  end.

(** [v[k]] with a string [k]. *)
Definition py_getitem (v : pyval) (k : string) : outcome pyval :=
  match v with
  | PDict d =>
      match dict_get (KStr k) d with
      | Some x => Ok x
      | None => Raise KeyError
      end
  | _ => Raise TypeError
  end.

(** [v[k]] where the key is a value. *)
Definition py_getitem_val (v k : pyval) : outcome pyval :=
  match v with
  | PDict d =>
      key ← to_key k;
      match dict_get key d with
      | Some x => Ok x
      | None => Raise KeyError
      end
  | PList _ | PStr _ =>
      match k with
      | PBool _ | PInt _ => Unmodelled
      | _ => Raise TypeError
      end
  | _ => Raise TypeError
  end.

(** [v[k] = x] where the key is a value: the updated container. *)
Definition py_setitem (v k x : pyval) : outcome pyval :=
  match v with
  | PDict d => key ← to_key k; Ok (PDict (dict_set key x d))
  | PList _ =>
      match k with
      | PBool _ | PInt _ => Unmodelled
      | _ => Raise TypeError
      end
  | _ => Raise TypeError
  end.

(** [v.get(k)] where the key is a value; [None] when absent. *)
Definition py_get_val (v k : pyval) : outcome pyval :=
  match v with
  | PDict d =>
      key ← to_key k;
      Ok (match dict_get key d with Some x => x | None => PNone end)
  | _ => Raise AttributeError
  end.

(** [v == w].  Numbers compare by value across [bool], [int] and [float];
    values of different kinds are unequal; the comparison of two lists or
    of two dictionaries is not modelled. *)
Definition py_eq (v w : pyval) : outcome bool :=
  match v, w with
  | PNone, PNone => Ok true
  | PStr s, PStr t => Ok (bool_decide (s = t))
  | PList _, PList _ | PDict _, PDict _ => Unmodelled
  | (PBool _ | PInt _ | PFloat _), (PBool _ | PInt _ | PFloat _) =>
      let num x :=
        match x with
        | PBool b => inl (if b then 1 else 0)
        | PInt z => inl z
        | PFloat f => inr f
        | _ => inl 0
        end in
      match num v, num w with
      | inl a, inl b => Ok (bool_decide (a = b))
      | inl a, inr g | inr g, inl a => Ok (bool_decide (float_to_Z g = Some a))
      | inr f, inr g => Ok (SFeqb f g)
      end
  | _, _ => Ok false
  end.

(** [v.append(x)]: only lists have [append]. *)
Definition py_append (v x : pyval) : outcome pyval :=
  match v with
  | PList l => Ok (PList (l ++ [x]))
  | _ => Raise AttributeError
  end.

(** [list(v)] as [for x in v] sees it. *)
Definition py_iter (v : pyval) : outcome (list pyval) :=
  match v with
  | PList l => Ok l
  | PDict d => Ok (map key_val d.*1)
  | PStr s => Ok (map (λ c, PStr (String c EmptyString)) (list_ascii_of_string s))
  | _ => Raise TypeError
  end.

(** [len(v)]. *)
Definition py_len (v : pyval) : outcome Z :=
  match v with
  | PList l => Ok (Z.of_nat (length l))
  | PDict d => Ok (Z.of_nat (length d))
  | PStr s => Ok (Z.of_nat (String.length s))
  | _ => Raise TypeError
  end.

(** [l[i]] on a list: a negative index counts from the end. *)
Definition list_index {A} (l : list A) (i : Z) : outcome A :=
  let n := Z.of_nat (length l) in
  let j := if i <? 0 then i + n else i in
  if (0 <=? j) && (j <? n) then
    match l !! Z.to_nat j with
    | Some x => Ok x
    | None => Raise IndexError
    end
  else Raise IndexError.

(** [v[i]] for an integer [i].  A dictionary with integer keys is not
    modelled. *)
Definition py_index (v : pyval) (i : Z) : outcome pyval :=
  match v with
  | PList l => list_index l i
  | PStr s =>
      (λ c, PStr (String c EmptyString)) <$> list_index (list_ascii_of_string s) i
  | PDict _ => Unmodelled
  | _ => Raise TypeError
  end.

(** [v[i] = x] for an index [i] inside a list (what assigning through a
    reference to the i-th element does to the list). *)
Definition py_set_index (v : pyval) (i : nat) (x : pyval) : pyval :=
  match v with
  | PList l => PList (<[i := x]> l)
  | _ => v
  end.

(** [v.update(other)] for a dictionary [other]; an iterable of pairs is not
    modelled. *)
Definition py_update (v other : pyval) : outcome pyval :=
  match v with
  | PDict d =>
      match other with
      | PDict o => Ok (PDict (dict_update d o))
      | PList _ | PStr _ => Unmodelled
      | _ => Raise TypeError
      end
  | _ => Raise AttributeError
  end.

(** [isinstance(v, (list, tuple))]: a tuple is held as the list of its
    elements. *)
Definition is_list (v : pyval) : bool :=
  match v with PList _ => true | _ => false end.

(** [tuple(v)], held as the list of its elements. *)
Definition py_tuple (v : pyval) : outcome pyval := PList <$> py_iter v.

(** [v[:n]].  A slice of a dictionary raises [TypeError] before Python 3.12
    and [KeyError] from it on. *)
Definition py_slice_to (v : pyval) (n : nat) : outcome pyval :=
  match v with
  | PStr s => Ok (PStr (substring 0 n s))
  | PList l => Ok (PList (take n l))
  | PDict _ => Unmodelled
  | _ => Raise TypeError
  end.

(** The numbers: [bool] is a subclass of [int]. *)
Inductive number : Type :=
| NInt (z : Z)
| NFloat (f : spec_float).

Definition as_number (v : pyval) : option number :=
  match v with
  | PBool b => Some (NInt (if b then 1 else 0))
  | PInt z => Some (NInt z)
  | PFloat f => Some (NFloat f)
  | _ => None
  end.

Definition number_val (n : number) : pyval :=
  match n with NInt z => PInt z | NFloat f => PFloat f end.

Definition number_add (a b : number) : outcome number :=
  match a, b with
  | NInt x, NInt y => Ok (NInt (x + y))
  | NInt x, NFloat g => f ← float_of_Z x; Ok (NFloat (SFadd prec emax f g))
  | NFloat f, NInt y => g ← float_of_Z y; Ok (NFloat (SFadd prec emax f g))
  | NFloat f, NFloat g => Ok (NFloat (SFadd prec emax f g))
  end.

Definition number_mul (a b : number) : outcome number :=
  match a, b with
  | NInt x, NInt y => Ok (NInt (x * y))
  | NInt x, NFloat g => f ← float_of_Z x; Ok (NFloat (SFmul prec emax f g))
  | NFloat f, NInt y => g ← float_of_Z y; Ok (NFloat (SFmul prec emax f g))
  | NFloat f, NFloat g => Ok (NFloat (SFmul prec emax f g))
  end.

(** [v + w]. *)
Definition py_add (v w : pyval) : outcome pyval :=
  match as_number v, as_number w with
  | Some a, Some b => number_val <$> number_add a b
  | _, _ =>
      match v, w with
      | PStr s, PStr t => Ok (PStr (s +:+ t))
      | PList l, PList m => Ok (PList (l ++ m))
      | _, _ => Raise TypeError
      end
  end.

(** [v * w] for a number [w]; a sequence times an integer repeats it. *)
Definition py_mul_number (v : pyval) (w : number) : outcome pyval :=
  match as_number v with
  | Some a => number_val <$> number_mul a w
  | None =>
      match v, w with
      | PStr _, NInt _ | PList _, NInt _ => Unmodelled
      | _, _ => Raise TypeError
      end
  end.

(** [str.lower] on one code point below 256: the ASCII capitals and the
    Latin-1 capitals U+00C0 to U+00DE, the multiplication sign apart. *)
Definition lower_ascii (c : ascii) : ascii :=
  let n := nat_of_ascii c in
  if ((65 <=? n) && (n <=? 90))%nat then ascii_of_nat (n + 32)
  else if ((192 <=? n) && (n <=? 222) && negb (n =? 215))%nat
       then ascii_of_nat (n + 32)
  else c.

Fixpoint lower (s : string) : string :=
  match s with
  | EmptyString => EmptyString
  | String c s' => String (lower_ascii c) (lower s')
  end.

(** [v.lower()]: only strings have [lower]. *)
Definition py_lower (v : pyval) : outcome string :=
  match v with
  | PStr s => Ok (lower s)
  | _ => Raise AttributeError
  end.

(** The string a value is inside an f-string, for the values whose
    [str()] the model has: strings. *)
Definition py_format (v : pyval) : outcome string :=
  match v with
  | PStr s => Ok s
  | PNone => Ok "None"%string
  | PBool true => Ok "True"%string
  | PBool false => Ok "False"%string
  | _ => Unmodelled
  end.

(** [v > 0]. *)
Definition py_positive (v : pyval) : outcome bool :=
  match v with
  | PInt z => Ok (0 <? z)
  | PBool b => Ok b
  | PFloat f => Ok (SFltb float_zero f)
  | _ => Raise TypeError
  end.

(** ** Facts *)

Lemma pdict_get (items : list (string * pyval)) (k : string) :
  dict_get (KStr k) (map (λ kv, (KStr kv.1, kv.2)) items) = dict_get k items.
Proof.
  induction items as [|[k' v] items IH]; simpl; [done|].
  repeat case_decide; simplify_eq; done.
Qed.

Lemma py_get_pdict (items : list (string * pyval)) (k : string) (dflt : pyval) :
  py_get (pdict items) k dflt =
  Ok (default dflt (dict_get k items)).
Proof. unfold py_get, pdict. rewrite pdict_get. by destruct (dict_get k items). Qed.

Lemma py_getitem_pdict (items : list (string * pyval)) (k : string) :
  py_getitem (pdict items) k =
  match dict_get k items with Some x => Ok x | None => Raise KeyError end.
Proof. unfold py_getitem, pdict. by rewrite pdict_get. Qed.

(** [get] never raises on a dictionary, and only [AttributeError] else. *)
Lemma py_get_dict (d : list (pykey * pyval)) (k : string) (dflt : pyval) :
  ∃ x, py_get (PDict d) k dflt = Ok x.
Proof. eexists. reflexivity. Qed.

Lemma py_get_not_dict (v : pyval) (k : string) (dflt : pyval) :
  (∀ d, v ≠ PDict d) → py_get v k dflt = Raise AttributeError.
Proof. destruct v; try done. intros H. by destruct (H d). Qed.

Lemma py_get_PDict (d : list (pykey * pyval)) (k : string) (dflt : pyval) :
  py_get (PDict d) k dflt = Ok (default dflt (dict_get (KStr k) d)).
Proof. cbn. by destruct (dict_get _ _). Qed.

(** Where [v[k]] has a value, [v.get(k, default)] is that value. *)
Lemma py_get_getitem (v : pyval) (k : string) (dflt x y : pyval) :
  py_get v k dflt = Ok x → py_getitem v k = Ok y → x = y.
Proof.
  destruct v; try done. cbn. destruct (dict_get _ _); try done. congruence.
Qed.

Lemma to_key_val (k : pykey) : to_key (key_val k) = Ok k.
Proof. by destruct k. Qed.

Lemma to_key_ok (v : pyval) (k : pykey) : to_key v = Ok k → v = key_val k.
Proof. destruct v; simpl; intros [=]; by subst. Qed.

Lemma py_truthy_str (s : string) : py_truthy (PStr s) = false ↔ s = ""%string.
Proof.
  simpl. rewrite negb_false_iff, bool_decide_eq_true. done.
Qed.

Lemma lower_length (s : string) : String.length (lower s) = String.length s.
Proof. induction s; simpl; congruence. Qed.

Lemma lower_ascii_idemp (c : ascii) : lower_ascii (lower_ascii c) = lower_ascii c.
Proof. by destruct c as [[] [] [] [] [] [] [] []]. Qed.

Lemma lower_idemp (s : string) : lower (lower s) = lower s.
Proof. induction s; simpl; [done|]. by rewrite lower_ascii_idemp, IHs. Qed.

#[export] Hint Rewrite py_get_pdict py_getitem_pdict py_get_PDict to_key_val : pyrw.
