(* ===== verification/PyStr.v ===== *)
(** * Printing and reading integers

    [str(n)] for an integer, the fixed-width decimal fields of
    [datetime.isoformat] ([%02d], [%04d], [%06d]) with the parser that reads
    them back, and fixed-width lowercase hexadecimal ([hexdigest], the
    [\u00xx] escapes of [json.dumps]). *)

From Stdlib Require Import ZArith String Ascii DecimalString DecimalZ DecimalPos.
From stdpp Require Import base tactics option list strings.
From S2P Require Import Prelude.

Set Default Proof Using "Type".
Local Open Scope Z_scope.

(** [str(z)]: decimal, a minus sign for a negative number, no leading zero. *)
Definition str_of_Z (z : Z) : string := NilZero.string_of_int (Z.to_int z).

(** [int(s)] on what [str_of_Z] prints. *)
Definition Z_of_str (s : string) : option Z :=
  Z.of_int <$> NilZero.int_of_string s.

(** The character of the decimal digit [n mod 10]. *)
Definition digit (n : Z) : ascii := ascii_of_nat (48 + Z.to_nat (n mod 10)).

Definition digit_val (c : ascii) : option Z :=
  let k := Z.of_nat (nat_of_ascii c) in
  if (48 <=? k) && (k <=? 57) then Some (k - 48) else None.

(** The last [w] decimal digits of [n], most significant first. *)
Fixpoint dec_fixed (w : nat) (n : Z) : list ascii :=
  match w with
  | O => []
  | S w' => dec_fixed w' (n / 10) ++ [digit n]
  end.

(** The number a sequence of decimal digits denotes, after [acc]. *)
Fixpoint parse_digits (cs : list ascii) (acc : Z) : option Z :=
  match cs with
  | [] => Some acc
  | c :: cs' =>
      match digit_val c with
      | Some d => parse_digits cs' (10 * acc + d)
      | None => None
      end
  end.

(** The character of the hexadecimal digit [n mod 16], lowercase. *)
Definition hex_digit (n : Z) : ascii :=
  let d := Z.to_nat (n mod 16) in
  ascii_of_nat (if (d <? 10)%nat then 48 + d else 87 + d).

(** The last [w] hexadecimal digits of [n], most significant first. *)
Fixpoint hex_fixed (w : nat) (n : Z) : list ascii :=
  match w with
  | O => []
  | S w' => hex_fixed w' (n / 16) ++ [hex_digit n]
  end.

(** ** Round trips *)

Lemma to_int_nonnil (z : Z) :
  Z.to_int z ≠ Decimal.Pos Decimal.Nil ∧ Z.to_int z ≠ Decimal.Neg Decimal.Nil.
Proof.
  destruct z; simpl; split; try discriminate;
    intros [= H]; revert H; apply DecimalPos.Unsigned.to_uint_nonnil.
Qed.

Lemma Z_of_str_of_Z (z : Z) : Z_of_str (str_of_Z z) = Some z.
Proof.
  unfold Z_of_str, str_of_Z. destruct (to_int_nonnil z) as [H1 H2].
  rewrite NilZero.isi by done. cbn [fmap option_fmap option_map].
  by rewrite DecimalZ.of_to.
Qed.

Lemma str_of_Z_inj : Inj (=) (=) str_of_Z.
Proof.
  intros a b Hab. apply (f_equal Z_of_str) in Hab.
  rewrite !Z_of_str_of_Z in Hab. congruence.
Qed.

Lemma digit_val_digit (n : Z) : digit_val (digit n) = Some (n mod 10).
Proof.
  unfold digit_val, digit.
  pose proof (Z.mod_pos_bound n 10 ltac:(lia)) as Hb.
  rewrite nat_ascii_embedding by lia.
  rewrite Nat2Z.inj_add, Z2Nat.id by lia.
  change (Z.of_nat 48) with 48.
  rewrite (proj2 (Z.leb_le _ _)), (proj2 (Z.leb_le _ _)) by lia.
  cbn [andb]. f_equal. lia.
Qed.

Lemma digit_val_bound (c : ascii) (d : Z) : digit_val c = Some d → 0 ≤ d < 10.
Proof.
  unfold digit_val. cbv zeta. destruct (_ && _) eqn:E; [|done].
  apply andb_true_iff in E as [?%Z.leb_le ?%Z.leb_le]. intros [= <-]. lia.
Qed.

Lemma parse_digits_app (cs1 cs2 : list ascii) (acc : Z) :
  parse_digits (cs1 ++ cs2) acc = parse_digits cs1 acc ≫= parse_digits cs2.
Proof.
  revert acc. induction cs1 as [|c cs1 IH]; intros acc; simpl; [done|].
  destruct (digit_val c); [apply IH|done].
Qed.

Lemma length_dec_fixed (w : nat) (n : Z) : length (dec_fixed w n) = w.
Proof.
  revert n. induction w as [|w IH]; intros n; simpl; [done|].
  rewrite length_app, IH. simpl. lia.
Qed.

(** Reading back a fixed-width field gives the number it was printed from,
    when the number fits the width. *)
Lemma parse_dec_fixed (w : nat) (n acc : Z) :
  0 ≤ n < 10 ^ Z.of_nat w →
  parse_digits (dec_fixed w n) acc = Some (acc * 10 ^ Z.of_nat w + n).
Proof.
  revert n acc. induction w as [|w IH]; intros n acc Hn.
  - change (10 ^ Z.of_nat 0) with 1 in *. cbn [dec_fixed parse_digits].
    f_equal. lia.
  - rewrite Nat2Z.inj_succ, Z.pow_succ_r in * by lia. cbn [dec_fixed].
    rewrite parse_digits_app, IH.
    + cbn [mbind option_bind parse_digits]. rewrite digit_val_digit. f_equal.
      pose proof (Z.div_mod n 10 ltac:(lia)). lia.
    + split; [apply Z.div_pos; lia|]. apply Z.div_lt_upper_bound; lia.
Qed.

(** A field that reads back has the digits of the number read. *)
Lemma parse_digits_bound (cs : list ascii) (acc r : Z) :
  0 ≤ acc → parse_digits cs acc = Some r →
  acc * 10 ^ Z.of_nat (length cs) ≤ r < (acc + 1) * 10 ^ Z.of_nat (length cs).
Proof.
  revert acc. induction cs as [|c cs IH]; intros acc Hacc; cbn [length parse_digits].
  - change (10 ^ Z.of_nat 0) with 1. intros [= <-]. lia.
  - destruct (digit_val c) as [d|] eqn:Ed; [|done].
    apply digit_val_bound in Ed. intros Hr. apply IH in Hr; [|lia].
    rewrite Nat2Z.inj_succ, Z.pow_succ_r by lia.
    assert (0 < 10 ^ Z.of_nat (length cs)) by (apply Z.pow_pos_nonneg; lia).
    nia.
Qed.

Lemma length_hex_fixed (w : nat) (n : Z) : length (hex_fixed w n) = w.
Proof.
  revert n. induction w as [|w IH]; intros n; simpl; [done|].
  rewrite length_app, IH. simpl. lia.
Qed.

(** A lowercase hexadecimal digit. *)
Definition is_hex (c : ascii) : bool :=
  bool_decide (c ∈ list_ascii_of_string "0123456789abcdef").

Lemma hex_digit_is_hex (n : Z) : is_hex (hex_digit n) = true.
Proof.
  unfold hex_digit.
  assert (Z.to_nat (n mod 16) < 16)%nat as Hd
    by (pose proof (Z.mod_pos_bound n 16 eq_refl); lia).
  destruct (Z.to_nat (n mod 16)) as [|d]; [done|].
  do 15 (destruct d as [|d]; [done|]). lia.
Qed.

(** A hexadecimal field holds hexadecimal digits only. *)
Lemma hex_fixed_is_hex (w : nat) (n : Z) :
  Forall (λ c, is_hex c = true) (hex_fixed w n).
Proof.
  revert n. induction w as [|w IH]; intros n; simpl; [done|].
  apply Forall_app. split; [apply IH|]. apply Forall_singleton, hex_digit_is_hex.
Qed.

(** A fixed-width field holds decimal digits only. *)
Lemma dec_fixed_digits (w : nat) (n : Z) :
  Forall (λ c, is_Some (digit_val c)) (dec_fixed w n).
Proof.
  revert n. induction w as [|w IH]; intros n; simpl; [done|].
  apply Forall_app. split; [apply IH|]. apply Forall_singleton.
  rewrite digit_val_digit. by eexists.
Qed.
