(* ===== verification/DateTime.v ===== *)
(** * [datetime]: naive date-times, [isoformat] and [fromisoformat]

    A naive [datetime] is its seven fields.  [isoformat] prints
    [YYYY-MM-DDTHH:MM:SS], followed by [.ffffff] when the microsecond is not
    zero.  [fromisoformat] is modelled on the strings every Python from 3.7
    on reads the same way: the date, one separator character, the time with
    seconds, and an optional fraction of three or six digits; a string of
    that shape with a field out of range raises [ValueError], a value that
    is not a string raises [TypeError], and any other string is
    [Unmodelled].  Naive date-times compare field by field.  [strftime]
    is modelled at the two formats the program uses ([%Y%m%d_%H%M%S] and
    [%Y%m%d]), and the difference of two date-times by its seconds as a
    float. *)

From Stdlib Require Import ZArith String Ascii SpecFloat.
From stdpp Require Import base tactics option list list_numbers strings.
From S2P Require Import Prelude PyValue PyStr.

Set Default Proof Using "Type".
Local Open Scope Z_scope.

Record datetime : Type := mk_datetime {
  year : Z;
  month : Z;
  day : Z;
  hour : Z;
  minute : Z;
  second : Z;
  microsecond : Z
}.

#[export] Instance datetime_eq_dec : EqDecision datetime.
Proof. solve_decision. Defined.

Definition is_leap (y : Z) : bool :=
  (y mod 4 =? 0) && (negb (y mod 100 =? 0) || (y mod 400 =? 0)).

Definition days_in_month (y m : Z) : Z :=
  if m =? 2 then (if is_leap y then 29 else 28)
  else if (m =? 4) || (m =? 6) || (m =? 9) || (m =? 11) then 30
  else 31.

Definition in_range (lo x hi : Z) : bool := (lo <=? x) && (x <=? hi).

(** The field ranges [datetime(...)] enforces. *)
Definition valid_datetime (dt : datetime) : bool :=
  in_range 1 (year dt) 9999 && in_range 1 (month dt) 12 &&
  in_range 1 (day dt) (days_in_month (year dt) (month dt)) &&
  in_range 0 (hour dt) 23 && in_range 0 (minute dt) 59 &&
  in_range 0 (second dt) 59 && in_range 0 (microsecond dt) 999999.

Definition isoformat_chars (dt : datetime) : list ascii :=
  dec_fixed 4 (year dt) ++ "-"%char ::
  dec_fixed 2 (month dt) ++ "-"%char ::
  dec_fixed 2 (day dt) ++ "T"%char ::
  dec_fixed 2 (hour dt) ++ ":"%char ::
  dec_fixed 2 (minute dt) ++ ":"%char ::
  dec_fixed 2 (second dt) ++
  (if microsecond dt =? 0 then [] else "."%char :: dec_fixed 6 (microsecond dt)).

(** [dt.isoformat()]. *)
Definition isoformat (dt : datetime) : string :=
  string_of_list_ascii (isoformat_chars dt).

(** [dt.strftime('%Y%m%d_%H%M%S')], for a year of four digits. *)
Definition strftime_stamp (dt : datetime) : string :=
  string_of_list_ascii
    (dec_fixed 4 (year dt) ++ dec_fixed 2 (month dt) ++ dec_fixed 2 (day dt) ++
     "_"%char :: dec_fixed 2 (hour dt) ++ dec_fixed 2 (minute dt) ++
     dec_fixed 2 (second dt)).

(** [dt.strftime('%Y%m%d')], for a year of four digits. *)
Definition strftime_day (dt : datetime) : string :=
  string_of_list_ascii
    (dec_fixed 4 (year dt) ++ dec_fixed 2 (month dt) ++ dec_fixed 2 (day dt)).

(** Read [n] decimal digits. *)
Definition read_digits (n : nat) (cs : list ascii) : option (Z * list ascii) :=
  if decide (length (take n cs) = n)
  then z ← parse_digits (take n cs) 0; Some (z, drop n cs)
  else None.

(** Read the character [c]. *)
Definition expect (c : ascii) (cs : list ascii) : option (list ascii) :=
  match cs with
  | c' :: r => if decide (c = c') then Some r else None
  | [] => None
  end.

(** Read any one character. *)
Definition skip_char (cs : list ascii) : option (list ascii) :=
  match cs with
  | _ :: r => Some r
  | [] => None
  end.

(** The fraction: nothing, or a point and three or six digits. *)
Definition read_fraction (cs : list ascii) : option Z :=
  match cs with
  | [] => Some 0
  | c :: r =>
      if decide (c = "."%char) then
        if decide (length r = 3%nat) then (λ ms, ms * 1000) <$> parse_digits r 0
        else if decide (length r = 6%nat) then parse_digits r 0
        else None
      else None
  end.

Definition parse_iso (cs : list ascii) : option datetime :=
  '(y, cs) ← read_digits 4 cs; cs ← expect "-"%char cs;
  '(mo, cs) ← read_digits 2 cs; cs ← expect "-"%char cs;
  '(d, cs) ← read_digits 2 cs; cs ← skip_char cs;
  '(h, cs) ← read_digits 2 cs; cs ← expect ":"%char cs;
  '(mi, cs) ← read_digits 2 cs; cs ← expect ":"%char cs;
  '(s, cs) ← read_digits 2 cs;
  us ← read_fraction cs;
  Some (mk_datetime y mo d h mi s us).

(** [datetime.fromisoformat(v)]. *)
Definition fromisoformat (v : pyval) : outcome datetime :=
  match v with
  | PStr s =>
      match parse_iso (list_ascii_of_string s) with
      | Some dt => if valid_datetime dt then Ok dt else Raise ValueError
      | None => Unmodelled
      end
  | _ => Raise TypeError
  end.

(** ** Order *)

Fixpoint lex_cmp (a b : list Z) : comparison :=
  match a, b with
  | [], [] => Eq
  | [], _ :: _ => Lt
  | _ :: _, [] => Gt
  | x :: a', y :: b' =>
      match x ?= y with
      | Eq => lex_cmp a' b'
      | c => c
      end
  end.

Definition fields (dt : datetime) : list Z :=
  [year dt; month dt; day dt; hour dt; minute dt; second dt; microsecond dt].

Definition datetime_cmp (a b : datetime) : comparison :=
  lex_cmp (fields a) (fields b).

(** [a > b]. *)
Definition datetime_gt (a b : datetime) : bool :=
  match datetime_cmp a b with Gt => true | _ => false end.

(** ** Differences *)

(** The days before the first of January of the year [y], in the proleptic
    Gregorian calendar. *)
Definition days_before_year (y : Z) : Z :=
  let y := y - 1 in y * 365 + y / 4 - y / 100 + y / 400.

(** The days of the year [y] before the first of the month [m]. *)
Definition days_before_month (y m : Z) : Z :=
  foldr Z.add 0 (map (days_in_month y) (seqZ 1 (m - 1))).

(** [dt.toordinal()]. *)
Definition toordinal (dt : datetime) : Z :=
  days_before_year (year dt) + days_before_month (year dt) (month dt) + day dt.

Definition second_of_day (dt : datetime) : Z :=
  hour dt * 3600 + minute dt * 60 + second dt.

(** [a - b], in microseconds. *)
Definition microseconds_between (a b : datetime) : Z :=
  ((toordinal a - toordinal b) * 86400 + (second_of_day a - second_of_day b)) * 1000000
  + (microsecond a - microsecond b).

(** [(a - b).total_seconds()]: the microseconds divided by [10**6], rounded
    to the nearest binary64.  The division of two integers is the division
    of the floats they are when both are below [2**53]; a longer time (285
    years) is outside the model. *)
Definition total_seconds (a b : datetime) : outcome spec_float :=
  let us := microseconds_between a b in
  if Z.abs us <? 2 ^ 53 then
    Ok (SFdiv prec emax (binary_normalize prec emax us 0 false)
                        (binary_normalize prec emax 1000000 0 false))
  else Unmodelled.

(** ** Facts about the order *)

Lemma lex_cmp_refl (a : list Z) : lex_cmp a a = Eq.
Proof. induction a as [|x a IH]; [done|]. cbn. by rewrite Z.compare_refl. Qed.

Lemma lex_cmp_eq (a b : list Z) : lex_cmp a b = Eq → a = b.
Proof.
  revert b. induction a as [|x a IH]; intros [|y b]; cbn; try done.
  destruct (x ?= y) eqn:E; try done.
  apply Z.compare_eq in E. intros ?%IH. by subst.
Qed.

Lemma lex_cmp_antisym (a b : list Z) : lex_cmp b a = CompOpp (lex_cmp a b).
Proof.
  revert b. induction a as [|x a IH]; intros [|y b]; cbn; try done.
  rewrite (Z.compare_antisym x y). destruct (x ?= y); cbn; auto.
Qed.

Lemma lex_cmp_trans (c : comparison) (a b d : list Z) :
  lex_cmp a b = c → lex_cmp b d = c → lex_cmp a d = c.
Proof.
  revert b d. induction a as [|x a IH]; intros [|y b] [|z d]; cbn; try congruence.
  destruct (x ?= y) eqn:E1, (y ?= z) eqn:E2; try congruence;
    repeat match goal with
    | H : (_ ?= _) = Eq |- _ => apply Z.compare_eq in H; subst
    end; rewrite ?Z.compare_refl, ?E1, ?E2; try congruence; eauto.
  - intros <- _. rewrite Z.compare_lt_iff in *.
    assert (x < z) as ->%Z.compare_lt_iff by lia. done.
  - intros <- _. rewrite Z.compare_gt_iff in *.
    assert (z < x) as ->%Z.compare_gt_iff by lia. done.
Qed.

Lemma fields_inj (a b : datetime) : fields a = fields b → a = b.
Proof. destruct a, b. cbn. by intros [= -> -> -> -> -> -> ->]. Qed.

Lemma datetime_cmp_eq (a b : datetime) : datetime_cmp a b = Eq ↔ a = b.
Proof.
  split; [intros ?%lex_cmp_eq; by apply fields_inj|].
  intros ->. apply lex_cmp_refl.
Qed.

Lemma datetime_gt_irrefl (a : datetime) : datetime_gt a a = false.
Proof. unfold datetime_gt, datetime_cmp. by rewrite lex_cmp_refl. Qed.

Lemma datetime_gt_asym (a b : datetime) :
  datetime_gt a b = true → datetime_gt b a = false.
Proof.
  unfold datetime_gt, datetime_cmp. rewrite (lex_cmp_antisym (fields a) (fields b)).
  by destruct (lex_cmp (fields a) (fields b)).
Qed.

Lemma datetime_gt_trans (a b c : datetime) :
  datetime_gt a b = true → datetime_gt b c = true → datetime_gt a c = true.
Proof.
  unfold datetime_gt, datetime_cmp. intros Hab Hbc.
  rewrite (lex_cmp_trans Gt _ (fields b)); [done| |].
  - by destruct (lex_cmp (fields a) (fields b)).
  - by destruct (lex_cmp (fields b) (fields c)).
Qed.

(** Of two distinct date-times one is later. *)
Lemma datetime_gt_total (a b : datetime) :
  a ≠ b → datetime_gt a b = true ∨ datetime_gt b a = true.
Proof.
  intros Hne. unfold datetime_gt, datetime_cmp.
  rewrite (lex_cmp_antisym (fields a) (fields b)).
  destruct (lex_cmp (fields a) (fields b)) eqn:E; cbn; auto.
  by apply datetime_cmp_eq in E.
Qed.

(** ** Round trip *)

Lemma read_digits_dec_fixed (n : nat) (z : Z) (rest : list ascii) :
  0 ≤ z < 10 ^ Z.of_nat n →
  read_digits n (dec_fixed n z ++ rest) = Some (z, rest).
Proof.
  intros Hz. unfold read_digits.
  rewrite take_app_length' by (by rewrite length_dec_fixed).
  rewrite drop_app_length' by (by rewrite length_dec_fixed).
  rewrite decide_True by apply length_dec_fixed.
  rewrite parse_dec_fixed by done. cbn [mbind option_bind].
  by rewrite Z.mul_0_l, Z.add_0_l.
Qed.

Lemma read_fraction_spec (us : Z) :
  0 ≤ us ≤ 999999 →
  read_fraction (if us =? 0 then [] else "."%char :: dec_fixed 6 us) = Some us.
Proof.
  intros Hus. destruct (Z.eqb_spec us 0) as [->|Hne]; [done|].
  unfold read_fraction. rewrite decide_True by done.
  rewrite length_dec_fixed. rewrite decide_False by done.
  rewrite decide_True by done. rewrite parse_dec_fixed; [f_equal; lia|].
  change (10 ^ Z.of_nat 6) with 1000000. lia.
Qed.

Lemma valid_datetime_bounds (dt : datetime) :
  valid_datetime dt = true →
  (0 ≤ year dt < 10 ^ 4) ∧ (0 ≤ month dt < 10 ^ 2) ∧ (0 ≤ day dt < 10 ^ 2) ∧
  (0 ≤ hour dt < 10 ^ 2) ∧ (0 ≤ minute dt < 10 ^ 2) ∧
  (0 ≤ second dt < 10 ^ 2) ∧ (0 ≤ microsecond dt ≤ 999999).
Proof.
  unfold valid_datetime, in_range. rewrite !andb_true_iff, !Z.leb_le.
  intros [[[[[[[? ?] [? ?]] [? Hd]] [? ?]] [? ?]] [? ?]] [? ?]].
  assert (days_in_month (year dt) (month dt) ≤ 31).
  { unfold days_in_month. repeat case_match; lia. }
  change (10 ^ 4) with 10000. change (10 ^ 2) with 100. lia.
Qed.

Lemma parse_iso_isoformat (dt : datetime) :
  valid_datetime dt = true → parse_iso (isoformat_chars dt) = Some dt.
Proof.
  intros (Hy & Hmo & Hd & Hh & Hmi & Hs & Hus)%valid_datetime_bounds.
  unfold parse_iso, isoformat_chars.
  repeat first
    [ rewrite read_digits_dec_fixed by done
    | rewrite decide_True by done
    | progress cbn [mbind option_bind expect skip_char] ].
  rewrite read_fraction_spec by done. cbn [mbind option_bind]. by destruct dt.
Qed.

(** Reading back what [isoformat] printed gives the date-time printed. *)
Lemma fromisoformat_isoformat (dt : datetime) :
  valid_datetime dt = true → fromisoformat (PStr (isoformat dt)) = Ok dt.
Proof.
  intros Hv. unfold fromisoformat, isoformat.
  rewrite list_ascii_of_string_of_list_ascii, parse_iso_isoformat by done.
  by rewrite Hv.
Qed.

(** What [fromisoformat] returns is a valid date-time. *)
Lemma fromisoformat_valid (v : pyval) (dt : datetime) :
  fromisoformat v = Ok dt → valid_datetime dt = true.
Proof.
  unfold fromisoformat. destruct v; try done.
  destruct (parse_iso _); [|done]. by destruct (valid_datetime d) eqn:E; intros [= <-].
Qed.

Lemma fromisoformat_not_str (v : pyval) :
  (∀ s, v ≠ PStr s) → fromisoformat v = Raise TypeError.
Proof. destruct v; try done. intros H. by destruct (H s). Qed.

Lemma isoformat_inj (a b : datetime) :
  valid_datetime a = true → valid_datetime b = true →
  isoformat a = isoformat b → a = b.
Proof.
  intros Ha Hb Hab. apply (f_equal (λ s, fromisoformat (PStr s))) in Hab.
  rewrite !fromisoformat_isoformat in Hab by done. congruence.
Qed.

(** The characters of a stamp: digits and one underscore.  A stamp can be
    part of a file name. *)
Definition stamp_char (c : ascii) : Prop := is_Some (digit_val c) ∨ c = "_"%char.

Lemma strftime_stamp_chars (dt : datetime) :
  Forall stamp_char (list_ascii_of_string (strftime_stamp dt)).
Proof.
  assert (∀ w n, Forall stamp_char (dec_fixed w n)).
  { intros. eapply Forall_impl; [apply dec_fixed_digits|]. by left. }
  unfold strftime_stamp. rewrite list_ascii_of_string_of_list_ascii.
  rewrite !Forall_app, Forall_cons, !Forall_app. repeat split; auto. by right.
Qed.

Lemma strftime_stamp_nonempty (dt : datetime) : strftime_stamp dt ≠ ""%string.
Proof.
  intros H. apply (f_equal list_ascii_of_string) in H. revert H.
  unfold strftime_stamp. rewrite list_ascii_of_string_of_list_ascii.
  intros H. apply (f_equal length) in H. revert H.
  rewrite !length_app. cbn [length]. rewrite !length_app, !length_dec_fixed. cbn. lia.
Qed.

(** ** Differences of equal and of ordered date-times *)

Lemma microseconds_between_self (a : datetime) : microseconds_between a a = 0.
Proof. unfold microseconds_between. lia. Qed.

Lemma total_seconds_self (a : datetime) : total_seconds a a = Ok float_zero.
Proof. unfold total_seconds. by rewrite microseconds_between_self. Qed.

#[global] Arguments isoformat : simpl never.
#[global] Arguments fromisoformat : simpl never.
