(* ===== verification/PyFloat.v ===== *)
(** * [repr] of a float

    [json.dumps] prints a finite float as [float.__repr__] does: the
    shortest decimal digits that read back as the same binary64 number,
    the nearest to the number among the shortest, in positional notation
    when the decimal exponent is between -4 and 16 and in scientific
    notation otherwise.

    A positive binary64 number is [m * 2^e] with [m] below [2^53].  Every
    such number is a decimal: [N * 10^s] with [N = m * 5^(-e)] and [s = e]
    when [e] is negative, [N = m * 2^e] and [s = 0] otherwise.  The numbers
    that read back as [m * 2^e] are those between the midpoints to its two
    neighbours, the midpoints included when [m] is even.  The digits are
    found as the reference implementation finds them (dtoa.c, mode 0): for
    1, 2, ... digits, the decimal below and the decimal above the number
    are tried, until one of them is inside the midpoints.  All comparisons
    are exact, on integers.

    Theorems: the decimal that is chosen lies inside the midpoints (it
    reads back as the number), no decimal of fewer digits does, and the
    search always ends; [float_repr] never raises.  The digits of known
    numbers are checked by evaluation. *)

From Stdlib Require Import ZArith String Ascii SpecFloat.
From stdpp Require Import base tactics option list strings.
From S2P Require Import Prelude PyValue PyStr.

Set Default Proof Using "Type".
Local Open Scope Z_scope.

(** ** The shortest digits *)

Section Digits.

(** The number in units of [10^s] ([N]), the two midpoints in quarters of
    that unit ([LO4], [HI4]), and whether the mantissa is even. *)
Context (N LO4 HI4 : Z) (even : bool).

(** Is the decimal [c * p] inside the midpoints?  ([p] is a power of ten
    in units of [10^s].) *)
Definition inside (c p : Z) : bool :=
  if even then (LO4 <=? 4 * c * p) && (4 * c * p <=? HI4)
  else (LO4 <? 4 * c * p) && (4 * c * p <? HI4).

(** The decimal with the digits down to [p] that is chosen, if one is:
    the decimal below the number ([lo]) or the decimal above ([hi]). *)
Definition choose (p : Z) : option Z :=
  let lo := N / p in
  let hi := lo + 1 in
  let r := N - lo * p in
  let j := LO4 ?= 4 * lo * p in
  let j1 := 4 * hi * p ?= HI4 in
  let lo_ok := match j with Lt => true | Eq => even | Gt => false end in
  match j1, even with
  | Eq, true => Some (if lo_ok then lo else hi)
  | _, _ =>
      if lo_ok then
        if r =? 0 then Some lo
        else
          match j1 with
          | Lt => if (p <? 2 * r) || ((p =? 2 * r) && Z.odd lo) then Some hi else Some lo
          | _ => Some lo
          end
      else
        match j1 with
        | Lt => Some hi
        | _ => None
        end
  end.

(** The search: [n] digits, then [n + 1], of the [D] digits of [N]. *)
Fixpoint shortest (fuel : nat) (D n : Z) : Z * Z :=
  match fuel with
  | O => (N, D)
  | S fuel' =>
      match choose (10 ^ (D - n)) with
      | Some c => (c, n)
      | None => shortest fuel' D (n + 1)
      end
  end.

End Digits.

(** The digits of a number, without the zeros at their end. *)
Fixpoint drop_zeros (ds : list ascii) : list ascii :=
  match ds with
  | c :: rest => if bool_decide (c = "0"%char) then drop_zeros rest else ds
  | [] => []
  end.

Definition strip_zeros (ds : list ascii) : list ascii :=
  reverse (drop_zeros (reverse ds)).

Definition number_of_digits (z : Z) : Z := Z.of_nat (String.length (str_of_Z z)).

(** The shortest digits of [m * 2^e] and the position of the decimal
    point: the number is [0.d1d2...dn * 10^decpt]. *)
Definition float_digits (m e : Z) : list ascii * Z :=
  let u := if e <? 0 then 5 ^ (- e) else 2 ^ e in
  let s := Z.min e 0 in
  let N := m * u in
  let boundary := (m =? 2 ^ 52) && (-1074 <? e) in
  let LO4 := (4 * m - (if boundary then 1 else 2)) * u in
  let HI4 := (4 * m + 2) * u in
  let D := number_of_digits N in
  let cn := shortest N LO4 HI4 (Z.even m) (Z.to_nat D) D 1 in
  (strip_zeros (list_ascii_of_string (str_of_Z cn.1)),
   number_of_digits cn.1 + (D - cn.2) + s).

(** ** The text *)

Definition zeros (n : Z) : list ascii := replicate (Z.to_nat n) "0"%char.

(** The exponent, on two digits at least. *)
Definition exponent_text (x : Z) : list ascii :=
  (if x <? 0 then "-"%char else "+"%char) ::
  (if Z.abs x <? 10 then ["0"%char] else []) ++ list_ascii_of_string (str_of_Z (Z.abs x)).

(** The text of [0.ds * 10^decpt] as [repr] writes it. *)
Definition repr_text (ds : list ascii) (decpt : Z) : list ascii :=
  let n := Z.of_nat (length ds) in
  if (decpt <=? -4) || (16 <? decpt) then
    match ds with
    | [] => []
    | [d] => d :: "e"%char :: exponent_text (decpt - 1)
    | d :: rest => d :: "."%char :: rest ++ "e"%char :: exponent_text (decpt - 1)
    end
  else if decpt <=? 0 then
    "0"%char :: "."%char :: zeros (- decpt) ++ ds
  else if decpt <? n then
    take (Z.to_nat decpt) ds ++ "."%char :: drop (Z.to_nat decpt) ds
  else ds ++ zeros (decpt - n) ++ [ "."%char; "0"%char ].

(** [repr(f)] as [json.dumps] prints it.  A mantissa and an exponent that
    are not those of a binary64 number are outside the model. *)
Definition float_repr (f : spec_float) : outcome string :=
  match f with
  | S754_nan => Ok "NaN"%string
  | S754_infinity false => Ok "Infinity"%string
  | S754_infinity true => Ok "-Infinity"%string
  | S754_zero false => Ok "0.0"%string
  | S754_zero true => Ok "-0.0"%string
  | S754_finite s m e =>
      if bounded prec emax m e then
        let de := float_digits (Z.pos m) e in
        Ok (string_of_list_ascii
              ((if s then ["-"%char] else []) ++ repr_text de.1 de.2))
      else Unmodelled
  end.

(** ** The decimal that is chosen reads back as the number *)

Section DigitsFacts.
Context (N LO4 HI4 : Z) (even : bool).

(** What [choose] returns is inside the midpoints, provided the number
    is. *)
Lemma choose_inside (p c : Z) :
  0 < p → LO4 < 4 * N < HI4 →
  choose N LO4 HI4 even p = Some c → inside LO4 HI4 even c p = true.
Proof.
  intros Hp HN. unfold choose, inside.
  pose proof (Z.div_mod N p ltac:(lia)) as Hdiv.
  pose proof (Z.mod_pos_bound N p Hp) as Hmod.
  assert (Hlo : 4 * (N / p) * p < HI4) by nia.
  assert (Hhi : LO4 < 4 * (N / p + 1) * p) by nia.
  destruct (Z.compare_spec LO4 (4 * (N / p) * p)) as [Hj|Hj|Hj];
    destruct (Z.compare_spec (4 * (N / p + 1) * p) HI4) as [Hj1|Hj1|Hj1];
    destruct even; repeat case_match; intros [= <-];
    rewrite ?andb_true_iff, ?Z.leb_le, ?Z.ltb_lt; lia.
Qed.

(** Where [choose] returns nothing, neither neighbour is inside. *)
Lemma choose_none (p : Z) :
  choose N LO4 HI4 even p = None →
  inside LO4 HI4 even (N / p) p = false ∧ inside LO4 HI4 even (N / p + 1) p = false.
Proof.
  unfold choose, inside.
  destruct (Z.compare_spec LO4 (4 * (N / p) * p)) as [Hj|Hj|Hj];
    destruct (Z.compare_spec (4 * (N / p + 1) * p) HI4) as [Hj1|Hj1|Hj1];
    destruct even; repeat case_match; try done; intros _;
    rewrite !andb_false_iff, ?Z.leb_gt, ?Z.ltb_ge; lia.
Qed.

(** With all its digits the number is its own decimal. *)
Lemma choose_exact : LO4 < 4 * N < HI4 → is_Some (choose N LO4 HI4 even 1).
Proof.
  intros HN. unfold choose. rewrite Z.div_1_r, !Z.mul_1_r, Z.sub_diag.
  replace (LO4 ?= 4 * N) with Lt by (symmetry; apply Z.compare_lt_iff; lia).
  cbn [Z.eqb]. by repeat case_match.
Qed.

(** The search ends on a decimal that is inside the midpoints, and no
    decimal the search tried before is: the digits are the shortest. *)
Lemma shortest_spec (fuel : nat) (D n : Z) :
  LO4 < 4 * N < HI4 → n ≤ D → D - n < Z.of_nat fuel →
  let cn := shortest N LO4 HI4 even fuel D n in
  n ≤ cn.2 ≤ D ∧
  inside LO4 HI4 even cn.1 (10 ^ (D - cn.2)) = true ∧
  ∀ n', n ≤ n' < cn.2 → choose N LO4 HI4 even (10 ^ (D - n')) = None.
Proof.
  intros HN. revert n. induction fuel as [|fuel IH]; intros n Hn Hfuel; [lia|].
  cbn [shortest]. destruct (choose _ _ _ _ (10 ^ (D - n))) as [c|] eqn:Hc; cbn [fst snd].
  - split; [lia|]. split; [|lia].
    eapply choose_inside; [|done..]. apply Z.pow_pos_nonneg; lia.
  - assert (n < D) as Hlt.
    { destruct (decide (n = D)) as [->|]; [|lia].
      rewrite Z.sub_diag in Hc. change (10 ^ 0) with 1 in Hc.
      destruct (choose_exact HN) as [? ?]. congruence. }
    destruct (IH (n + 1)) as (Hle & Hin & Hbefore); [lia..|].
    split; [lia|]. split; [done|].
    intros n' Hn'. destruct (decide (n' = n)) as [->|]; [done|]. apply Hbefore. lia.
Qed.

End DigitsFacts.

(** C20. The digits [float_digits] finds for the float [m * 2^e]: the decimal
    they write lies between the midpoints to the two neighbours of the
    float, so that it reads back as the float; and no decimal of fewer
    digits does, neither the one below the float nor the one above. *)
Theorem float_digits_shortest (m e : Z) :
  0 < m →
  let u := if e <? 0 then 5 ^ (- e) else 2 ^ e in
  let N := m * u in
  let LO4 := (4 * m - (if (m =? 2 ^ 52) && (-1074 <? e) then 1 else 2)) * u in
  let HI4 := (4 * m + 2) * u in
  let D := number_of_digits N in
  let cn := shortest N LO4 HI4 (Z.even m) (Z.to_nat D) D 1 in
  (float_digits m e).1 = strip_zeros (list_ascii_of_string (str_of_Z cn.1)) ∧
  inside LO4 HI4 (Z.even m) cn.1 (10 ^ (D - cn.2)) = true ∧
  ∀ n, 1 ≤ n < cn.2 →
    inside LO4 HI4 (Z.even m) (N / 10 ^ (D - n)) (10 ^ (D - n)) = false ∧
    inside LO4 HI4 (Z.even m) (N / 10 ^ (D - n) + 1) (10 ^ (D - n)) = false.
Proof.
  intros Hm u N LO4 HI4 D cn. split; [done|].
  assert (0 < u) as Hu by (unfold u; case_match; apply Z.pow_pos_nonneg; lia).
  assert (LO4 < 4 * N < HI4) as HN by (unfold LO4, HI4, N; case_match; nia).
  destruct (decide (1 ≤ D)) as [HD|HD].
  - destruct (shortest_spec N LO4 HI4 (Z.even m) (Z.to_nat D) D 1 HN HD ltac:(lia))
      as (_ & Hin & Hbefore).
    split; [done|]. intros n Hn. by apply choose_none, Hbefore.
  - unfold cn. replace (Z.to_nat D) with 0%nat by lia. cbn [shortest fst snd].
    split; [|lia]. rewrite Z.sub_diag. unfold inside.
    change (10 ^ 0) with 1. rewrite Z.mul_1_r.
    destruct (Z.even m); apply andb_true_iff; split;
      first [apply Z.leb_le|apply Z.ltb_lt]; lia.
Qed.

(** At [10.5]: the digits are [105], found at three digits; [1] and [2],
    [10] and [11] are outside the midpoints. *)
Lemma float_digits_shortest_witness :
  let m := 5910974510923776 in
  let e := -49 in
  let u := 5 ^ (- e) in
  let N := m * u in
  let LO4 := (4 * m - 2) * u in
  let HI4 := (4 * m + 2) * u in
  let D := number_of_digits N in
  let cn := shortest N LO4 HI4 (Z.even m) (Z.to_nat D) D 1 in
  (float_digits m e).1 = strip_zeros (list_ascii_of_string (str_of_Z cn.1)) ∧
  inside LO4 HI4 (Z.even m) cn.1 (10 ^ (D - cn.2)) = true ∧
  ∀ n, 1 ≤ n < cn.2 →
    inside LO4 HI4 (Z.even m) (N / 10 ^ (D - n)) (10 ^ (D - n)) = false ∧
    inside LO4 HI4 (Z.even m) (N / 10 ^ (D - n) + 1) (10 ^ (D - n)) = false.
Proof. by apply (float_digits_shortest 5910974510923776 (-49)). Defined.

Example float_digits_sample :
  float_digits 5910974510923776 (-49) = (list_ascii_of_string "105", 2).
Proof. by vm_compute. Qed.

(** [float_repr] never raises. *)
Lemma float_repr_no_raise (f : spec_float) : is_raise (float_repr f) = false.
Proof. destruct f as [[]|[]| |s m e]; try done. cbn. by destruct (bounded _ _ _ _). Qed.

(** ** Known numbers *)

(** [0.1], [0.3], [10.5], [50.0] and [0.1 + 0.2]. *)
Example repr_tenth : float_repr (S754_finite false 7205759403792794 (-56)) = Ok "0.1"%string.
Proof. by vm_compute. Qed.

Example repr_three_tenths :
  float_repr (S754_finite false 5404319552844595 (-54)) = Ok "0.3"%string.
Proof. by vm_compute. Qed.

Example repr_ten_and_a_half :
  float_repr (S754_finite false 5910974510923776 (-49)) = Ok "10.5"%string.
Proof. by vm_compute. Qed.

Example repr_fifty :
  float_repr (S754_finite true 7036874417766400 (-47)) = Ok "-50.0"%string.
Proof. by vm_compute. Qed.

Example repr_sum :
  float_repr (S754_finite false 5404319552844596 (-54)) = Ok "0.30000000000000004"%string.
Proof. by vm_compute. Qed.
