(* ===== verification/PyJson.v ===== *)
(** * [json.dumps(v, sort_keys=True)] and the JSON file round trip

    The text [json.dumps] prints with its default separators and
    [ensure_ascii], the entries of every dictionary sorted.  Python sorts the
    [(key, value)] pairs of a dictionary; the keys of a dictionary are
    distinct, so the order is the order of the keys, and sorting raises
    [TypeError] as soon as [None] and a string must be compared.  A key that
    is [None] is printed as ["null"].

    Floats are printed as [float_repr] of [PyFloat] prints them: [NaN],
    [Infinity], [-Infinity], and the shortest digits of the other
    floats.

    [json_roundtrip] is the value [json.load] reads from what [json.dump]
    wrote: keys become strings, and entries whose keys print the same are
    merged, the last value at the first position. *)

From Stdlib Require Import ZArith String Ascii SpecFloat.
From stdpp Require Import base tactics option list strings sorting.
From S2P Require Import Prelude PyDict PyValue PyStr PyFloat.

Local Open Scope string_scope.

(** ** Strings *)

Definition quote : string := String "034"%char EmptyString.
Definition backslash : string := String "092"%char EmptyString.

(** The escape of one character under [ensure_ascii]. *)
Definition escape_char (c : ascii) : string :=
  let n := nat_of_ascii c in
  if (n =? 34)%nat then backslash +:+ quote
  else if (n =? 92)%nat then backslash +:+ backslash
  else if (n =? 10)%nat then backslash +:+ "n"
  else if (n =? 13)%nat then backslash +:+ "r"
  else if (n =? 9)%nat then backslash +:+ "t"
  else if (n =? 8)%nat then backslash +:+ "b"
  else if (n =? 12)%nat then backslash +:+ "f"
  else if ((32 <=? n) && (n <=? 126))%nat then String c EmptyString
  else backslash +:+ "u" +:+ string_of_list_ascii (hex_fixed 4 (Z.of_nat n)).

Fixpoint escape (s : string) : string :=
  match s with
  | EmptyString => EmptyString
  | String c s' => escape_char c +:+ escape s'
  end.

Definition dumps_str (s : string) : string := quote +:+ escape s +:+ quote.

(** A key as [json.dumps] prints it. *)
Definition dumps_key (k : pykey) : string :=
  match k with
  | KStr s => dumps_str s
  | KNone => quote +:+ "null" +:+ quote
  end.

(** ** The order of the items of a dictionary *)

Section Lex.
Context {A B : Type} (RA : relation A) (RB : relation B).
Context `{!EqDecision A, !PartialOrder RA, !Total RA, !PartialOrder RB, !Total RB}.

(** Pairs compared by their first components, then by their second. *)
Definition lex_le (a b : A * B) : Prop :=
  (a.1 ≠ b.1 ∧ RA a.1 b.1) ∨ (a.1 = b.1 ∧ RB a.2 b.2).

#[export] Instance lex_le_total : Total lex_le.
Proof.
  intros [a1 a2] [b1 b2]. unfold lex_le. simpl.
  destruct (decide (a1 = b1)) as [->|Hne].
  - destruct (total RB a2 b2); [left|right]; right; done.
  - destruct (total RA a1 b1); [left|right]; left; done.
Qed.

#[export] Instance lex_le_antisym : AntiSymm (=) lex_le.
Proof.
  intros [a1 a2] [b1 b2]. unfold lex_le. simpl.
  intros [[Hne H1]|[-> H1]] [[Hne' H2]|[? H2]]; try done.
  - destruct Hne. by apply (anti_symm RA).
  - f_equal. by apply (anti_symm RB).
Qed.

#[export] Instance lex_le_trans : Transitive lex_le.
Proof.
  intros [a1 a2] [b1 b2] [c1 c2]. unfold lex_le. simpl.
  intros [[Hne H1]|[-> H1]] [[Hne' H2]|[-> H2]]; [left|left|left|right]; try done.
  - split; [|by etrans]. intros ->. destruct Hne. by apply (anti_symm RA).
  - split; [done|]. by etrans.
Qed.

End Lex.

Definition item_le : relation (string * string) := lex_le String.le String.le.

#[export] Instance item_le_dec : RelDecision item_le.
Proof. intros a b. unfold item_le, lex_le. apply _. Defined.

(** [sorted(items)]. *)
Definition sort_items (items : list (string * string)) : list (string * string) :=
  merge_sort item_le items.

(** The keys as strings, when all of them are strings. *)
Fixpoint str_keys (ks : list pykey) : option (list string) :=
  match ks with
  | [] => Some []
  | KStr s :: ks' => r ← str_keys ks'; Some (s :: r)
  | KNone :: _ => None
  end.

(** ** [dumps] *)

Definition brackets (l r : string) (parts : list string) : string :=
  l +:+ String.concat ", " parts +:+ r.

Definition dumps_item (kv : string * string) : string :=
  dumps_str kv.1 +:+ ": " +:+ kv.2.

Fixpoint dumps (v : pyval) : outcome string :=
  match v with
  | PNone => Ok "null"
  | PBool true => Ok "true"
  | PBool false => Ok "false"
  | PInt z => Ok (str_of_Z z)
  | PFloat f => float_repr f
  | PStr s => Ok (dumps_str s)
  | PList l => parts ← outcome_map dumps l; Ok (brackets "[" "]" parts)
  | PDict d =>
      match str_keys d.*1 with
      | Some ks =>
          vals ← outcome_map (λ kv, dumps kv.2) d;
          Ok (brackets "{" "}" (map dumps_item (sort_items (zip ks vals))))
      | None =>
          match d with
          | [(KNone, x)] =>
              s ← dumps x;
              Ok (brackets "{" "}" [quote +:+ "null" +:+ quote +:+ ": " +:+ s])
          | _ => Raise TypeError
          end
      end
  end.

(** ** The file round trip *)

Definition coerce_key (k : pykey) : pykey :=
  match k with
  | KNone => KStr "null"
  | KStr s => KStr s
  end.

Fixpoint json_roundtrip (v : pyval) : pyval :=
  match v with
  | PList l => PList (map json_roundtrip l)
  | PDict d =>
      PDict (dict_of_list (map (λ kv, (coerce_key kv.1, json_roundtrip kv.2)) d))
  | _ => v
  end.

(** ** Facts *)

Lemma sort_items_perm (l1 l2 : list (string * string)) :
  l1 ≡ₚ l2 → sort_items l1 = sort_items l2.
Proof.
  intros Hp. unfold sort_items.
  apply (Sorted_unique item_le); try apply Sorted_merge_sort; try apply _.
  by rewrite !merge_sort_Permutation.
Qed.

Lemma sort_items_sorted (l : list (string * string)) : Sorted item_le (sort_items l).
Proof. apply Sorted_merge_sort; apply _. Qed.

Lemma sort_items_elem (l : list (string * string)) : sort_items l ≡ₚ l.
Proof. apply merge_sort_Permutation. Qed.

Lemma str_keys_pdict {V} (items : list (string * V)) :
  str_keys (map (λ kv, (KStr kv.1, kv.2)) items).*1 = Some items.*1.
Proof.
  induction items as [|[k x] items IH]; [done|]. cbn in *. by rewrite IH.
Qed.

(** The keys and the printed values of the items of a dictionary. *)
Definition dumps_items (d : list (pykey * pyval)) : option (outcome (list (string * string))) :=
  ks ← str_keys d.*1;
  Some (vals ← outcome_map (λ kv, dumps kv.2) d; Ok (zip ks vals)).

Lemma dumps_dict_items (d : list (pykey * pyval)) (r : outcome (list (string * string))) :
  dumps_items d = Some r →
  dumps (PDict d) =
    (items ← r; Ok (brackets "{" "}" (map dumps_item (sort_items items)))).
Proof.
  unfold dumps_items. cbn [dumps]. destruct (str_keys d.*1); [|done].
  cbn. intros [= <-]. by destruct (outcome_map _ d).
Qed.

(** The items of a dictionary taken in another order are the same items in
    that order, when every value prints. *)
Lemma dumps_items_perm (d1 d2 : list (pykey * pyval)) (i1 : list (string * string)) :
  d1 ≡ₚ d2 → dumps_items d1 = Some (Ok i1) →
  ∃ i2, dumps_items d2 = Some (Ok i2) ∧ i1 ≡ₚ i2.
Proof.
  unfold dumps_items. intros Hp. revert i1.
  induction Hp as [|[k x] d1 d2 Hp IH|[k x] [k' x'] d|d1 d2 d3 _ IH1 _ IH2];
    intros i1; cbn.
  - intros [= <-]. by exists [].
  - destruct k; [done|]. destruct (str_keys d1.*1) as [ks|] eqn:E; [|done].
    cbn. destruct (dumps x); try done.
    destruct (outcome_map _ d1) as [vs| |] eqn:Ev; try done. cbn.
    intros [= <-]. destruct (IH (zip ks vs)) as (i2 & H2 & Hi); [done|].
    destruct (str_keys d2.*1); [|done]. cbn in H2.
    destruct (outcome_map _ d2); try done. cbn in *. simplify_eq.
    eexists. split; [done|]. by constructor.
  - destruct k', k; try done. destruct (str_keys d.*1) as [ks|]; [|done]. cbn.
    destruct (dumps x'), (dumps x); try done.
    destruct (outcome_map _ d); try done. cbn.
    intros [= <-]. eexists. split; [done|]. constructor.
  - intros H1. destruct (IH1 _ H1) as (i2 & H2 & Hp2).
    destruct (IH2 _ H2) as (i3 & H3 & Hp3). exists i3. split; [done|]. by etrans.
Qed.

Lemma str_keys_perm (k1 k2 : list pykey) :
  k1 ≡ₚ k2 → str_keys k1 = None → str_keys k2 = None.
Proof.
  intros Hp.
  induction Hp as [|k l1 l2 Hp IH|k k' l|l1 l2 l3 _ IH1 _ IH2]; cbn; auto.
  - destruct k; [done|]. destruct (str_keys l1); [done|]. by rewrite IH.
  - destruct k, k'; try done. by destruct (str_keys l).
Qed.

(** The text does not depend on the order in which the keys of a
    dictionary were inserted. *)
Lemma dumps_dict_perm (d1 d2 : list (pykey * pyval)) (s : string) :
  d1 ≡ₚ d2 → dumps (PDict d1) = Ok s → dumps (PDict d2) = Ok s.
Proof.
  intros Hp. destruct (dumps_items d1) as [r1|] eqn:E1.
  - rewrite (dumps_dict_items _ _ E1). destruct r1 as [i1| |]; try done.
    destruct (dumps_items_perm _ _ _ Hp E1) as (i2 & E2 & Hi).
    rewrite (dumps_dict_items _ _ E2). cbn.
    by rewrite (sort_items_perm _ _ Hi).
  - assert (str_keys d1.*1 = None) as Hk1.
    { unfold dumps_items in E1. by destruct (str_keys d1.*1). }
    pose proof (str_keys_perm _ _ (fmap_Permutation fst _ _ Hp) Hk1) as Hk2.
    destruct d1 as [|[[] x] [|]]; try (by cbn [dumps]; rewrite ?Hk1).
    apply Permutation_singleton_l in Hp as ->. done.
Qed.

Lemma dumps_pdict (items : list (string * pyval)) :
  dumps (pdict items) =
    (vals ← outcome_map (λ kv, dumps kv.2) items;
     Ok (brackets "{" "}" (map dumps_item (sort_items (zip items.*1 vals))))).
Proof.
  unfold pdict. cbn [dumps]. rewrite str_keys_pdict.
  f_equal. induction items as [|[k x] items IH]; [done|].
  cbn. by rewrite IH.
Qed.

Lemma outcome_map_raise {A B} (f : A → outcome B) (l : list A) (e : exn) :
  outcome_map f l = Raise e → ∃ x, x ∈ l ∧ f x = Raise e.
Proof.
  induction l as [|x l IH]; [done|]. cbn.
  destruct (f x) eqn:Ex; try done.
  - destruct (outcome_map f l); try done. intros [= ->].
    destruct IH as (y & ? & ?); [done|]. exists y. split; [by right|done].
  - intros [= ->]. exists x. split; [by left|done].
Qed.

(** [dumps] raises nothing but [TypeError]. *)
Lemma dumps_raise (v : pyval) (e : exn) : dumps v = Raise e → e = TypeError.
Proof.
  induction v as [| [] | |f| |l IH|d IH] using pyval_ind; cbn [dumps]; try done.
  - pose proof (float_repr_no_raise f). by destruct (float_repr f).
  - destruct (outcome_map dumps l) as [r|e'|] eqn:E; cbn; try done.
    intros [= ->]. apply outcome_map_raise in E as (x & Hx & Ex).
    rewrite Forall_forall in IH. eauto.
  - destruct (str_keys d.*1).
    + destruct (outcome_map _ d) as [r|e'|] eqn:E; cbn; try done.
      intros [= ->]. apply outcome_map_raise in E as (x & Hx & Ex).
      rewrite Forall_forall in IH. eauto.
    + destruct d as [|[[] x] [|]]; try (by intros [= <-]).
      apply Forall_cons in IH as [Hx _]. cbn in Hx.
      destruct (dumps x); cbn; done.
Qed.

