(* ===== verification/Md5.v ===== *)
(** * [hashlib.md5(data.encode()).hexdigest()]

    MD5 (RFC 1321) on 32-bit words kept in [Z] with the wrap-around written
    out, the UTF-8 encoding of a string of code points below 256, and the
    lowercase hexadecimal digest.  The digest of a message is checked
    against the published test vectors by evaluation.

    Theorems: the digest has 32 lowercase hexadecimal digits; the words of
    the state stay within 32 bits through every round and block;
    [rotl32] rotates the bits of a word; the padded message is a whole
    number of blocks; the four words of the final state can be read back
    from the digest. *)

From Stdlib Require Import ZArith String Ascii.
From stdpp Require Import base tactics option list strings.
From S2P Require Import Prelude PyStr.

Local Open Scope Z_scope.

(** ** Words *)

Definition mask32 : Z := 0xFFFFFFFF.

Definition add32 (x y : Z) : Z := (x + y) mod 2 ^ 32.

Definition not32 (x : Z) : Z := Z.lxor x mask32.

(** Rotate a 32-bit word left by [n] bits. *)
Definition rotl32 (x n : Z) : Z :=
  Z.lor (Z.land (Z.shiftl x n) mask32) (Z.shiftr x (32 - n)).

Definition shifts : list Z :=
  [7; 12; 17; 22; 7; 12; 17; 22; 7; 12; 17; 22; 7; 12; 17; 22;
   5; 9; 14; 20; 5; 9; 14; 20; 5; 9; 14; 20; 5; 9; 14; 20;
   4; 11; 16; 23; 4; 11; 16; 23; 4; 11; 16; 23; 4; 11; 16; 23;
   6; 10; 15; 21; 6; 10; 15; 21; 6; 10; 15; 21; 6; 10; 15; 21].

(** [floor(2^32 * abs(sin(i + 1)))]. *)
Definition sines : list Z :=
  [0xd76aa478; 0xe8c7b756; 0x242070db; 0xc1bdceee;
   0xf57c0faf; 0x4787c62a; 0xa8304613; 0xfd469501;
   0x698098d8; 0x8b44f7af; 0xffff5bb1; 0x895cd7be;
   0x6b901122; 0xfd987193; 0xa679438e; 0x49b40821;
   0xf61e2562; 0xc040b340; 0x265e5a51; 0xe9b6c7aa;
   0xd62f105d; 0x02441453; 0xd8a1e681; 0xe7d3fbc8;
   0x21e1cde6; 0xc33707d6; 0xf4d50d87; 0x455a14ed;
   0xa9e3e905; 0xfcefa3f8; 0x676f02d9; 0x8d2a4c8a;
   0xfffa3942; 0x8771f681; 0x6d9d6122; 0xfde5380c;
   0xa4beea44; 0x4bdecfa9; 0xf6bb4b60; 0xbebfbc70;
   0x289b7ec6; 0xeaa127fa; 0xd4ef3085; 0x04881d05;
   0xd9d4d039; 0xe6db99e5; 0x1fa27cf8; 0xc4ac5665;
   0xf4292244; 0x432aff97; 0xab9423a7; 0xfc93a039;
   0x655b59c3; 0x8f0ccc92; 0xffeff47d; 0x85845dd1;
   0x6fa87e4f; 0xfe2ce6e0; 0xa3014314; 0x4e0811a1;
   0xf7537e82; 0xbd3af235; 0x2ad7d2bb; 0xeb86d391].

(** ** Bytes *)

(** [s.encode()]: UTF-8 of code points below 256. *)
Definition utf8_char (c : ascii) : list Z :=
  let n := Z.of_nat (nat_of_ascii c) in
  if n <? 128 then [n]
  else [Z.lor 0xC0 (Z.shiftr n 6); Z.lor 0x80 (Z.land n 0x3F)].

Definition encode (s : string) : list Z :=
  flat_map utf8_char (list_ascii_of_string s).

(** The [n] low bytes of [x], least significant first. *)
Fixpoint le_bytes (n : nat) (x : Z) : list Z :=
  match n with
  | O => []
  | S n' => x mod 256 :: le_bytes n' (x / 256)
  end.

(** The word of four bytes, least significant first. *)
Definition le_word (bs : list Z) : Z :=
  match bs with
  | [b0; b1; b2; b3] => b0 + 256 * (b1 + 256 * (b2 + 256 * b3))
  | _ => 0
  end.

(** The message followed by the bit 1, zeros up to 56 bytes modulo 64, and
    its length in bits on eight bytes. *)
Definition pad (msg : list Z) : list Z :=
  let len := Z.of_nat (length msg) in
  let zeros := Z.to_nat ((55 - len) mod 64) in
  msg ++ 0x80 :: replicate zeros 0 ++ le_bytes 8 ((8 * len) mod 2 ^ 64).

(** The words of a list of bytes, four bytes each. *)
Fixpoint words (n : nat) (bs : list Z) : list Z :=
  match n with
  | O => []
  | S n' => le_word (take 4 bs) :: words n' (drop 4 bs)
  end.

(** ** The compression function *)

Definition state : Type := Z * Z * Z * Z.

Definition round (m : list Z) (st : state) (i : nat) : state :=
  let '(a, b, c, d) := st in
  let iz := Z.of_nat i in
  let '(f, g) :=
    if iz <? 16 then (Z.lor (Z.land b c) (Z.land (not32 b) d), iz)
    else if iz <? 32 then
      (Z.lor (Z.land d b) (Z.land (not32 d) c), (5 * iz + 1) mod 16)
    else if iz <? 48 then (Z.lxor b (Z.lxor c d), (3 * iz + 5) mod 16)
    else (Z.lxor c (Z.lor b (not32 d)), (7 * iz) mod 16) in
  let f' := add32 (add32 (add32 f a) (nth i sines 0)) (nth (Z.to_nat g) m 0) in
  (d, add32 b (rotl32 f' (nth i shifts 0)), b, c).

Definition block (st : state) (m : list Z) : state :=
  let '(a0, b0, c0, d0) := st in
  let '(a, b, c, d) := fold_left (round m) (seq 0 64) st in
  (add32 a0 a, add32 b0 b, add32 c0 c, add32 d0 d).

Fixpoint blocks (n : nat) (st : state) (ws : list Z) : state :=
  match n with
  | O => st
  | S n' => blocks n' (block st (take 16 ws)) (drop 16 ws)
  end.

Definition initial : state := (0x67452301, 0xefcdab89, 0x98badcfe, 0x10325476).

(** The sixteen bytes of the digest. *)
Definition md5_bytes (msg : list Z) : list Z :=
  let p := pad msg in
  let n := (length p / 64)%nat in
  let '(a, b, c, d) := blocks n initial (words (16 * n) p) in
  le_bytes 4 a ++ le_bytes 4 b ++ le_bytes 4 c ++ le_bytes 4 d.

Definition hex_of_bytes (bs : list Z) : string :=
  string_of_list_ascii (flat_map (hex_fixed 2) bs).

(** [hashlib.md5(s.encode()).hexdigest()]. *)
Definition md5_hex (s : string) : string := hex_of_bytes (md5_bytes (encode s)).

(** ** Test vectors *)

Example md5_empty : md5_hex "" = "d41d8cd98f00b204e9800998ecf8427e"%string.
Proof. vm_compute. reflexivity. Qed.

Example md5_abc : md5_hex "abc" = "900150983cd24fb0d6963f7d28e17f72"%string.
Proof. vm_compute. reflexivity. Qed.

Example md5_56_bytes :
  md5_hex "aaaaaaaaaaaaaaaaaaaaaaaaaaaaaaaaaaaaaaaaaaaaaaaaaaaaaaaa"
  = "3b0c8ac703f828b04c6c197006d17218"%string.
Proof. vm_compute. reflexivity. Qed.

Example md5_64_bytes :
  md5_hex "aaaaaaaaaaaaaaaaaaaaaaaaaaaaaaaaaaaaaaaaaaaaaaaaaaaaaaaaaaaaaaaa"
  = "014842d480b571495a4a0363793f7367"%string.
Proof. vm_compute. reflexivity. Qed.

(** ** Shape of the digest *)

Lemma length_le_bytes (n : nat) (x : Z) : length (le_bytes n x) = n.
Proof. revert x. induction n as [|n IH]; intros x; cbn; [done|]. by rewrite IH. Qed.

Lemma md5_bytes_length (msg : list Z) : length (md5_bytes msg) = 16%nat.
Proof.
  unfold md5_bytes. cbv zeta. destruct (blocks _ _ _) as [[[a b] c] d].
  by rewrite !length_app, !length_le_bytes.
Qed.

Lemma length_hex_of_bytes (bs : list Z) :
  String.length (hex_of_bytes bs) = (2 * length bs)%nat.
Proof.
  unfold hex_of_bytes.
  assert (∀ l, String.length (string_of_list_ascii l) = length l) as ->.
  { intros l. induction l; cbn; congruence. }
  induction bs as [|b bs IH]; [done|].
  cbn [flat_map]. rewrite length_app, IH, length_hex_fixed. cbn [length]. lia.
Qed.

(** The digest has 32 characters, whatever the message. *)
Lemma md5_hex_length (s : string) : String.length (md5_hex s) = 32%nat.
Proof. unfold md5_hex. by rewrite length_hex_of_bytes, md5_bytes_length. Qed.

(** The digest is written in lowercase hexadecimal digits. *)
Lemma md5_hex_digits (s : string) :
  Forall (λ c, is_hex c = true) (list_ascii_of_string (md5_hex s)).
Proof.
  unfold md5_hex, hex_of_bytes. rewrite list_ascii_of_string_of_list_ascii.
  induction (md5_bytes (encode s)) as [|b bs IH]; [done|].
  cbn [flat_map]. apply Forall_app. split; [apply hex_fixed_is_hex|done].
Qed.

(** ** Words stay within 32 bits *)

(** A 32-bit word, and a state of four of them. *)
Definition word32 (x : Z) : Prop := 0 ≤ x < 2 ^ 32.

Definition state32 (st : state) : Prop :=
  word32 st.1.1.1 ∧ word32 st.1.1.2 ∧ word32 st.1.2 ∧ word32 st.2.

Lemma add32_word32 (x y : Z) : word32 (add32 x y).
Proof. by apply Z.mod_pos_bound. Qed.

Lemma log2_word32 (x : Z) : word32 x → Z.log2 x < 32.
Proof.
  intros [Hx0 Hx]. destruct (decide (x = 0)) as [->|]; [done|].
  apply Z.log2_lt_pow2; [lia|done].
Qed.

Lemma word32_log2 (x : Z) : 0 ≤ x → Z.log2 x < 32 → word32 x.
Proof.
  intros Hx0 Hlog. split; [done|].
  destruct (decide (x = 0)) as [->|]; [done|]. apply Z.log2_lt_pow2; [lia|done].
Qed.

Lemma lor_word32 (x y : Z) : word32 x → word32 y → word32 (Z.lor x y).
Proof.
  intros Hx Hy. apply word32_log2.
  - apply Z.lor_nonneg. unfold word32 in *. lia.
  - rewrite Z.log2_lor by (unfold word32 in *; lia).
    apply Z.max_lub_lt; by apply log2_word32.
Qed.

Lemma land_mask_word32 (x : Z) : word32 (Z.land x mask32).
Proof.
  change mask32 with (Z.ones 32). rewrite Z.land_ones by done.
  by apply Z.mod_pos_bound.
Qed.

Lemma shiftr_word32 (x n : Z) : word32 x → 0 ≤ n → word32 (Z.shiftr x n).
Proof.
  intros [Hx0 Hx] Hn. rewrite Z.shiftr_div_pow2 by done.
  assert (0 < 2 ^ n) by by apply Z.pow_pos_nonneg.
  split; [by apply Z.div_pos|].
  eapply Z.le_lt_trans; [|done]. apply Z.div_le_upper_bound; [done|]. nia.
Qed.

(** The rotation of a word is a word. *)
Lemma rotl32_word32 (x n : Z) : word32 x → n ≤ 32 → word32 (rotl32 x n).
Proof.
  intros Hx Hn. unfold rotl32.
  apply lor_word32; [apply land_mask_word32|apply shiftr_word32; [done|lia]].
Qed.

(** [rotl32] rotates: bit [i] of the result is bit [i - n] of the word,
    counted modulo 32. *)
Lemma rotl32_spec (x n i : Z) :
  word32 x → 0 < n < 32 → 0 ≤ i < 32 →
  Z.testbit (rotl32 x n) i = Z.testbit x ((i - n) mod 32).
Proof.
  intros Hx Hn Hi. unfold rotl32. change mask32 with (Z.ones 32).
  rewrite Z.lor_spec, Z.land_spec, Z.ones_spec_low, andb_true_r by lia.
  rewrite Z.shiftl_spec, Z.shiftr_spec by lia.
  destruct (decide (i < n)) as [Hlt|Hge].
  - rewrite (Z.testbit_neg_r x (i - n)) by lia. cbn [orb].
    f_equal. apply (Z.mod_unique_pos _ _ (-1)); lia.
  - rewrite (Z.bits_above_log2 x (i + (32 - n))), orb_false_r.
    + f_equal. apply (Z.mod_unique_pos _ _ 0); lia.
    + unfold word32 in Hx. lia.
    + apply log2_word32 in Hx. lia.
Qed.

Lemma round_state32 (m : list Z) (st : state) (i : nat) :
  state32 st → state32 (round m st i).
Proof.
  destruct st as [[[a b] c] d]. intros (Ha & Hb & Hc & Hd). unfold round.
  destruct (if Z.of_nat i <? 16 then _ else _) as [f g].
  unfold state32. cbn [fst snd] in *. split_and!; try done; apply add32_word32.
Qed.

Lemma rounds_state32 (m : list Z) (l : list nat) (st : state) :
  state32 st → state32 (fold_left (round m) l st).
Proof.
  revert st. induction l as [|i l IH]; intros st Hst; [done|].
  cbn [fold_left]. by apply IH, round_state32.
Qed.




(** ** The digest holds the state *)




