(* ===== verification/World.v ===== *)
(** * The environment of the program

    What the scripts see of the outside: the wall clock ([datetime.now()]),
    the source of random identifiers ([uuid.uuid4()]) and the files they
    read and write with [json.load] and [json.dump].

    The clock and the identifier source are sequences: the n-th call returns
    the n-th element, and the state counts the calls.  A file holds a JSON
    value or content that does not parse.  A path may be unwritable: opening
    it for writing raises [OSError] and leaves the file as it was. *)

From Stdlib Require Import ZArith String Ascii.
From stdpp Require Import base tactics option list strings gmap.
From S2P Require Import Prelude PyDict PyValue PyStr DateTime PyJson.

Set Default Proof Using "Type".

Inductive file : Type :=
| FJson (v : pyval)
| FGarbage.

Record World : Type := mk_world {
  clock : nat → datetime;
  ticks : nat;
  uuids : nat → string;
  draws : nat;
  fs : gmap string file;
  unwritable : string → bool;
  mtime : gmap string nat;
  writes : nat
}.

(** The state after the value [v] was written to the path [p]: the file
    holds what [json.load] will read, and it is the newest file. *)
Definition written (p : string) (v : pyval) (w : World) : World :=
  mk_world (clock w) (ticks w) (uuids w) (draws w)
    (<[p := FJson (json_roundtrip v)]> (fs w)) (unwritable w)
    (<[p := writes w]> (mtime w)) (S (writes w)).

(** The state after one reading of the clock. *)
Definition tick (w : World) : World :=
  mk_world (clock w) (S (ticks w)) (uuids w) (draws w) (fs w) (unwritable w)
    (mtime w) (writes w).

(** The state after one identifier was drawn. *)
Definition draw (w : World) : World :=
  mk_world (clock w) (ticks w) (uuids w) (S (draws w)) (fs w) (unwritable w)
    (mtime w) (writes w).

(** [datetime.now()]. *)
Definition now : M World datetime := λ w, (Ok (clock w (ticks w)), tick w).

(** [datetime.now().isoformat()]. *)
Definition now_iso : M World pyval := dt ← now; mret (PStr (isoformat dt)).

(** [str(uuid.uuid4())]. *)
Definition uuid4 : M World string := λ w, (Ok (uuids w (draws w)), draw w).

(** [path.exists()]. *)
Definition path_exists (p : string) : M World bool :=
  gets (λ w, bool_decide (is_Some (fs w !! p))).

(** [with open(p, 'r') as f: json.load(f)]: [OSError] for a missing file,
    [ValueError] (JSONDecodeError) for content that does not parse. *)
Definition read_json (p : string) : M World pyval := λ w,
  match fs w !! p with
  | Some (FJson v) => (Ok v, w)
  | Some FGarbage => (Raise ValueError, w)
  | None => (Raise OSError, w)
  end.

(** [with open(p, 'w') as f: json.dump(v, f, indent=2)]. *)
Definition write_json (p : string) (v : pyval) : M World unit := λ w,
  if unwritable w p then (Raise OSError, w)
  else (Ok tt, written p v w).

(** [p.stat().st_mtime] of a file that exists. *)
Definition st_mtime (w : World) (p : string) : nat := default 0%nat (mtime w !! p).

(** [base / name] for paths. *)
Definition path_join (base name : string) : string := base +:+ "/" +:+ name.

(** [Path(__file__).parent.parent]: the directory above [scripts/]. *)
Definition script_root : string := ".".

(** [datetime.now().strftime('%Y%m%d_%H%M%S')]. *)
Definition now_stamp : M World string := dt ← now; mret (strftime_stamp dt).

(** Every reading of the clock is a date-time [datetime] can hold. *)
Definition clock_valid (w : World) : Prop :=
  ∀ n, valid_datetime (clock w n) = true.

(** ** An environment for examples

    The clock starts at 2024-01-15T10:30:00 and advances one second per
    reading, within the minute; there are four identifiers; there are no
    files and every path can be written. *)

Definition sample_clock (n : nat) : datetime :=
  nth n (map (λ s, mk_datetime 2024 1 15 10 30 s 0) [0; 1; 2; 3; 4; 5; 6; 7]%Z)
        (mk_datetime 2024 1 15 10 30 8 0).

Definition sample_uuids (n : nat) : string :=
  nth n ["7d9f1c1e-0000-4000-8000-000000000001";
         "1b4e28ba-0000-4000-8000-000000000002";
         "c56a4180-0000-4000-8000-000000000003"]
        "e4eaaaf2-0000-4000-8000-000000000004".

Definition sample_world : World :=
  mk_world sample_clock 0 sample_uuids 0 ∅ (λ _, false) ∅ 0.

(** ** Facts *)

Lemma run_now (w : World) : now ⇓ w = (Ok (clock w (ticks w)), tick w).
Proof. reflexivity. Qed.

Lemma run_now_iso (w : World) :
  now_iso ⇓ w = (Ok (PStr (isoformat (clock w (ticks w)))), tick w).
Proof. reflexivity. Qed.

Lemma run_uuid4 (w : World) : uuid4 ⇓ w = (Ok (uuids w (draws w)), draw w).
Proof. reflexivity. Qed.

Lemma run_now_stamp (w : World) :
  now_stamp ⇓ w = (Ok (strftime_stamp (clock w (ticks w))), tick w).
Proof. reflexivity. Qed.

Lemma run_path_exists (p : string) (w : World) :
  path_exists p ⇓ w = (Ok (bool_decide (is_Some (fs w !! p))), w).
Proof. reflexivity. Qed.

Lemma run_read_json (p : string) (w : World) :
  read_json p ⇓ w =
    (match fs w !! p with
     | Some (FJson v) => Ok v
     | Some FGarbage => Raise ValueError
     | None => Raise OSError
     end, w).
Proof. unfold run, read_json. by destruct (fs w !! p) as [[]|]. Qed.

Lemma run_write_json (p : string) (v : pyval) (w : World) :
  write_json p v ⇓ w =
    if unwritable w p then (Raise OSError, w)
    else (Ok tt, written p v w).
Proof. reflexivity. Qed.

(** What was written is what is read, up to the JSON round trip. *)
Lemma read_after_write (p : string) (v : pyval) (w : World) :
  unwritable w p = false →
  (write_json p v ;; read_json p) ⇓ w
  = (Ok (json_roundtrip v), written p v w).
Proof.
  intros Hw. unfold run, mbind, M_bind, write_json, read_json. rewrite Hw.
  cbn. by rewrite lookup_insert_eq.
Qed.

Lemma write_json_unwritable (p : string) (v : pyval) (w : World) :
  unwritable w p = true → write_json p v ⇓ w = (Raise OSError, w).
Proof. intros Hw. unfold run, write_json. by rewrite Hw. Qed.

Lemma write_json_other (p q : string) (v : pyval) (w : World) :
  p ≠ q → fs (write_json p v ⇓ w).2 !! q = fs w !! q.
Proof.
  intros Hne. unfold run, write_json. destruct (unwritable w p); [done|].
  cbn. by rewrite lookup_insert_ne.
Qed.

(** The environment's own data is not changed by the program. *)
Definition same_env (w w' : World) : Prop :=
  clock w' = clock w ∧ uuids w' = uuids w ∧ unwritable w' = unwritable w.

#[export] Instance same_env_refl : Reflexive same_env.
Proof. by intros w. Qed.

#[export] Instance same_env_trans : Transitive same_env.
Proof. intros a b c (? & ? & ?) (? & ? & ?). repeat split; congruence. Qed.

Lemma clock_valid_same_env (w w' : World) :
  same_env w w' → clock_valid w → clock_valid w'.
Proof. intros (Hc & _ & _) Hv n. rewrite Hc. apply Hv. Qed.

Lemma same_env_tick (w : World) : same_env w (tick w).
Proof. done. Qed.

Lemma same_env_draw (w : World) : same_env w (draw w).
Proof. done. Qed.

Lemma same_env_written (p : string) (v : pyval) (w : World) : same_env w (written p v w).
Proof. done. Qed.

(** A file that was written is newer than every file written before. *)
Lemma written_newest (p q : string) (v : pyval) (w : World) :
  p ≠ q → (∀ n, mtime w !! q = Some n → n < writes w)%nat →
  is_Some (mtime w !! q) →
  (st_mtime (written p v w) q < st_mtime (written p v w) p)%nat.
Proof.
  intros Hne Hlt [n Hn]. unfold st_mtime, written. cbn.
  rewrite lookup_insert_eq, lookup_insert_ne, Hn by done. cbn. by apply Hlt.
Qed.

#[export] Hint Rewrite run_now run_now_iso run_uuid4 run_path_exists
  run_now_stamp : pyrw.

#[global] Arguments strftime_stamp : simpl never.
#[export] Hint Resolve same_env_tick same_env_draw same_env_written : py.
