(* ===== verification/DataObject.v ===== *)
(** * Class [DataObject] (src/scripts/merge_engine.py, lines 19-66)

    One element with its bookkeeping: [id], [type], [properties],
    [geometry], [source], [version], [timestamp], [hash].  The fields hold
    whatever values the caller passes: nothing is checked on construction.
    [_compute_hash] is the MD5 digest of the JSON text of type, properties
    and geometry with sorted keys.

    Theorems: the digest depends on nothing but the three content fields and
    not on the order of the keys of [properties] or [geometry]; what
    [__init__] builds; [to_dict] followed by [from_dict]; the errors of
    [from_dict]; and that [from_dict] takes a digest found in its input
    for the digest of the object, whatever the content. *)

From Stdlib Require Import ZArith String Ascii.
From stdpp Require Import base tactics option list strings.
From S2P Require Import Prelude PyDict PyValue PyStr DateTime PyJson Md5 World.

Local Open Scope string_scope.

Module DataObject.

Record t : Type := mk {
  id : pyval;
  type : pyval;
  properties : pyval;
  geometry : pyval;
  source : pyval;
  version : pyval;
  timestamp : pyval;
  hash : pyval
}.

#[export] Instance t_eq_dec : EqDecision t.
Proof. solve_decision. Defined.

Definition set_source (x : pyval) (self : t) : t :=
  mk (id self) (type self) (properties self) (geometry self) x
     (version self) (timestamp self) (hash self).

Definition set_version (x : pyval) (self : t) : t :=
  mk (id self) (type self) (properties self) (geometry self) (source self)
     x (timestamp self) (hash self).

Definition set_timestamp (x : pyval) (self : t) : t :=
  mk (id self) (type self) (properties self) (geometry self) (source self)
     (version self) x (hash self).

Definition set_hash (x : pyval) (self : t) : t :=
  mk (id self) (type self) (properties self) (geometry self) (source self)
     (version self) (timestamp self) x.

(** [self._compute_hash()]. *)
Definition _compute_hash (self : t) : outcome pyval :=
  data ← dumps (pdict [("type", type self);
                       ("properties", properties self);
                       ("geometry", geometry self)]);
  Ok (PStr (md5_hex data)).

(** [DataObject(obj_id, obj_type, properties, geometry, source)]. *)
Definition __init__ (obj_id obj_type props geom src : pyval) : M World t :=
  ts ← now_iso;
  let self := mk obj_id obj_type props geom src (PInt 1) ts PNone in
  h ← lift (_compute_hash self);
  mret (set_hash h self).

(** [self.to_dict()]. *)
Definition to_dict (self : t) : pyval :=
  pdict [("id", id self);
         ("type", type self);
         ("properties", properties self);
         ("geometry", geometry self);
         ("version", version self);
         ("timestamp", timestamp self);
         ("hash", hash self);
         ("source", source self)].

(** [DataObject.from_dict(data)].  The defaults of [get] are evaluated
    whether or not the key is present: the clock is read and the digest is
    computed in every call. *)
Definition from_dict (data : pyval) : M World t :=
  obj_id ← lift (py_getitem data "id");
  obj_type ← lift (py_getitem data "type");
  props ← lift (py_get data "properties" (PDict []));
  geom ← lift (py_get data "geometry" (PDict []));
  src ← lift (py_get data "source" (PStr "unknown"));
  obj ← __init__ obj_id obj_type props geom src;
  v ← lift (py_get data "version" (PInt 1));
  let obj := set_version v obj in
  ts_default ← now_iso;
  ts ← lift (py_get data "timestamp" ts_default);
  let obj := set_timestamp ts obj in
  h_default ← lift (_compute_hash obj);
  h ← lift (py_get data "hash" h_default);
  mret (set_hash h obj).

(** The stored digest is the digest of the content. *)
Definition hash_ok (self : t) : Prop := _compute_hash self = Ok (hash self).

(** The digest as a function of the three fields it reads. *)
Definition content_hash (ty p g : pyval) : outcome pyval :=
  _compute_hash (mk PNone ty p g PNone PNone PNone PNone).

#[global] Arguments content_hash : simpl never.

(** ** The digest *)

(** C9. The digest is a function of type, properties and geometry alone:
    two objects that agree on these have the same digest, whatever their
    id, source, version, timestamp and stored digest. *)
Theorem compute_hash_content_only
    (i i' ty p g s s' v v' ts ts' h h' : pyval) :
  _compute_hash (mk i ty p g s v ts h) = _compute_hash (mk i' ty p g s' v' ts' h').
Proof. reflexivity. Qed.

Lemma compute_hash_content (self : t) :
  _compute_hash self = content_hash (type self) (properties self) (geometry self).
Proof. reflexivity. Qed.

(** Unfold a method applied to a state down to the digests it computes. *)
Ltac run_method :=
  mstep; rewrite ?compute_hash_content;
  cbn [type properties geometry set_hash set_version set_timestamp set_source].

Lemma content_hash_ok_inv (ty p g h : pyval) :
  content_hash ty p g = Ok h →
  ∃ sty sp sg, dumps ty = Ok sty ∧ dumps p = Ok sp ∧ dumps g = Ok sg.
Proof.
  unfold content_hash, _compute_hash. rewrite dumps_pdict. cbn [outcome_map snd type properties geometry].
  destruct (dumps ty); try done. destruct (dumps p); try done.
  destruct (dumps g); try done. by eexists _, _, _.
Qed.

(** The digest of the content whose three parts print as [sty], [sp], [sg]. *)
Lemma content_hash_parts (ty p g : pyval) (sty sp sg : string) :
  dumps ty = Ok sty → dumps p = Ok sp → dumps g = Ok sg →
  content_hash ty p g =
    Ok (PStr (md5_hex (brackets "{" "}" (map dumps_item
      (sort_items [("type", sty); ("properties", sp); ("geometry", sg)]))))).
Proof.
  intros Hty Hp Hg. unfold content_hash, _compute_hash. rewrite dumps_pdict.
  cbn [outcome_map snd type properties geometry]. by rewrite Hty, Hp, Hg.
Qed.

(** Two contents whose parts print alike have the same digest. *)
Lemma content_hash_ext (ty p g ty' p' g' d : pyval) :
  (∀ s, dumps ty = Ok s → dumps ty' = Ok s) →
  (∀ s, dumps p = Ok s → dumps p' = Ok s) →
  (∀ s, dumps g = Ok s → dumps g' = Ok s) →
  content_hash ty p g = Ok d → content_hash ty' p' g' = Ok d.
Proof.
  intros Hty Hp Hg Hd.
  destruct (content_hash_ok_inv _ _ _ _ Hd) as (sty & sp & sg & ? & ? & ?).
  rewrite (content_hash_parts _ _ _ sty sp sg) in Hd by done.
  rewrite (content_hash_parts _ _ _ sty sp sg); auto.
Qed.

(** C1. The digest does not depend on the order in which the keys of
    [properties] and of [geometry] were inserted. *)
Theorem compute_hash_key_order
    (i ty s v ts h : pyval) (p1 p2 g1 g2 : list (pykey * pyval)) (d : pyval) :
  p1 ≡ₚ p2 → g1 ≡ₚ g2 →
  _compute_hash (mk i ty (PDict p1) (PDict g1) s v ts h) = Ok d →
  _compute_hash (mk i ty (PDict p2) (PDict g2) s v ts h) = Ok d.
Proof.
  intros Hp Hg. rewrite !compute_hash_content. cbn [type properties geometry].
  apply content_hash_ext; [done| |]; intros s'; by apply dumps_dict_perm.
Qed.

Lemma content_hash_digest (ty p g d : pyval) :
  content_hash ty p g = Ok d →
  ∃ s, d = PStr s ∧ String.length s = 32%nat ∧
       Forall (λ c, is_hex c = true) (list_ascii_of_string s).
Proof.
  unfold content_hash, _compute_hash. destruct (dumps _); cbn; try done.
  intros [= <-]. eexists. split; [done|]. split; [apply md5_hex_length|apply md5_hex_digits].
Qed.

(** C30. The digest, when there is one, is a string of 32 lowercase hexadecimal
    digits. *)
Theorem compute_hash_digest (self : t) (d : pyval) :
  _compute_hash self = Ok d →
  ∃ s, d = PStr s ∧ String.length s = 32%nat ∧
       Forall (λ c, is_hex c = true) (list_ascii_of_string s).
Proof. rewrite compute_hash_content. apply content_hash_digest. Qed.

(** The digest raises nothing but [TypeError]. *)
Lemma content_hash_raise (ty p g : pyval) (e : exn) :
  content_hash ty p g = Raise e → e = TypeError.
Proof.
  unfold content_hash, _compute_hash. destruct (dumps _) eqn:E; cbn; try done.
  intros [= <-]. by apply dumps_raise in E.
Qed.

(** ** Construction *)

(** The three outcomes of the constructor, and the state it leaves. *)
Lemma init_cases (obj_id obj_type props geom src : pyval) (w : World) :
  __init__ obj_id obj_type props geom src ⇓ w =
    (match content_hash obj_type props geom with
     | Ok d => Ok (mk obj_id obj_type props geom src (PInt 1)
                      (PStr (isoformat (clock w (ticks w)))) d)
     | Raise e => Raise e
     | Unmodelled => Unmodelled
     end, tick w).
Proof. unfold __init__. run_method. by destruct (content_hash _ _ _). Qed.

(** C32. A new object has version 1, the time of construction as its
    timestamp and the digest of its content; the clock is read once. *)
Theorem init_spec (obj_id obj_type props geom src d : pyval) (w : World) :
  _compute_hash (mk obj_id obj_type props geom src PNone PNone PNone) = Ok d →
  __init__ obj_id obj_type props geom src ⇓ w =
    (Ok (mk obj_id obj_type props geom src (PInt 1)
            (PStr (isoformat (clock w (ticks w)))) d),
     tick w).
Proof. rewrite init_cases, compute_hash_content. cbn. by intros ->. Qed.

(** When the content cannot be printed the constructor raises, after the
    clock was read. *)
Lemma init_raise (obj_id obj_type props geom src : pyval) (e : exn) (w : World) :
  content_hash obj_type props geom = Raise e →
  __init__ obj_id obj_type props geom src ⇓ w = (Raise e, tick w).
Proof. rewrite init_cases. by intros ->. Qed.

(** What the constructor builds satisfies [hash_ok]. *)
Theorem init_hash_ok (obj_id obj_type props geom src : pyval) (w w' : World) (o : t) :
  __init__ obj_id obj_type props geom src ⇓ w = (Ok o, w') → hash_ok o.
Proof.
  rewrite init_cases. destruct (content_hash _ _ _) eqn:E; try done.
  intros [= <- _]. unfold hash_ok. by rewrite compute_hash_content.
Qed.

(** ** [to_dict] and [from_dict] *)

(** [from_dict] on the items of a dictionary with an ["id"] and a
    ["type"]: the object of the constructor with the version, timestamp and
    digest of the dictionary where it has them. *)
Lemma from_dict_cases (items : list (string * pyval)) (i ty : pyval) (w : World) :
  dict_get "id" items = Some i → dict_get "type" items = Some ty →
  let p := default (PDict []) (dict_get "properties" items) in
  let g := default (PDict []) (dict_get "geometry" items) in
  from_dict (pdict items) ⇓ w =
    (match content_hash ty p g with
     | Ok d =>
         Ok (mk i ty p g
               (default (PStr "unknown") (dict_get "source" items))
               (default (PInt 1) (dict_get "version" items))
               (default (PStr (isoformat (clock w (S (ticks w)))))
                        (dict_get "timestamp" items))
               (default d (dict_get "hash" items)))
     | Raise e => Raise e
     | Unmodelled => Unmodelled
     end,
     match content_hash ty p g with Ok _ => tick (tick w) | _ => tick w end).
Proof.
  intros Hi Hty p g. unfold from_dict. mstep. rewrite Hi, Hty. mstep.
  rewrite init_cases. fold p g.
  destruct (content_hash ty p g) eqn:E; mstep; [|done..].
  run_method. rewrite E. by mstep.
Qed.

(** C11. Reading back the dictionary of an object gives the object, for an
    object whose content can be printed; the clock is read twice. *)
Theorem from_dict_to_dict (self : t) (d : pyval) (w : World) :
  _compute_hash self = Ok d →
  from_dict (to_dict self) ⇓ w = (Ok self, tick (tick w)).
Proof.
  rewrite compute_hash_content. intros Hd. unfold to_dict.
  rewrite (from_dict_cases _ (id self) (type self)) by done.
  cbv zeta. dict_eval. cbn [default from_option Datatypes.id].
  rewrite Hd. by destruct self.
Qed.

(** [from_dict] reads ["id"], then ["type"], before anything else. *)
Lemma from_dict_getitem (data : pyval) (w : World) (e : exn) :
  py_getitem data "id" = Raise e ∨
  (is_ok (py_getitem data "id") = true ∧ py_getitem data "type" = Raise e) →
  from_dict data ⇓ w = (Raise e, w).
Proof.
  unfold from_dict. mstep. intros [->|[Hi ->]]; [done|].
  by destruct (py_getitem data "id").
Qed.

(** A dictionary without an ["id"] (or without a ["type"]) makes
    [from_dict] raise [KeyError] before anything else happens. *)
Theorem from_dict_missing_key (items : list (string * pyval)) (w : World) :
  dict_get "id" items = None ∨ dict_get "type" items = None →
  from_dict (pdict items) ⇓ w = (Raise KeyError, w).
Proof.
  intros H. apply from_dict_getitem. rewrite !py_getitem_pdict.
  destruct (dict_get "id" items); [right|by left].
  by destruct H as [?| ->].
Qed.

(** The object of [from_dict] has the ["id"] of the dictionary, and the
    object of the constructor the id it was given. *)
Lemma init_id (i ty p g s : pyval) (w w' : World) (o : t) :
  __init__ i ty p g s ⇓ w = (Ok o, w') → id o = i.
Proof.
  rewrite init_cases. destruct (content_hash _ _ _); try done. by intros [= <- _].
Qed.

Lemma from_dict_id (data : pyval) (w w' : World) (o : t) :
  from_dict data ⇓ w = (Ok o, w') → py_getitem data "id" = Ok (id o).
Proof.
  destruct data as [| | | | | |d]; try (by unfold from_dict; mstep).
  unfold from_dict. mstep. cbn [py_getitem py_get].
  destruct (dict_get (KStr "id") d) as [i|]; mstep; try done.
  destruct (dict_get (KStr "type") d) as [ty|]; mstep; try done.
  rewrite init_cases.
  destruct (content_hash _ _ _) as [h| |]; mstep; try done.
  destruct (_compute_hash _) as [h'| |]; mstep; try done.
  by intros [= <- _].
Qed.

(** A value that is not a dictionary makes [from_dict] raise [TypeError]. *)
Lemma from_dict_not_dict (data : pyval) (w : World) :
  (∀ d, data ≠ PDict d) → from_dict data ⇓ w = (Raise TypeError, w).
Proof.
  intros H. unfold from_dict, run, mbind, M_bind, lift.
  destruct data; try done. by destruct (H d).
Qed.

(** C31. [from_dict] takes the ["hash"] of its input for the digest of the
    object without comparing it with the content. *)
Theorem from_dict_keeps_given_hash
    (items : list (string * pyval)) (h : pyval) (w w' : World) (o : t) :
  dict_get "hash" items = Some h →
  from_dict (pdict items) ⇓ w = (Ok o, w') → hash o = h.
Proof.
  intros Hh. destruct (dict_get "id" items) as [i|] eqn:Hi;
    [|by rewrite (from_dict_getitem _ _ KeyError)
        by (rewrite !py_getitem_pdict, Hi; auto)].
  destruct (dict_get "type" items) as [ty|] eqn:Hty;
    [|by rewrite (from_dict_getitem _ _ KeyError)
        by (rewrite !py_getitem_pdict, Hi, Hty; auto)].
  rewrite (from_dict_cases _ i ty) by done. cbv zeta. rewrite Hh.
  destruct (content_hash _ _ _); try done. by intros [= <- _].
Qed.

(** ** Examples *)

(** The wall of the example at the end of merge_engine.py, with whole
    numbers. *)
Definition sample_properties : list (pykey * pyval) :=
  [(KStr "length", PInt 10); (KStr "material", PStr "Concrete")].

Definition sample_geometry : list (pykey * pyval) :=
  [(KStr "type", PStr "LineString");
   (KStr "coordinates", PList [PList [PInt 0; PInt 0]; PList [PInt 10; PInt 0]])].

Definition sample_hash : pyval :=
  Eval vm_compute in
    match content_hash (PStr "Wall") (PDict sample_properties) (PDict sample_geometry) with
    | Ok h => h
    | _ => PNone
    end.

Definition sample_wall : t :=
  mk (PStr "obj_001") (PStr "Wall") (PDict sample_properties) (PDict sample_geometry)
     (PStr "revit") (PInt 1) (PStr "2024-01-15T10:30:00") sample_hash.

Lemma sample_wall_hash : _compute_hash sample_wall = Ok sample_hash.
Proof. vm_compute. reflexivity. Qed.

Lemma compute_hash_key_order_witness :
  _compute_hash (mk (PStr "obj_001") (PStr "Wall") (PDict (reverse sample_properties))
                   (PDict (reverse sample_geometry)) (PStr "revit") (PInt 1)
                   (PStr "2024-01-15T10:30:00") sample_hash)
  = Ok sample_hash.
Proof.
  apply (compute_hash_key_order _ _ _ _ _ _ sample_properties _ sample_geometry).
  - apply perm_swap.
  - apply perm_swap.
  - vm_compute. reflexivity.
Defined.

Lemma compute_hash_digest_witness :
  ∃ s, sample_hash = PStr s ∧ String.length s = 32%nat ∧
       Forall (λ c, is_hex c = true) (list_ascii_of_string s).
Proof. apply (compute_hash_digest sample_wall). vm_compute. reflexivity. Defined.

Lemma init_spec_witness :
  __init__ (PStr "obj_001") (PStr "Wall") (PDict sample_properties)
           (PDict sample_geometry) (PStr "revit") ⇓ sample_world =
    (Ok (mk (PStr "obj_001") (PStr "Wall") (PDict sample_properties)
            (PDict sample_geometry) (PStr "revit") (PInt 1)
            (PStr (isoformat (clock sample_world (ticks sample_world)))) sample_hash),
     tick sample_world).
Proof. apply init_spec. vm_compute. reflexivity. Defined.

Lemma init_hash_ok_witness :
  hash_ok (mk (PStr "obj_001") (PStr "Wall") (PDict sample_properties)
              (PDict sample_geometry) (PStr "revit") (PInt 1)
              (PStr (isoformat (clock sample_world (ticks sample_world)))) sample_hash).
Proof.
  apply (init_hash_ok (PStr "obj_001") (PStr "Wall") (PDict sample_properties)
           (PDict sample_geometry) (PStr "revit") sample_world (tick sample_world)).
  vm_compute. reflexivity.
Defined.

Lemma from_dict_to_dict_witness :
  from_dict (to_dict sample_wall) ⇓ sample_world =
    (Ok sample_wall, tick (tick sample_world)).
Proof. apply (from_dict_to_dict sample_wall sample_hash). vm_compute. reflexivity. Defined.

Lemma from_dict_missing_key_witness :
  from_dict (pdict [("type", PStr "Wall"); ("properties", PDict [])]) ⇓ sample_world =
    (Raise KeyError, sample_world).
Proof. apply from_dict_missing_key. left. vm_compute. reflexivity. Defined.

(** A dictionary whose ["hash"] is not the digest of its content. *)
Definition stale_items : list (string * pyval) :=
  [("id", PStr "obj_001"); ("type", PStr "Wall");
   ("properties", pdict [("length", PInt 12)]);
   ("hash", sample_hash)].

Definition stale_object : t :=
  mk (PStr "obj_001") (PStr "Wall") (pdict [("length", PInt 12)]) (PDict [])
     (PStr "unknown") (PInt 1) (PStr "2024-01-15T10:30:01") sample_hash.

Lemma from_dict_keeps_given_hash_witness :
  from_dict (pdict stale_items) ⇓ sample_world = (Ok stale_object, tick (tick sample_world)) ∧
  hash stale_object = sample_hash ∧
  _compute_hash stale_object ≠ Ok (hash stale_object).
Proof.
  assert (from_dict (pdict stale_items) ⇓ sample_world
          = (Ok stale_object, tick (tick sample_world))) as H
    by (vm_compute; reflexivity).
  split; [done|]. split; [|vm_compute; discriminate].
  by apply (from_dict_keeps_given_hash stale_items sample_hash _ _ _ eq_refl H).
Defined.

End DataObject.
