(* ===== verification/ConflictResolver.v ===== *)
(** * Class [ConflictResolver] (src/scripts/merge_engine.py, lines 129-190)

    Three-way comparison of the digests of a baseline object and of two
    successors, and the three strategies that choose between the successors
    when both differ from the baseline and from each other.

    Theorems: the decision table of [detect_conflict]; that equal successor
    digests are never a conflict; what [resolve] returns in each case and
    under each strategy; that [resolve] hands back one of its arguments
    unchanged or nothing; the errors of [_last_write_wins]; and which side
    wins when the two timestamps are equal. *)

From Stdlib Require Import ZArith String Ascii.
From stdpp Require Import base tactics option list strings sets.
From S2P Require Import Prelude PyDict PyValue PyStr DateTime PyJson Md5 World DataObject.

Local Open Scope string_scope.

Module ConflictResolver.

(** A resolution strategy: a bound method of three objects that returns an
    object or [None]. *)
Definition resolver : Type :=
  DataObject.t → DataObject.t → DataObject.t → outcome (option DataObject.t).

(** [self._last_write_wins(original, revit, gh)]. *)
Definition _last_write_wins : resolver := λ original revit gh,
  revit_time ← fromisoformat (DataObject.timestamp revit);
  gh_time ← fromisoformat (DataObject.timestamp gh);
  let winner := if datetime_gt revit_time gh_time then revit else gh in
  Ok (Some winner).

(** [self._revit_priority(original, revit, gh)]. *)
Definition _revit_priority : resolver := λ original revit gh, Ok (Some revit).

(** [self._manual_resolution(original, revit, gh)]. *)
Definition _manual_resolution : resolver := λ original revit gh, Ok None.

Record t : Type := mk { strategies : list (string * resolver) }.

(** [ConflictResolver()]. *)
Definition __init__ : t :=
  mk [("last_write_wins", _last_write_wins);
      ("revit_priority", _revit_priority);
      ("manual", _manual_resolution)].

(** [self.detect_conflict(original, revit_version, gh_version)]. *)
Definition detect_conflict (self : t) (original revit_version gh_version : DataObject.t)
    : outcome (bool * string) :=
  same ← py_eq (DataObject.hash revit_version) (DataObject.hash gh_version);
  if same : bool then Ok (false, "no_conflict") else
  revit_same ← py_eq (DataObject.hash revit_version) (DataObject.hash original);
  if revit_same : bool then Ok (false, "only_gh_changed") else
  gh_same ← py_eq (DataObject.hash gh_version) (DataObject.hash original);
  if gh_same : bool then Ok (false, "only_revit_changed") else
  Ok (true, "both_changed").

(** [self.strategies.get(strategy, self._last_write_wins)]. *)
Definition strategy_get (self : t) (strategy : pyval) : outcome resolver :=
  key ← to_key strategy;
  Ok (default _last_write_wins
        (match key with
         | KStr s => dict_get s (strategies self)
         | KNone => None
         end)).

(** [self.resolve(original, revit_version, gh_version, strategy)]. *)
Definition resolve (self : t) (original revit_version gh_version : DataObject.t)
    (strategy : pyval) : outcome (option DataObject.t) :=
  '(conflict_exists, conflict_type) ←
    detect_conflict self original revit_version gh_version;
  if negb conflict_exists then
    if decide (conflict_type = "only_gh_changed") then Ok (Some gh_version)
    else if decide (conflict_type = "only_revit_changed") then Ok (Some revit_version)
    else Ok (Some original)
  else
    resolver ← strategy_get self strategy;
    resolver original revit_version gh_version.

(** ** The decision table, for digests that are strings *)

Section Strings.
Context (o r g : DataObject.t) (ho hr hg : string).
Context (Ho : DataObject.hash o = PStr ho).
Context (Hr : DataObject.hash r = PStr hr).
Context (Hg : DataObject.hash g = PStr hg).

Lemma detect_conflict_str (self : t) :
  detect_conflict self o r g =
    Ok (if decide (hr = hg) then (false, "no_conflict")
        else if decide (hr = ho) then (false, "only_gh_changed")
        else if decide (hg = ho) then (false, "only_revit_changed")
        else (true, "both_changed")).
Proof using Ho Hr Hg.
  unfold detect_conflict. rewrite Ho, Hr, Hg. cbn.
  repeat (case_bool_decide; case_decide; try done; cbn).
Qed.

Lemma resolve_str (self : t) (strategy : pyval) :
  resolve self o r g strategy =
    if decide (hr = hg) then Ok (Some o)
    else if decide (hr = ho) then Ok (Some g)
    else if decide (hg = ho) then Ok (Some r)
    else resolver ← strategy_get self strategy; resolver o r g.
Proof using Ho Hr Hg.
  unfold resolve. rewrite detect_conflict_str.
  by repeat (case_decide; cbn; try done).
Qed.

End Strings.

(** C2. The decision table of [detect_conflict] on objects whose digests are
    strings: equal successors are no conflict; a successor equal to the
    baseline means only the other changed; otherwise both changed. *)
Theorem detect_conflict_table (self : t) (o r g : DataObject.t) (ho hr hg : string) :
  DataObject.hash o = PStr ho → DataObject.hash r = PStr hr →
  DataObject.hash g = PStr hg →
  detect_conflict self o r g =
    Ok (if decide (hr = hg) then (false, "no_conflict")
        else if decide (hr = ho) then (false, "only_gh_changed")
        else if decide (hg = ho) then (false, "only_revit_changed")
        else (true, "both_changed")).
Proof. intros. by apply detect_conflict_str. Qed.

(** Convergent edits are not a conflict: two successors with the same
    digest give [no_conflict] even when both differ from the baseline. *)
Theorem detect_conflict_convergent (self : t) (o r g : DataObject.t) (h : string) :
  DataObject.hash r = PStr h → DataObject.hash g = PStr h →
  detect_conflict self o r g = Ok (false, "no_conflict").
Proof.
  intros Hr Hg. unfold detect_conflict. rewrite Hr, Hg. cbn.
  by rewrite bool_decide_eq_true_2.
Qed.

(** The flag of the result is set exactly when the kind is [both_changed]. *)
Lemma detect_conflict_flag (self : t) (o r g : DataObject.t) (b : bool) (k : string) :
  detect_conflict self o r g = Ok (b, k) →
  (b = true ↔ k = "both_changed") ∧
  k ∈ ["no_conflict"; "only_gh_changed"; "only_revit_changed"; "both_changed"].
Proof.
  unfold detect_conflict.
  repeat (destruct (py_eq _ _) as [[]| |]; cbn; try done);
    intros [= <- <-]; (split; [done|set_solver]).
Qed.

(** When only one side changed, [resolve] returns that side, whatever
    the strategy; when the successors agree it returns the baseline. *)
Theorem resolve_no_conflict
    (self : t) (o r g : DataObject.t) (ho hr hg : string) (strategy : pyval) :
  DataObject.hash o = PStr ho → DataObject.hash r = PStr hr →
  DataObject.hash g = PStr hg → hr = hg ∨ hr = ho ∨ hg = ho →
  resolve self o r g strategy =
    Ok (Some (if decide (hr = hg) then o else if decide (hr = ho) then g else r)).
Proof.
  intros Ho Hr Hg H. rewrite (resolve_str o r g ho hr hg) by done.
  repeat case_decide; try done. by destruct H as [?|[?|?]].
Qed.

(** ** The strategies *)

Lemma strategy_get_init (s : string) :
  strategy_get __init__ (PStr s) =
    Ok (if decide (s = "last_write_wins") then _last_write_wins
        else if decide (s = "revit_priority") then _revit_priority
        else if decide (s = "manual") then _manual_resolution
        else _last_write_wins).
Proof.
  unfold strategy_get, __init__. cbn [to_key strategies mbind outcome_bind].
  rewrite !dict_get_cons, dict_get_nil. by repeat case_decide.
Qed.

(** A strategy that cannot be a dictionary key raises [TypeError]. *)
Lemma strategy_get_unhashable (self : t) (strategy : pyval) :
  (∃ l, strategy = PList l) ∨ (∃ d, strategy = PDict d) →
  strategy_get self strategy = Raise TypeError.
Proof. by intros [[? ->]|[? ->]]. Qed.

(** A true conflict under [revit_priority] is resolved to the Revit
    version, and under [manual] to nothing. *)
Theorem resolve_conflict_fixed
    (o r g : DataObject.t) (ho hr hg : string) :
  DataObject.hash o = PStr ho → DataObject.hash r = PStr hr →
  DataObject.hash g = PStr hg → hr ≠ hg → hr ≠ ho → hg ≠ ho →
  resolve __init__ o r g (PStr "revit_priority") = Ok (Some r) ∧
  resolve __init__ o r g (PStr "manual") = Ok None.
Proof.
  intros Ho Hr Hg ???. rewrite !(resolve_str o r g ho hr hg) by done.
  rewrite !decide_False by done. by rewrite !strategy_get_init.
Qed.

(** [_last_write_wins] on two timestamps that parse. *)
Lemma last_write_wins_parsed (o r g : DataObject.t) (tr tg : datetime) :
  fromisoformat (DataObject.timestamp r) = Ok tr →
  fromisoformat (DataObject.timestamp g) = Ok tg →
  _last_write_wins o r g = Ok (Some (if datetime_gt tr tg then r else g)).
Proof. intros Hr Hg. unfold _last_write_wins. by rewrite Hr, Hg. Qed.

(** C22. Under [last_write_wins], and under any strategy name the resolver
    does not know, a true conflict is resolved to the Revit version when
    its timestamp is strictly later and to the Grasshopper version
    otherwise. *)
Theorem resolve_last_write_wins
    (o r g : DataObject.t) (ho hr hg s : string) (tr tg : datetime) :
  DataObject.hash o = PStr ho → DataObject.hash r = PStr hr →
  DataObject.hash g = PStr hg → hr ≠ hg → hr ≠ ho → hg ≠ ho →
  s ≠ "revit_priority" → s ≠ "manual" →
  fromisoformat (DataObject.timestamp r) = Ok tr →
  fromisoformat (DataObject.timestamp g) = Ok tg →
  resolve __init__ o r g (PStr s) = Ok (Some (if datetime_gt tr tg then r else g)).
Proof.
  intros Ho Hr Hg ??? ?? Htr Htg. rewrite (resolve_str o r g ho hr hg) by done.
  rewrite !decide_False, strategy_get_init by done.
  cbn. rewrite <-(last_write_wins_parsed o r g) by done.
  by repeat case_decide.
Qed.

(** Equal timestamps: the Grasshopper version wins. *)
Theorem last_write_wins_tie (o r g : DataObject.t) (ts : datetime) :
  fromisoformat (DataObject.timestamp r) = Ok ts →
  fromisoformat (DataObject.timestamp g) = Ok ts →
  _last_write_wins o r g = Ok (Some g).
Proof.
  intros Hr Hg. rewrite (last_write_wins_parsed o r g ts ts) by done.
  by rewrite datetime_gt_irrefl.
Qed.

(** A timestamp that is not a string makes [_last_write_wins] raise
    [TypeError]; the Revit timestamp is parsed first. *)
Theorem last_write_wins_not_str (o r g : DataObject.t) :
  (∀ s, DataObject.timestamp r ≠ PStr s) →
  _last_write_wins o r g = Raise TypeError.
Proof.
  intros H. unfold _last_write_wins.
  by rewrite (fromisoformat_not_str _ H).
Qed.

Lemma last_write_wins_returns (o r g : DataObject.t) (res : option DataObject.t) :
  _last_write_wins o r g = Ok res → res = Some r ∨ res = Some g.
Proof.
  unfold _last_write_wins.
  destruct (fromisoformat (DataObject.timestamp r)); cbn; try done.
  destruct (fromisoformat (DataObject.timestamp g)); cbn; try done.
  intros [= <-]. destruct (datetime_gt _ _); auto.
Qed.

(** Every strategy of [__init__] returns one of its last two arguments or
    nothing. *)
Lemma strategy_returns_input (s : pyval) (f : resolver) (o r g : DataObject.t)
    (res : option DataObject.t) :
  strategy_get __init__ s = Ok f → f o r g = Ok res →
  res ∈ [None; Some r; Some g].
Proof.
  intros Hf Hres.
  assert (f = _last_write_wins ∨ f = _revit_priority ∨ f = _manual_resolution)
    as [->|[->| ->]].
  { destruct s as [| | | |s| |]; try (by cbn in Hf);
      [injection Hf as <-; by left|].
    rewrite strategy_get_init in Hf. injection Hf as <-.
    repeat case_decide; auto. }
  - apply last_write_wins_returns in Hres. set_solver.
  - injection Hres as <-. set_solver.
  - injection Hres as <-. set_solver.
Qed.

(** C5. Whatever the digests and the strategy, [resolve] returns one of its
    three arguments as it received it, or nothing: the version of the result
    is the version of an argument and its source is the source of an
    argument. *)
Theorem resolve_returns_input
    (o r g : DataObject.t) (strategy : pyval) (res : option DataObject.t) :
  resolve __init__ o r g strategy = Ok res →
  res ∈ [None; Some o; Some r; Some g].
Proof.
  unfold resolve. destruct (detect_conflict _ _ _ _) as [[b k]| |]; cbn; try done.
  destruct b; cbn.
  - destruct (strategy_get _ _) as [f| |] eqn:Hf; cbn; try done.
    intros Hres. pose proof (strategy_returns_input _ _ _ _ _ _ Hf Hres).
    set_solver.
  - repeat case_decide; intros [= <-]; set_solver.
Qed.

(** ** Examples *)

(** A baseline and two successors that both changed it; the Revit version
    carries the later timestamp. *)
Definition base_wall : DataObject.t := DataObject.sample_wall.

Definition revit_wall : DataObject.t :=
  DataObject.mk (PStr "obj_001") (PStr "Wall") (pdict [("length", PInt 4)])
    (PDict []) (PStr "revit") (PInt 2) (PStr "2024-01-15T10:30:05") (PStr "aaaa").

Definition gh_wall : DataObject.t :=
  DataObject.mk (PStr "obj_001") (PStr "Wall") (pdict [("length", PInt 5)])
    (PDict []) (PStr "grasshopper") (PInt 2) (PStr "2024-01-15T10:30:03") (PStr "bbbb").

(** The Grasshopper version with the timestamp of the Revit version. *)
Definition gh_wall_tie : DataObject.t :=
  DataObject.set_timestamp (PStr "2024-01-15T10:30:05") gh_wall.

Definition base_hash : string :=
  Eval vm_compute in
    match DataObject.hash base_wall with PStr h => h | _ => "" end.

Lemma detect_conflict_table_witness :
  detect_conflict __init__ base_wall revit_wall gh_wall = Ok (true, "both_changed").
Proof.
  exact (detect_conflict_table __init__ base_wall revit_wall gh_wall
           base_hash "aaaa" "bbbb" eq_refl eq_refl eq_refl).
Defined.

Lemma detect_conflict_convergent_witness :
  detect_conflict __init__ base_wall revit_wall
    (DataObject.set_hash (PStr "aaaa") gh_wall) = Ok (false, "no_conflict").
Proof. by apply (detect_conflict_convergent _ _ _ _ "aaaa"). Defined.

Lemma resolve_no_conflict_witness :
  resolve __init__ base_wall base_wall gh_wall (PList []) = Ok (Some gh_wall).
Proof.
  exact (resolve_no_conflict __init__ base_wall base_wall gh_wall
           base_hash base_hash "bbbb"
           (PList []) eq_refl eq_refl eq_refl (or_intror (or_introl eq_refl))).
Defined.

Lemma resolve_conflict_fixed_witness :
  resolve __init__ base_wall revit_wall gh_wall (PStr "revit_priority")
    = Ok (Some revit_wall) ∧
  resolve __init__ base_wall revit_wall gh_wall (PStr "manual") = Ok None.
Proof.
  by apply (resolve_conflict_fixed base_wall revit_wall gh_wall base_hash "aaaa" "bbbb").
Defined.

Lemma resolve_last_write_wins_witness :
  resolve __init__ base_wall revit_wall gh_wall (PStr "newest") = Ok (Some revit_wall).
Proof.
  by apply (resolve_last_write_wins base_wall revit_wall gh_wall base_hash "aaaa" "bbbb"
              "newest" (mk_datetime 2024 1 15 10 30 5 0) (mk_datetime 2024 1 15 10 30 3 0)).
Defined.

Lemma last_write_wins_tie_witness :
  _last_write_wins base_wall revit_wall gh_wall_tie = Ok (Some gh_wall_tie).
Proof.
  by apply (last_write_wins_tie base_wall revit_wall gh_wall_tie
              (mk_datetime 2024 1 15 10 30 5 0)).
Defined.

Lemma last_write_wins_not_str_witness :
  _last_write_wins base_wall (DataObject.set_timestamp PNone revit_wall) gh_wall
    = Raise TypeError.
Proof. by apply last_write_wins_not_str. Defined.

Lemma resolve_returns_input_witness :
  Some revit_wall ∈ [None; Some base_wall; Some revit_wall; Some gh_wall].
Proof.
  by apply (resolve_returns_input base_wall revit_wall gh_wall (PStr "last_write_wins")).
Defined.

End ConflictResolver.
