(* ===== verification/SyncMetadata.v ===== *)
(** * Class [SyncMetadata] (src/scripts/merge_engine.py, lines 69-126)

    The ledger: one JSON document with the keys ["version"], ["created"],
    ["objects"] (a record per object id) and ["sync_history"] (the list of
    events), held in [self.data] and written to [self.metadata_file].

    The document is whatever the file held: [_load] returns what
    [json.load] read without looking at it, and any failure to read yields
    a new, empty ledger.

    Theorems: what [_load] returns for a missing, an unreadable and a
    readable file; [save] followed by [_load]; the record [register_object]
    writes and that it leaves every other record and the history alone;
    that [add_sync_event] appends one event and keeps the earlier ones; the
    shape invariant [ledger_ok] and its preservation; the errors. *)

From Stdlib Require Import ZArith String Ascii.
From stdpp Require Import base tactics option list strings gmap.
From S2P Require Import Prelude PyDict PyValue PyStr DateTime PyJson Md5 World DataObject.

Local Open Scope string_scope.

Module SyncMetadata.

Record t : Type := mk {
  metadata_file : string;
  data : pyval
}.

(** The new ledger [_load] returns when there is nothing to read. *)
Definition empty_ledger (created : pyval) : pyval :=
  pdict [("version", PInt 1);
         ("created", created);
         ("objects", PDict []);
         ("sync_history", PList [])].

(** [self._load()].  The [except:] clause catches every exception. *)
Definition _load (metadata_file : string) : M World pyval :=
  ex ← path_exists metadata_file;
  loaded ← (if ex : bool
            then try_except (v ← read_json metadata_file; mret (Some v))
                            (λ _, mret None)
            else mret None);
  match loaded with
  | Some v => mret v
  | None => created ← now_iso; mret (empty_ledger created)
  end.

(** [SyncMetadata(metadata_file)]. *)
Definition __init__ (metadata_file : string) : M World t :=
  d ← _load metadata_file;
  mret (mk metadata_file d).

(** [self.save()]. *)
Definition save (self : t) : M World unit :=
  write_json (metadata_file self) (data self).

(** The effect of assigning inside the dictionary [self.data[k]], as seen
    through [self.data]. *)
Definition store_field (k : string) (x : pyval) (d : pyval) : pyval :=
  match d with
  | PDict items => PDict (dict_set (KStr k) x items)
  | _ => d
  end.

(** The record [register_object] writes for [obj]. *)
Definition object_record (obj : DataObject.t) (revit_id : pyval) : pyval :=
  pdict [("gh_guid", DataObject.id obj);
         ("revit_id", revit_id);
         ("type", DataObject.type obj);
         ("version", DataObject.version obj);
         ("timestamp", DataObject.timestamp obj);
         ("hash", DataObject.hash obj);
         ("source", DataObject.source obj)].

(** [revit_id or f"rev_{obj.id[:8]}"]. *)
Definition revit_id_or_default (obj : DataObject.t) (revit_id : pyval) : outcome pyval :=
  if py_truthy revit_id then Ok revit_id
  else
    prefix ← py_slice_to (DataObject.id obj) 8;
    s ← py_format prefix;
    Ok (PStr ("rev_" +:+ s)).

(** [self.register_object(obj, revit_id)].  The right-hand side is
    evaluated before the target of the assignment. *)
Definition register_object (self : t) (obj : DataObject.t) (revit_id : pyval)
    : outcome t :=
  rid ← revit_id_or_default obj revit_id;
  let record := object_record obj rid in
  objects ← py_getitem (data self) "objects";
  objects' ← py_setitem objects (DataObject.id obj) record;
  Ok (mk (metadata_file self) (store_field "objects" objects' (data self))).

(** [self.get_object_meta(obj_id)]. *)
Definition get_object_meta (self : t) (obj_id : pyval) : outcome pyval :=
  objects ← py_getitem (data self) "objects";
  py_get_val objects obj_id.

(** The event [add_sync_event] appends. *)
Definition sync_event (ts event_type obj_id source target status details : pyval)
    : pyval :=
  pdict [("timestamp", ts);
         ("type", event_type);
         ("object_id", obj_id);
         ("from", source);
         ("to", target);
         ("status", status);
         ("details", details)].

(** [self.add_sync_event(event_type, obj_id, source, target, status,
    details)]: the ledger with the event appended. *)
Definition add_sync_event (self : t)
    (event_type obj_id source target status details : pyval) : M World t :=
  ts ← now_iso;
  let event := sync_event ts event_type obj_id source target status details in
  history ← lift (py_getitem (data self) "sync_history");
  history' ← lift (py_append history event);
  mret (mk (metadata_file self) (store_field "sync_history" history' (data self))).

(** ** The shape of a ledger *)

(** A ledger of the expected shape: a dictionary whose ["objects"] is a
    dictionary and whose ["sync_history"] is a list. *)
Definition ledger_ok (d : pyval) : Prop :=
  ∃ objects history,
    py_getitem d "objects" = Ok (PDict objects) ∧
    py_getitem d "sync_history" = Ok (PList history).

(** The events of a ledger. *)
Definition history (d : pyval) : list pyval :=
  match py_getitem d "sync_history" with
  | Ok (PList l) => l
  | _ => []
  end.

(** The records of a ledger. *)
Definition records (d : pyval) : list (pykey * pyval) :=
  match py_getitem d "objects" with
  | Ok (PDict l) => l
  | _ => []
  end.

(** ** Facts on [store_field] *)

Lemma getitem_store_eq (k : string) (x d v : pyval) :
  py_getitem d k = Ok v → py_getitem (store_field k x d) k = Ok x.
Proof.
  destruct d; try done. cbn. by rewrite dict_get_set_eq.
Qed.

Lemma getitem_store_ne (k k' : string) (x d : pyval) :
  k ≠ k' → py_getitem (store_field k x d) k' = py_getitem d k'.
Proof.
  intros Hne. destruct d; try done. cbn.
  rewrite dict_get_set_ne; [done|congruence].
Qed.

Lemma empty_ledger_ok (created : pyval) : ledger_ok (empty_ledger created).
Proof. by exists [], []. Qed.

(** ** [_load] *)

(** The three cases of [_load]. *)
Lemma load_cases (f : string) (w : World) :
  _load f ⇓ w =
    match fs w !! f with
    | Some (FJson v) => (Ok v, w)
    | _ => (Ok (empty_ledger (PStr (isoformat (clock w (ticks w))))), tick w)
    end.
Proof.
  unfold _load. mstep. destruct (fs w !! f) as [[v|]|] eqn:H.
  - rewrite bool_decide_eq_true_2 by eauto.
    rewrite (run_try_ok _ _ w w (Some v)); [by mstep|].
    mstep. by rewrite run_read_json, H.
  - rewrite bool_decide_eq_true_2 by eauto.
    rewrite (run_try_raise _ _ w w ValueError); [by mstep|].
    mstep. by rewrite run_read_json, H.
  - rewrite bool_decide_eq_false_2 by (by intros [? ?]). by mstep.
Qed.

(** C37. [_load] on a missing file and on a file that does not parse: a
    new, empty ledger stamped with the current time. *)
Theorem load_default (f : string) (w : World) :
  fs w !! f = None ∨ fs w !! f = Some FGarbage →
  _load f ⇓ w =
    (Ok (empty_ledger (PStr (isoformat (clock w (ticks w))))), tick w).
Proof. intros [H|H]; by rewrite load_cases, H. Qed.

(** [_load] on a file that parses: its content, whatever it is. *)
Lemma load_file (f : string) (v : pyval) (w : World) :
  fs w !! f = Some (FJson v) → _load f ⇓ w = (Ok v, w).
Proof. intros H. by rewrite load_cases, H. Qed.

(** [_load] never raises. *)
Lemma load_total (f : string) (w : World) : ∃ v w', _load f ⇓ w = (Ok v, w').
Proof. rewrite load_cases. destruct (fs w !! f) as [[v|]|]; eauto. Qed.

(** C35. A ledger that was saved is the ledger [_load] returns, up to the
    JSON round trip; the clock is not read. *)
Theorem load_after_save (self : t) (w : World) :
  unwritable w (metadata_file self) = false →
  (save self ;; _load (metadata_file self)) ⇓ w =
    (Ok (json_roundtrip (data self)), written (metadata_file self) (data self) w).
Proof.
  intros Hw. unfold save. mstep. rewrite run_write_json, Hw. mstep.
  rewrite load_file with (v := json_roundtrip (data self)); [done|].
  apply lookup_insert_eq.
Qed.

(** [save] on a path that cannot be written raises [OSError] and
    leaves the file system as it was. *)
Theorem save_unwritable (self : t) (w : World) :
  unwritable w (metadata_file self) = true →
  save self ⇓ w = (Raise OSError, w).
Proof. intros Hw. unfold save. by rewrite run_write_json, Hw. Qed.

(** ** [register_object] *)

Section Register.
Context (self : t) (obj : DataObject.t) (revit_id rid : pyval) (key : pykey).
Context (objects : list (pykey * pyval)).
Context (Hobjects : py_getitem (data self) "objects" = Ok (PDict objects)).
Context (Hrid : revit_id_or_default obj revit_id = Ok rid).
Context (Hkey : to_key (DataObject.id obj) = Ok key).

Lemma register_object_ok :
  register_object self obj revit_id =
    Ok (mk (metadata_file self)
          (store_field "objects"
             (PDict (dict_set key (object_record obj rid) objects)) (data self))).
Proof using Hobjects Hrid Hkey.
  unfold register_object. rewrite Hrid, Hobjects. cbn. by rewrite Hkey.
Qed.

Lemma register_object_records (self' : t) :
  register_object self obj revit_id = Ok self' →
  records (data self') = dict_set key (object_record obj rid) objects.
Proof using Hobjects Hrid Hkey.
  rewrite register_object_ok. intros [= <-]. unfold records. cbn [data].
  by rewrite (getitem_store_eq _ _ _ _ Hobjects).
Qed.

Lemma register_object_history (self' : t) :
  register_object self obj revit_id = Ok self' →
  py_getitem (data self') "sync_history" = py_getitem (data self) "sync_history".
Proof using Hobjects Hrid Hkey.
  rewrite register_object_ok. intros [= <-]. cbn [data].
  by rewrite getitem_store_ne.
Qed.

End Register.

(** C12. After [register_object], [get_object_meta] of the object's id is
    the record of the object: its id, the external id, type, version,
    timestamp, digest and source. *)
Theorem get_after_register
    (self self' : t) (obj : DataObject.t) (revit_id : pyval)
    (objects : list (pykey * pyval)) :
  py_getitem (data self) "objects" = Ok (PDict objects) →
  register_object self obj revit_id = Ok self' →
  ∃ rid, revit_id_or_default obj revit_id = Ok rid ∧
         get_object_meta self' (DataObject.id obj) = Ok (object_record obj rid).
Proof.
  intros Hobjs Hreg.
  destruct (revit_id_or_default obj revit_id) as [rid| |] eqn:Hrid;
    try (by unfold register_object in Hreg; rewrite Hrid in Hreg).
  destruct (to_key (DataObject.id obj)) as [key| |] eqn:Hkey;
    try (by unfold register_object in Hreg;
         rewrite Hrid, Hobjs in Hreg; cbn in Hreg; rewrite Hkey in Hreg).
  exists rid. split; [done|].
  rewrite (register_object_ok _ _ _ rid key objects) in Hreg by done.
  injection Hreg as <-. unfold get_object_meta. cbn [data].
  rewrite (getitem_store_eq _ _ _ _ Hobjs). cbn. rewrite Hkey. cbn.
  by rewrite dict_get_set_eq.
Qed.

(** [register_object] leaves the record of every other id as it was. *)
Theorem get_other_after_register
    (self self' : t) (obj : DataObject.t) (revit_id other : pyval)
    (objects : list (pykey * pyval)) (k k' : pykey) :
  py_getitem (data self) "objects" = Ok (PDict objects) →
  to_key (DataObject.id obj) = Ok k → to_key other = Ok k' → k ≠ k' →
  register_object self obj revit_id = Ok self' →
  get_object_meta self' other = get_object_meta self other.
Proof.
  intros Hobjs Hk Hk' Hne Hreg.
  destruct (revit_id_or_default obj revit_id) as [rid| |] eqn:Hrid;
    try (by unfold register_object in Hreg; rewrite Hrid in Hreg).
  rewrite (register_object_ok _ _ _ rid k objects) in Hreg by done.
  injection Hreg as <-. unfold get_object_meta. cbn [data].
  rewrite (getitem_store_eq _ _ _ _ Hobjs), Hobjs. cbn. rewrite Hk'. cbn.
  by rewrite dict_get_set_ne.
Qed.

(** An object whose id is [None], registered without an external id:
    [TypeError], and the ledger is as it was. *)
Theorem register_object_none_id (self : t) (obj : DataObject.t) (revit_id : pyval) :
  DataObject.id obj = PNone → py_truthy revit_id = false →
  register_object self obj revit_id = Raise TypeError.
Proof.
  intros Hid Hrid. unfold register_object, revit_id_or_default.
  by rewrite Hrid, Hid.
Qed.

(** [register_object] keeps the shape of the ledger. *)
Lemma register_object_ledger_ok (self self' : t) (obj : DataObject.t) (revit_id : pyval) :
  ledger_ok (data self) → register_object self obj revit_id = Ok self' →
  ledger_ok (data self').
Proof.
  intros (objects & hist & Hobjs & Hhist) Hreg.
  destruct (revit_id_or_default obj revit_id) as [rid| |] eqn:Hrid;
    try (by unfold register_object in Hreg; rewrite Hrid in Hreg).
  destruct (to_key (DataObject.id obj)) as [key| |] eqn:Hkey;
    try (by unfold register_object in Hreg;
         rewrite Hrid, Hobjs in Hreg; cbn in Hreg; rewrite Hkey in Hreg).
  rewrite (register_object_ok _ _ _ rid key objects) in Hreg by done.
  injection Hreg as <-. eexists _, hist. cbn [data]. split.
  - by apply (getitem_store_eq _ _ _ _ Hobjs).
  - by rewrite getitem_store_ne.
Qed.

(** ** [add_sync_event] *)

Lemma add_sync_event_ok (self : t) (ty oid src tgt st det : pyval)
    (hist : list pyval) (w : World) :
  py_getitem (data self) "sync_history" = Ok (PList hist) →
  add_sync_event self ty oid src tgt st det ⇓ w =
    (Ok (mk (metadata_file self)
            (store_field "sync_history"
               (PList (hist ++ [sync_event (PStr (isoformat (clock w (ticks w))))
                                  ty oid src tgt st det]))
               (data self))),
     tick w).
Proof. intros Hh. unfold add_sync_event. mstep. rewrite Hh. by mstep. Qed.

(** C21. [add_sync_event] appends one event, stamped with the current
    time, and keeps every earlier event in its place. *)
Theorem add_sync_event_appends (self : t) (ty oid src tgt st det : pyval)
    (hist : list pyval) (w : World) (self' : t) (w' : World) :
  py_getitem (data self) "sync_history" = Ok (PList hist) →
  add_sync_event self ty oid src tgt st det ⇓ w = (Ok self', w') →
  history (data self') =
    (history (data self) ++
      [sync_event (PStr (isoformat (clock w (ticks w)))) ty oid src tgt st det])%list.
Proof.
  intros Hh. rewrite (add_sync_event_ok _ _ _ _ _ _ _ hist) by done.
  intros [= <- _]. unfold history. cbn [data].
  by rewrite (getitem_store_eq _ _ _ _ Hh), Hh.
Qed.

(** [add_sync_event] leaves the records alone. *)
Lemma add_sync_event_records (self : t) (ty oid src tgt st det : pyval)
    (w : World) (self' : t) (w' : World) :
  add_sync_event self ty oid src tgt st det ⇓ w = (Ok self', w') →
  py_getitem (data self') "objects" = py_getitem (data self) "objects".
Proof.
  unfold add_sync_event. mstep.
  destruct (py_getitem (data self) "sync_history") as [h| |]; mstep; try done.
  destruct (py_append h _); mstep; try done.
  intros [= <- _]. cbn [data]. by rewrite getitem_store_ne.
Qed.

(** [add_sync_event] keeps the shape of the ledger, and cannot fail on a
    ledger of that shape. *)
Lemma add_sync_event_ledger_ok (self : t) (ty oid src tgt st det : pyval) (w : World) :
  ledger_ok (data self) →
  ∃ self', add_sync_event self ty oid src tgt st det ⇓ w = (Ok self', tick w) ∧
           ledger_ok (data self') ∧ metadata_file self' = metadata_file self.
Proof.
  intros (objects & hist & Hobjs & Hhist).
  rewrite (add_sync_event_ok _ _ _ _ _ _ _ hist) by done.
  eexists. split; [done|]. split; [|done]. exists objects. eexists. cbn [data].
  split.
  - by rewrite getitem_store_ne.
  - by apply (getitem_store_eq _ _ _ _ Hhist).
Qed.

(** A ledger without a list under ["sync_history"]: [add_sync_event]
    raises after the clock was read, and the ledger is as it was. *)
Theorem add_sync_event_bad_ledger (self : t) (ty oid src tgt st det : pyval)
    (w : World) :
  py_getitem (data self) "sync_history" = Raise KeyError →
  add_sync_event self ty oid src tgt st det ⇓ w = (Raise KeyError, tick w).
Proof. intros Hh. unfold add_sync_event. mstep. rewrite Hh. by mstep. Qed.

(** ** Examples *)

Definition sample_file : string := "data/.sync/metadata.json".

Definition sample_ledger : t :=
  mk sample_file (empty_ledger (PStr "2024-01-15T10:30:00")).

(** The sample ledger after the sample wall was registered. *)
Definition registered_ledger : t :=
  Eval vm_compute in
    match register_object sample_ledger DataObject.sample_wall (PStr "12345") with
    | Ok m => m
    | _ => sample_ledger
    end.

(** The sample ledger after one event. *)
Definition logged_ledger : t :=
  Eval vm_compute in
    match (add_sync_event sample_ledger (PStr "import") (PStr "obj_001")
             (PStr "revit") (PStr "local") (PStr "success") (PStr "") ⇓ sample_world).1 with
    | Ok m => m
    | _ => sample_ledger
    end.

(** An environment in which no path can be written. *)
Definition locked_world : World :=
  mk_world sample_clock 0 sample_uuids 0 ∅ (λ _, true) ∅ 0.

Lemma load_default_witness :
  _load sample_file ⇓ sample_world =
    (Ok (empty_ledger (PStr (isoformat (clock sample_world (ticks sample_world))))),
     tick sample_world).
Proof. apply load_default. left. apply lookup_empty. Defined.

Lemma load_after_save_witness :
  (save sample_ledger ;; _load (metadata_file sample_ledger)) ⇓ sample_world =
    (Ok (json_roundtrip (data sample_ledger)),
     written (metadata_file sample_ledger) (data sample_ledger) sample_world).
Proof. by apply load_after_save. Defined.

Lemma save_unwritable_witness :
  save sample_ledger ⇓ locked_world = (Raise OSError, locked_world).
Proof. by apply save_unwritable. Defined.

Lemma get_after_register_witness :
  ∃ rid, revit_id_or_default DataObject.sample_wall (PStr "12345") = Ok rid ∧
         get_object_meta registered_ledger (PStr "obj_001")
         = Ok (object_record DataObject.sample_wall rid).
Proof.
  apply (get_after_register sample_ledger registered_ledger DataObject.sample_wall
           (PStr "12345") []); vm_compute; reflexivity.
Defined.

Lemma get_other_after_register_witness :
  get_object_meta registered_ledger (PStr "obj_002")
  = get_object_meta sample_ledger (PStr "obj_002").
Proof.
  apply (get_other_after_register sample_ledger registered_ledger
           DataObject.sample_wall (PStr "12345") (PStr "obj_002") []
           (KStr "obj_001") (KStr "obj_002")); try done; vm_compute; reflexivity.
Defined.

Lemma register_object_none_id_witness :
  register_object sample_ledger
    (DataObject.mk PNone (PStr "Wall") (PDict []) (PDict []) (PStr "grasshopper")
       (PInt 1) (PStr "2024-01-15T10:30:00") (PStr "aaaa")) PNone
  = Raise TypeError.
Proof. by apply register_object_none_id. Defined.

Lemma add_sync_event_appends_witness :
  history (data logged_ledger) =
    (history (data sample_ledger) ++
       [sync_event (PStr (isoformat (clock sample_world (ticks sample_world))))
          (PStr "import") (PStr "obj_001") (PStr "revit") (PStr "local")
          (PStr "success") (PStr "")])%list.
Proof.
  apply (add_sync_event_appends sample_ledger _ _ _ _ _ _ [] sample_world
           logged_ledger (tick sample_world)); vm_compute; reflexivity.
Defined.

Lemma add_sync_event_bad_ledger_witness :
  add_sync_event (mk sample_file (PDict [])) (PStr "import") (PStr "obj_001")
    (PStr "revit") (PStr "local") (PStr "success") (PStr "") ⇓ sample_world
  = (Raise KeyError, tick sample_world).
Proof. by apply add_sync_event_bad_ledger. Defined.

End SyncMetadata.
