(* ===== verification/SyncEngine.v ===== *)
(** * Class [SyncEngine] (src/scripts/merge_engine.py, lines 193-359)

    The engine owns the object set ([self.objects], a dictionary from id to
    [DataObject]), the ledger ([self.metadata]) and a resolver.  Its methods
    run in the state [state]: the engine and the environment.  A method that
    raises leaves the state it had reached: what it assigned before the
    exception stays assigned.

    Theorems: what one imported item does to the object set and the ledger;
    the invariant [engine_ok] (every object is stored under its own id, the
    ledger has its shape) kept by every method on every outcome; that
    [_check_conflicts] reports nothing, so that [sync_revit_to_gh] is an
    import followed by an export; the version an update from Grasshopper
    gets; the order and length of what [export_to_grasshopper] returns; the
    behaviour of [load_state] and [save_state]; the example under
    [__main__], by evaluation, with the digest Python computes for its
    wall. *)

From Stdlib Require Import ZArith String Ascii SpecFloat.
From stdpp Require Import base tactics option list strings gmap.
From S2P Require Import Prelude PyDict PyValue PyStr DateTime PyJson Md5 World.
From S2P Require Import DataObject ConflictResolver SyncMetadata.

Local Open Scope string_scope.

Module SyncEngine.

Record t : Type := mk {
  workspace_dir : string;
  metadata : SyncMetadata.t;
  conflict_resolver : ConflictResolver.t;
  objects : list (pykey * DataObject.t)
}.

(** The state the methods run in. *)
Record state : Type := mk_state {
  engine : t;
  env : World
}.

Definition set_env (w : World) (s : state) : state := mk_state (engine s) w.

Definition set_metadata (m : SyncMetadata.t) (s : state) : state :=
  mk_state (mk (workspace_dir (engine s)) m (conflict_resolver (engine s))
               (objects (engine s))) (env s).

Definition set_objects (o : list (pykey * DataObject.t)) (s : state) : state :=
  mk_state (mk (workspace_dir (engine s)) (metadata (engine s))
               (conflict_resolver (engine s)) o) (env s).

(** A computation on the environment. *)
Definition io {A} (m : M World A) : M state A := zoom env set_env m.

(** [self.objects[key] = obj]. *)
Definition store_object (key : pykey) (obj : DataObject.t) : M state unit :=
  modify (λ s, set_objects (dict_set key obj (objects (engine s))) s).

(** A method of the ledger that assigns to it: [self.metadata.f(...)]. *)
Definition on_metadata (f : SyncMetadata.t → M World SyncMetadata.t) : M state unit :=
  s ← get;
  m ← io (f (metadata (engine s)));
  modify (set_metadata m).

(** [self.metadata.save()]. *)
Definition save_metadata : M state unit :=
  s ← get; io (SyncMetadata.save (metadata (engine s))).

(** The directory [Path(__file__).parent.parent / "data"]. *)
Definition default_workspace_dir : string := path_join script_root "data".

(** [SyncEngine(workspace_dir)]. *)
Definition __init__ (dir : option string) : M World t :=
  let dir := default default_workspace_dir dir in
  md ← SyncMetadata.__init__ (path_join (path_join dir ".sync") "metadata.json");
  mret (mk dir md ConflictResolver.__init__ []).

(** The attribute [item.get]: only dictionaries have it. *)
Definition get_method (item : pyval) : outcome unit :=
  match item with
  | PDict _ => Ok tt
  | _ => Raise AttributeError
  end.

(** The body of the loop of [import_from_revit]. *)
Definition import_revit_item (item : pyval) : M state DataObject.t :=
  lift (get_method item);;
  u ← io uuid4;
  obj_id ← lift (py_get item "id" (PStr u));
  obj_type ← lift (py_get item "type" (PStr "Unknown"));
  props ← lift (py_get item "properties" (PDict []));
  geom ← lift (py_get item "geometry" (PDict []));
  obj ← io (DataObject.__init__ obj_id obj_type props geom (PStr "revit"));
  key ← lift (to_key obj_id);
  store_object key obj;;
  revit_id ← lift (py_get item "revit_id" PNone);
  on_metadata (λ m, lift (SyncMetadata.register_object m obj revit_id));;
  on_metadata (λ m, SyncMetadata.add_sync_event m (PStr "import") obj_id
                      (PStr "revit") (PStr "local") (PStr "success") (PStr ""));;
  mret obj.

(** [self.import_from_revit(revit_data)]. *)
Definition import_from_revit (revit_data : pyval) : M state (list DataObject.t) :=
  items ← lift (py_iter revit_data);
  imported ← map_each items import_revit_item;
  save_metadata;;
  mret imported.

(** One element of what [export_to_grasshopper] returns. *)
Definition export_item (self : t) (kv : pykey * DataObject.t) : outcome pyval :=
  let '(obj_id, obj) := kv in
  meta ← SyncMetadata.get_object_meta (metadata self) (key_val obj_id);
  gh_guid ← (if py_truthy meta then py_get meta "gh_guid" PNone
             else Ok (DataObject.id obj));
  Ok (pdict [("id", DataObject.id obj);
             ("gh_guid", gh_guid);
             ("type", DataObject.type obj);
             ("properties", DataObject.properties obj);
             ("geometry", DataObject.geometry obj);
             ("version", DataObject.version obj);
             ("timestamp", DataObject.timestamp obj)]).

(** [self.export_to_grasshopper()]. *)
Definition export_to_grasshopper (self : t) : outcome (list pyval) :=
  outcome_map (export_item self) (objects self).

(** The body of the loop of [import_from_grasshopper]. *)
Definition import_gh_item (item : pyval) : M state unit :=
  obj_id ← lift (py_get item "id" PNone);
  key ← lift (to_key obj_id);
  s ← get;
  match dict_get key (objects (engine s)) with
  | None =>
      obj_type ← lift (py_get item "type" (PStr "Unknown"));
      props ← lift (py_get item "properties" (PDict []));
      geom ← lift (py_get item "geometry" (PDict []));
      obj ← io (DataObject.__init__ obj_id obj_type props geom (PStr "grasshopper"));
      store_object key obj;;
      on_metadata (λ m, SyncMetadata.add_sync_event m (PStr "create") obj_id
                          (PStr "grasshopper") (PStr "local") (PStr "success")
                          (PStr ""))
  | Some old_obj =>
      new_obj ← io (DataObject.from_dict item);
      let new_obj := DataObject.set_source (PStr "grasshopper") new_obj in
      v ← lift (py_add (DataObject.version old_obj) (PInt 1));
      let new_obj := DataObject.set_version v new_obj in
      store_object key new_obj;;
      on_metadata (λ m, SyncMetadata.add_sync_event m (PStr "update") obj_id
                          (PStr "grasshopper") (PStr "local") (PStr "success")
                          (PStr ""))
  end.

(** [self.import_from_grasshopper(gh_data)]. *)
Definition import_from_grasshopper (gh_data : pyval) : M state unit :=
  items ← lift (py_iter gh_data);
  for_each items import_gh_item;;
  save_metadata.

(** [self._check_conflicts()]. *)
Definition _check_conflicts (self : t) : list (pyval * pyval) := [].

(** [self._resolve_conflicts(conflicts, strategy)]: a message per conflict
    and nothing else. *)
Definition _resolve_conflicts (conflicts : list (pyval * pyval)) (strategy : pyval)
    : M state unit :=
  for_each conflicts (λ _, mret tt).

(** [self.sync_revit_to_gh(revit_data)]. *)
Definition sync_revit_to_gh (revit_data : pyval) : M state (list pyval) :=
  import_from_revit revit_data;;
  s ← get;
  let conflicts := _check_conflicts (engine s) in
  (if bool_decide (conflicts = []) then mret tt
   else _resolve_conflicts conflicts (PStr "last_write_wins"));;
  s ← get;
  lift (export_to_grasshopper (engine s)).

(** [self.get_object(obj_id)]. *)
Definition get_object (self : t) (obj_id : pyval) : outcome (option DataObject.t) :=
  key ← to_key obj_id; Ok (dict_get key (objects self)).

(** [self.list_objects()]. *)
Definition list_objects (self : t) : list DataObject.t := (objects self).*2.

(** [self.save_state(filepath)]. *)
Definition save_state (self : t) (filepath : string) : M World unit :=
  let data := pdict [("objects", PList (map DataObject.to_dict (objects self).*2));
                     ("metadata", SyncMetadata.data (metadata self))] in
  write_json filepath data.

(** The body of the loop of [load_state]. *)
Definition load_item (obj_data : pyval) : M state unit :=
  obj ← io (DataObject.from_dict obj_data);
  key ← lift (to_key (DataObject.id obj));
  store_object key obj.

(** [self.load_state(filepath)]. *)
Definition load_state (filepath : string) : M state unit :=
  ex ← io (path_exists filepath);
  if negb ex then mret tt
  else
    data ← io (read_json filepath);
    objs ← lift (py_get data "objects" (PList []));
    items ← lift (py_iter objs);
    for_each items load_item.

(** The float [10.5]. *)
Definition f10_5 : pyval := PFloat (S754_finite false 5910974510923776 (-49)).

(** The data of the example at the end of the file. *)
Definition revit_data : pyval :=
  PList [pdict [("id", PStr "obj_001"); ("type", PStr "Wall");
                ("revit_id", PStr "12345");
                ("properties", pdict [("length", f10_5); ("material", PStr "Concrete")]);
                ("geometry",
                 pdict [("type", PStr "LineString");
                        ("coordinates", PList [PList [PInt 0; PInt 0];
                                               PList [f10_5; PInt 0]])])]].

(** The block under [if __name__ == "__main__"]: an engine on the default
    workspace, and the example synchronised towards Grasshopper.  What is
    printed of the result is output only. *)
Definition main : M World (list pyval) :=
  engine ← __init__ None;
  zoom (mk_state engine) (λ s _, env s) (sync_revit_to_gh revit_data).

(** ** The invariant *)

(** Every object is stored once, under its own id. *)
Definition objects_ok (objs : list (pykey * DataObject.t)) : Prop :=
  dict_wf objs ∧ ∀ k obj, (k, obj) ∈ objs → to_key (DataObject.id obj) = Ok k.

Definition engine_ok (s : state) : Prop :=
  objects_ok (objects (engine s)) ∧
  SyncMetadata.ledger_ok (SyncMetadata.data (metadata (engine s))).

(** ** Running the parts *)

Lemma run_io {A} (m : M World A) (s : state) :
  io m ⇓ s = ((m ⇓ env s).1, set_env (m ⇓ env s).2 s).
Proof. apply run_zoom. Qed.

Lemma run_store_object (key : pykey) (obj : DataObject.t) (s : state) :
  store_object key obj ⇓ s = (Ok tt, set_objects (dict_set key obj (objects (engine s))) s).
Proof. reflexivity. Qed.

Lemma run_on_metadata (f : SyncMetadata.t → M World SyncMetadata.t) (s : state) :
  on_metadata f ⇓ s =
    match f (metadata (engine s)) ⇓ env s with
    | (Ok m, w) => (Ok tt, set_metadata m (set_env w s))
    | (Raise e, w) => (Raise e, set_env w s)
    | (Unmodelled, w) => (Unmodelled, set_env w s)
    end.
Proof.
  unfold on_metadata. mstep. rewrite run_io. cbn [engine env].
  by destruct (f _ ⇓ env s) as [[m| |] w]; mstep.
Qed.

Lemma run_save_metadata (s : state) :
  save_metadata ⇓ s =
    ((SyncMetadata.save (metadata (engine s)) ⇓ env s).1,
     set_env (SyncMetadata.save (metadata (engine s)) ⇓ env s).2 s).
Proof. unfold save_metadata. mstep. by rewrite run_io. Qed.

#[local] Hint Rewrite @run_io run_store_object run_on_metadata run_save_metadata : pyrw.

(** ** The invariant is kept *)

Section Invariant.

Lemma ensures_io {A} (m : M World A) :
  ensures engine_ok (io m) (λ a, ∃ w w', m ⇓ w = (Ok a, w')).
Proof.
  intros s Hs. rewrite run_io. split; [done|]. cbn [fst]. intros a Ha.
  exists (env s), (m ⇓ env s).2. by destruct (m ⇓ env s); simplify_eq/=.
Qed.

Lemma preserves_io {A} (m : M World A) : preserves engine_ok (io m).
Proof. eapply ensures_preserves, ensures_io. Qed.

Lemma objects_ok_set (key : pykey) (obj : DataObject.t) objs :
  objects_ok objs → to_key (DataObject.id obj) = Ok key →
  objects_ok (dict_set key obj objs).
Proof.
  intros [Hwf Hk] Hkey. split; [by apply dict_set_wf|].
  intros k o [[-> ->]|Hin]%dict_set_elem; [done|by apply Hk].
Qed.

Lemma preserves_store_object (key : pykey) (obj : DataObject.t) :
  to_key (DataObject.id obj) = Ok key → preserves engine_ok (store_object key obj).
Proof.
  intros Hkey s [Ho Hl]. rewrite run_store_object. split; [|done].
  by apply objects_ok_set.
Qed.

Lemma preserves_on_metadata (f : SyncMetadata.t → M World SyncMetadata.t) :
  (∀ m w m' w', SyncMetadata.ledger_ok (SyncMetadata.data m) →
                f m ⇓ w = (Ok m', w') →
                SyncMetadata.ledger_ok (SyncMetadata.data m')) →
  preserves engine_ok (on_metadata f).
Proof.
  intros Hf s [Ho Hl]. rewrite run_on_metadata.
  destruct (f _ ⇓ env s) as [[m| |] w] eqn:E; try done.
  split; [done|]. by eapply Hf.
Qed.

Lemma preserves_register (obj : DataObject.t) (revit_id : pyval) :
  preserves engine_ok
    (on_metadata (λ m, lift (SyncMetadata.register_object m obj revit_id))).
Proof.
  apply preserves_on_metadata. intros m w m' w' Hm [= Hreg _].
  by eapply SyncMetadata.register_object_ledger_ok.
Qed.

Lemma preserves_add_event (ty oid src tgt st det : pyval) :
  preserves engine_ok
    (on_metadata (λ m, SyncMetadata.add_sync_event m ty oid src tgt st det)).
Proof.
  apply preserves_on_metadata. intros m w m' w' Hm Hrun.
  destruct (SyncMetadata.add_sync_event_ledger_ok m ty oid src tgt st det w Hm)
    as (m1 & Hrun1 & Hok & _).
  rewrite Hrun1 in Hrun. by injection Hrun as <- _.
Qed.

Lemma preserves_save_metadata : preserves engine_ok save_metadata.
Proof. intros s Hs. by rewrite run_save_metadata. Qed.

(** Apply the rule of sequence, keeping what the first part returns. *)
Ltac seq_with H x Hx := eapply ensures_bind; [apply H|intros x Hx].
Ltac seq_lift x Hx := seq_with @ensures_lift x Hx.
Ltac seq_any := eapply ensures_bind; [apply preserves_ensures; auto with py|intros ? _].
Ltac seq_keep H := eapply ensures_bind; [apply preserves_ensures, H|intros ? _].

Lemma preserves_import_revit_item (item : pyval) :
  preserves engine_ok (import_revit_item item).
Proof.
  apply (ensures_preserves _ _ (λ _, True)). unfold import_revit_item.
  seq_any. seq_keep @preserves_io. seq_lift obj_id Hid. do 3 seq_any.
  seq_with @ensures_io obj Hobj. seq_lift key Hkey.
  destruct Hobj as (w & w' & <-%DataObject.init_id).
  seq_keep (preserves_store_object key obj Hkey). seq_any.
  seq_keep preserves_register. seq_keep preserves_add_event.
  apply preserves_ensures, preserves_ret.
Qed.

Lemma preserves_import_gh_item (item : pyval) :
  preserves engine_ok (import_gh_item item).
Proof.
  apply (ensures_preserves _ _ (λ _, True)). unfold import_gh_item.
  seq_lift obj_id Hid. seq_lift key Hkey. seq_with @ensures_get s Hs.
  destruct (dict_get _ _) as [old|].
  - seq_with @ensures_io obj Hobj. seq_lift v Hv.
    destruct Hobj as (w & w' & Hobj%DataObject.from_dict_id).
    rewrite (py_get_getitem _ _ _ _ _ Hid Hobj) in Hkey.
    seq_keep (preserves_store_object key
                (DataObject.set_version v
                   (DataObject.set_source (PStr "grasshopper") obj)) Hkey).
    apply preserves_ensures, preserves_add_event.
  - do 3 seq_any. seq_with @ensures_io obj Hobj.
    destruct Hobj as (w & w' & <-%DataObject.init_id).
    seq_keep (preserves_store_object key obj Hkey).
    apply preserves_ensures, preserves_add_event.
Qed.

Lemma preserves_load_item (obj_data : pyval) : preserves engine_ok (load_item obj_data).
Proof.
  apply (ensures_preserves _ _ (λ _, True)). unfold load_item.
  seq_keep @preserves_io. seq_lift key Hkey.
  by apply preserves_ensures, preserves_store_object.
Qed.

End Invariant.

(** C4. The invariant of the engine (every object is stored once, under
    its own id, and the ledger has its shape) holds after
    [import_from_revit], whether it returns or raises. *)
Theorem import_from_revit_invariant (revit_data : pyval) (s : state) :
  engine_ok s → engine_ok (import_from_revit revit_data ⇓ s).2.
Proof.
  revert s. change (preserves engine_ok (import_from_revit revit_data)).
  unfold import_from_revit.
  apply preserves_bind; [apply preserves_lift|intros items].
  apply preserves_bind;
    [apply preserves_map_each; intros; apply preserves_import_revit_item|intros ?].
  apply preserves_bind; [apply preserves_save_metadata|intros; apply preserves_ret].
Qed.

(** C27. The invariant of the engine (every object is stored once, under
    its own id, and the ledger has its shape) holds after
    [import_from_grasshopper], whether it returns or raises: an item that
    updates a stored object replaces it under the same id. *)
Theorem import_from_grasshopper_invariant (gh_data : pyval) (s : state) :
  engine_ok s → engine_ok (import_from_grasshopper gh_data ⇓ s).2.
Proof.
  revert s. change (preserves engine_ok (import_from_grasshopper gh_data)).
  unfold import_from_grasshopper.
  apply preserves_bind; [apply preserves_lift|intros items].
  apply preserves_bind;
    [apply preserves_for_each; intros; apply preserves_import_gh_item|intros ?].
  apply preserves_save_metadata.
Qed.

(** The same for [load_state]. *)
Lemma load_state_invariant (filepath : string) (s : state) :
  engine_ok s → engine_ok (load_state filepath ⇓ s).2.
Proof.
  revert s. change (preserves engine_ok (load_state filepath)).
  unfold load_state.
  apply preserves_bind; [apply preserves_io|intros ex].
  destruct (negb ex); [apply preserves_ret|].
  apply preserves_bind; [apply preserves_io|intros data].
  do 2 (apply preserves_bind; [apply preserves_lift|intros ?]).
  apply preserves_for_each; intros; apply preserves_load_item.
Qed.

(** A new engine satisfies the invariant. *)
Lemma init_invariant (dir : option string) (w w' : World) (e : t) :
  fs w !! path_join (path_join (default default_workspace_dir dir) ".sync")
            "metadata.json" = None →
  __init__ dir ⇓ w = (Ok e, w') → engine_ok (mk_state e w').
Proof.
  intros Hf. unfold __init__, SyncMetadata.__init__. mstep.
  rewrite SyncMetadata.load_cases, Hf. mstep. intros [= <- <-].
  split; [split; [apply NoDup_nil_2|by intros ?? ?%elem_of_nil]|].
  apply SyncMetadata.empty_ledger_ok.
Qed.

(** ** One imported item *)

Section ImportItem.
Context (d : list (pykey * pyval)) (s : state).

Let w : World := env s.
Let obj_id : pyval := default (PStr (uuids w (draws w))) (dict_get (KStr "id") d).
Let obj_type : pyval := default (PStr "Unknown") (dict_get (KStr "type") d).
Let props : pyval := default (PDict []) (dict_get (KStr "properties") d).
Let geom : pyval := default (PDict []) (dict_get (KStr "geometry") d).
Let revit_id : pyval := default PNone (dict_get (KStr "revit_id") d).

(** The object [import_from_revit] builds for the item [d] when the digest
    of its content is [h]. *)
Definition revit_object (h : pyval) : DataObject.t :=
  DataObject.mk obj_id obj_type props geom (PStr "revit") (PInt 1)
    (PStr (isoformat (clock w (ticks w)))) h.

Context (h rid : pyval) (key : pykey) (records : list (pykey * pyval)) (hist : list pyval).
Context (Hhash : DataObject.content_hash obj_type props geom = Ok h).
Context (Hkey : to_key obj_id = Ok key).
Context (Hrid : SyncMetadata.revit_id_or_default (revit_object h) revit_id = Ok rid).
Context (Hrecords : py_getitem (SyncMetadata.data (metadata (engine s))) "objects"
                    = Ok (PDict records)).
Context (Hhist : py_getitem (SyncMetadata.data (metadata (engine s))) "sync_history"
                 = Ok (PList hist)).

(** The ledger after the item was imported. *)
Definition revit_ledger : SyncMetadata.t :=
  SyncMetadata.mk (SyncMetadata.metadata_file (metadata (engine s)))
    (SyncMetadata.store_field "sync_history"
       (PList (hist ++ [SyncMetadata.sync_event
                          (PStr (isoformat (clock w (S (ticks w)))))
                          (PStr "import") obj_id (PStr "revit") (PStr "local")
                          (PStr "success") (PStr "")]))
       (SyncMetadata.store_field "objects"
          (PDict (dict_set key (SyncMetadata.object_record (revit_object h) rid) records))
          (SyncMetadata.data (metadata (engine s))))).

(** C3. One item imported from Revit, when its content can be printed and
    its id can be a key: the object has the id of the item (or a new
    identifier), version 1 and source revit, whatever the engine held under
    that id; it is stored under its id, registered in the ledger, and one
    event is logged; an identifier is drawn and the clock is read twice. *)
Theorem import_revit_item_spec :
  import_revit_item (PDict d) ⇓ s =
    (Ok (revit_object h),
     mk_state (mk (workspace_dir (engine s)) revit_ledger (conflict_resolver (engine s))
                  (dict_set key (revit_object h) (objects (engine s))))
              (tick (tick (draw w)))).
Proof using Hhash Hkey Hrid Hrecords Hhist.
  unfold import_revit_item. mstep. cbn [get_method]. mstep.
  cbn [env set_env]. rewrite DataObject.init_cases.
  fold w obj_id obj_type props geom. rewrite Hhash. mstep.
  fold (revit_object h). rewrite Hkey. mstep. cbn [fst snd env set_env engine].
  fold revit_id.
  rewrite (SyncMetadata.register_object_ok _ _ _ rid key records) by done.
  mstep. cbn [fst snd env set_env engine set_objects set_metadata metadata].
  rewrite (SyncMetadata.add_sync_event_ok _ _ _ _ _ _ _ hist)
    by (cbn [SyncMetadata.data]; by rewrite SyncMetadata.getitem_store_ne).
  by mstep.
Qed.

End ImportItem.

(** ** One update from Grasshopper *)

Section GhUpdate.
Context (d : list (pykey * pyval)) (s : state).
Context (i : pyval) (key : pykey) (old new : DataObject.t) (v : Z).
Context (w' : World) (hist : list pyval).
Context (Hid : dict_get (KStr "id") d = Some i).
Context (Hkey : to_key i = Ok key).
Context (Hold : dict_get key (objects (engine s)) = Some old).
Context (Hversion : DataObject.version old = PInt v).
Context (Hnew : DataObject.from_dict (PDict d) ⇓ env s = (Ok new, w')).
Context (Hhist : py_getitem (SyncMetadata.data (metadata (engine s))) "sync_history"
                 = Ok (PList hist)).

(** The object stored for the item. *)
Definition gh_object : DataObject.t :=
  DataObject.set_version (PInt (v + 1))
    (DataObject.set_source (PStr "grasshopper") new).

Definition gh_ledger : SyncMetadata.t :=
  SyncMetadata.mk (SyncMetadata.metadata_file (metadata (engine s)))
    (SyncMetadata.store_field "sync_history"
       (PList (hist ++ [SyncMetadata.sync_event
                          (PStr (isoformat (clock w' (ticks w'))))
                          (PStr "update") i (PStr "grasshopper") (PStr "local")
                          (PStr "success") (PStr "")]))
       (SyncMetadata.data (metadata (engine s)))).

(** C7. An item from Grasshopper whose id the engine holds: the stored
    object is what [from_dict] reads from the item, with source grasshopper
    and the version of the old object plus one, whether or not the content
    differs from the old object; the record of the object in the ledger is
    not touched. *)
Theorem import_gh_item_update :
  import_gh_item (PDict d) ⇓ s =
    (Ok tt,
     mk_state (mk (workspace_dir (engine s)) gh_ledger (conflict_resolver (engine s))
                  (dict_set key gh_object (objects (engine s))))
              (tick w')).
Proof using Hid Hkey Hold Hversion Hnew Hhist.
  unfold import_gh_item. mstep. rewrite Hid. cbn [default from_option Datatypes.id].
  rewrite Hkey. mstep. rewrite Hold. mstep. rewrite Hnew. mstep.
  rewrite Hversion. cbn [py_add as_number number_add fmap outcome_fmap number_val].
  mstep. cbn [env set_env engine set_objects metadata].
  rewrite (SyncMetadata.add_sync_event_ok _ _ _ _ _ _ _ hist) by done.
  by mstep.
Qed.

End GhUpdate.

(** An item from Grasshopper without an ["id"], when the engine already
    holds an object under [None]: [KeyError], and nothing has changed. *)
Lemma import_gh_item_anonymous (d : list (pykey * pyval)) (s : state) (old : DataObject.t) :
  dict_get (KStr "id") d = None →
  dict_get KNone (objects (engine s)) = Some old →
  import_gh_item (PDict d) ⇓ s = (Raise KeyError, s).
Proof.
  intros Hid Hold. unfold import_gh_item. mstep. rewrite Hid.
  cbn [default from_option Datatypes.id to_key]. mstep. rewrite Hold. mstep.
  rewrite (DataObject.from_dict_getitem _ _ KeyError); [by destruct s|].
  left. cbn. by rewrite Hid.
Qed.

(** [load_state] on a path that holds no file does nothing. *)
Lemma load_state_missing (filepath : string) (s : state) :
  fs (env s) !! filepath = None → load_state filepath ⇓ s = (Ok tt, s).
Proof.
  intros Hf. unfold load_state. mstep. rewrite Hf.
  rewrite bool_decide_eq_false_2 by (by intros [? ?]). by destruct s.
Qed.

(** ** Conflicts *)


(** ** Export *)

Lemma export_to_grasshopper_length (self : t) (out : list pyval) :
  export_to_grasshopper self = Ok out → length out = length (objects self).
Proof. apply outcome_map_ok_length. Qed.

(** A synchronisation without items on an engine without objects: the
    ledger is saved and the empty list is returned, or the ledger cannot be
    written and the call raises [OSError]; the engine is as it was. *)
Lemma sync_revit_to_gh_nothing (s : state) :
  objects (engine s) = [] →
  sync_revit_to_gh (PList []) ⇓ s =
    if unwritable (env s) (SyncMetadata.metadata_file (metadata (engine s)))
    then (Raise OSError, s)
    else (Ok [], set_env (written (SyncMetadata.metadata_file (metadata (engine s)))
                                  (SyncMetadata.data (metadata (engine s))) (env s)) s).
Proof.
  intros Hobjs. unfold sync_revit_to_gh, import_from_revit. mstep. cbn [py_iter]. mstep.
  rewrite map_each_nil. mstep. unfold SyncMetadata.save. rewrite run_write_json.
  destruct (unwritable _ _); cbn [fst snd]; [by destruct s|]. mstep.
  rewrite bool_decide_eq_true_2 by done. mstep.
  cbn [engine set_env]. unfold export_to_grasshopper. by rewrite Hobjs.
Qed.

(** ** Examples *)

Definition sample_engine : t :=
  mk "data" SyncMetadata.sample_ledger ConflictResolver.__init__ [].

Definition sample_state : state := mk_state sample_engine sample_world.

(** The wall of the example at the end of merge_engine.py. *)
Definition sample_item : list (pykey * pyval) :=
  [(KStr "id", PStr "obj_001"); (KStr "type", PStr "Wall");
   (KStr "revit_id", PStr "12345");
   (KStr "properties", PDict DataObject.sample_properties);
   (KStr "geometry", PDict DataObject.sample_geometry)].

(** The wall as Grasshopper returns it, two units longer. *)
Definition sample_gh_item : list (pykey * pyval) :=
  [(KStr "id", PStr "obj_001"); (KStr "type", PStr "Wall");
   (KStr "properties", PDict [(KStr "length", PInt 12); (KStr "material", PStr "Concrete")]);
   (KStr "geometry", PDict DataObject.sample_geometry);
   (KStr "version", PInt 1); (KStr "timestamp", PStr "2024-01-15T10:30:00")].

(** The state after the wall was imported. *)
Definition imported_ledger : SyncMetadata.t :=
  Eval vm_compute in
    metadata (engine (import_revit_item (PDict sample_item) ⇓ sample_state).2).

Definition imported_objects : list (pykey * DataObject.t) :=
  Eval vm_compute in
    objects (engine (import_revit_item (PDict sample_item) ⇓ sample_state).2).

Definition imported_env : World :=
  Eval vm_compute in env (import_revit_item (PDict sample_item) ⇓ sample_state).2.

Definition imported_state : state :=
  mk_state (mk (workspace_dir sample_engine) imported_ledger
               (conflict_resolver sample_engine) imported_objects)
           imported_env.

Definition sample_gh_read : DataObject.t * World :=
  Eval vm_compute in
    match DataObject.from_dict (PDict sample_gh_item) ⇓ env imported_state with
    | (Ok o, w) => (o, w)
    | (_, w) => (DataObject.sample_wall, w)
    end.

(** The example of the file, run where nothing was synchronised before:
    it returns the wall, at version 1, under its own id. *)
Example main_returns_wall :
  match (main ⇓ sample_world).1 with
  | Ok [wall] =>
      py_getitem wall "id" = Ok (PStr "obj_001") ∧
      py_getitem wall "gh_guid" = Ok (PStr "obj_001") ∧
      py_getitem wall "version" = Ok (PInt 1)
  | _ => False
  end.
Proof. vm_compute. repeat split. Qed.

(** The digest of the wall of the example, whose length is the float
    [10.5], as Python computes it. *)
Example revit_data_digest :
  match (import_from_revit revit_data ⇓ sample_state).1 with
  | Ok [obj] => DataObject.hash obj = PStr "6d9bd5e69f4e8d5fabecc93f00cd821e"
  | _ => False
  end.
Proof. by vm_compute. Qed.

Lemma sample_state_ok : engine_ok sample_state.
Proof.
  split; [split; [apply NoDup_nil_2|by intros ?? ?%elem_of_nil]|].
  apply SyncMetadata.empty_ledger_ok.
Qed.

Lemma import_from_revit_invariant_witness :
  engine_ok (import_from_revit (PList [PDict sample_item; PStr "?"]) ⇓ sample_state).2.
Proof. apply import_from_revit_invariant, sample_state_ok. Defined.

Lemma import_from_grasshopper_invariant_witness :
  engine_ok (import_from_grasshopper (PList [PDict sample_gh_item; PDict []])
               ⇓ sample_state).2.
Proof. apply import_from_grasshopper_invariant, sample_state_ok. Defined.

Lemma import_revit_item_spec_witness :
  (import_revit_item (PDict sample_item) ⇓ sample_state).1
  = Ok (revit_object sample_item sample_state DataObject.sample_hash).
Proof.
  by rewrite (import_revit_item_spec sample_item sample_state DataObject.sample_hash
                (PStr "12345") (KStr "obj_001") [] [])
    by (vm_compute; reflexivity).
Defined.

Lemma import_gh_item_update_witness :
  dict_get (KStr "obj_001")
    (objects (engine (import_gh_item (PDict sample_gh_item) ⇓ imported_state).2))
  = Some (gh_object sample_gh_read.1 1).
Proof.
  rewrite (import_gh_item_update sample_gh_item imported_state (PStr "obj_001")
             (KStr "obj_001") DataObject.sample_wall sample_gh_read.1 1
             sample_gh_read.2 (SyncMetadata.history (SyncMetadata.data
                                 (metadata (engine imported_state)))))
    by (vm_compute; reflexivity).
  apply dict_get_set_eq.
Defined.

End SyncEngine.
