(* ===== verification/RevitBridge.v ===== *)
(** * Classes [RevitExporter], [RevitImporter] and [RevitGHBridge]
    (src/scripts/revit_gh_bridge.py)

    The exporter turns the elements of a Revit document (dictionaries) into
    the records the engine imports: walls as LineStrings, openings as
    Points, floors as Polygons, each with a new identifier.  An element that
    cannot be read is left out.  The importer turns what Grasshopper
    returned into a list of updates.  The bridge runs the exporter and
    writes the export and a snapshot of it.

    Theorems: the exporters never raise on a list and draw one identifier
    per element, read or not; the shape of what they return; every element
    they return has a feature in [GeoJSONConverter]; [export_all] in closed
    form; [prepare_for_revit] returns one update per object; the two files
    [export_from_revit] writes hold the same document; what the script
    under [__main__] writes. *)

From Stdlib Require Import ZArith String Ascii SpecFloat.
From stdpp Require Import base tactics option list strings gmap.
From S2P Require Import Prelude PyDict PyValue PyStr DateTime PyJson World GeoJson.

Local Open Scope string_scope.

Module RevitExporter.

Record t : Type := mk { output_dir : string }.

(** [RevitExporter(output_dir)]. *)
Definition __init__ (output_dir : option string) : t :=
  mk (default (path_join (path_join script_root "data") "revit_exports") output_dir).

(** [f"wall_{str(uuid.uuid4())[:8]}"] and the like. *)
Definition new_id (prefix u : string) : pyval := PStr (prefix +:+ substring 0 8 u).

(** The record of one wall. *)
Definition wall_of (u : string) (elem : pyval) : outcome pyval :=
  revit_id ← py_get elem "id" PNone;
  name ← py_get elem "name" (PStr "Unknown Wall");
  len ← py_get elem "length" PNone;
  height ← py_get elem "height" PNone;
  material ← py_get elem "material" (PStr "Default");
  level ← py_get elem "level" PNone;
  points ← py_get elem "curve_points" (PList []);
  Ok (pdict [("id", new_id "wall_" u);
             ("revit_id", revit_id);
             ("type", PStr "Wall");
             ("properties", pdict [("name", name); ("length", len); ("height", height);
                                   ("material", material); ("level", level)]);
             ("geometry", pdict [("type", PStr "LineString"); ("coordinates", points)])]).

(** The record of one door or window. *)
Definition opening_of (u : string) (elem : pyval) : outcome pyval :=
  revit_id ← py_get elem "id" PNone;
  ty ← py_get elem "element_type" (PStr "Opening");
  name ← py_get elem "name" PNone;
  width ← py_get elem "width" PNone;
  height ← py_get elem "height" PNone;
  family ← py_get elem "family_type" PNone;
  position ← py_get elem "position" (PList [PInt 0; PInt 0]);
  Ok (pdict [("id", new_id "opening_" u);
             ("revit_id", revit_id);
             ("type", ty);
             ("properties", pdict [("name", name); ("width", width); ("height", height);
                                   ("family_type", family)]);
             ("geometry", pdict [("type", PStr "Point"); ("coordinates", position)])]).

(** The record of one floor. *)
Definition floor_of (u : string) (elem : pyval) : outcome pyval :=
  revit_id ← py_get elem "id" PNone;
  name ← py_get elem "name" PNone;
  level ← py_get elem "level" PNone;
  thickness ← py_get elem "thickness" PNone;
  material ← py_get elem "material" PNone;
  boundary ← py_get elem "boundary_points" (PList []);
  Ok (pdict [("id", new_id "floor_" u);
             ("revit_id", revit_id);
             ("type", PStr "Floor");
             ("properties", pdict [("name", name); ("level", level);
                                   ("thickness", thickness); ("material", material)]);
             ("geometry", pdict [("type", PStr "Polygon"); ("coordinates", boundary)])]).

(** The body of the three loops: an identifier is drawn, then the element
    is read; [except Exception] drops the element. *)
Definition export_one (record_of : string → pyval → outcome pyval) (elem : pyval)
    : M World (option pyval) :=
  try_except (u ← uuid4; r ← lift (record_of u elem); mret (Some r))
             (λ _, mret None).

(** The three loops. *)
Definition export_each (record_of : string → pyval → outcome pyval)
    (revit_elements : pyval) : M World (list pyval) :=
  elems ← lift (py_iter revit_elements);
  rs ← map_each elems (export_one record_of);
  mret (omap Datatypes.id rs).

(** [self.export_walls(revit_elements)]. *)
Definition export_walls : pyval → M World (list pyval) := export_each wall_of.

(** [self.export_doors_windows(revit_elements)]. *)
Definition export_doors_windows : pyval → M World (list pyval) := export_each opening_of.

(** [self.export_floors(revit_elements)]. *)
Definition export_floors : pyval → M World (list pyval) := export_each floor_of.

(** [self.export_all(revit_document)]. *)
Definition export_all (revit_document : pyval) : M World pyval :=
  ts ← now_iso;
  revit_file ← lift (py_get revit_document "file_path" PNone);
  project_name ← lift (py_get revit_document "project_name" PNone);
  epsg ← lift (py_get revit_document "epsg_code" (PStr "EPSG:32633"));
  origin ← lift (py_get revit_document "origin_point" (PList [PInt 0; PInt 0; PInt 0]));
  walls_in ← lift (py_get revit_document "walls" (PList []));
  walls ← export_walls walls_in;
  openings_in ← lift (py_get revit_document "openings" (PList []));
  openings ← export_doors_windows openings_in;
  floors_in ← lift (py_get revit_document "floors" (PList []));
  floors ← export_floors floors_in;
  mret (pdict [("timestamp", ts);
               ("revit_file", revit_file);
               ("project_name", project_name);
               ("coordinate_system", pdict [("epsg", epsg); ("origin", origin)]);
               ("elements", pdict [("walls", PList walls);
                                   ("openings", PList openings);
                                   ("floors", PList floors)])]).

(** [self.save_export(data, filename)]. *)
Definition save_export (self : t) (data : pyval) (filename : option string)
    : M World string :=
  filename ← match filename with
             | None => stamp ← now_stamp;
                       mret ("revit_export_" +:+ stamp +:+ ".json")
             | Some f => mret f
             end;
  let filepath := path_join (output_dir self) filename in
  write_json filepath data;;
  mret filepath.

(** ** The three loops never raise *)

(** A reader of elements: it returns a record for a dictionary and raises
    [AttributeError] for anything else. *)
Definition reads_dicts (record_of : string → pyval → outcome pyval) : Prop :=
  ∀ u elem, match elem with
            | PDict _ => is_ok (record_of u elem) = true
            | _ => record_of u elem = Raise AttributeError
            end.

Lemma wall_of_reads_dicts : reads_dicts wall_of.
Proof. intros u []; done. Qed.

Lemma opening_of_reads_dicts : reads_dicts opening_of.
Proof. intros u []; done. Qed.

Lemma floor_of_reads_dicts : reads_dicts floor_of.
Proof. intros u []; done. Qed.

(** Is the value a dictionary? *)
Definition is_dict (v : pyval) : bool :=
  match v with PDict _ => true | _ => false end.

Section Loops.
Context (record_of : string → pyval → outcome pyval).
Context (Hreads : reads_dicts record_of).

Lemma run_export_one (elem : pyval) (w : World) :
  export_one record_of elem ⇓ w =
    (Ok (match record_of (uuids w (draws w)) elem with
         | Ok r => Some r
         | _ => None
         end), draw w).
Proof using Hreads.
  unfold export_one, run, try_except, mbind, M_bind, lift, uuid4.
  specialize (Hreads (uuids w (draws w)) elem).
  destruct elem; try (by rewrite Hreads);
    by destruct (record_of _ _).
Qed.

(** The records the loop collects from the elements [elems], the first
    identifier drawn being the [n]-th. *)
Fixpoint collected (us : nat → string) (n : nat) (elems : list pyval) : list pyval :=
  match elems with
  | [] => []
  | elem :: rest =>
      match record_of (us n) elem with
      | Ok r => r :: collected us (S n) rest
      | _ => collected us (S n) rest
      end
  end.

Lemma run_map_export_one (elems : list pyval) (w : World) :
  ∃ rs, map_each elems (export_one record_of) ⇓ w
        = (Ok rs, Nat.iter (length elems) draw w) ∧
        omap Datatypes.id rs = collected (uuids w) (draws w) elems.
Proof using Hreads.
  revert w. induction elems as [|elem elems IH]; intros w.
  - by exists [].
  - rewrite map_each_cons, run_export_one.
    destruct (IH (draw w)) as (rs & -> & Hrs). eexists. split.
    + cbn [length]. by rewrite Nat.iter_succ_r.
    + cbn [omap collected]. cbn in Hrs. rewrite <-Hrs.
      by destruct (record_of _ elem).
Qed.

Lemma run_export_each (elems : list pyval) (w : World) :
  export_each record_of (PList elems) ⇓ w =
    (Ok (collected (uuids w) (draws w) elems), Nat.iter (length elems) draw w).
Proof using Hreads.
  unfold export_each. mstep. cbn [py_iter]. mstep.
  destruct (run_map_export_one elems w) as (rs & -> & <-). by mstep.
Qed.

Lemma collected_length (us : nat → string) (n : nat) (elems : list pyval) :
  length (collected us n elems) = length (filter (λ e, is_dict e = true) elems).
Proof using Hreads.
  revert n. induction elems as [|elem elems IH]; intros n; [done|].
  cbn [collected]. specialize (Hreads (us n) elem).
  destruct elem; rewrite ?Hreads; rewrite ?filter_cons_False by done; auto.
  rewrite filter_cons_True by done.
  destruct (record_of _ _); try done. cbn. by rewrite IH.
Qed.

Lemma collected_elem (us : nat → string) (n : nat) (elems : list pyval) (r : pyval) :
  r ∈ collected us n elems → ∃ u elem, elem ∈ elems ∧ record_of u elem = Ok r.
Proof.
  revert n. induction elems as [|elem elems IH]; intros n; cbn [collected].
  - by intros ?%elem_of_nil.
  - assert (r ∈ collected us (S n) elems → ∃ u el, el ∈ elem :: elems ∧
                                                  record_of u el = Ok r) as Hrest.
    { intros Hr. destruct (IH _ Hr) as (u & el & ? & ?).
      exists u, el. split; [by right|done]. }
    destruct (record_of (us n) elem) eqn:E; try done.
    intros [->|Hr]%elem_of_cons; [|by apply Hrest].
    exists (us n), elem. split; [by left|done].
Qed.

End Loops.

(** [export_walls] on a list never raises: it returns one record per
    element that is a dictionary and draws one identifier per element,
    dictionary or not. *)
Theorem export_walls_total (elems : list pyval) (w : World) :
  ∃ walls, export_walls (PList elems) ⇓ w = (Ok walls, Nat.iter (length elems) draw w) ∧
           length walls = length (filter (λ e, is_dict e = true) elems).
Proof.
  unfold export_walls. rewrite (run_export_each _ wall_of_reads_dicts).
  eexists. split; [done|]. apply (collected_length _ wall_of_reads_dicts).
Qed.

(** The same for openings and floors. *)
Lemma export_doors_windows_total (elems : list pyval) (w : World) :
  ∃ rs, export_doors_windows (PList elems) ⇓ w
        = (Ok rs, Nat.iter (length elems) draw w) ∧
        length rs = length (filter (λ e, is_dict e = true) elems).
Proof.
  unfold export_doors_windows. rewrite (run_export_each _ opening_of_reads_dicts).
  eexists. split; [done|]. apply (collected_length _ opening_of_reads_dicts).
Qed.

Lemma export_floors_total (elems : list pyval) (w : World) :
  ∃ rs, export_floors (PList elems) ⇓ w
        = (Ok rs, Nat.iter (length elems) draw w) ∧
        length rs = length (filter (λ e, is_dict e = true) elems).
Proof.
  unfold export_floors. rewrite (run_export_each _ floor_of_reads_dicts).
  eexists. split; [done|]. apply (collected_length _ floor_of_reads_dicts).
Qed.

(** ** The whole document *)

(** [export_all] on a document whose three lists are lists, in closed
    form. *)
Lemma run_export_all (d : list (pykey * pyval)) (walls openings floors : list pyval)
    (w : World) :
  let field k dflt := default dflt (dict_get (KStr k) d) in
  let w1 := Nat.iter (length walls) draw (tick w) in
  let w2 := Nat.iter (length openings) draw w1 in
  field "walls" (PList []) = PList walls →
  field "openings" (PList []) = PList openings →
  field "floors" (PList []) = PList floors →
  export_all (PDict d) ⇓ w =
    (Ok (pdict
           [("timestamp", PStr (isoformat (clock w (ticks w))));
            ("revit_file", field "file_path" PNone);
            ("project_name", field "project_name" PNone);
            ("coordinate_system",
             pdict [("epsg", field "epsg_code" (PStr "EPSG:32633"));
                    ("origin", field "origin_point" (PList [PInt 0; PInt 0; PInt 0]))]);
            ("elements",
             pdict [("walls", PList (collected wall_of (uuids w) (draws w) walls));
                    ("openings", PList (collected opening_of (uuids w1) (draws w1) openings));
                    ("floors", PList (collected floor_of (uuids w2) (draws w2) floors))])]),
     Nat.iter (length floors) draw w2).
Proof.
  intros field w1 w2 Hwalls Hopenings Hfloors.
  unfold export_all, export_walls, export_doors_windows, export_floors.
  rewrite run_bind, run_now_iso. mstep.
  fold (field "walls" (PList [])) (field "openings" (PList []))
    (field "floors" (PList [])).
  rewrite Hwalls, (run_export_each _ wall_of_reads_dicts). mstep.
  rewrite Hopenings, (run_export_each _ opening_of_reads_dicts). mstep.
  by rewrite Hfloors, (run_export_each _ floor_of_reads_dicts).
Qed.

(** The elements of an export, by kind. *)
Definition elements_of (data : pyval) (kind : string) : outcome (list pyval) :=
  elements ← py_getitem data "elements";
  rs ← py_getitem elements kind;
  py_iter rs.

(** C28. [export_all] on a document (a dictionary) whose walls, openings and
    floors are lists never raises.  The clock is read once, before any
    element, and one identifier is drawn per element, for the walls, then
    for the openings, then for the floors.  The export holds one record
    per element that is a dictionary; the others are left out. *)
Theorem export_all_spec (d : list (pykey * pyval)) (walls openings floors : list pyval)
    (w : World) :
  let field k := default (PList []) (dict_get (KStr k) d) in
  field "walls" = PList walls →
  field "openings" = PList openings →
  field "floors" = PList floors →
  ∃ data ws os fs,
    export_all (PDict d) ⇓ w =
      (Ok data, Nat.iter (length walls + length openings + length floors) draw (tick w)) ∧
    py_getitem data "timestamp" = Ok (PStr (isoformat (clock w (ticks w)))) ∧
    elements_of data "walls" = Ok ws ∧
    elements_of data "openings" = Ok os ∧
    elements_of data "floors" = Ok fs ∧
    length ws = length (filter (λ e, is_dict e = true) walls) ∧
    length os = length (filter (λ e, is_dict e = true) openings) ∧
    length fs = length (filter (λ e, is_dict e = true) floors).
Proof.
  intros field Hwalls Hopenings Hfloors.
  replace (length walls + length openings + length floors)%nat
    with (length floors + (length openings + length walls))%nat by lia.
  rewrite !Nat.iter_add, (run_export_all d walls openings floors) by done.
  eexists _, _, _, _. split; [done|].
  repeat split;
    first [apply (collected_length _ wall_of_reads_dicts)
          |apply (collected_length _ opening_of_reads_dicts)
          |apply (collected_length _ floor_of_reads_dicts)].
Qed.

(** ** What is exported can be converted *)

(** A record of the exporter: the five keys, with a geometry of a type
    [GeoJSONConverter] knows and properties that are a dictionary. *)
Definition exported (r : pyval) : Prop :=
  ∃ i rid ty props gty coords,
    gty ∈ GeoJSONConverter.geojson_types ∧
    r = pdict [("id", PStr i); ("revit_id", rid); ("type", ty);
               ("properties", pdict props);
               ("geometry", pdict [("type", PStr gty); ("coordinates", coords)])].

Lemma wall_of_exported (u : string) (elem r : pyval) :
  wall_of u elem = Ok r → exported r.
Proof.
  destruct elem; try done. intros [= <-].
  eexists _, _, _, _, "LineString", _. split; [|reflexivity].
  unfold GeoJSONConverter.geojson_types. set_solver.
Qed.

Lemma opening_of_exported (u : string) (elem r : pyval) :
  opening_of u elem = Ok r → exported r.
Proof.
  destruct elem; try done. intros [= <-].
  eexists _, _, _, _, "Point", _. split; [|reflexivity].
  unfold GeoJSONConverter.geojson_types. set_solver.
Qed.

Lemma floor_of_exported (u : string) (elem r : pyval) :
  floor_of u elem = Ok r → exported r.
Proof.
  destruct elem; try done. intros [= <-].
  eexists _, _, _, _, "Polygon", _. split; [|reflexivity].
  unfold GeoJSONConverter.geojson_types. set_solver.
Qed.

(** A record of the exporter has a feature. *)
Lemma exported_feature (r : pyval) :
  exported r → ∃ f, GeoJSONConverter.feature_of r = Ok (Some f).
Proof.
  intros (i & rid & ty & props & gty & coords & Hg & ->).
  unfold GeoJSONConverter.geojson_types in Hg.
  assert (gty = "LineString" ∨ gty = "Polygon" ∨ gty = "Point") as [->|[->| ->]]
    by set_solver; eexists; vm_compute; reflexivity.
Qed.

(** Every wall [export_walls] returns has a feature in
    [GeoJSONConverter]: none is left out of the collection for its
    geometry. *)
Theorem exported_walls_convertible (elems walls : list pyval) (w w' : World) (r : pyval) :
  export_walls (PList elems) ⇓ w = (Ok walls, w') → r ∈ walls →
  ∃ f, GeoJSONConverter.feature_of r = Ok (Some f).
Proof.
  unfold export_walls. rewrite (run_export_each _ wall_of_reads_dicts).
  intros [= <- _] Hr. apply collected_elem in Hr as (u & elem & _ & Hr).
  by eapply exported_feature, wall_of_exported.
Qed.

(** ** Examples *)

Definition sample_wall_element : pyval :=
  pdict [("id", PStr "12345"); ("name", PStr "Exterior Wall North");
         ("length", PInt 50); ("material", PStr "Brick"); ("level", PStr "Level 1");
         ("curve_points", PList [PList [PInt 0; PInt 0]; PList [PInt 50; PInt 0]])].

Definition sample_walls : list pyval :=
  Eval vm_compute in
    match (export_walls (PList [sample_wall_element; PStr "?"]) ⇓ sample_world).1 with
    | Ok l => l
    | _ => []
    end.

Lemma export_all_spec_witness :
  ∃ data ws os fs,
    export_all (pdict [("walls", PList [sample_wall_element; PStr "?"])]) ⇓ sample_world =
      (Ok data, Nat.iter 2 draw (tick sample_world)) ∧
    py_getitem data "timestamp"
    = Ok (PStr (isoformat (clock sample_world (ticks sample_world)))) ∧
    elements_of data "walls" = Ok ws ∧
    elements_of data "openings" = Ok os ∧
    elements_of data "floors" = Ok fs ∧
    length ws = 1%nat ∧ length os = 0%nat ∧ length fs = 0%nat.
Proof.
  by apply (export_all_spec _ [sample_wall_element; PStr "?"] [] []).
Defined.

Lemma exported_walls_convertible_witness :
  ∃ f, GeoJSONConverter.feature_of (default PNone (head sample_walls)) = Ok (Some f).
Proof.
  apply (exported_walls_convertible [sample_wall_element; PStr "?"] sample_walls
           sample_world (draw (draw sample_world))).
  - vm_compute. reflexivity.
  - vm_compute. left.
Defined.

End RevitExporter.

Module RevitImporter.

(** An importer has no attribute. *)
Record t : Type := mk { }.

(** [RevitImporter()]. *)
Definition __init__ : t := mk.

(** One element of ["updates"]. *)
Definition update_of (obj : pyval) : outcome pyval :=
  revit_id ← py_get obj "revit_id" PNone;
  ty ← py_get obj "type" PNone;
  geometry ← py_get obj "geometry" PNone;
  properties ← py_get obj "properties" PNone;
  Ok (pdict [("revit_id", revit_id); ("type", ty); ("geometry", geometry);
             ("properties", properties); ("operation", PStr "update")]).

(** [self.prepare_for_revit(gh_modified_data)]. *)
Definition prepare_for_revit (gh_modified_data : pyval) : M World pyval :=
  ts ← now_iso;
  objs ← lift (py_iter gh_modified_data);
  updates ← lift (outcome_map update_of objs);
  mret (pdict [("timestamp", ts); ("updates", PList updates)]).

(** [prepare_for_revit] on a list: one update per object, in order,
    under the time of the call; the clock is read once. *)
Theorem prepare_for_revit_updates (objs : list pyval) (out : pyval) (w w' : World) :
  prepare_for_revit (PList objs) ⇓ w = (Ok out, w') →
  ∃ updates, out = pdict [("timestamp", PStr (isoformat (clock w (ticks w))));
                          ("updates", PList updates)] ∧
             outcome_map update_of objs = Ok updates ∧
             length updates = length objs ∧ w' = tick w.
Proof.
  unfold prepare_for_revit. mstep. cbn [py_iter]. mstep.
  destruct (outcome_map update_of objs) as [updates| |] eqn:E; mstep; try done.
  intros [= <- <-]. exists updates. repeat split; try done.
  by apply outcome_map_ok_length in E.
Qed.

(** An object that is not a dictionary makes [prepare_for_revit] raise
    [AttributeError], after the clock was read. *)
Lemma update_of_not_dict (obj : pyval) :
  (∀ d, obj ≠ PDict d) → update_of obj = Raise AttributeError.
Proof. intros H. destruct obj; try done. by destruct (H d). Qed.

Definition sample_output : list pyval :=
  [pdict [("revit_id", PStr "12345"); ("type", PStr "Wall");
          ("geometry", pdict [("type", PStr "LineString")]);
          ("properties", pdict [("material", PStr "Brick")])];
   pdict [("type", PStr "Floor")]].

Definition sample_updates : pyval :=
  Eval vm_compute in
    match (prepare_for_revit (PList sample_output) ⇓ sample_world).1 with
    | Ok out => out
    | _ => PNone
    end.

Lemma prepare_for_revit_updates_witness :
  ∃ updates,
    sample_updates
    = pdict [("timestamp", PStr (isoformat (clock sample_world (ticks sample_world))));
             ("updates", PList updates)] ∧
    outcome_map update_of sample_output = Ok updates ∧
    length updates = length sample_output ∧ tick sample_world = tick sample_world.
Proof.
  apply (prepare_for_revit_updates sample_output sample_updates sample_world
           (tick sample_world)).
  vm_compute. reflexivity.
Defined.

End RevitImporter.

Module RevitGHBridge.

Record t : Type := mk {
  workspace_dir : string;
  exporter : RevitExporter.t;
  importer : RevitImporter.t;
  data_dir : string
}.

(** [RevitGHBridge(workspace_dir)].  The exporter is built without
    arguments: it writes below the directory of the scripts whatever
    [workspace_dir] is. *)
Definition __init__ (workspace_dir : option string) : t :=
  let ws := default script_root workspace_dir in
  mk ws (RevitExporter.__init__ None) RevitImporter.__init__ (path_join ws "data").

(** [self.export_from_revit(revit_doc)]. *)
Definition export_from_revit (self : t) (revit_doc : pyval) : M World pyval :=
  export_data ← RevitExporter.export_all revit_doc;
  export_path ← RevitExporter.save_export (exporter self) export_data None;
  let snapshot_path := path_join (data_dir self) "revit_snapshot.json" in
  write_json snapshot_path export_data;;
  mret export_data.

(** [self.import_from_grasshopper(gh_data_path)]. *)
Definition import_from_grasshopper (self : t) (gh_data_path : string) : M World pyval :=
  gh_data ← read_json gh_data_path;
  revit_updates ← RevitImporter.prepare_for_revit gh_data;
  stamp ← now_stamp;
  let audit_path := path_join (data_dir self) ("gh_import_" +:+ stamp +:+ ".json") in
  write_json audit_path revit_updates;;
  mret revit_updates.

(** The path [save_export] writes when it chooses the name. *)
Definition export_path (self : t) (w : World) : string :=
  path_join (RevitExporter.output_dir (exporter self))
    ("revit_export_" +:+ strftime_stamp (clock w (ticks w)) +:+ ".json").

Definition snapshot_path (self : t) : string :=
  path_join (data_dir self) "revit_snapshot.json".

(** The floats of the sample document: [50.0], [3.5], [1.0], [2.2] and
    [0.3], each the binary64 nearest to the literal. *)
Definition f50_0 : pyval := PFloat (S754_finite false 7036874417766400 (-47)).
Definition f3_5 : pyval := PFloat (S754_finite false 7881299347898368 (-51)).
Definition f1_0 : pyval := PFloat (S754_finite false 4503599627370496 (-52)).
Definition f2_2 : pyval := PFloat (S754_finite false 4953959590107546 (-51)).
Definition f0_3 : pyval := PFloat (S754_finite false 5404319552844595 (-54)).

(** The document of the script. *)
Definition sample_revit_doc : pyval :=
  pdict [("file_path", PStr "C:/Projects/MyBuilding.rvt");
         ("project_name", PStr "My Building Project");
         ("epsg_code", PStr "EPSG:32633");
         ("origin_point", PList [PInt 0; PInt 0; PInt 0]);
         ("walls",
          PList [pdict [("id", PStr "12345"); ("name", PStr "Exterior Wall North");
                        ("length", f50_0); ("height", f3_5);
                        ("material", PStr "Brick"); ("level", PStr "Level 1");
                        ("curve_points", PList [PList [PInt 0; PInt 0];
                                                PList [PInt 50; PInt 0]])]]);
         ("openings",
          PList [pdict [("id", PStr "54321"); ("name", PStr "Main Door");
                        ("element_type", PStr "Door");
                        ("width", f1_0); ("height", f2_2);
                        ("family_type", PStr "Single-Flush");
                        ("position", PList [PInt 10; PInt 0])]]);
         ("floors",
          PList [pdict [("id", PStr "99999"); ("name", PStr "Floor 1");
                        ("level", PStr "Level 1"); ("thickness", f0_3);
                        ("material", PStr "Concrete");
                        ("boundary_points",
                         PList [PList [PInt 0; PInt 0]; PList [PInt 50; PInt 0];
                                PList [PInt 50; PInt 30]; PList [PInt 0; PInt 30];
                                PList [PInt 0; PInt 0]])]])].

(** The block under [if __name__ == "__main__"]: the sample document is
    exported by a bridge on the default workspace.  What it prints of the
    export is output only. *)
Definition main : M World unit :=
  export_from_revit (__init__ None) sample_revit_doc;;
  mret tt.

(** [export_from_revit], when both paths can be written: the export
    and the snapshot hold the same document, the one that is returned; the
    export is named after the time at which it is saved. *)
Theorem export_from_revit_files (self : t) (doc data : pyval) (w w1 : World) :
  RevitExporter.export_all doc ⇓ w = (Ok data, w1) →
  unwritable w1 (export_path self w1) = false →
  unwritable w1 (snapshot_path self) = false →
  export_from_revit self doc ⇓ w =
    (Ok data, written (snapshot_path self) data
                (written (export_path self w1) data (tick w1))).
Proof.
  intros Hall Hw1 Hw2. unfold export_from_revit, RevitExporter.save_export.
  mstep. rewrite Hall. mstep. rewrite run_write_json. cbn [unwritable tick].
  fold (export_path self w1). rewrite Hw1. mstep. rewrite run_write_json.
  cbn [unwritable written tick]. fold (snapshot_path self). by rewrite Hw2.
Qed.

(** The export cannot be written: [OSError], and no snapshot is written
    either. *)
Lemma export_from_revit_unwritable (self : t) (doc data : pyval) (w w1 : World) :
  RevitExporter.export_all doc ⇓ w = (Ok data, w1) →
  unwritable w1 (export_path self w1) = true →
  export_from_revit self doc ⇓ w = (Raise OSError, tick w1).
Proof.
  intros Hall Hw1. unfold export_from_revit, RevitExporter.save_export.
  mstep. rewrite Hall. mstep. rewrite run_write_json. cbn [unwritable tick].
  fold (export_path self w1). by rewrite Hw1.
Qed.

(** [import_from_grasshopper] on a path that holds no file: [OSError];
    the clock is not read and nothing is written. *)
Theorem import_from_grasshopper_missing (self : t) (p : string) (w : World) :
  fs w !! p = None → import_from_grasshopper self p ⇓ w = (Raise OSError, w).
Proof.
  intros Hp. unfold import_from_grasshopper. mstep. by rewrite run_read_json, Hp.
Qed.

(** The exporter of a bridge writes below the scripts' directory, whatever
    the workspace of the bridge. *)
Lemma init_exporter_dir (ws : option string) :
  RevitExporter.output_dir (exporter (__init__ ws))
  = path_join (path_join script_root "data") "revit_exports".
Proof. reflexivity. Qed.

(** ** The script *)

(** [len(data["elements"][kind])]. *)
Definition exported_count (data : pyval) (kind : string) : outcome Z :=
  elements ← py_getitem data "elements";
  rs ← py_getitem elements kind;
  py_len rs.

(** The script, where the two files can be written: the clock is read
    twice and three identifiers are drawn; the export and the snapshot hold
    the same document, with one wall, one opening and one floor. *)
Theorem main_exports (w : World) :
  let self := __init__ None in
  let w1 := draw (draw (draw (tick w))) in
  unwritable w (export_path self w1) = false →
  unwritable w (snapshot_path self) = false →
  ∃ data,
    main ⇓ w = (Ok tt, written (snapshot_path self) data
                         (written (export_path self w1) data (tick w1))) ∧
    exported_count data "walls" = Ok 1%Z ∧
    exported_count data "openings" = Ok 1%Z ∧
    exported_count data "floors" = Ok 1%Z.
Proof.
  intros self w1 Hexport Hsnapshot. unfold main. eexists. split.
  - erewrite run_bind_ok; [done|].
    eapply (export_from_revit_files self _ _ w w1); [|done..].
    by eapply (RevitExporter.run_export_all _ [_] [_] [_]).
  - done.
Qed.

Lemma main_exports_witness :
  ∃ data,
    main ⇓ sample_world
    = (Ok tt, written (snapshot_path (__init__ None)) data
                (written (export_path (__init__ None)
                            (draw (draw (draw (tick sample_world))))) data
                   (tick (draw (draw (draw (tick sample_world))))))) ∧
    exported_count data "walls" = Ok 1%Z ∧
    exported_count data "openings" = Ok 1%Z ∧
    exported_count data "floors" = Ok 1%Z.
Proof. by apply main_exports. Defined.

(** ** Examples *)

Definition sample_document : pyval :=
  pdict [("file_path", PStr "C:/Projects/MyBuilding.rvt");
         ("project_name", PStr "My Building Project");
         ("walls", PList [RevitExporter.sample_wall_element])].

Definition sample_export : pyval * World :=
  Eval vm_compute in
    match RevitExporter.export_all sample_document ⇓ sample_world with
    | (Ok data, w1) => (data, w1)
    | (_, w1) => (PNone, w1)
    end.

Lemma export_from_revit_files_witness :
  export_from_revit (__init__ (Some "ws")) sample_document ⇓ sample_world =
    (Ok sample_export.1,
     written (snapshot_path (__init__ (Some "ws"))) sample_export.1
       (written (export_path (__init__ (Some "ws")) sample_export.2) sample_export.1
          (tick sample_export.2))).
Proof.
  apply export_from_revit_files; vm_compute; reflexivity.
Defined.

Lemma import_from_grasshopper_missing_witness :
  import_from_grasshopper (__init__ None) "data/gh_outputs/none.json" ⇓ sample_world
  = (Raise OSError, sample_world).
Proof. apply import_from_grasshopper_missing. apply lookup_empty. Defined.

End RevitGHBridge.
