(* ===== verification/GhHelper.v ===== *)
(** * Classes [GrassholperDataHelper], [GrassholperGeometryHelper] and
    [GrassholperPipeline] (src/scripts/gh_helper.py)

    The helper holds the list of objects read from the newest input file
    ([self.current_data]) and edits it in place: an object is found by its
    id and assigned to through the reference [get_object_by_id] returns.
    Here the list is a value and a reference is an index into it; what an
    assignment through the reference does to the list is written out, so
    that an exception in the middle of a method leaves the assignments
    made before it.  Two objects of the list are assumed not to share a
    dictionary (true of what [json.load] returns).

    Theorems: [load_input_data] and [save_output_data] never raise; which
    file is the newest; what [update_object], [add_new_object] and
    [delete_object] do to the list; [_scale_coordinates] on lists of
    numbers and on the empty list; what the script under [__main__] does
    where there is no input file. *)

From Stdlib Require Import ZArith String Ascii SpecFloat.
From stdpp Require Import base tactics option list strings gmap.
From S2P Require Import Prelude PyDict PyValue PyStr DateTime PyJson World.

Local Open Scope string_scope.
Local Open Scope nat_scope.

(** ** Directory listings *)

(** [name] when [p] is [dir / name] and [name] is a file name. *)
Fixpoint strip_prefix (pre s : string) : option string :=
  match pre, s with
  | EmptyString, _ => Some s
  | String a pre', String b s' => if decide (a = b) then strip_prefix pre' s' else None
  | String _ _, EmptyString => None
  end.

Definition has_suffix (suf s : string) : bool :=
  bool_decide (reverse (list_ascii_of_string suf)
                 `prefix_of` reverse (list_ascii_of_string s)).

(** [fnmatch(name, pre + "*" + suf)]. *)
Definition name_matches (pre suf name : string) : bool :=
  String.prefix pre name && has_suffix suf name &&
  (String.length pre + String.length suf <=? String.length name)%nat &&
  bool_decide ("/"%char ∉ list_ascii_of_string name).

(** [list(dir.glob(pre + "*" + suf))], in the order of the listing. *)
Definition glob_match (dir pre suf p : string) : bool :=
  match strip_prefix (dir +:+ "/") p with
  | Some name => name_matches pre suf name
  | None => false
  end.

Definition glob (dir pre suf : string) (w : World) : list string :=
  filter (λ p, glob_match dir pre suf p = true) (map_to_list (fs w)).*1.

(** [max(l, key=key)]: the first element whose key is the largest. *)
Fixpoint max_by {A} (key : A → nat) (l : list A) : option A :=
  match l with
  | [] => None
  | x :: rest =>
      match max_by key rest with
      | Some y => if (key x <? key y)%nat then Some y else Some x
      | None => Some x
      end
  end.

Lemma max_by_nonempty {A} (key : A → nat) (l : list A) :
  l ≠ [] → is_Some (max_by key l).
Proof.
  destruct l as [|a l]; [done|]. intros _. cbn [max_by].
  destruct (max_by key l); [destruct (_ <? _)|]; eauto.
Qed.

(** [max(l, key=key)] is an element of [l] whose key no element of [l]
    exceeds, and there is one as soon as [l] is not empty: the file
    [load_input_data] reads is the newest input file. *)
Theorem max_by_spec {A} (key : A → nat) (l : list A) (x : A) :
  max_by key l = Some x → x ∈ l ∧ ∀ y, y ∈ l → (key y ≤ key x)%nat.
Proof.
  revert x. induction l as [|a l IH]; intros x; [done|]. cbn [max_by].
  destruct (max_by key l) as [y|] eqn:E.
  - destruct (IH y eq_refl) as [Hy Hmax].
    destruct (key a <? key y) eqn:Hlt; intros ?; simplify_eq.
    + apply Nat.ltb_lt in Hlt. split; [by right|].
      intros z [->|Hz]%elem_of_cons; [lia|by apply Hmax].
    + apply Nat.ltb_ge in Hlt. split; [by left|].
      intros z [->|Hz]%elem_of_cons; [lia|]. specialize (Hmax z Hz). lia.
  - intros [= <-]. split; [by left|].
    destruct l as [|b l']; [by intros z ->%list_elem_of_singleton|].
    destruct (max_by_nonempty key (b :: l')) as [? ?]; congruence.
Qed.

Lemma max_by_spec_witness :
  3%nat ∈ [1; 3; 2]%nat ∧
  ∀ y, y ∈ [1; 3; 2]%nat → (Datatypes.id y ≤ Datatypes.id 3)%nat.
Proof. by apply (max_by_spec Datatypes.id [1; 3; 2]%nat 3%nat). Defined.

Module GrassholperDataHelper.

Record t : Type := mk {
  data_dir : string;
  gh_input_dir : string;
  gh_output_dir : string;
  current_input_file : option string;
  current_data : pyval
}.

(** The state the methods run in. *)
Record state : Type := mk_state {
  helper : t;
  env : World
}.

Definition set_env (w : World) (s : state) : state := mk_state (helper s) w.

Definition set_current_data (d : pyval) (s : state) : state :=
  mk_state (mk (data_dir (helper s)) (gh_input_dir (helper s))
               (gh_output_dir (helper s)) (current_input_file (helper s)) d) (env s).

Definition set_current_input_file (f : option string) (s : state) : state :=
  mk_state (mk (data_dir (helper s)) (gh_input_dir (helper s))
               (gh_output_dir (helper s)) f (current_data (helper s))) (env s).

Definition io {A} (m : M World A) : M state A := zoom env set_env m.

(** [GrassholperDataHelper(data_dir)].  [script_dir] is
    [Path(__file__).parent.parent] where [__file__] is defined, [home] is
    [Path.home()]. *)
Definition __init__ (script_dir : option string) (home : string)
    (data_dir : option string) : t :=
  let dir :=
    match data_dir with
    | None =>
        match script_dir with
        | Some d => path_join d "data"
        | None => path_join (path_join (path_join home "Desktop") "Revit to GIS") "data"
        end
    | Some d => d
    end in
  mk dir (path_join dir "gh_inputs") (path_join dir "gh_outputs") None (PList []).

(** The file [load_input_data] reads: the one named, or the newest input
    file; [None] when there is no input file. *)
Definition input_path (self : t) (filename : option string) (w : World)
    : option string :=
  match filename with
  | Some f =>
      if bool_decide (f = "") then
        max_by (st_mtime w) (glob (gh_input_dir self) "gh_input_" ".json" w)
      else Some (path_join (gh_input_dir self) f)
  | None => max_by (st_mtime w) (glob (gh_input_dir self) "gh_input_" ".json" w)
  end.

(** [self.load_input_data(filename)]. *)
Definition load_input_data (filename : option string) : M state pyval :=
  try_except
    (s ← get;
     match input_path (helper s) filename (env s) with
     | None => mret (PList [])
     | Some filepath =>
         ex ← io (path_exists filepath);
         if negb ex then mret (PList [])
         else
           data ← io (read_json filepath);
           modify (set_current_data data);;
           modify (set_current_input_file (Some filepath));;
           lift (py_len data);;
           mret data
     end)
    (λ _, mret (PList [])).

(** [self.save_output_data(modified_data, filename)]. *)
Definition save_output_data (modified_data : pyval) (filename : option string)
    : M state (option string) :=
  try_except
    (filename ← match filename with
                | None => stamp ← io now_stamp;
                          mret ("gh_output_" +:+ stamp +:+ ".json")
                | Some f => mret f
                end;
     s ← get;
     let filepath := path_join (gh_output_dir (helper s)) filename in
     io (write_json filepath modified_data);;
     lift (py_len modified_data);;
     mret (Some filepath))
    (λ _, mret None).

(** The loop of [get_object_by_id]: the first object whose id is [obj_id],
    with its position. *)
Fixpoint find_object (objs : list pyval) (obj_id : pyval) (i : nat)
    : outcome (option (nat * pyval)) :=
  match objs with
  | [] => Ok None
  | obj :: rest =>
      v ← py_get obj "id" PNone;
      same ← py_eq v obj_id;
      if same : bool then Ok (Some (i, obj)) else find_object rest obj_id (S i)
  end.

(** [self.get_object_by_id(obj_id)]: the object and where it is. *)
Definition get_object_by_id (self : t) (obj_id : pyval) : outcome (option (nat * pyval)) :=
  objs ← py_iter (current_data self);
  find_object objs obj_id 0.

(** An assignment through the reference to the [i]-th object. *)
Definition put_object (i : nat) (obj : pyval) : M state unit :=
  modify (λ s, set_current_data (py_set_index (current_data (helper s)) i obj) s).

(** [obj[k] = x] through the reference to the [i]-th object. *)
Definition assign (i : nat) (obj : pyval) (k : string) (x : pyval) : M state pyval :=
  obj' ← lift (py_setitem obj (PStr k) x);
  put_object i obj';;
  mret obj'.

(** The attribute [v.update]: only dictionaries have it. *)
Definition update_method (v : pyval) : outcome unit :=
  match v with
  | PDict _ => Ok tt
  | _ => Raise AttributeError
  end.

(** [obj["version"] = obj.get("version", 1) + 1] and
    [obj["timestamp"] = datetime.now().isoformat()]. *)
Definition bump_version (i : nat) (obj : pyval) : M state pyval :=
  v ← lift (py_get obj "version" (PInt 1));
  v' ← lift (py_add v (PInt 1));
  obj ← assign i obj "version" v';
  ts ← io now_iso;
  assign i obj "timestamp" ts.

(** [self.update_object(obj_id, updates)]. *)
Definition update_object (obj_id updates : pyval) : M state bool :=
  s ← get;
  found ← lift (get_object_by_id (helper s) obj_id);
  match found with
  | None => mret false
  | Some (i, obj) =>
      if negb (py_truthy obj) then mret false
      else
        has_props ← lift (py_contains updates "properties");
        obj ← (if has_props : bool then
                 props ← lift (py_getitem obj "properties");
                 lift (update_method props);;
                 new ← lift (py_getitem updates "properties");
                 props' ← lift (py_update props new);
                 assign i obj "properties" props'
               else mret obj);
        has_geom ← lift (py_contains updates "geometry");
        obj ← (if has_geom : bool then
                 g ← lift (py_getitem updates "geometry");
                 assign i obj "geometry" g
               else mret obj);
        bump_version i obj;;
        mret true
  end.

(** [self.add_new_object(obj_type, properties, geometry, obj_id)]. *)
Definition add_new_object (obj_type properties geometry obj_id : pyval) : M state pyval :=
  s ← get;
  obj_id ← (match obj_id with
            | PNone => n ← lift (py_len (current_data (helper s)));
                       mret (PStr ("gh_new_" +:+ str_of_Z n))
            | _ => mret obj_id
            end);
  ts ← io now_iso;
  let new_obj := pdict [("id", obj_id); ("gh_guid", obj_id); ("type", obj_type);
                        ("version", PInt 1); ("timestamp", ts);
                        ("properties", properties); ("geometry", geometry)] in
  data ← lift (py_append (current_data (helper s)) new_obj);
  modify (set_current_data data);;
  mret new_obj.

(** [self.delete_object(obj_id)]. *)
Definition delete_object (obj_id : pyval) : M state bool :=
  s ← get;
  found ← lift (get_object_by_id (helper s) obj_id);
  match found with
  | None => mret false
  | Some (i, obj) =>
      if negb (py_truthy obj) then mret false
      else
        obj ← assign i obj "deleted" (PBool true);
        ts ← io now_iso;
        assign i obj "deleted_timestamp" ts;;
        mret true
  end.

(** [counts[k] = counts.get(k, 0) + 1]. *)
Definition count_key (counts : list (pykey * pyval)) (k : pyval)
    : outcome (list (pykey * pyval)) :=
  key ← to_key k;
  n ← py_add (default (PInt 0) (dict_get key counts)) (PInt 1);
  Ok (dict_set key n counts).

(** The loop of [get_summary]. *)
Fixpoint count_types (objs : list pyval) (counts : list (pykey * pyval))
    : outcome (list (pykey * pyval)) :=
  match objs with
  | [] => Ok counts
  | obj :: rest =>
      ty ← py_get obj "type" (PStr "Unknown");
      counts' ← count_key counts ty;
      count_types rest counts'
  end.

(** [self.get_summary()]. *)
Definition get_summary (self : t) : outcome pyval :=
  objs ← py_iter (current_data self);
  type_counts ← count_types objs [];
  total ← py_len (current_data self);
  let input_file := match current_input_file self with
                    | Some f => PStr f
                    | None => PNone
                    end in
  last ← (if py_truthy (current_data self)
          then o ← py_index (current_data self) (-1); py_get o "timestamp" PNone
          else Ok PNone);
  Ok (pdict [("total_objects", PInt total);
             ("types", PDict type_counts);
             ("input_file", input_file);
             ("last_modified", last)]).

(** [self.print_summary()], as far as it can fail: the summary and the
    fields it reads. *)
Definition print_summary (self : t) : outcome unit :=
  summary ← get_summary self;
  py_getitem summary "total_objects";;
  py_getitem summary "types";;
  input_file ← py_getitem summary "input_file";
  (if py_truthy input_file then py_getitem summary "input_file";; Ok tt else Ok tt).

(** ** Running the parts *)

Lemma run_helper_io {A} (m : M World A) (s : state) :
  io m ⇓ s = ((m ⇓ env s).1, set_env (m ⇓ env s).2 s).
Proof. apply run_zoom. Qed.

Lemma run_put_object (i : nat) (obj : pyval) (s : state) :
  put_object i obj ⇓ s =
    (Ok tt, set_current_data (py_set_index (current_data (helper s)) i obj) s).
Proof. reflexivity. Qed.

#[local] Hint Rewrite @run_helper_io run_put_object : pyrw.

(** ** Loading and saving never raise *)

(** [load_input_data] never raises, whatever the file holds. *)
Theorem load_input_data_no_raise (filename : option string) (s : state) :
  is_raise (load_input_data filename ⇓ s).1 = false.
Proof. by apply try_except_no_raise. Qed.

Lemma save_output_data_no_raise (data : pyval) (filename : option string) (s : state) :
  is_raise (save_output_data data filename ⇓ s).1 = false.
Proof. by apply try_except_no_raise. Qed.

(** A named input file that holds a JSON value without a length (a
    number, [true], [null]): [load_input_data] returns the empty list, as
    for a failure, but the value has become the current data and the file
    the current input file. *)
Theorem load_input_data_not_sized (f : string) (v : pyval) (s : state) :
  f ≠ "" → py_len v = Raise TypeError →
  fs (env s) !! path_join (gh_input_dir (helper s)) f = Some (FJson v) →
  load_input_data (Some f) ⇓ s =
    (Ok (PList []),
     set_current_input_file (Some (path_join (gh_input_dir (helper s)) f))
       (set_current_data v s)).
Proof.
  intros Hf Hlen Hfile. unfold load_input_data, input_path.
  rewrite bool_decide_eq_false_2 by done.
  erewrite run_try_raise; [by mstep|]. mstep. cbn [env set_env].
  rewrite Hfile, bool_decide_eq_true_2 by eauto. cbn [negb]. mstep.
  cbn [env set_env]. rewrite run_read_json, Hfile. mstep. rewrite Hlen. by destruct s.
Qed.

(** A named input file that holds a list: the list is returned and has
    become the current data; nothing else changes. *)
Lemma load_input_data_list (f : string) (l : list pyval) (s : state) :
  f ≠ "" →
  fs (env s) !! path_join (gh_input_dir (helper s)) f = Some (FJson (PList l)) →
  load_input_data (Some f) ⇓ s =
    (Ok (PList l),
     set_current_input_file (Some (path_join (gh_input_dir (helper s)) f))
       (set_current_data (PList l) s)).
Proof.
  intros Hf Hfile. unfold load_input_data, input_path.
  rewrite bool_decide_eq_false_2 by done.
  erewrite run_try_ok; [done|]. mstep. cbn [env set_env].
  rewrite Hfile, bool_decide_eq_true_2 by eauto. cbn [negb]. mstep.
  cbn [env set_env]. rewrite run_read_json, Hfile. mstep. cbn [py_len]. mstep. by destruct s.
Qed.

(** ** The list keeps its length *)

(** The current data is a list of [n] objects. *)
Definition data_len (n : nat) (s : state) : Prop :=
  ∃ l, current_data (helper s) = PList l ∧ length l = n.

Section Length.
Context (n : nat).

Lemma preserves_helper_io {A} (m : M World A) : preserves (data_len n) (io m).
Proof. intros s Hs. by rewrite run_helper_io. Qed.

Lemma preserves_put_object (i : nat) (obj : pyval) :
  preserves (data_len n) (put_object i obj).
Proof.
  intros s (l & Hl & Hn). rewrite run_put_object. cbn. rewrite Hl. cbn.
  eexists. split; [done|]. by rewrite length_insert.
Qed.

Lemma preserves_assign (i : nat) (obj : pyval) (k : string) (x : pyval) :
  preserves (data_len n) (assign i obj k x).
Proof.
  unfold assign. apply preserves_bind; [apply preserves_lift|intros ?].
  apply preserves_bind; [apply preserves_put_object|intros ?; apply preserves_ret].
Qed.

Lemma preserves_bump_version (i : nat) (obj : pyval) :
  preserves (data_len n) (bump_version i obj).
Proof.
  unfold bump_version. do 2 (apply preserves_bind; [apply preserves_lift|intros ?]).
  apply preserves_bind; [apply preserves_assign|intros ?].
  apply preserves_bind; [apply preserves_helper_io|intros ?]. apply preserves_assign.
Qed.

End Length.

#[local] Hint Resolve preserves_helper_io preserves_put_object preserves_assign
  preserves_bump_version : py.

(** Prove that a sequence of steps preserves an invariant, each step by the
    lemmas of the database. *)
Ltac preserves_steps :=
  repeat first
    [ apply preserves_ret | apply preserves_lift | apply preserves_get
    | solve [auto with py]
    | apply preserves_bind; [|intros ?]
    | apply preserves_if
    | match goal with |- preserves _ (match ?x with _ => _ end) => destruct x end ].

(** [update_object] edits one object in place: the list of objects
    has the length it had, whether the call returns or raises. *)
Theorem update_object_keeps_length (n : nat) (obj_id updates : pyval) (s : state) :
  data_len n s → data_len n (update_object obj_id updates ⇓ s).2.
Proof.
  revert s. change (preserves (data_len n) (update_object obj_id updates)).
  unfold update_object. preserves_steps.
Qed.

(** The same for [delete_object]: the object stays in the list. *)
Lemma delete_object_keeps_length (n : nat) (obj_id : pyval) (s : state) :
  data_len n s → data_len n (delete_object obj_id ⇓ s).2.
Proof.
  revert s. change (preserves (data_len n) (delete_object obj_id)).
  unfold delete_object. preserves_steps.
Qed.

(** ** Adding an object *)

(** [add_new_object] without an id on a list of [n] objects: the new
    object is named [gh_new_n], has version 1 and the current time, and is
    the last of the list. *)
Theorem add_new_object_spec (ty props geom : pyval) (l : list pyval) (s : state) :
  current_data (helper s) = PList l →
  let i := PStr ("gh_new_" +:+ str_of_Z (Z.of_nat (length l))) in
  let obj := pdict [("id", i); ("gh_guid", i); ("type", ty); ("version", PInt 1);
                    ("timestamp", PStr (isoformat (clock (env s) (ticks (env s)))));
                    ("properties", props); ("geometry", geom)] in
  add_new_object ty props geom PNone ⇓ s =
    (Ok obj, set_current_data (PList (l ++ [obj])) (set_env (tick (env s)) s)).
Proof.
  intros Hl i obj. unfold add_new_object. mstep. rewrite Hl. cbn [py_len]. mstep.
  cbn [py_append]. by mstep.
Qed.

(** ** Finding an object *)

(** What [find_object] returns is an object of the list, at the position
    it says, and the first with that id. *)
Lemma find_object_spec (objs : list pyval) (obj_id obj : pyval) (i j : nat) :
  find_object objs obj_id i = Ok (Some (j, obj)) →
  (i ≤ j)%nat ∧ objs !! (j - i)%nat = Some obj ∧
  (v ← py_get obj "id" PNone; py_eq v obj_id) = Ok true.
Proof.
  revert i. induction objs as [|o objs IH]; intros i; [done|]. cbn.
  destruct (py_get o "id" PNone) as [v| |] eqn:Hv; cbn; try done.
  destruct (py_eq v obj_id) as [[]| |] eqn:Heq; cbn; try done.
  - intros [= <- <-]. rewrite Nat.sub_diag, Hv. cbn. by rewrite Heq.
  - intros (Hle & Hj & Hid)%IH. split; [lia|]. split; [|done].
    replace (j - i)%nat with (S (j - S i)) by lia. done.
Qed.

(** ** Examples *)

Definition sample_helper : t := __init__ None "/home/user" (Some "data").

(** The helper holding two objects. *)
Definition loaded_state : state :=
  mk_state (mk "data" "data/gh_inputs" "data/gh_outputs" (Some "data/gh_inputs/gh_input_1.json")
              (PList [pdict [("id", PStr "obj_001"); ("version", PInt 1);
                             ("properties", pdict [("material", PStr "Brick")])];
                      pdict [("id", PStr "obj_002")]]))
           sample_world.

(** An environment whose input file holds a number. *)
Definition odd_state : state :=
  mk_state sample_helper
    (mk_world sample_clock 0 sample_uuids 0
       {["data/gh_inputs/gh_input_1.json" := FJson (PInt 5)]} (λ _, false) ∅ 0).

Lemma load_input_data_not_sized_witness :
  load_input_data (Some "gh_input_1.json") ⇓ odd_state =
    (Ok (PList []),
     set_current_input_file (Some "data/gh_inputs/gh_input_1.json")
       (set_current_data (PInt 5) odd_state)).
Proof. by apply (load_input_data_not_sized "gh_input_1.json" (PInt 5) odd_state). Defined.

Lemma update_object_keeps_length_witness :
  data_len 2
    (update_object (PStr "obj_001")
       (pdict [("properties", pdict [("material", PStr "Concrete")])]) ⇓ loaded_state).2.
Proof. apply update_object_keeps_length. by eexists. Defined.

Lemma add_new_object_spec_witness :
  (add_new_object (PStr "Roof") (PDict []) (PDict []) PNone ⇓ loaded_state).1
  = Ok (pdict [("id", PStr "gh_new_2"); ("gh_guid", PStr "gh_new_2");
               ("type", PStr "Roof"); ("version", PInt 1);
               ("timestamp", PStr "2024-01-15T10:30:00");
               ("properties", PDict []); ("geometry", PDict [])]).
Proof.
  by rewrite (add_new_object_spec (PStr "Roof") (PDict []) (PDict [])
                (match current_data (helper loaded_state) with
                 | PList l => l | _ => [] end) loaded_state eq_refl).
Defined.

End GrassholperDataHelper.

Module GrassholperGeometryHelper.

(** [linestring_to_points(coordinates)]. *)
Definition linestring_to_points (coordinates : pyval) : outcome pyval :=
  cs ← py_iter coordinates;
  PList <$> outcome_map py_tuple cs.

(** [polygon_to_vertices(coordinates)]. *)
Definition polygon_to_vertices (coordinates : pyval) : outcome pyval :=
  if py_truthy coordinates then
    ring ← py_index coordinates 0;
    cs ← py_iter ring;
    PList <$> outcome_map py_tuple cs
  else Ok (PList []).

(** [point_to_tuple(coordinates)]. *)
Definition point_to_tuple (coordinates : pyval) : outcome pyval :=
  n ← py_len coordinates;
  if (3 <=? n)%Z then
    s ← py_slice_to coordinates 3; py_tuple s
  else
    t ← py_iter coordinates;
    Ok (PList (t ++ replicate (Z.to_nat (3 - n)) (PInt 0))).

(** [geometry_to_gh_curve(geometry)]. *)
Definition geometry_to_gh_curve (geometry : pyval) : outcome pyval :=
  ty ← py_get geometry "type" (PStr "");
  geom_type ← py_lower ty;
  coords ← py_get geometry "coordinates" (PList []);
  if decide (geom_type = "point") then Ok coords
  else if decide (geom_type = "linestring") then Ok coords
  else if decide (geom_type = "polygon") then
    if py_truthy coords then py_index coords 0 else Ok (PList [])
  else Ok (PList []).

End GrassholperGeometryHelper.

Module GrassholperPipeline.

Import GrassholperDataHelper.

(** The float [1.5]. *)
Definition one_and_a_half : spec_float := S754_finite false 6755399441055744 (-52).

(** [GrassholperPipeline._scale_coordinates(coords, scale_factor)]. *)
Fixpoint _scale_coordinates (coords : pyval) (scale_factor : number) : outcome pyval :=
  match coords with
  | PList l =>
      match l with
      | [] => Raise IndexError
      | first :: _ =>
          if is_list first
          then PList <$> outcome_map (λ c, _scale_coordinates c scale_factor) l
          else PList <$> outcome_map (λ val, py_mul_number val scale_factor) l
      end
  | _ =>
      first ← py_index coords 0;
      if is_list first then Unmodelled
      else vals ← py_iter coords;
           PList <$> outcome_map (λ val, py_mul_number val scale_factor) vals
  end.

(** [GrassholperPipeline(data_dir)]. *)
Definition __init__ (script_dir : option string) (home : string)
    (data_dir : option string) : GrassholperDataHelper.t :=
  GrassholperDataHelper.__init__ script_dir home data_dir.

(** [counts[k] = counts.get(k, 0) + 1] for the geometry type of [obj]. *)
Definition count_geometry (counts : list (pykey * pyval)) (obj : pyval)
    : outcome (list (pykey * pyval)) :=
  g ← py_get obj "geometry" (PDict []);
  ty ← py_get g "type" (PStr "Unknown");
  count_key counts ty.

(** [self.load_and_analyze()]. *)
Definition load_and_analyze : M state pyval :=
  data ← load_input_data None;
  if negb (py_truthy data) then mret (PDict [])
  else
    s ← get;
    lift (print_summary (helper s));;
    n ← lift (py_len data);
    first ← lift (py_index data 0);
    sample ← lift (py_get first "properties" (PDict []));
    objs ← lift (py_iter data);
    counts ← lift (foldl (λ acc obj, c ← acc; count_geometry c obj) (Ok []) objs);
    mret (pdict [("loaded_objects", PInt n);
                 ("geometry_types", PDict counts);
                 ("properties_sample", sample)]).

(** The body of the loop of [process_example] on the [i]-th object.  The
    coordinates are assigned inside the geometry of the object when the
    object has one, and inside a dictionary nobody else holds when it has
    none. *)
Definition process_object (i : nat) (obj : pyval) : M state unit :=
  geometry ← lift (py_get obj "geometry" (PDict []));
  coords ← lift (py_get geometry "coordinates" (PList []));
  scaled ← lift (_scale_coordinates coords (NFloat one_and_a_half));
  geometry' ← lift (py_setitem geometry (PStr "coordinates") scaled);
  has_geometry ← lift (py_contains obj "geometry");
  obj ← (if has_geometry : bool then assign i obj "geometry" geometry' else mret obj);
  bump_version i obj;;
  mret tt.

(** [self.process_example()]. *)
Definition process_example : M state pyval :=
  load_input_data None;;
  s ← get;
  objs ← lift (py_iter (current_data (helper s)));
  for_each (imap (λ i obj, (i, obj)) objs) (λ io, process_object io.1 io.2);;
  s ← get;
  mret (current_data (helper s)).

(** [self.save_and_export()]. *)
Definition save_and_export : M state (option string) :=
  s ← get;
  save_output_data (current_data (helper s)) None.

(** The block under [if __name__ == "__main__"]: a pipeline on the default
    directory, the analysis and, when objects were loaded, the example and
    the export. *)
Definition main (script_dir : option string) (home : string) : M World unit :=
  zoom (mk_state (__init__ script_dir home None)) (λ s _, env s)
    (analysis ← load_and_analyze;
     loaded ← lift (py_get analysis "loaded_objects" (PInt 0));
     some ← lift (py_positive loaded);
     if some : bool then process_example;; save_and_export;; mret tt
     else mret tt).

(** ** Scaling *)

(** [_scale_coordinates] keeps the shape of a list of coordinates:
    what it returns is a list of the same length. *)
Theorem scale_coordinates_length (l : list pyval) (f : number) (out : pyval) :
  _scale_coordinates (PList l) f = Ok out →
  ∃ l', out = PList l' ∧ length l' = length l.
Proof.
  destruct l as [|first rest]; [done|]. cbn [_scale_coordinates].
  destruct (is_list first);
    destruct (outcome_map _ _) as [l'| |] eqn:E; cbn; try done;
    intros [= <-]; exists l'; (split; [done|]);
    by apply outcome_map_ok_length in E.
Qed.

(** The empty list cannot be scaled. *)
Lemma scale_coordinates_empty (f : number) :
  _scale_coordinates (PList []) f = Raise IndexError.
Proof. reflexivity. Qed.

(** An object without a geometry, or whose geometry has no
    coordinates, makes the loop of [process_example] raise [IndexError]
    before anything is assigned. *)
Theorem process_object_no_coordinates (i : nat) (d : list (pykey * pyval)) (s : state) :
  (dict_get (KStr "geometry") d = None ∨
   ∃ g, dict_get (KStr "geometry") d = Some (PDict g) ∧
        dict_get (KStr "coordinates") g = None) →
  process_object i (PDict d) ⇓ s = (Raise IndexError, s).
Proof.
  intros H. unfold process_object. mstep.
  destruct H as [->|(g & -> & Hg)]; cbn [default from_option Datatypes.id];
    mstep; rewrite ?Hg; by destruct s.
Qed.

(** ** The script *)

(** Without an input file nothing is loaded. *)
Lemma load_input_data_no_file (s : state) :
  glob (gh_input_dir (helper s)) "gh_input_" ".json" (env s) = [] →
  load_input_data None ⇓ s = (Ok (PList []), s).
Proof.
  intros H. unfold load_input_data, input_path.
  erewrite run_try_ok; [done|]. mstep. by rewrite H.
Qed.

(** Run where there is no input file, the script reads nothing, writes
    nothing and ends without an error. *)
Theorem main_no_input (script_dir : option string) (home : string) (w : World) :
  glob (gh_input_dir (__init__ script_dir home None)) "gh_input_" ".json" w = [] →
  main script_dir home ⇓ w = (Ok tt, w).
Proof.
  intros H. unfold main, load_and_analyze. rewrite run_zoom.
  erewrite run_bind_ok; [|erewrite run_bind_ok; [|by apply load_input_data_no_file]; done].
  by mstep.
Qed.

Lemma main_no_input_witness :
  main None "/home/user" ⇓ sample_world = (Ok tt, sample_world).
Proof. by apply main_no_input. Defined.

Lemma scale_coordinates_length_witness :
  ∃ l', default PNone
          (match _scale_coordinates (PList [PList [PInt 0; PInt 2]; PList [PInt 4; PInt 0]])
                   (NFloat one_and_a_half) with
           | Ok out => Some out | _ => None end) = PList l' ∧
        length l' = length [PList [PInt 0; PInt 2]; PList [PInt 4; PInt 0]].
Proof.
  destruct (_scale_coordinates (PList [PList [PInt 0; PInt 2]; PList [PInt 4; PInt 0]])
              (NFloat one_and_a_half)) as [out| |] eqn:E; try by vm_compute in E.
  by apply (scale_coordinates_length _ (NFloat one_and_a_half)).
Defined.

Lemma process_object_no_coordinates_witness :
  process_object 0 (PDict [(KStr "id", PStr "obj_001")])
    ⇓ mk_state (GrassholperDataHelper.__init__ None "/home/user" (Some "data")) sample_world
  = (Raise IndexError,
     mk_state (GrassholperDataHelper.__init__ None "/home/user" (Some "data")) sample_world).
Proof. apply process_object_no_coordinates. by left. Defined.

End GrassholperPipeline.
