(* ===== verification/Config.v ===== *)
(** * Module [config] (src/scripts/config.py)

    The constants of the integration: the directories below the workspace,
    the coordinate systems, and the settings of the synchronisation.  No
    other module reads them: each class builds its own paths and carries
    its own defaults.  The theorems relate the constants to what the
    classes use: the paths are those the classes build for the same
    workspace, the default reference system is the default of the
    converter and of the exporter, and the configured strategy is one the
    resolver knows. *)

From Stdlib Require Import ZArith String Ascii.
From stdpp Require Import base tactics option list strings gmap.
From S2P Require Import Prelude PyDict PyValue PyStr DateTime PyJson Md5 World.
From S2P Require Import DataObject ConflictResolver SyncMetadata SyncEngine.
From S2P Require Import GeoJson RevitBridge GhHelper.

Local Open Scope string_scope.

Module Config.

Definition WORKSPACE_ROOT : string := script_root.
Definition DATA_DIR : string := path_join WORKSPACE_ROOT "data".
Definition SCRIPTS_DIR : string := path_join WORKSPACE_ROOT "scripts".

Definition CHECKPOINT_DIR : string := path_join DATA_DIR "checkpoints".
Definition REVIT_EXPORT_DIR : string := path_join DATA_DIR "revit_exports".
Definition GH_INPUT_DIR : string := path_join DATA_DIR "gh_inputs".
Definition GH_OUTPUT_DIR : string := path_join DATA_DIR "gh_outputs".
Definition EXPORT_DIR : string := path_join DATA_DIR "exports".
Definition REPORT_DIR : string := path_join DATA_DIR "reports".
Definition SYNC_DIR : string := path_join DATA_DIR ".sync".

(** The directories the module creates when it is imported. *)
Definition created_directories : list string :=
  [CHECKPOINT_DIR; REVIT_EXPORT_DIR; GH_INPUT_DIR; GH_OUTPUT_DIR; EXPORT_DIR;
   REPORT_DIR; SYNC_DIR].

Definition METADATA_FILE : string := path_join SYNC_DIR "metadata.json".

(** [class CoordinateSystem(Enum)]. *)
Inductive CoordinateSystem : Type := UTM_33N | UTM_32N | WGS84 | RD.

#[export] Instance CoordinateSystem_eq_dec : EqDecision CoordinateSystem.
Proof. solve_decision. Defined.

(** [member.value]. *)
Definition value (c : CoordinateSystem) : string :=
  match c with
  | UTM_33N => "EPSG:32633"
  | UTM_32N => "EPSG:32632"
  | WGS84 => "EPSG:4326"
  | RD => "EPSG:28992"
  end.

Definition DEFAULT_EPSG : string := value UTM_33N.

Definition AGOL_CONFIG : pyval :=
  pdict [("portal_url", PStr "https://www.arcgisonline.com/sharing/rest");
         ("max_batch_size", PInt 1000);
         ("timeout", PInt 30)].

Definition SYNC_CONFIG : pyval :=
  pdict [("conflict_strategy", PStr "last_write_wins");
         ("enable_versioning", PBool true);
         ("enable_checkpoints", PBool true);
         ("checkpoint_interval", PInt 100)].

Definition TIMEOUT_CONFIG : pyval :=
  pdict [("gh_wait_timeout", PInt 300);
         ("agol_request_timeout", PInt 30);
         ("revit_export_timeout", PInt 60)].

Definition LOG_CONFIG : pyval :=
  pdict [("level", PStr "INFO");
         ("format", PStr "%(asctime)s - %(name)s - %(levelname)s - %(message)s")].

Definition SUPPORTED_ELEMENTS : list string :=
  ["Wall"; "Floor"; "Roof"; "Door"; "Window"; "Column"; "Beam"; "Ramp"; "Stairs"].

Definition GH_TO_AGOL_PROPERTY_MAP : list (string * string) :=
  [("name", "name"); ("type", "element_type"); ("version", "version");
   ("timestamp", "last_modified"); ("id", "gh_id"); ("revit_id", "revit_element_id")].

(** ** The enumeration *)

(** Two members of [CoordinateSystem] with the same value are the same
    member: the enumeration has no alias. *)
Lemma value_inj (a b : CoordinateSystem) : value a = value b → a = b.
Proof. by destruct a, b. Qed.

(** ** The constants and the classes *)

(** The ledger of an engine on [DATA_DIR] is [METADATA_FILE]. *)
Lemma metadata_file_engine (w w' : World) (e : SyncEngine.t) :
  SyncEngine.__init__ (Some DATA_DIR) ⇓ w = (Ok e, w') →
  SyncMetadata.metadata_file (SyncEngine.metadata e) = METADATA_FILE.
Proof.
  unfold SyncEngine.__init__, SyncMetadata.__init__. cbv zeta.
  cbn [default from_option Datatypes.id]. mstep.
  destruct (SyncMetadata.load_total
              (path_join (path_join DATA_DIR ".sync") "metadata.json") w)
    as (v & w1 & ->). mstep. by intros [= <- _].
Qed.

(** The engine without a workspace works in [DATA_DIR]. *)
Lemma default_workspace_is_data_dir : SyncEngine.default_workspace_dir = DATA_DIR.
Proof. reflexivity. Qed.

(** The exporter without an output directory writes to
    [REVIT_EXPORT_DIR], and the helper without a data directory reads
    [GH_INPUT_DIR] and writes [GH_OUTPUT_DIR]. *)
Lemma default_directories (home : string) :
  RevitExporter.output_dir (RevitExporter.__init__ None) = REVIT_EXPORT_DIR ∧
  GrassholperDataHelper.gh_input_dir
    (GrassholperDataHelper.__init__ (Some script_root) home None) = GH_INPUT_DIR ∧
  GrassholperDataHelper.gh_output_dir
    (GrassholperDataHelper.__init__ (Some script_root) home None) = GH_OUTPUT_DIR.
Proof. done. Qed.

(** The default reference system is the default of the converter. *)
Lemma default_epsg_converter : GeoJSONConverter.default_epsg = PStr DEFAULT_EPSG.
Proof. reflexivity. Qed.

(** The configured strategy is a strategy of the resolver: looking it up
    does not fall back on the default. *)
Lemma configured_strategy_known (s : pyval) :
  py_getitem SYNC_CONFIG "conflict_strategy" = Ok s →
  ∃ name, s = PStr name ∧
          is_Some (dict_get name (ConflictResolver.strategies ConflictResolver.__init__)).
Proof. intros [= <-]. exists "last_write_wins". split; [done|]. by eexists. Qed.

(** The elements and the names of the property map are distinct. *)
Lemma supported_elements_nodup : NoDup SUPPORTED_ELEMENTS.
Proof. by apply (bool_decide_unpack _). Qed.

Lemma property_map_injective : NoDup GH_TO_AGOL_PROPERTY_MAP.*2.
Proof. by apply (bool_decide_unpack _). Qed.

End Config.
