(* ===== verification/Agol.v ===== *)
(** * [AGOLAuthentication], [AGOLUploader] and [AGOLExporter]
      (src/scripts/agol_exporter.py)

    The three classes that send a collection to ArcGIS Online.  The service
    is part of the environment: [Net] extends [World] with the sequence of
    the answers of the service and the list of the requests that were sent.
    The n-th request receives the n-th answer: a JSON value, a body that
    does not parse, or no answer at all.

    An object and the environment form the state of its methods, as a pair.
    The uploader of an exporter holds the authentication object of the
    exporter itself, not a copy: the model keeps one object, and
    [AGOLExporter.uploader] is the view of it the uploader has.

    The theorems give each method in closed form (what it returns and what
    it sends, by the answer it receives), and show on the whole export that
    the password travels in one request only, the one to the portal.  The
    script under [__main__] sends nothing and writes one file. *)

From Stdlib Require Import ZArith String Ascii SpecFloat.
From stdpp Require Import base tactics option list strings gmap.
From S2P Require Import Prelude PyDict PyValue PyStr DateTime PyJson Md5 World.
From S2P Require Import GeoJson.

Set Default Proof Using "Type".
Local Open Scope string_scope.
Local Open Scope nat_scope.

(** ** Strings and paths *)

(** [s.replace(" ", "_")]. *)
Fixpoint replace_spaces (s : string) : string :=
  match s with
  | EmptyString => EmptyString
  | String c s' => String (if bool_decide (c = " "%char) then "_"%char else c) (replace_spaces s')
  end.

(** The position of the last [c] of [cs]. *)
Definition rfind (c : ascii) (cs : list ascii) : option nat :=
  '(j, _) ← list_find (λ x, x = c) (reverse cs); Some (length cs - 1 - j).

(** [p.parent] (followed by the separator) and [p.name]. *)
Definition split_path (p : string) : string * string :=
  let cs := list_ascii_of_string p in
  match rfind "/"%char cs with
  | Some i => (string_of_list_ascii (take (S i) cs), string_of_list_ascii (drop (S i) cs))
  | None => ("", p)
  end.

(** [p.stem] of a name: the name without its last suffix. *)
Definition stem (name : string) : string :=
  let cs := list_ascii_of_string name in
  match rfind "."%char cs with
  | Some i => if (0 <? i) && (i <? length cs - 1) then string_of_list_ascii (take i cs) else name
  | None => name
  end.

(** [p.with_suffix(suffix)] for a suffix that is a dot and at least one
    character, as at the call sites: [ValueError] for a path without a
    name. *)
Definition with_suffix (p suffix : string) : outcome string :=
  let '(parent, name) := split_path p in
  if bool_decide (name = "") then Raise ValueError
  else Ok (parent +:+ stem name +:+ suffix).

Lemma list_ascii_of_string_app (s1 s2 : string) :
  list_ascii_of_string (s1 +:+ s2) = (list_ascii_of_string s1 ++ list_ascii_of_string s2)%list.
Proof. induction s1 as [|c s1 IH]; [done|]. simpl. by f_equal. Qed.

Lemma string_of_list_ascii_app (l1 l2 : list ascii) :
  string_of_list_ascii (l1 ++ l2) = string_of_list_ascii l1 +:+ string_of_list_ascii l2.
Proof. induction l1 as [|c l1 IH]; [done|]. simpl. by rewrite IH. Qed.

Lemma string_app_assoc (s1 s2 s3 : string) : (s1 +:+ s2) +:+ s3 = s1 +:+ s2 +:+ s3.
Proof. induction s1 as [|c s1 IH]; [done|]. exact (f_equal (String c) IH). Qed.

Lemma rfind_absent (c : ascii) (cs : list ascii) : c ∉ cs → rfind c cs = None.
Proof.
  intros Hc. unfold rfind. rewrite (proj2 (list_find_None _ _)); [done|].
  apply Forall_forall. intros x Hx ->. by apply Hc, elem_of_reverse.
Qed.

Lemma rfind_last (c : ascii) (l1 l2 : list ascii) :
  c ∉ l2 → rfind c (l1 ++ c :: l2) = Some (length l1).
Proof.
  intros Hc. unfold rfind. rewrite reverse_app, reverse_cons, <-app_assoc.
  rewrite list_find_app_r.
  - cbn. rewrite decide_True by done. cbn. f_equal.
    rewrite length_app, length_reverse. cbn. lia.
  - apply list_find_None, Forall_forall. intros x Hx ->. by apply Hc, elem_of_reverse.
Qed.

(** A name without a dot gets the suffix appended. *)
Lemma with_suffix_join (dir name suffix : string) :
  name ≠ "" → "/"%char ∉ list_ascii_of_string name → "."%char ∉ list_ascii_of_string name →
  with_suffix (path_join dir name) suffix = Ok (path_join dir name +:+ suffix).
Proof.
  intros Hname Hslash Hdot. unfold with_suffix, split_path, path_join.
  rewrite !list_ascii_of_string_app. change (list_ascii_of_string "/") with ["/"%char].
  cbn [app]. rewrite rfind_last by done.
  rewrite (cons_middle _ (list_ascii_of_string dir)), app_assoc.
  rewrite take_app_length', drop_app_length' by (rewrite length_app; cbn; lia).
  rewrite string_of_list_ascii_app, !string_of_list_ascii_of_string.
  rewrite bool_decide_eq_false_2 by done. unfold stem. rewrite rfind_absent by done.
  change (string_of_list_ascii ["/"%char]) with "/". by rewrite !string_app_assoc.
Qed.

(** A character of a name: neither the separator nor the dot. *)
Definition name_char (c : ascii) : Prop := c ≠ "/"%char ∧ c ≠ "."%char.

#[export] Instance name_char_dec (c : ascii) : Decision (name_char c).
Proof. unfold name_char. apply _. Defined.

Lemma stamp_char_name_char (c : ascii) : stamp_char c → name_char c.
Proof. intros [[d Hd]| ->]; split; try done; by intros ->. Qed.

(** A file named after the time: the suffix is appended. *)
Lemma with_suffix_stamped (dir prefix suffix : string) (dt : datetime) :
  Forall name_char (list_ascii_of_string prefix) →
  with_suffix (path_join dir (prefix +:+ strftime_stamp dt)) suffix
  = Ok (path_join dir (prefix +:+ strftime_stamp dt) +:+ suffix).
Proof.
  intros Hprefix.
  assert (Forall name_char (list_ascii_of_string (prefix +:+ strftime_stamp dt))) as Hall.
  { rewrite list_ascii_of_string_app. apply Forall_app. split; [done|].
    eapply Forall_impl; [apply strftime_stamp_chars|apply stamp_char_name_char]. }
  apply with_suffix_join.
  - intros Hempty. apply (strftime_stamp_nonempty dt).
    apply (f_equal list_ascii_of_string) in Hempty.
    rewrite list_ascii_of_string_app in Hempty. apply app_eq_nil in Hempty as [_ Hempty].
    by rewrite <-(string_of_list_ascii_of_string (strftime_stamp dt)), Hempty.
  - intros Hin. by destruct (proj1 (Forall_forall _ _) Hall _ Hin) as [? _].
  - intros Hin. by destruct (proj1 (Forall_forall _ _) Hall _ Hin) as [_ ?].
Qed.

(** ** [json.dumps] without [sort_keys] *)

(** The items are printed in the order of insertion, and no key is compared
    with another. *)
Fixpoint dumps_plain (v : pyval) : outcome string :=
  match v with
  | PList l => parts ← outcome_map dumps_plain l; Ok (brackets "[" "]" parts)
  | PDict d =>
      vals ← outcome_map (λ kv, dumps_plain kv.2) d;
      Ok (brackets "{" "}" (zip_with (λ k s, dumps_key k +:+ ": " +:+ s) d.*1 vals))
  | _ => dumps v
  end.

(** ** The service *)

Inductive response : Type :=
| RJson (v : pyval)
| RNotJson
| RNoConnection.

Record Net : Type := mk_net {
  world : World;
  responses : nat → response;
  requests : list (string * pyval)
}.

Definition set_world (w : World) (n : Net) : Net :=
  mk_net w (responses n) (requests n).

(** A computation on the clock and the files, in the larger environment. *)
Definition on_world {A} (m : M World A) : M Net A := zoom world set_world m.

(** The environment after a request. *)
Definition sent (url : string) (payload : pyval) (n : Net) : Net :=
  mk_net (world n) (responses n) (requests n ++ [(url, payload)])%list.

(** The answer to the next request. *)
Definition next_response (n : Net) : response := responses n (length (requests n)).

(** [requests.post(url, data=payload).json()]: the request is recorded; no
    answer is an [OSError] (requests' [ConnectionError]), a body that does
    not parse a [ValueError] (its [JSONDecodeError]). *)
Definition post_json (url : string) (payload : pyval) : M Net pyval := λ n,
  match next_response n with
  | RJson v => (Ok v, sent url payload n)
  | RNotJson => (Raise ValueError, sent url payload n)
  | RNoConnection => (Raise OSError, sent url payload n)
  end.

(** A computation on the environment, for a method of an object [T]. *)
Definition io {T A} (m : M Net A) : M (T * Net) A :=
  zoom snd (λ n s, (s.1, n)) m.

(** What a method makes of an answer: [read] applied to the JSON value, and
    [failed] when there is no value or [read] raises. *)
Definition answer {A} (read : pyval → outcome A) (failed : A) (r : response) : outcome A :=
  match r with
  | RJson v => outcome_catch (read v) (λ _, Ok failed)
  | _ => Ok failed
  end.

(** A request that holds a password. *)
Definition has_password (req : string * pyval) : bool :=
  match req.2 with
  | PDict d => dict_mem (KStr "password") d
  | _ => false
  end.

(** An environment for examples: the sample world and a service that gives
    the answers of the list, in order, and then no answer. *)
Definition sample_net (answers : list response) : Net :=
  mk_net sample_world (λ i, nth i answers RNoConnection) [].

(** ** Running the environment *)

Lemma run_on_world {A} (m : M World A) (n : Net) :
  on_world m ⇓ n = ((m ⇓ world n).1, set_world (m ⇓ world n).2 n).
Proof. apply run_zoom. Qed.

Lemma run_agol_io {T A} (m : M Net A) (s : T * Net) :
  io m ⇓ s = ((m ⇓ s.2).1, (s.1, (m ⇓ s.2).2)).
Proof. unfold io. by rewrite run_zoom. Qed.

Lemma run_post_json (url : string) (payload : pyval) (n : Net) :
  post_json url payload ⇓ n =
    (match next_response n with
     | RJson v => Ok v
     | RNotJson => Raise ValueError
     | RNoConnection => Raise OSError
     end, sent url payload n).
Proof. unfold run, post_json. by destruct (next_response n). Qed.

(** A request and the reading of its answer inside a handler. *)
Lemma run_post_answer {A} (url : string) (payload : pyval) (read : pyval → outcome A)
    (failed : A) (n : Net) :
  try_except (result ← post_json url payload; lift (read result)) (λ _, mret failed) ⇓ n =
    (answer read failed (next_response n), sent url payload n).
Proof.
  rewrite run_try_except, run_bind, run_post_json. unfold answer.
  destruct (next_response n) as [v| |]; try done.
  rewrite run_lift. by destruct (read v).
Qed.

#[export] Hint Rewrite @run_on_world @run_agol_io run_post_json : pyrw.

(** ** What was sent *)

(** The environment [n] comes from [n0] by requests that all satisfy [P];
    the answers of the service are the same. *)
Definition extends (P : string * pyval → Prop) (n0 n : Net) : Prop :=
  ∃ extra, requests n = (requests n0 ++ extra)%list ∧ Forall P extra.

Section Extends.
Context (P : string * pyval → Prop) (n0 : Net).

Lemma extends_refl : extends P n0 n0.
Proof. exists []. by rewrite app_nil_r. Qed.

Lemma extends_sent (url : string) (payload : pyval) (n : Net) :
  P (url, payload) → extends P n0 n → extends P n0 (sent url payload n).
Proof.
  intros HP (extra & Hreq & Hall). exists (extra ++ [(url, payload)])%list. split.
  - cbn. by rewrite Hreq, <-app_assoc.
  - apply Forall_app. by split; [|apply Forall_singleton].
Qed.

Lemma extends_set_world (w : World) (n : Net) : extends P n0 n → extends P n0 (set_world w n).
Proof. done. Qed.

Lemma preserves_post_json (url : string) (payload : pyval) :
  P (url, payload) → preserves (extends P n0) (post_json url payload).
Proof. intros HP n Hn. rewrite run_post_json. by apply extends_sent. Qed.

Lemma preserves_on_world {A} (m : M World A) : preserves (extends P n0) (on_world m).
Proof. intros n Hn. rewrite run_on_world. by apply extends_set_world. Qed.

End Extends.

(** A computation on the environment preserves what is known of the
    object. *)
Lemma preserves_agol_io {T A} (K : T → Prop) (I : Net → Prop) (m : M Net A) :
  preserves I m → preserves (λ s : T * Net, K s.1 ∧ I s.2) (io m).
Proof. intros Hm [x n] [HK HI]. rewrite run_agol_io. split; [done|]. by apply Hm. Qed.

#[export] Hint Resolve preserves_on_world preserves_agol_io : py.

(** ** [AGOLAuthentication] *)

Module AGOLAuthentication.

Record t : Type := mk {
  username : string;
  password : string;
  portal_url : string;
  token : pyval;
  token_expiry : pyval
}.

Definition state : Type := t * Net.

Definition set_token (x : pyval) (self : t) : t :=
  mk (username self) (password self) (portal_url self) x (token_expiry self).

Definition default_portal_url : string := "https://www.arcgisonline.com/sharing/rest".

(** [AGOLAuthentication(username, password, portal_url)]. *)
Definition __init__ (username password : string) (portal_url : option string) : t :=
  mk username password (default default_portal_url portal_url) PNone PNone.

(** The form [authenticate] posts. *)
Definition auth_payload (self : t) : pyval :=
  pdict [("username", PStr (username self));
         ("password", PStr (password self));
         ("client", PStr "referer");
         ("referer", PStr "https://www.arcgis.com");
         ("expiration", PInt 60);
         ("f", PStr "json")].

Definition auth_url (self : t) : string := portal_url self +:+ "/generateToken".

(** What [authenticate] reads in the answer: the token, or nothing. *)
Definition token_in (result : pyval) : outcome (option pyval) :=
  has_token ← py_contains result "token";
  if has_token : bool then
    tok ← py_getitem result "token"; Ok (Some tok)
  else
    py_get result "error" (PStr "Unknown error");; Ok None.

(** [self.authenticate()].  The assignment of the token cannot fail: it is
    written after the handler. *)
Definition authenticate : M state bool :=
  self ← gets fst;
  found ← io (try_except
                (result ← post_json (auth_url self) (auth_payload self);
                 lift (token_in result))
                (λ _, mret None));
  match found with
  | Some tok => modify (λ s, (set_token tok s.1, s.2));; mret true
  | None => mret false
  end.

(** [self.is_authenticated()]. *)
Definition is_authenticated (self : t) : bool :=
  match token self with PNone => false | _ => true end.

(** ** What [authenticate] does *)

(** The request of [authenticate]. *)
Definition auth_request (self : t) : string * pyval := (auth_url self, auth_payload self).

(** What [set_token] leaves as it is. *)
Definition credentials (self : t) : string * string * string :=
  (username self, password self, portal_url self).

Lemma auth_request_credentials (a b : t) :
  credentials a = credentials b → auth_request a = auth_request b.
Proof. destruct a, b. by intros [= -> -> ->]. Qed.

Lemma run_authenticate (self : t) (n : Net) :
  authenticate ⇓ (self, n) =
    match answer token_in None (next_response n) with
    | Ok (Some tok) => (Ok true, (set_token tok self, sent (auth_url self) (auth_payload self) n))
    | Ok None => (Ok false, (self, sent (auth_url self) (auth_payload self) n))
    | Raise e => (Raise e, (self, sent (auth_url self) (auth_payload self) n))
    | Unmodelled => (Unmodelled, (self, sent (auth_url self) (auth_payload self) n))
    end.
Proof.
  unfold authenticate. mstep. rewrite run_post_answer. cbn [fst snd].
  by destruct (answer _ _ _) as [[tok|]| |].
Qed.

(** The token an answer holds: the value under [token] of a JSON object. *)
Definition token_of (r : response) : option pyval :=
  match r with
  | RJson (PDict d) => dict_get (KStr "token") d
  | _ => None
  end.

(** The answer the model does not follow: a JSON string, in which [in] is a
    search for a substring. *)
Definition is_text (r : response) : bool :=
  match r with RJson (PStr _) => true | _ => false end.

Lemma answer_token_in (r : response) :
  answer token_in None r = if is_text r then Unmodelled else Ok (token_of r).
Proof.
  destruct r as [[| | | | |l|d]| |]; try done; unfold answer, token_in; cbn.
  - by case_bool_decide.
  - unfold dict_mem. by destruct (dict_get _ d).
Qed.

(** C15. [authenticate] returns, whatever the service does (no answer, a body
    that is not JSON, any JSON value but a string): [True] exactly when the
    answer is a JSON object that has a token, and then that token is
    stored; otherwise the object is as it was.  One request was sent: the
    credentials, to [generateToken] of the portal. *)
Theorem authenticate_spec (self : t) (n : Net) :
  is_text (next_response n) = false →
  authenticate ⇓ (self, n) =
    (Ok (bool_decide (is_Some (token_of (next_response n)))),
     (from_option (λ tok, set_token tok self) self (token_of (next_response n)),
      sent (auth_url self) (auth_payload self) n)).
Proof.
  intros Htext. rewrite run_authenticate, answer_token_in, Htext.
  by destruct (token_of _).
Qed.

(** [authenticate] never raises. *)
Lemma authenticate_no_raise (s : state) : is_raise (authenticate ⇓ s).1 = false.
Proof.
  destruct s as [self n]. rewrite run_authenticate, answer_token_in.
  destruct (is_text _); [done|]. by destruct (token_of _).
Qed.

(** C38. An answer whose token is [null] makes [authenticate] return [True]
    and leaves the object unauthenticated. *)
Theorem authenticate_null_token (self : t) (n : Net) :
  token_of (next_response n) = Some PNone →
  ∃ s', authenticate ⇓ (self, n) = (Ok true, s') ∧ is_authenticated s'.1 = false.
Proof.
  intros Hr. rewrite run_authenticate, answer_token_in.
  destruct (next_response n) as [[]| |]; try done. cbn in *. rewrite Hr. by eexists.
Qed.

(** The credentials stay, and the request is the one of the credentials. *)
Lemma preserves_authenticate (P : string * pyval → Prop) (a0 : t) (n0 : Net) :
  P (auth_request a0) →
  preserves (λ s : state, credentials s.1 = credentials a0 ∧ extends P n0 s.2) authenticate.
Proof.
  intros HP [self n] [Hc Hn]. cbn [fst snd] in *. rewrite run_authenticate.
  assert (extends P n0 (sent (auth_url self) (auth_payload self) n)).
  { apply extends_sent; [|done]. change (P (auth_request self)).
    by rewrite (auth_request_credentials self a0). }
  by destruct (answer _ _ _) as [[tok|]| |].
Qed.

(** ** Examples *)

Definition sample_auth : t := __init__ "user" "secret" None.

Definition token_answer : response :=
  RJson (pdict [("token", PStr "tok123"); ("expires", PInt 60)]).

Definition null_token_answer : response := RJson (pdict [("token", PNone)]).

Lemma authenticate_spec_witness :
  authenticate ⇓ (sample_auth, sample_net [token_answer]) =
    (Ok true,
     (set_token (PStr "tok123") sample_auth,
      sent (auth_url sample_auth) (auth_payload sample_auth) (sample_net [token_answer]))).
Proof. by rewrite authenticate_spec. Defined.

Lemma authenticate_null_token_witness :
  ∃ s', authenticate ⇓ (sample_auth, sample_net [null_token_answer]) = (Ok true, s') ∧
        is_authenticated s'.1 = false.
Proof. by apply authenticate_null_token. Defined.

End AGOLAuthentication.

(** ** [AGOLUploader] *)

Module AGOLUploader.

Record t : Type := mk {
  auth : AGOLAuthentication.t;
  portal_url : string
}.

(** [AGOLUploader(auth)]. *)
Definition __init__ (auth : AGOLAuthentication.t) : t :=
  mk auth (AGOLAuthentication.portal_url auth).

Definition create_url (self : t) : string :=
  portal_url self +:+ "/content/users/" +:+ AGOLAuthentication.username (auth self)
  +:+ "/createService".

(** The form [create_feature_service] posts. *)
Definition create_payload (self : t) (title description : string)
    (tags : option (list string)) : pyval :=
  pdict [("name", PStr (replace_spaces title));
         ("displayName", PStr title);
         ("description", PStr description);
         ("tags", PStr (String.concat "," (default [] tags)));
         ("serviceDescription", PStr description);
         ("hasStaticData", PBool false);
         ("maxRecordCount", PInt 2000);
         ("token", AGOLAuthentication.token (auth self));
         ("f", PStr "json")].

(** What [create_feature_service] reads in the answer: the id of the
    service, or [None]. *)
Definition service_id_in (result : pyval) : outcome pyval :=
  has_success ← py_contains result "success";
  created ← (if has_success : bool
             then v ← py_getitem result "success"; Ok (py_truthy v)
             else Ok false);
  if created : bool then py_get result "itemId" PNone else Ok PNone.

(** [self.create_feature_service(title, description, tags)]. *)
Definition create_feature_service (self : t) (title description : string)
    (tags : option (list string)) : M Net pyval :=
  if negb (AGOLAuthentication.is_authenticated (auth self)) then mret PNone else
  try_except
    (result ← post_json (create_url self) (create_payload self title description tags);
     lift (service_id_in result))
    (λ _, mret PNone).

(** The feature [upload_geojson] makes of a feature of the collection. *)
Definition agol_feature (feature : pyval) : outcome pyval :=
  geometry ← py_get feature "geometry" PNone;
  attributes ← py_get feature "properties" (PDict []);
  Ok (pdict [("geometry", geometry); ("attributes", attributes)]).

Definition add_url (self : t) (service_id : string) : string :=
  portal_url self +:+ "/content/items/" +:+ service_id +:+ "/addFeatures".

(** The request of [upload_geojson]: the address and the form. *)
Definition upload_request (self : t) (geojson_data feature_service_id : pyval)
    : outcome (string * pyval) :=
  collection ← py_get geojson_data "features" (PList []);
  items ← py_iter collection;
  features ← outcome_map agol_feature items;
  service_id ← py_format feature_service_id;
  text ← dumps_plain (PList features);
  Ok (add_url self service_id,
      pdict [("features", PStr text);
             ("token", AGOLAuthentication.token (auth self));
             ("f", PStr "json")]).

(** What [upload_geojson] reads in the answer. *)
Definition added_in (result : pyval) : outcome bool :=
  has_results ← py_contains result "addResults";
  if has_results : bool then
    results ← py_getitem result "addResults";
    rows ← py_iter results;
    outcome_map (λ r, py_get r "success" PNone) rows;;
    Ok true
  else Ok false.

(** [self.upload_geojson(geojson_data, feature_service_id)]. *)
Definition upload_geojson (self : t) (geojson_data feature_service_id : pyval) : M Net bool :=
  if negb (AGOLAuthentication.is_authenticated (auth self)) then mret false else
  try_except
    (request ← lift (upload_request self geojson_data feature_service_id);
     result ← post_json request.1 request.2;
     lift (added_in result))
    (λ _, mret false).

(** ** What the uploader sends *)

(** Without a token nothing is sent. *)
Lemma create_feature_service_unauthenticated
    (self : t) (title description : string) (tags : option (list string)) (n : Net) :
  AGOLAuthentication.is_authenticated (auth self) = false →
  create_feature_service self title description tags ⇓ n = (Ok PNone, n).
Proof. intros H. unfold create_feature_service. by rewrite H. Qed.

Lemma upload_geojson_unauthenticated (self : t) (geojson_data service_id : pyval) (n : Net) :
  AGOLAuthentication.is_authenticated (auth self) = false →
  upload_geojson self geojson_data service_id ⇓ n = (Ok false, n).
Proof. intros H. unfold upload_geojson. by rewrite H. Qed.

Lemma run_create_feature_service
    (self : t) (title description : string) (tags : option (list string)) (n : Net) :
  AGOLAuthentication.is_authenticated (auth self) = true →
  create_feature_service self title description tags ⇓ n =
    (answer service_id_in PNone (next_response n),
     sent (create_url self) (create_payload self title description tags) n).
Proof. intros H. unfold create_feature_service. rewrite H. apply run_post_answer. Qed.

Lemma run_upload_geojson (self : t) (geojson_data service_id : pyval) (n : Net) :
  AGOLAuthentication.is_authenticated (auth self) = true →
  upload_geojson self geojson_data service_id ⇓ n =
    match upload_request self geojson_data service_id with
    | Ok request => (answer added_in false (next_response n), sent request.1 request.2 n)
    | Raise _ => (Ok false, n)
    | Unmodelled => (Unmodelled, n)
    end.
Proof.
  intros H. unfold upload_geojson. rewrite H. cbn [negb].
  rewrite run_try_except, run_bind, run_lift.
  destruct (upload_request _ _ _) as [request| |]; try done.
  rewrite <-run_try_except. apply run_post_answer.
Qed.

(** The forms of the uploader hold no password. *)
Lemma create_payload_no_password
    (self : t) (title description : string) (tags : option (list string)) :
  has_password (create_url self, create_payload self title description tags) = false.
Proof. reflexivity. Qed.

Lemma upload_request_no_password (self : t) (geojson_data service_id : pyval)
    (request : string * pyval) :
  upload_request self geojson_data service_id = Ok request → has_password request = false.
Proof.
  unfold upload_request. intros H.
  repeat (apply outcome_bind_inv_ok in H as (? & _ & H)). by injection H as <-.
Qed.

Section Sends.
Context (P : string * pyval → Prop) (n0 : Net).
Context (HP : ∀ req, has_password req = false → P req).

Lemma preserves_create_feature_service
    (self : t) (title description : string) (tags : option (list string)) :
  preserves (extends P n0) (create_feature_service self title description tags).
Proof using HP.
  unfold create_feature_service. step_preserves.
  apply preserves_post_json, HP, create_payload_no_password.
Qed.

Lemma preserves_upload_geojson (self : t) (geojson_data service_id : pyval) :
  preserves (extends P n0) (upload_geojson self geojson_data service_id).
Proof using HP.
  intros n Hn. destruct (AGOLAuthentication.is_authenticated (auth self)) eqn:Ha.
  - rewrite run_upload_geojson by done.
    destruct (upload_request _ _ _) as [request| |] eqn:Hr; try done.
    destruct request as [url payload]. apply extends_sent; [|done].
    by eapply HP, upload_request_no_password.
  - by rewrite upload_geojson_unauthenticated.
Qed.

End Sends.

End AGOLUploader.

(** ** [AGOLExporter] *)

Module AGOLExporter.

Record t : Type := mk {
  workspace_dir : string;
  auth : AGOLAuthentication.t
}.

Definition state : Type := t * Net.

Definition set_auth (a : AGOLAuthentication.t) (self : t) : t := mk (workspace_dir self) a.

(** [self.uploader]: it shares the authentication object of the exporter,
    and took its portal when it was built. *)
Definition uploader (self : t) : AGOLUploader.t := AGOLUploader.__init__ (auth self).

(** [AGOLExporter(agol_username, agol_password, workspace_dir)]. *)
Definition __init__ (agol_username agol_password : string) (workspace_dir : option string) : t :=
  mk (default script_root workspace_dir)
     (AGOLAuthentication.__init__ agol_username agol_password None).

(** A method of the authentication object, called on [self.auth]. *)
Definition on_auth {A} (m : M AGOLAuthentication.state A) : M state A :=
  zoom (λ s, (auth s.1, s.2)) (λ a s, (set_auth a.1 s.1, a.2)) m.

Definition export_tags : list string := ["grasshopper"; "revit"; "gis"; "automated"].

(** The file [export_to_agol] keeps of the collection. *)
Definition geojson_path (self : t) (stamp : string) : string :=
  path_join (path_join (path_join (workspace_dir self) "data") "exports")
            ("gh_export_" +:+ stamp +:+ ".geojson").

(** Steps 3 and 4 of [export_to_agol]: the service and the upload. *)
Definition create_and_upload (self : t) (geojson : pyval)
    (service_title service_description : string) (create_new_service : bool)
    : M Net (bool * pyval) :=
  if create_new_service then
    service_id ← AGOLUploader.create_feature_service (uploader self) service_title
                   service_description (Some export_tags);
    if negb (py_truthy service_id) then mret (false, PStr "Failed to create feature service")
    else
      uploaded ← AGOLUploader.upload_geojson (uploader self) geojson service_id;
      if uploaded : bool then mret (true, service_id)
      else mret (false, PStr "Failed to upload to AGOL")
  else mret (false, PStr "Existing service lookup not implemented").

(** [self.export_to_agol(gh_data, service_title, service_description,
    epsg_code, create_new_service)]: the pair of the flag and of the id of
    the service or the message. *)
Definition export_to_agol (gh_data : pyval) (service_title service_description : string)
    (epsg_code : pyval) (create_new_service : bool) : M state (bool * pyval) :=
  authenticated ← on_auth AGOLAuthentication.authenticate;
  if negb authenticated then mret (false, PStr "Authentication failed") else
  geojson ← lift (GeoJSONConverter.gh_to_geojson gh_data epsg_code);
  stamp ← io (on_world now_stamp);
  self ← gets fst;
  io (on_world (write_json (geojson_path self stamp) geojson));;
  io (create_and_upload self geojson service_title service_description create_new_service).

(** [self.export_to_shapefile(gh_data, output_path)]. *)
Definition export_to_shapefile (gh_data : pyval) (output_path : string) : M Net bool :=
  try_except
    (geojson ← lift (GeoJSONConverter.gh_to_geojson gh_data GeoJSONConverter.default_epsg);
     path ← lift (with_suffix output_path ".geojson");
     on_world (write_json path geojson);;
     mret true)
    (λ _, mret false).

(** The data of the script; the height is the float [3.5]. *)
Definition sample_gh_data : pyval :=
  PList [pdict [("id", PStr "wall_a1b2c3"); ("gh_guid", PStr "wall_a1b2c3");
                ("type", PStr "Wall"); ("version", PInt 2);
                ("timestamp", PStr "2026-01-08T10:30:00");
                ("properties",
                 pdict [("name", PStr "North Facade"); ("material", PStr "Brick");
                        ("height", PFloat (S754_finite false 7881299347898368 (-51)))]);
                ("geometry",
                 pdict [("type", PStr "LineString");
                        ("coordinates", PList [PList [PInt 0; PInt 0];
                                               PList [PInt 50; PInt 0]])])]].

(** The block under [if __name__ == "__main__"]: an exporter with
    credentials that open nothing, and the local export of the data. *)
Definition main : M Net unit :=
  let exporter := __init__ "dummy_user" "dummy_pass" None in
  export_to_shapefile sample_gh_data
    (path_join (path_join (path_join script_root "data") "exports") "test_export");;
  mret tt.

(** ** What the exporter does *)

Lemma run_on_auth {A} (m : M AGOLAuthentication.state A) (s : state) :
  on_auth m ⇓ s =
    ((m ⇓ (auth s.1, s.2)).1,
     (set_auth (m ⇓ (auth s.1, s.2)).2.1 s.1, (m ⇓ (auth s.1, s.2)).2.2)).
Proof. unfold on_auth. by rewrite run_zoom. Qed.

#[local] Hint Rewrite @run_on_auth : pyrw.

(** Without a token in the answer of the portal the export stops: it
    returns the message, and the one request that was sent is the request
    for a token.  Nothing is converted and no file is written. *)
Theorem export_to_agol_auth_failed
    (gh_data : pyval) (title description : string) (epsg : pyval) (create : bool)
    (self : t) (n : Net) :
  AGOLAuthentication.is_text (next_response n) = false →
  AGOLAuthentication.token_of (next_response n) = None →
  export_to_agol gh_data title description epsg create ⇓ (self, n) =
    (Ok (false, PStr "Authentication failed"),
     (self, sent (AGOLAuthentication.auth_url (auth self))
                 (AGOLAuthentication.auth_payload (auth self)) n)).
Proof.
  intros Htext Htok. unfold export_to_agol. mstep. cbn [fst snd].
  rewrite AGOLAuthentication.run_authenticate, AGOLAuthentication.answer_token_in.
  rewrite Htext, Htok. mstep. by destruct self.
Qed.

Section Sends.
Context (P : string * pyval → Prop) (a0 : AGOLAuthentication.t) (n0 : Net).
Context (Hauth : P (AGOLAuthentication.auth_request a0)).
Context (HP : ∀ req, has_password req = false → P req).

(** The export sends the request of the credentials and requests without
    a password, and leaves the credentials as they are. *)
Lemma preserves_export_to_agol
    (gh_data : pyval) (title description : string) (epsg : pyval) (create : bool) :
  preserves (λ x : state,
               AGOLAuthentication.credentials (auth x.1) = AGOLAuthentication.credentials a0
               ∧ extends P n0 x.2)
    (export_to_agol gh_data title description epsg create).
Proof using Hauth HP.
  pose proof (AGOLUploader.preserves_create_feature_service P n0 HP) as Hcreate.
  pose proof (AGOLUploader.preserves_upload_geojson P n0 HP) as Hupload.
  unfold export_to_agol, create_and_upload.
  apply preserves_bind.
  { apply (preserves_zoom _ (λ x : AGOLAuthentication.state,
             AGOLAuthentication.credentials x.1 = AGOLAuthentication.credentials a0
             ∧ extends P n0 x.2)); [done|by intros ?? [] []|].
    by apply AGOLAuthentication.preserves_authenticate. }
  intros ?. step_preserves;
    apply (preserves_agol_io (λ self, AGOLAuthentication.credentials (auth self)
                                      = AGOLAuthentication.credentials a0));
    step_preserves.
Qed.

End Sends.

(** C6. The password travels in the request for a token only: whatever the
    answers of the service, and whether the export returns or raises, every
    request it sent that holds a password is the request of the credentials
    to the portal; and the credentials are what they were. *)
Theorem export_to_agol_credentials
    (gh_data : pyval) (title description : string) (epsg : pyval) (create : bool)
    (s : state) :
  let s' := (export_to_agol gh_data title description epsg create ⇓ s).2 in
  AGOLAuthentication.credentials (auth s'.1) = AGOLAuthentication.credentials (auth s.1) ∧
  extends (λ req, has_password req = true → req = AGOLAuthentication.auth_request (auth s.1))
          s.2 s'.2.
Proof.
  apply (preserves_export_to_agol _ (auth s.1) s.2); [done|congruence|].
  split; [done|apply extends_refl].
Qed.

(** The service and the upload, when the export reports success: the id is
    the id the service announced, and two requests were sent. *)
Lemma create_and_upload_success
    (self : t) (geojson : pyval) (title description : string) (create : bool)
    (sid : pyval) (n n' : Net) :
  create_and_upload self geojson title description create ⇓ n = (Ok (true, sid), n') →
  ∃ request,
    AGOLUploader.upload_request (uploader self) geojson sid = Ok request ∧
    py_truthy sid = true ∧
    answer AGOLUploader.service_id_in PNone (next_response n) = Ok sid ∧
    n' = sent request.1 request.2
           (sent (AGOLUploader.create_url (uploader self))
                 (AGOLUploader.create_payload (uploader self) title description
                    (Some export_tags)) n).
Proof.
  unfold create_and_upload. destruct create; [|done]. rewrite run_bind.
  destruct (AGOLAuthentication.is_authenticated (auth self)) eqn:Ha;
    [|by rewrite AGOLUploader.create_feature_service_unauthenticated].
  rewrite AGOLUploader.run_create_feature_service by done.
  destruct (answer _ _ _) as [sid'| |]; try done.
  destruct (py_truthy sid') eqn:Hsid; [|done]. cbn [negb]. rewrite run_bind.
  rewrite AGOLUploader.run_upload_geojson by done.
  destruct (AGOLUploader.upload_request _ _ _) as [request| |] eqn:Hreq; try done.
  destruct (answer _ _ _) as [[]| |]; try done. intros [= <- <-]. eauto.
Qed.

(** C23. An export that reports success: the portal gave a token, the
    collection was converted and written under the time of the export, the
    service was created and the features were added: three requests, in
    that order, and the id that is returned is the id of the service. *)
Theorem export_to_agol_success
    (gh_data : pyval) (title description : string) (epsg sid : pyval) (create : bool)
    (self self' : t) (n n' : Net) :
  export_to_agol gh_data title description epsg create ⇓ (self, n) =
    (Ok (true, sid), (self', n')) →
  ∃ tok geojson request,
    AGOLAuthentication.token_of (next_response n) = Some tok ∧
    self' = set_auth (AGOLAuthentication.set_token tok (auth self)) self ∧
    GeoJSONConverter.gh_to_geojson gh_data epsg = Ok geojson ∧
    AGOLUploader.upload_request (uploader self') geojson sid = Ok request ∧
    py_truthy sid = true ∧
    requests n' =
      (requests n ++
       [AGOLAuthentication.auth_request (auth self);
        (AGOLUploader.create_url (uploader self'),
         AGOLUploader.create_payload (uploader self') title description (Some export_tags));
        request])%list ∧
    world n' =
      written (geojson_path self (strftime_stamp (clock (world n) (ticks (world n)))))
              geojson (tick (world n)).
Proof.
  unfold export_to_agol. mstep. cbn [fst snd].
  rewrite AGOLAuthentication.run_authenticate, AGOLAuthentication.answer_token_in.
  destruct (AGOLAuthentication.is_text _); [done|].
  destruct (AGOLAuthentication.token_of _) as [tok|]; [|done]. mstep.
  destruct (GeoJSONConverter.gh_to_geojson _ _) as [geojson| |]; try done.
  cbn [negb]. mstep. cbn [fst snd world sent set_world]. rewrite run_write_json.
  destruct (unwritable _ _); [done|]. mstep. cbn [fst snd].
  destruct (create_and_upload _ _ _ _ _ ⇓ _) as [[[b sid']| |] n1] eqn:Hrun; try done.
  cbn [fst snd]. intros [= -> -> <- <-].
  apply create_and_upload_success in Hrun as (request & ? & ? & _ & ->).
  exists tok, geojson, request. repeat split; try done.
  cbn. rewrite <-!app_assoc. by destruct request.
Qed.

(** ** The local export *)

(** [export_to_shapefile] by cases: the collection and the path, then the
    write. *)
Lemma run_export_to_shapefile (gh_data : pyval) (output_path : string) (n : Net) :
  export_to_shapefile gh_data output_path ⇓ n =
    match GeoJSONConverter.gh_to_geojson gh_data GeoJSONConverter.default_epsg,
          with_suffix output_path ".geojson" with
    | Ok geojson, Ok path =>
        if unwritable (world n) path then (Ok false, n)
        else (Ok true, set_world (written path geojson (world n)) n)
    | Ok _, Raise _ | Raise _, _ => (Ok false, n)
    | _, _ => (Unmodelled, n)
    end.
Proof.
  unfold export_to_shapefile. rewrite run_try_except. mstep.
  destruct (GeoJSONConverter.gh_to_geojson _ _) as [geojson| |]; try done. mstep.
  destruct (with_suffix _ _) as [path| |]; try done. mstep.
  rewrite run_write_json. destruct (unwritable _ _); [by destruct n|done].
Qed.

(** [export_to_shapefile] returns [True] exactly when it wrote the
    collection, and then the file is the path with the suffix [.geojson];
    when it returns [False] nothing was written.  (That it never raises
    is [export_to_shapefile_no_raise].) *)
Theorem export_to_shapefile_spec
    (gh_data : pyval) (output_path : string) (b : bool) (n n' : Net) :
  export_to_shapefile gh_data output_path ⇓ n = (Ok b, n') →
  if b then
    ∃ geojson path,
      GeoJSONConverter.gh_to_geojson gh_data GeoJSONConverter.default_epsg = Ok geojson ∧
      with_suffix output_path ".geojson" = Ok path ∧
      n' = set_world (written path geojson (world n)) n
  else n' = n.
Proof.
  rewrite run_export_to_shapefile.
  destruct (GeoJSONConverter.gh_to_geojson _ _) as [geojson| |]; try done;
    [|by intros [= <- <-]].
  destruct (with_suffix _ _) as [path| |]; try done; [|by intros [= <- <-]].
  destruct (unwritable _ _); intros [= <- <-]; eauto.
Qed.

Lemma export_to_shapefile_no_raise (gh_data : pyval) (output_path : string) (n : Net) :
  is_raise (export_to_shapefile gh_data output_path ⇓ n).1 = false.
Proof. by apply try_except_no_raise. Qed.

(** The script sends nothing: it writes the collection of its one wall to
    [./data/exports/test_export.geojson] where that file can be written,
    and does nothing otherwise; it ends without an error in both cases. *)
Theorem main_local (n : Net) :
  let path := "./data/exports/test_export.geojson" in
  ∃ geojson feature,
    GeoJSONConverter.gh_to_geojson sample_gh_data GeoJSONConverter.default_epsg
      = Ok geojson ∧
    py_getitem geojson "features" = Ok (PList [feature]) ∧
    main ⇓ n =
      (Ok tt,
       if unwritable (world n) path then n
       else set_world (written path geojson (world n)) n).
Proof.
  intros path.
  destruct (GeoJSONConverter.gh_to_geojson sample_gh_data GeoJSONConverter.default_epsg)
    as [geojson| |] eqn:Hgeojson; try by vm_compute in Hgeojson.
  exists geojson. eexists. split; [done|]. split.
  - injection Hgeojson as <-. by vm_compute.
  - unfold main. rewrite run_bind, run_export_to_shapefile, Hgeojson.
    replace (with_suffix _ _) with (Ok path : outcome string) by by vm_compute.
    by destruct (unwritable _ _).
Qed.

(** ** Examples *)

Definition sample_exporter : t := __init__ "user" "secret" (Some "ws").

(** The answers of a service that accepts everything. *)
Definition friendly_answers : list response :=
  [AGOLAuthentication.token_answer;
   RJson (pdict [("success", PBool true); ("itemId", PStr "abc123")]);
   RJson (pdict [("addResults", PList [pdict [("success", PBool true)]])])].

Definition sample_export : outcome (bool * pyval) * state :=
  export_to_agol (PList [GeoJSONConverter.sample_object]) "Demo Export" "A demo"
    GeoJSONConverter.default_epsg true ⇓ (sample_exporter, sample_net friendly_answers).

Lemma export_to_agol_auth_failed_witness :
  (export_to_agol (PList [GeoJSONConverter.sample_object]) "Demo Export" "A demo"
     GeoJSONConverter.default_epsg true ⇓ (sample_exporter, sample_net [RNotJson])).1
  = Ok (false, PStr "Authentication failed").
Proof. by rewrite export_to_agol_auth_failed. Defined.

Lemma export_to_agol_success_witness :
  ∃ tok geojson request,
    AGOLAuthentication.token_of (next_response (sample_net friendly_answers)) = Some tok ∧
    sample_export.2.1 = set_auth (AGOLAuthentication.set_token tok (auth sample_exporter))
                          sample_exporter ∧
    GeoJSONConverter.gh_to_geojson (PList [GeoJSONConverter.sample_object])
      GeoJSONConverter.default_epsg = Ok geojson ∧
    AGOLUploader.upload_request (uploader sample_export.2.1) geojson (PStr "abc123")
      = Ok request ∧
    py_truthy (PStr "abc123") = true ∧
    requests sample_export.2.2 =
      (requests (sample_net friendly_answers) ++
       [AGOLAuthentication.auth_request (auth sample_exporter);
        (AGOLUploader.create_url (uploader sample_export.2.1),
         AGOLUploader.create_payload (uploader sample_export.2.1) "Demo Export" "A demo"
           (Some export_tags));
        request])%list ∧
    world sample_export.2.2 =
      written (geojson_path sample_exporter
                 (strftime_stamp (clock (world (sample_net friendly_answers))
                                        (ticks (world (sample_net friendly_answers))))))
              geojson (tick (world (sample_net friendly_answers))).
Proof.
  apply (export_to_agol_success (PList [GeoJSONConverter.sample_object]) "Demo Export"
           "A demo" GeoJSONConverter.default_epsg (PStr "abc123") true sample_exporter).
  vm_compute. reflexivity.
Defined.

Lemma export_to_shapefile_spec_witness :
  ∃ geojson path,
    GeoJSONConverter.gh_to_geojson (PList [GeoJSONConverter.sample_object])
      GeoJSONConverter.default_epsg = Ok geojson ∧
    with_suffix "ws/data/exports/test_export" ".geojson" = Ok path ∧
    (export_to_shapefile (PList [GeoJSONConverter.sample_object])
       "ws/data/exports/test_export" ⇓ sample_net []).2
    = set_world (written path geojson (world (sample_net []))) (sample_net []).
Proof.
  apply (export_to_shapefile_spec (PList [GeoJSONConverter.sample_object])
           "ws/data/exports/test_export" true (sample_net [])).
  vm_compute. reflexivity.
Defined.

End AGOLExporter.
