(* ===== verification/IntegrationPipeline.v ===== *)
(** * [RevitGISIntegrationPipeline] (src/scripts/integration_pipeline.py)

    The orchestrator: Revit export, synchronisation, export to Grasshopper,
    import of the modifications, export to ArcGIS Online or to a local
    file, and the report.  Each step runs its body inside a catch-all
    handler, appends one entry to the log of the pipeline and returns a
    value its caller tests for truth.

    The state of a method is the pipeline and the environment [Net].  The
    pipeline owns its engine, its bridge and, with credentials, its
    exporter; a method of one of them runs on that part of the state.

    Two things the program takes from outside are parameters of the model:
    the text of an exception ([str(e)], which the log records) and what the
    environment does while the program sleeps ([time.sleep(5)] in the
    loop that waits for Grasshopper).

    Theorems: the log only grows, by entries of a known shape; no step
    raises; the loop that waits ends within its sixty rounds, finds the
    file when it appears and gives up when it does not; what the two
    reports hold; and that the example under [__main__] ends in
    [KeyError]. *)

From Stdlib Require Import ZArith String Ascii SpecFloat.
From stdpp Require Import base tactics option list strings gmap.
From S2P Require Import Prelude PyDict PyValue PyStr DateTime PyJson Md5 World.
From S2P Require Import DataObject ConflictResolver SyncMetadata SyncEngine.
From S2P Require Import GeoJson RevitBridge Agol.

Set Default Proof Using "Type".
Local Open Scope string_scope.
Local Open Scope Z_scope.

(** ** Built-ins the orchestrator uses *)

(** [v.values()], and [v.items()] where only the values are used. *)
Definition py_values (v : pyval) : outcome (list pyval) :=
  match v with
  | PDict d => Ok d.*2
  | _ => Raise AttributeError
  end.

(** [v.upper()] as far as it can fail. *)
Definition has_upper (v : pyval) : outcome unit :=
  match v with
  | PStr _ => Ok tt
  | _ => Raise AttributeError
  end.

(** [f"{v:.1f}"] as far as it can fail. *)
Definition format_fixed (v : pyval) : outcome unit :=
  match v with
  | PFloat _ | PInt _ | PBool _ => Ok tt
  | PStr _ => Raise ValueError
  | _ => Raise TypeError
  end.

Module RevitGISIntegrationPipeline.

Record t : Type := mk {
  workspace_dir : string;
  data_dir : string;
  sync_engine : SyncEngine.t;
  revit_bridge : RevitGHBridge.t;
  agol_exporter : option AGOLExporter.t;
  pipeline_log : list pyval
}.

(** The state of a method: the pipeline and the environment. *)
Abbreviation state := (t * Net)%type.

Definition set_sync_engine (e : SyncEngine.t) (self : t) : t :=
  mk (workspace_dir self) (data_dir self) e (revit_bridge self) (agol_exporter self)
     (pipeline_log self).

Definition set_agol_exporter (x : option AGOLExporter.t) (self : t) : t :=
  mk (workspace_dir self) (data_dir self) (sync_engine self) (revit_bridge self) x
     (pipeline_log self).

Definition set_pipeline_log (l : list pyval) (self : t) : t :=
  mk (workspace_dir self) (data_dir self) (sync_engine self) (revit_bridge self)
     (agol_exporter self) l.

(** A computation on the clock and the files. *)
Definition in_world {A} (m : M World A) : M state A := io (on_world m).

(** A method of the engine: [self.sync_engine.f(...)]. *)
Definition on_engine {A} (m : M SyncEngine.state A) : M state A :=
  zoom (λ s, SyncEngine.mk_state (sync_engine s.1) (world s.2))
       (λ e s, (set_sync_engine (SyncEngine.engine e) s.1, set_world (SyncEngine.env e) s.2))
       m.

(** A method of the exporter [x]: [self.agol_exporter.f(...)]. *)
Definition on_exporter {A} (x : AGOLExporter.t) (m : M AGOLExporter.state A) : M state A :=
  zoom (λ s, (x, s.2)) (λ a s, (set_agol_exporter (Some a.1) s.1, a.2)) m.

(** [self.pipeline_log.append(entry)]. *)
Definition log_append (entry : pyval) : M state unit :=
  modify (λ s, (set_pipeline_log (pipeline_log s.1 ++ [entry]) s.1, s.2)).

(** An entry of the log: the time, the step, the status and what the step
    adds. *)
Definition log_entry (ts : pyval) (step status : string) (extra : list (string * pyval))
    : pyval :=
  pdict (("timestamp", ts) :: ("step", PStr step) :: ("status", PStr status) :: extra).

(** [RevitGISIntegrationPipeline(workspace_dir, agol_username,
    agol_password)]. *)
Definition __init__ (workspace_dir agol_username agol_password : option string)
    : M Net t :=
  let ws := default script_root workspace_dir in
  let data_dir := path_join ws "data" in
  engine ← on_world (SyncEngine.__init__ (Some data_dir));
  let bridge := RevitGHBridge.__init__ (Some ws) in
  let exporter :=
    match agol_username, agol_password with
    | Some u, Some p =>
        if py_truthy (PStr u) && py_truthy (PStr p)
        then Some (AGOLExporter.__init__ u p (Some ws)) else None
    | _, _ => None
    end in
  mret (mk ws data_dir engine bridge exporter []).

(** [sum(len(v) for v in exported["elements"].values())]. *)
Definition elements_count (exported : pyval) : outcome Z :=
  elements ← py_getitem exported "elements";
  vals ← py_values elements;
  lens ← outcome_map py_len vals;
  Ok (foldr Z.add 0 lens).

(** The loop of [step_2_sync_and_version] that flattens the export. *)
Definition all_elements (revit_export : pyval) : outcome (list pyval) :=
  elements ← py_getitem revit_export "elements";
  vals ← py_values elements;
  parts ← outcome_map py_iter vals;
  Ok (concat parts).

Definition checkpoint_path (self : t) (stamp : string) : string :=
  path_join (path_join (data_dir self) "checkpoints")
            ("sync_checkpoint_" +:+ stamp +:+ ".json").

Definition gh_input_path (self : t) (stamp : string) : string :=
  path_join (path_join (data_dir self) "gh_inputs") ("gh_input_" +:+ stamp +:+ ".json").

Definition agol_export_path (self : t) (stamp : string) : string :=
  path_join (path_join (data_dir self) "exports") ("agol_export_" +:+ stamp).

Definition report_path (self : t) (stamp : string) : string :=
  path_join (path_join (data_dir self) "reports")
            ("pipeline_report_" +:+ stamp +:+ ".json").

(** The rounds of the loop that waits for Grasshopper: it sleeps five
    seconds per round and gives up after three hundred. *)
Definition max_wait : Z := 300.
Definition wait_rounds : nat := 60.

(** ** Running the parts *)

Lemma run_in_world {A} (m : M World A) (s : state) :
  in_world m ⇓ s = ((m ⇓ world s.2).1, (s.1, set_world (m ⇓ world s.2).2 s.2)).
Proof. unfold in_world. by rewrite run_agol_io, run_on_world. Qed.

Lemma run_on_engine {A} (m : M SyncEngine.state A) (s : state) :
  on_engine m ⇓ s =
    let r := m ⇓ SyncEngine.mk_state (sync_engine s.1) (world s.2) in
    (r.1, (set_sync_engine (SyncEngine.engine r.2) s.1, set_world (SyncEngine.env r.2) s.2)).
Proof. unfold on_engine. by rewrite run_zoom. Qed.

Lemma run_on_exporter {A} (x : AGOLExporter.t) (m : M AGOLExporter.state A) (s : state) :
  on_exporter x m ⇓ s =
    ((m ⇓ (x, s.2)).1, (set_agol_exporter (Some (m ⇓ (x, s.2)).2.1) s.1, (m ⇓ (x, s.2)).2.2)).
Proof. unfold on_exporter. by rewrite run_zoom. Qed.

Lemma run_log_append (entry : pyval) (s : state) :
  log_append entry ⇓ s = (Ok tt, (set_pipeline_log (pipeline_log s.1 ++ [entry]) s.1, s.2)).
Proof. reflexivity. Qed.

#[local] Hint Rewrite @run_in_world @run_on_engine @run_on_exporter run_log_append : pyrw.

(** ** The log *)

(** An entry the pipeline writes: a dictionary whose status is one of the
    three the report counts. *)
Definition entry_ok (entry : pyval) : Prop :=
  ∃ status, py_getitem entry "status" = Ok (PStr status) ∧
            status ∈ ["success"; "partial"; "error"].

(** The log holds the entries of [l0], in their places, and entries of the
    pipeline after them. *)
Definition log_from (l0 : list pyval) (s : state) : Prop :=
  ∃ added, pipeline_log s.1 = (l0 ++ added)%list ∧ Forall entry_ok added.

Lemma log_entry_ok (ts : pyval) (step status : string) (extra : list (string * pyval)) :
  status ∈ ["success"; "partial"; "error"] → entry_ok (log_entry ts step status extra).
Proof. intros Hs. exists status. split; [|done]. unfold log_entry. by dict_eval. Qed.

Section Log.
Context (l0 : list pyval).

Lemma log_from_refl (self : t) (n : Net) : pipeline_log self = l0 → log_from l0 (self, n).
Proof. intros <-. exists []. by rewrite app_nil_r. Qed.

Lemma preserves_in_world {A} (m : M World A) : preserves (log_from l0) (in_world m).
Proof. intros s Hs. by rewrite run_in_world. Qed.

Lemma preserves_on_engine {A} (m : M SyncEngine.state A) : preserves (log_from l0) (on_engine m).
Proof. intros s Hs. by rewrite run_on_engine. Qed.

Lemma preserves_on_exporter {A} (x : AGOLExporter.t) (m : M AGOLExporter.state A) :
  preserves (log_from l0) (on_exporter x m).
Proof. intros s Hs. by rewrite run_on_exporter. Qed.

Lemma preserves_pipeline_io {A} (m : M Net A) : preserves (log_from l0) (io m).
Proof. intros s Hs. by rewrite run_agol_io. Qed.

Lemma preserves_log_append (entry : pyval) :
  entry_ok entry → preserves (log_from l0) (log_append entry).
Proof.
  intros He s (added & Hlog & Hall). exists (added ++ [entry])%list. cbn. split.
  - by rewrite Hlog, <-app_assoc.
  - apply Forall_app. by split; [|apply Forall_singleton].
Qed.

End Log.

#[local] Hint Resolve preserves_in_world preserves_on_engine preserves_on_exporter
  preserves_pipeline_io preserves_log_append log_entry_ok : py.

Section Outside.

(** [str(e)]. *)
Context (str_exn : exn → string).
(** The environment after [time.sleep(5)]. *)
Context (during_sleep : Net → Net).

(** The handler of every step: one entry of status error. *)
Definition log_error (step : string) (e : exn) : M state unit :=
  ts ← in_world now_iso;
  log_append (log_entry ts step "error" [("error", PStr (str_exn e))]).

(** [self.step_1_revit_export(revit_document)]. *)
Definition step_1_revit_export (revit_document : pyval) : M state pyval :=
  try_except
    (self ← gets fst;
     exported ← in_world (RevitGHBridge.export_from_revit (revit_bridge self) revit_document);
     ts ← in_world now_iso;
     count ← lift (elements_count exported);
     log_append (log_entry ts "revit_export" "success" [("elements_count", PInt count)]);;
     mret exported)
    (λ e, log_error "revit_export" e;; mret PNone).

(** [self.step_2_sync_and_version(revit_export)]. *)
Definition step_2_sync_and_version (revit_export : pyval) : M state pyval :=
  try_except
    (elems ← lift (all_elements revit_export);
     gh_data ← on_engine (SyncEngine.sync_revit_to_gh (PList elems));
     stamp ← in_world now_stamp;
     self ← gets fst;
     in_world (SyncEngine.save_state (sync_engine self) (checkpoint_path self stamp));;
     ts ← in_world now_iso;
     log_append (log_entry ts "sync_versioning" "success"
                   [("objects_versioned", PInt (Z.of_nat (length gh_data)))]);;
     mret (PList gh_data))
    (λ e, log_error "sync_versioning" e;; mret (PList [])).

(** [self.step_3_export_grasshopper(gh_data)]: the path of the file, or
    [None]. *)
Definition step_3_export_grasshopper (gh_data : pyval) : M state (option string) :=
  try_except
    (self ← gets fst;
     stamp ← in_world now_stamp;
     let gh_file := gh_input_path self stamp in
     in_world (write_json gh_file gh_data);;
     ts ← in_world now_iso;
     n ← lift (py_len gh_data);
     log_append (log_entry ts "export_grasshopper" "success"
                   [("file", PStr gh_file); ("objects_exported", PInt n)]);;
     mret (Some gh_file))
    (λ e, log_error "export_grasshopper" e;; mret None).

(** [self.step_4_import_grasshopper_modifications(gh_output_file)]. *)
Definition step_4_import_grasshopper_modifications (gh_output_file : string)
    : M state pyval :=
  try_except
    (found ← in_world (path_exists gh_output_file);
     if negb found then mret PNone else
     gh_modified ← in_world (read_json gh_output_file);
     on_engine (SyncEngine.import_from_grasshopper gh_modified);;
     lift (py_len gh_modified);;
     ts ← in_world now_iso;
     n ← lift (py_len gh_modified);
     log_append (log_entry ts "import_grasshopper" "success" [("objects_modified", PInt n)]);;
     mret gh_modified)
    (λ e, log_error "import_grasshopper" e;; mret PNone).

Definition agol_description : string := "Auto-exported from Revit via Grasshopper".

(** The local export of step 5, when there is no exporter or it is not to
    be used. *)
Definition export_local (gh_modified_data : pyval) : M state (bool * pyval) :=
  self ← gets fst;
  stamp ← in_world now_stamp;
  let export_path := agol_export_path self stamp in
  success ← match agol_exporter self with
            | Some _ => io (AGOLExporter.export_to_shapefile gh_modified_data export_path)
            | None => mret false
            end;
  success ← (if negb success && negb (bool_decide (is_Some (agol_exporter self))) then
               geojson ← lift (GeoJSONConverter.gh_to_geojson gh_modified_data
                                 GeoJSONConverter.default_epsg);
               path ← lift (with_suffix export_path ".geojson");
               in_world (write_json path geojson);;
               mret true
             else mret success);
  ts ← in_world now_iso;
  log_append (log_entry ts "export_agol" (if success : bool then "success" else "partial")
                [("export_path", PStr export_path)]);;
  mret (success, PStr export_path).

(** [self.step_5_export_arcgis_online(gh_modified_data, service_title,
    use_agol)]. *)
Definition step_5_export_arcgis_online (gh_modified_data : pyval) (service_title : string)
    (use_agol : bool) : M state (bool * pyval) :=
  try_except
    (self ← gets fst;
     match agol_exporter self with
     | Some x =>
         if use_agol then
           r ← on_exporter x (AGOLExporter.export_to_agol gh_modified_data service_title
                                agol_description GeoJSONConverter.default_epsg true);
           ts ← in_world now_iso;
           if r.1 : bool then
             log_append (log_entry ts "export_agol" "success" [("agol_service_id", r.2)]);;
             mret (true, r.2)
           else
             log_append (log_entry ts "export_agol" "error" [("error", r.2)]);;
             mret (false, r.2)
         else export_local gh_modified_data
     | None => export_local gh_modified_data
     end)
    (λ e, log_error "export_agol" e;; mret (false, PStr (str_exn e))).

(** The report of a failure. *)
Definition failure_report (elapsed : spec_float) (log : list pyval) : pyval :=
  pdict [("status", PStr "failed");
         ("duration_seconds", PFloat elapsed);
         ("steps", PList log);
         ("message", PStr "Pipeline execution failed. See steps for details.")].

(** [self._create_failure_report(start_time)]. *)
Definition _create_failure_report (start_time : datetime) : M state pyval :=
  t ← in_world now;
  elapsed ← lift (total_seconds t start_time);
  self ← gets fst;
  mret (failure_report elapsed (pipeline_log self)).

(** [s["status"] in names], for an entry of the log. *)
Definition status_in (names : list string) (entry : pyval) : outcome bool :=
  status ← py_getitem entry "status";
  Ok (match status with PStr x => bool_decide (x ∈ names) | _ => false end).

(** [sum(1 for s in self.pipeline_log if s["status"] in names)]. *)
Definition count_status (names : list string) (log : list pyval) : outcome Z :=
  flags ← outcome_map (status_in names) log;
  Ok (Z.of_nat (length (filter (λ b, b = true) flags))).

(** [self._create_completion_report(start_time, success)]. *)
Definition _create_completion_report (start_time : datetime) (success : bool)
    : M state pyval :=
  t ← in_world now;
  elapsed ← lift (total_seconds t start_time);
  end_time ← in_world now_iso;
  self ← gets fst;
  let log := pipeline_log self in
  successful ← lift (count_status ["success"; "partial"] log);
  failed ← lift (count_status ["error"] log);
  let report :=
    pdict [("status", PStr (if success then "success" else "partial_success"));
           ("duration_seconds", PFloat elapsed);
           ("start_time", PStr (isoformat start_time));
           ("end_time", end_time);
           ("steps", PList log);
           ("summary", pdict [("total_steps", PInt (Z.of_nat (length log)));
                              ("successful_steps", PInt successful);
                              ("failed_steps", PInt failed)])] in
  stamp ← in_world now_stamp;
  in_world (write_json (report_path self stamp) report);;
  mret report.

(** The loop that waits for the file of Grasshopper: [fuel] bounds the
    rounds. *)
Fixpoint wait_for (fuel : nat) (p : string) (elapsed : Z) : M state Z :=
  match fuel with
  | O => mret elapsed
  | S fuel' =>
      if elapsed <? max_wait then
        found ← in_world (path_exists p);
        if negb found then
          modify (λ s, (s.1, during_sleep s.2));;
          wait_for fuel' p (elapsed + 5)
        else mret elapsed
      else mret elapsed
  end.

(** [self.run_full_pipeline(revit_document, agol_service_title,
    wait_for_gh_input)]. *)
Definition run_full_pipeline (revit_document : pyval) (agol_service_title : string)
    (wait_for_gh_input : option string) : M state pyval :=
  start_time ← in_world now;
  revit_export ← step_1_revit_export revit_document;
  if negb (py_truthy revit_export) then _create_failure_report start_time else
  gh_data ← step_2_sync_and_version revit_export;
  if negb (py_truthy gh_data) then _create_failure_report start_time else
  gh_input_file ← step_3_export_grasshopper gh_data;
  if negb (bool_decide (is_Some gh_input_file)) then _create_failure_report start_time else
  gh_modified ← match wait_for_gh_input with
                | Some p =>
                    wait_for (S wait_rounds) p 0;;
                    found ← in_world (path_exists p);
                    if negb found then mret gh_data
                    else
                      m ← step_4_import_grasshopper_modifications p;
                      mret (match m with PNone => gh_data | _ => m end)
                | None => mret gh_data
                end;
  r ← step_5_export_arcgis_online gh_modified agol_service_title true;
  _create_completion_report start_time r.1.

End Outside.

(** [self.print_summary(report)], as far as it can fail: the fields it
    reads and formats. *)
Definition print_summary (report : pyval) : outcome unit :=
  status ← py_getitem report "status";
  has_upper status;;
  duration ← py_getitem report "duration_seconds";
  format_fixed duration;;
  summary ← py_getitem report "summary";
  py_getitem summary "successful_steps";;
  summary ← py_getitem report "summary";
  py_getitem summary "total_steps";;
  summary ← py_getitem report "summary";
  failed ← py_getitem summary "failed_steps";
  py_positive failed;;
  Ok tt.

(** The document of the example at the end of the file. *)
Definition sample_revit_doc : pyval :=
  pdict [("file_path", PStr "C:/Projects/MyBuilding.rvt");
         ("project_name", PStr "My Building Project");
         ("epsg_code", PStr "EPSG:32633");
         ("origin_point", PList [PInt 0; PInt 0; PInt 0]);
         ("walls", PList []);
         ("openings", PList []);
         ("floors", PList [])].

(** The example at the end of the file: a pipeline without credentials, run
    on the sample document, and the summary of its report. *)
Definition main (str_exn : exn → string) (during_sleep : Net → Net) : M Net unit :=
  pipeline ← __init__ None None None;
  zoom (λ n, (pipeline, n)) (λ s _, s.2)
    (report ← run_full_pipeline str_exn during_sleep sample_revit_doc
                "Demo Building Export" None;
     lift (print_summary report)).

(** ** The log only grows *)

#[local] Hint Resolve list_elem_of_here list_elem_of_further : py.

Section LogFacts.
Context (str_exn : exn → string) (during_sleep : Net → Net).
Context (l0 : list pyval).


Lemma preserves_log_error (step : string) (e : exn) :
  preserves (log_from l0) (log_error str_exn step e).
Proof. unfold log_error. step_preserves. Qed.

#[local] Hint Resolve preserves_log_error : py.

Lemma preserves_step_1 (doc : pyval) :
  preserves (log_from l0) (step_1_revit_export str_exn doc).
Proof. unfold step_1_revit_export. step_preserves. Qed.

Lemma preserves_step_2 (revit_export : pyval) :
  preserves (log_from l0) (step_2_sync_and_version str_exn revit_export).
Proof. unfold step_2_sync_and_version. step_preserves. Qed.

Lemma preserves_step_3 (gh_data : pyval) :
  preserves (log_from l0) (step_3_export_grasshopper str_exn gh_data).
Proof. unfold step_3_export_grasshopper. step_preserves. Qed.

Lemma preserves_step_4 (p : string) :
  preserves (log_from l0) (step_4_import_grasshopper_modifications str_exn p).
Proof. unfold step_4_import_grasshopper_modifications. step_preserves. Qed.

Lemma preserves_export_local (gh_modified_data : pyval) :
  preserves (log_from l0) (export_local gh_modified_data).
Proof.
  unfold export_local. step_preserves.
  match goal with |- context [if ?b then "success" else _] => destruct b end; auto with py.
Qed.

#[local] Hint Resolve preserves_export_local : py.

Lemma preserves_step_5 (gh_modified_data : pyval) (title : string) (use_agol : bool) :
  preserves (log_from l0) (step_5_export_arcgis_online str_exn gh_modified_data title use_agol).
Proof. unfold step_5_export_arcgis_online. step_preserves. Qed.

Lemma preserves_wait_for (fuel : nat) (p : string) (elapsed : Z) :
  preserves (log_from l0) (wait_for during_sleep fuel p elapsed).
Proof.
  revert elapsed. induction fuel as [|fuel IH]; intros elapsed; cbn [wait_for];
    step_preserves.
Qed.

Lemma preserves_failure_report (start_time : datetime) :
  preserves (log_from l0) (_create_failure_report start_time).
Proof. unfold _create_failure_report. step_preserves. Qed.

Lemma preserves_completion_report (start_time : datetime) (success : bool) :
  preserves (log_from l0) (_create_completion_report start_time success).
Proof. unfold _create_completion_report. step_preserves. Qed.

#[local] Hint Resolve preserves_step_1 preserves_step_2 preserves_step_3 preserves_step_4
  preserves_step_5 preserves_wait_for preserves_failure_report
  preserves_completion_report : py.

Lemma preserves_run_full_pipeline (doc : pyval) (title : string) (wait : option string) :
  preserves (log_from l0) (run_full_pipeline str_exn during_sleep doc title wait).
Proof. unfold run_full_pipeline. step_preserves. Qed.

End LogFacts.

(** C8. Whatever happens in a run of the pipeline, the log only grows: the
    entries it held stay in their places, and every entry that was added
    is a dictionary whose status is success, partial or error. *)
Theorem run_full_pipeline_log
    (str_exn : exn → string) (during_sleep : Net → Net)
    (doc : pyval) (title : string) (wait : option string) (s : state) :
  ∃ added,
    pipeline_log (run_full_pipeline str_exn during_sleep doc title wait ⇓ s).2.1
    = (pipeline_log s.1 ++ added)%list ∧
    Forall entry_ok added.
Proof.
  apply (preserves_run_full_pipeline str_exn during_sleep (pipeline_log s.1)).
  destruct s. by apply log_from_refl.
Qed.

(** ** The steps *)

Section StepFacts.
Context (str_exn : exn → string) (during_sleep : Net → Net).



(** One more round changes nothing once the rounds cover the time left. *)
Lemma wait_for_enough (fuel : nat) (p : string) (elapsed : Z) (s : state) :
  max_wait - elapsed ≤ 5 * Z.of_nat fuel →
  wait_for during_sleep (S fuel) p elapsed ⇓ s = wait_for during_sleep fuel p elapsed ⇓ s.
Proof.
  revert elapsed s. induction fuel as [|fuel IH]; intros elapsed s Hfuel.
  - cbn [wait_for]. by rewrite (proj2 (Z.ltb_ge _ _)) by (unfold max_wait in *; lia).
  - cbn [wait_for] in *. destruct (elapsed <? max_wait); [|done]. mstep.
    destruct (negb _); [|done]. mstep. apply IH. lia.
Qed.

(** C34. The loop that waits ends within its sixty rounds: with more fuel
    than that it does what it does with sixty-one. *)
Theorem wait_for_terminates (fuel : nat) (p : string) (s : state) :
  (S wait_rounds ≤ fuel)%nat →
  wait_for during_sleep fuel p 0 ⇓ s = wait_for during_sleep (S wait_rounds) p 0 ⇓ s.
Proof.
  induction 1 as [|fuel Hle IH]; [done|]. rewrite <-IH. apply wait_for_enough.
  unfold max_wait, wait_rounds in *. lia.
Qed.

(** The state after [k] sleeps of the loop. *)
Definition slept (k : nat) (s : state) : state :=
  Nat.iter k (λ s, (s.1, during_sleep s.2)) s.

(** Is the file there? *)
Definition present (p : string) (s : state) : bool :=
  bool_decide (is_Some (fs (world s.2) !! p)).

Lemma slept_succ (k : nat) (s : state) :
  slept (S k) s = slept k (s.1, during_sleep s.2).
Proof. unfold slept. by rewrite Nat.iter_succ_r. Qed.

Lemma run_present (p : string) (s : state) :
  in_world (path_exists p) ⇓ s = (Ok (present p s), s).
Proof. unfold in_world, path_exists. mstep. by destruct s as [? []]. Qed.

(** The loop from any round on: a file that is there after [k] sleeps and
    not before ends the loop after [k] sleeps, where they fit in the time
    and in the fuel. *)
Lemma wait_for_finds_from (k fuel : nat) (p : string) (elapsed : Z) (s : state) :
  (k < fuel)%nat → elapsed + 5 * Z.of_nat k < max_wait →
  (∀ j, (j < k)%nat → present p (slept j s) = false) →
  present p (slept k s) = true →
  wait_for during_sleep fuel p elapsed ⇓ s = (Ok (elapsed + 5 * Z.of_nat k), slept k s).
Proof.
  revert fuel elapsed s.
  induction k as [|k IH]; intros [|fuel] elapsed s Hfuel Htime Hbefore Hthen;
    try lia; cbn [wait_for]; rewrite (proj2 (Z.ltb_lt _ _)) by lia;
    rewrite run_bind, run_present.
  - change (slept 0 s) with s in Hthen |- *. rewrite Hthen. cbn [negb]. mstep.
    by rewrite Z.add_0_r.
  - change (present p s) with (present p (slept 0 s)).
    rewrite (Hbefore 0%nat) by lia. cbn [negb]. mstep.
    rewrite slept_succ in Hthen |- *. rewrite (IH fuel (elapsed + 5)); try done; try lia.
    + do 2 f_equal. lia.
    + intros j Hj. rewrite <-slept_succ. apply Hbefore. lia.
Qed.

(** C18. The loop of [run_full_pipeline] finds the file: when the file is there
    after [k] sleeps, for some [k] below sixty, the loop ends after the
    first such [k], in the state the sleeps left, with [5 * k] seconds
    counted. *)
Theorem wait_for_finds (k : nat) (p : string) (s : state) :
  (k < wait_rounds)%nat →
  (∀ j, (j < k)%nat → present p (slept j s) = false) →
  present p (slept k s) = true →
  wait_for during_sleep (S wait_rounds) p 0 ⇓ s = (Ok (5 * Z.of_nat k), slept k s).
Proof.
  intros Hk Hbefore Hthen.
  rewrite (wait_for_finds_from k) by (unfold max_wait, wait_rounds in *; done || lia).
  done.
Qed.

(** The loop gives up: a file that is not there before any of the sixty
    sleeps lets the loop sleep sixty times and count 300 seconds. *)
Lemma wait_for_gives_up_from (k : nat) (p : string) (elapsed : Z) (s : state) :
  (∀ j, (j < k)%nat → present p (slept j s) = false) →
  max_wait ≤ elapsed + 5 * Z.of_nat k < max_wait + 5 →
  wait_for during_sleep (S k) p elapsed ⇓ s = (Ok (elapsed + 5 * Z.of_nat k), slept k s).
Proof.
  revert elapsed s. induction k as [|k IH]; intros elapsed s Hbefore Htime.
  - cbn [wait_for]. rewrite (proj2 (Z.ltb_ge _ _)) by lia. by rewrite Z.add_0_r.
  - cbn [wait_for]. rewrite (proj2 (Z.ltb_lt _ _)) by lia.
    rewrite run_bind, run_present. change (present p s) with (present p (slept 0 s)).
    rewrite (Hbefore 0%nat) by lia. cbn [negb]. mstep.
    rewrite slept_succ, (IH (elapsed + 5)); [do 2 f_equal; lia| |lia].
    intros j Hj. rewrite <-slept_succ. apply Hbefore. lia.
Qed.

Theorem wait_for_gives_up (p : string) (s : state) :
  (∀ j, (j < wait_rounds)%nat → present p (slept j s) = false) →
  wait_for during_sleep (S wait_rounds) p 0 ⇓ s = (Ok max_wait, slept wait_rounds s).
Proof.
  intros Hbefore. by rewrite wait_for_gives_up_from.
Qed.

(** A file of Grasshopper that is not there: step 4 returns [None]
    and changes nothing; it writes no entry. *)
Theorem step_4_missing_file (p : string) (s : state) :
  fs (world s.2) !! p = None →
  step_4_import_grasshopper_modifications str_exn p ⇓ s = (Ok PNone, s).
Proof.
  intros Hp. unfold step_4_import_grasshopper_modifications. rewrite run_try_except.
  mstep. rewrite Hp, bool_decide_eq_false_2 by (by intros []). cbn [negb]. mstep.
  by destruct s as [? []].
Qed.

Lemma with_suffix_export_path (self : t) (dt : datetime) :
  with_suffix (agol_export_path self (strftime_stamp dt)) ".geojson"
  = Ok (agol_export_path self (strftime_stamp dt) +:+ ".geojson").
Proof. apply with_suffix_stamped. by apply (bool_decide_unpack _). Qed.

(** Step 5 of a pipeline without exporter, on data that can be
    converted: the collection is written under the path of the export with
    the suffix [.geojson], one entry of success is logged, and the step
    returns [True] and the path without the suffix. *)
Theorem step_5_local_export
    (data geojson : pyval) (title : string) (use_agol : bool) (s : state) :
  let w := world s.2 in
  let export_path := agol_export_path s.1 (strftime_stamp (clock w (ticks w))) in
  agol_exporter s.1 = None →
  GeoJSONConverter.gh_to_geojson data GeoJSONConverter.default_epsg = Ok geojson →
  unwritable w (export_path +:+ ".geojson") = false →
  step_5_export_arcgis_online str_exn data title use_agol ⇓ s =
    (Ok (true, PStr export_path),
     (set_pipeline_log
        (pipeline_log s.1 ++
         [log_entry (PStr (isoformat (clock w (S (ticks w))))) "export_agol" "success"
            [("export_path", PStr export_path)]]) s.1,
      set_world (tick (written (export_path +:+ ".geojson") geojson (tick w))) s.2)).
Proof.
  intros w export_path Hx Hgeo Hw. subst w export_path.
  unfold step_5_export_arcgis_online, export_local.
  rewrite run_try_except. mstep. rewrite Hx. mstep. rewrite Hx, Hgeo.
  rewrite bool_decide_eq_false_2 by (by intros []). rewrite with_suffix_export_path.
  mstep. cbn [negb andb]. mstep. cbn [fst snd world set_world]. rewrite run_write_json.
  cbn [unwritable tick]. rewrite Hw. by mstep.
Qed.

(** ** The reports *)

Lemma run_failure_report (start_time : datetime) (s : state) :
  _create_failure_report start_time ⇓ s =
    ((elapsed ← total_seconds (clock (world s.2) (ticks (world s.2))) start_time;
      Ok (failure_report elapsed (pipeline_log s.1))),
     (s.1, set_world (tick (world s.2)) s.2)).
Proof. unfold _create_failure_report. mstep. by destruct (total_seconds _ _). Qed.

(** The failure report ends a run that raised nothing: it is returned, or
    the duration is outside the model. *)
Lemma failure_report_cases (start_time : datetime) (s : state) :
  (_create_failure_report start_time ⇓ s).1 = Unmodelled ∨
  ∃ elapsed log, (_create_failure_report start_time ⇓ s).1 = Ok (failure_report elapsed log).
Proof.
  rewrite run_failure_report. unfold total_seconds.
  destruct (_ <? _); [right; by eexists _, _|by left].
Qed.

Lemma print_summary_failure_report (elapsed : spec_float) (log : list pyval) :
  print_summary (failure_report elapsed log) = Raise KeyError.
Proof. reflexivity. Qed.

(** C33. The summary of a report of failure cannot be printed: the report
    has no summary, and [print_summary] raises [KeyError]. *)
Theorem failure_report_print_summary (start_time : datetime) (report : pyval) (s s' : state) :
  _create_failure_report start_time ⇓ s = (Ok report, s') →
  print_summary report = Raise KeyError.
Proof.
  rewrite run_failure_report. destruct (total_seconds _ _) as [elapsed| |]; try done.
  intros [= <- _]. apply print_summary_failure_report.
Qed.

Lemma status_in_ok (names : list string) (entry : pyval) (status : string) :
  py_getitem entry "status" = Ok (PStr status) →
  status_in names entry = Ok (bool_decide (status ∈ names)).
Proof. intros H. unfold status_in. by rewrite H. Qed.

(** The flags of the entries of a log of the pipeline. *)
Lemma status_flags (log : list pyval) :
  Forall entry_ok log →
  ∃ good bad,
    outcome_map (status_in ["success"; "partial"]) log = Ok good ∧
    outcome_map (status_in ["error"]) log = Ok bad ∧
    (length (filter (λ b, b = true) good) + length (filter (λ b, b = true) bad)
     = length log)%nat.
Proof.
  induction 1 as [|entry log (status & Hs & Hin) _ (good & bad & Hg & Hb & Hlen)].
  { by exists [], []. }
  exists (bool_decide (status ∈ ["success"; "partial"]) :: good),
         (bool_decide (status ∈ ["error"]) :: bad).
  cbn [outcome_map]. rewrite !(status_in_ok _ _ status), Hg, Hb by done.
  repeat split. rewrite !filter_cons. cbn [length].
  repeat case_decide; repeat case_bool_decide; cbn [length]; try lia; set_solver.
Qed.

(** C26. The report of completion of a log of the pipeline: the steps it
    counts as successful and as failed are all the steps of the log. *)
Theorem completion_report_summary
    (start_time : datetime) (success : bool) (report : pyval) (s s' : state) :
  Forall entry_ok (pipeline_log s.1) →
  _create_completion_report start_time success ⇓ s = (Ok report, s') →
  ∃ successful failed,
    py_getitem report "summary"
    = Ok (pdict [("total_steps", PInt (Z.of_nat (length (pipeline_log s.1))));
                 ("successful_steps", PInt successful);
                 ("failed_steps", PInt failed)]) ∧
    successful + failed = Z.of_nat (length (pipeline_log s.1)) ∧
    pipeline_log s'.1 = pipeline_log s.1.
Proof.
  intros (good & bad & Hg & Hb & Hlen)%status_flags.
  unfold _create_completion_report, count_status. mstep.
  destruct (total_seconds _ _) as [elapsed| |]; try done. mstep.
  rewrite Hg, Hb, !outcome_bind_ok. mstep. cbn [fst snd world set_world].
  rewrite run_write_json. destruct (unwritable _ _); [done|].
  intros [= <- <-]. do 2 eexists. split; [reflexivity|]. split; [lia|done].
Qed.

(** ** A run without objects *)

(** What step 1 returns: the export of the document, or [None]; the engine
    and the exporter are not touched. *)
Lemma step_1_result (doc : pyval) (s : state) :
  sync_engine (step_1_revit_export str_exn doc ⇓ s).2.1 = sync_engine s.1 ∧
  ((step_1_revit_export str_exn doc ⇓ s).1 = Unmodelled ∨
   (step_1_revit_export str_exn doc ⇓ s).1 = Ok PNone ∨
   ∃ data w1, RevitExporter.export_all doc ⇓ world s.2 = (Ok data, w1) ∧
              (step_1_revit_export str_exn doc ⇓ s).1 = Ok data).
Proof.
  unfold step_1_revit_export, RevitGHBridge.export_from_revit, RevitExporter.save_export.
  rewrite run_try_except. mstep.
  destruct (RevitExporter.export_all doc ⇓ world s.2) as [[data| |] w1]; mstep; eauto.
  rewrite run_write_json. destruct (unwritable _ _); mstep; eauto.
  rewrite run_write_json. destruct (unwritable _ _); mstep; eauto.
  destruct (elements_count data); mstep; eauto 10.
Qed.

(** Step 2 on an export without elements, in an engine without objects,
    returns the empty list whatever happens: when the ledger and the
    checkpoint were written and when one of them could not be. *)
Lemma step_2_nothing (revit_export : pyval) (s : state) :
  all_elements revit_export = Ok [] →
  SyncEngine.objects (sync_engine s.1) = [] →
  (step_2_sync_and_version str_exn revit_export ⇓ s).1 = Ok (PList []).
Proof.
  intros Hall Hobjs. unfold step_2_sync_and_version. rewrite run_try_except. mstep.
  rewrite Hall. mstep. rewrite SyncEngine.sync_revit_to_gh_nothing by done.
  cbn [SyncEngine.env SyncEngine.engine]. destruct (unwritable _ _); mstep; [done|].
  cbn [fst snd]. unfold SyncEngine.save_state. rewrite run_write_json.
  destruct (unwritable _ _); by mstep.
Qed.

(** A run on a document whose export has no elements, in an engine without
    objects, ends in the report of failure. *)
Lemma nothing_to_sync_report (doc : pyval) (title : string) (wait : option string) (s : state) :
  SyncEngine.objects (sync_engine s.1) = [] →
  (∀ data w1, RevitExporter.export_all doc ⇓ tick (world s.2) = (Ok data, w1) →
              all_elements data = Ok []) →
  (run_full_pipeline str_exn during_sleep doc title wait ⇓ s).1 = Unmodelled ∨
  ∃ elapsed log,
    (run_full_pipeline str_exn during_sleep doc title wait ⇓ s).1
    = Ok (failure_report elapsed log).
Proof.
  intros Hobjs Hdoc. unfold run_full_pipeline. mstep.
  destruct (step_1_result doc (s.1, set_world (tick (world s.2)) s.2)) as [Hengine Hcases].
  destruct (step_1_revit_export str_exn doc ⇓ _) as [o1 s1].
  cbn [fst snd world set_world] in *.
  destruct Hcases as [->| [->|(data & w1 & Hdata & ->)]]; [by left| |].
  { cbn [py_truthy negb]. apply failure_report_cases. }
  destruct (py_truthy data); cbn [negb]; [|apply failure_report_cases]. rewrite run_bind.
  pose proof (step_2_nothing data s1 (Hdoc _ _ Hdata)) as H2.
  rewrite Hengine in H2. specialize (H2 Hobjs).
  destruct (step_2_sync_and_version str_exn data ⇓ s1) as [o2 s2]. cbn [fst] in H2.
  subst o2. cbn [py_truthy negb]. apply failure_report_cases.
Qed.

(** The pipeline of the example: built without arguments, it has no
    exporter, and its engine holds no objects. *)
Lemma run_init_default (n : Net) :
  ∃ p n', __init__ None None None ⇓ n = (Ok p, n') ∧
          SyncEngine.objects (sync_engine p) = [] ∧ agol_exporter p = None.
Proof.
  unfold __init__, SyncEngine.__init__, SyncMetadata.__init__. cbv zeta.
  cbn [default from_option Datatypes.id]. mstep.
  destruct (SyncMetadata.load_total
              (path_join (path_join (path_join script_root "data") ".sync") "metadata.json")
              (world n)) as (v & w1 & ->).
  mstep. by eexists _, _.
Qed.

(** The export of the sample document has no elements. *)
Lemma export_all_sample (w w1 : World) (data : pyval) :
  RevitExporter.export_all sample_revit_doc ⇓ w = (Ok data, w1) → all_elements data = Ok [].
Proof.
  unfold RevitExporter.export_all, RevitExporter.export_walls,
    RevitExporter.export_doors_windows, RevitExporter.export_floors,
    RevitExporter.export_each, sample_revit_doc.
  mstep. repeat (dict_eval; cbn [default from_option Datatypes.id py_iter]; mstep;
                 rewrite ?map_each_nil; mstep).
  by intros [= <- _].
Qed.

(** C13. The example at the end of the file never prints its summary.  The
    sample document has no elements, so step 2 returns the empty list,
    [run_full_pipeline] reads it as a failure and returns the report of
    failure, and [print_summary] raises [KeyError] on it: in every
    environment, whether the files can be written or not. *)
Theorem main_fails (n : Net) :
  (main str_exn during_sleep ⇓ n).1 = Raise KeyError ∨
  (main str_exn during_sleep ⇓ n).1 = Unmodelled.
Proof.
  unfold main. rewrite run_bind.
  destruct (run_init_default n) as (p & n' & -> & Hobjs & _). rewrite run_zoom, run_bind.
  destruct (nothing_to_sync_report sample_revit_doc "Demo Building Export" None (p, n') Hobjs)
    as [H|(elapsed & log & H)]; [by intros; eapply export_all_sample| |];
    destruct (run_full_pipeline _ _ _ _ _ ⇓ _) as [o s']; cbn [fst snd] in *; subst o;
    [by right|left].
  by rewrite run_lift, print_summary_failure_report.
Qed.

End StepFacts.

(** ** Examples *)

(** A pipeline without exporter on the workspace [ws], in the sample
    environment; exceptions have the text [error] and nothing happens
    while the program sleeps. *)
Definition sample_pipeline : t :=
  mk "ws" "ws/data" SyncEngine.sample_engine (RevitGHBridge.__init__ (Some "ws")) None [].

Definition sample_start : state := (sample_pipeline, sample_net []).

Definition sample_text : exn → string := λ _, "error".

Definition sample_geojson : pyval :=
  Eval vm_compute in
    match GeoJSONConverter.gh_to_geojson (PList [GeoJSONConverter.sample_object])
            GeoJSONConverter.default_epsg with
    | Ok g => g
    | _ => PNone
    end.

(** A pipeline whose first step succeeded and whose second failed. *)
Definition sample_log : list pyval :=
  [log_entry (PStr "2024-01-15T10:30:00") "revit_export" "success"
     [("elements_count", PInt 3)];
   log_entry (PStr "2024-01-15T10:30:01") "sync_versioning" "error"
     [("error", PStr "error")]].

Definition logged_start : state := (set_pipeline_log sample_log sample_pipeline, sample_net []).

Definition sample_failure : pyval :=
  Eval vm_compute in
    match (_create_failure_report (sample_clock 0) ⇓ logged_start).1 with
    | Ok r => r
    | _ => PNone
    end.

Definition sample_completion : pyval :=
  Eval vm_compute in
    match (_create_completion_report (sample_clock 0) true ⇓ logged_start).1 with
    | Ok r => r
    | _ => PNone
    end.

(** The example of the file, run in the sample environment. *)
Example main_sample : (main sample_text id ⇓ sample_net []).1 = Raise KeyError.
Proof. vm_compute. reflexivity. Qed.

Lemma wait_for_terminates_witness :
  wait_for id 100 "ws/data/gh_outputs/out.json" 0 ⇓ sample_start
  = wait_for id (S wait_rounds) "ws/data/gh_outputs/out.json" 0 ⇓ sample_start.
Proof. apply wait_for_terminates. unfold wait_rounds. lia. Defined.

(** Grasshopper writes its file during the first sleep. *)
Definition sample_sleep (n : Net) : Net :=
  set_world (written "ws/data/gh_outputs/out.json" (PList []) (world n)) n.

Lemma wait_for_finds_witness :
  wait_for sample_sleep (S wait_rounds) "ws/data/gh_outputs/out.json" 0 ⇓ sample_start
  = (Ok (5 * Z.of_nat 1), slept sample_sleep 1 sample_start).
Proof.
  apply wait_for_finds; [unfold wait_rounds; lia| |by vm_compute].
  intros j Hj. by replace j with 0%nat by lia.
Defined.

Lemma step_4_missing_file_witness :
  step_4_import_grasshopper_modifications sample_text "ws/data/gh_outputs/out.json"
    ⇓ sample_start
  = (Ok PNone, sample_start).
Proof. by apply step_4_missing_file. Defined.

Lemma step_5_local_export_witness :
  (step_5_export_arcgis_online sample_text (PList [GeoJSONConverter.sample_object])
     "Revit-GH Export" true ⇓ sample_start).1
  = Ok (true, PStr "ws/data/exports/agol_export_20240115_103000").
Proof.
  by rewrite (step_5_local_export sample_text (PList [GeoJSONConverter.sample_object])
                sample_geojson "Revit-GH Export" true sample_start).
Defined.

Lemma failure_report_print_summary_witness : print_summary sample_failure = Raise KeyError.
Proof.
  apply (failure_report_print_summary (sample_clock 0) sample_failure logged_start
           (_create_failure_report (sample_clock 0) ⇓ logged_start).2).
  apply run_eq_fst. vm_compute. reflexivity.
Defined.

Lemma completion_report_summary_witness :
  ∃ successful failed,
    py_getitem sample_completion "summary"
    = Ok (pdict [("total_steps", PInt 2);
                 ("successful_steps", PInt successful);
                 ("failed_steps", PInt failed)]) ∧
    successful + failed = 2 ∧
    pipeline_log (_create_completion_report (sample_clock 0) true ⇓ logged_start).2.1
    = sample_log.
Proof.
  apply (completion_report_summary (sample_clock 0) true sample_completion logged_start).
  - repeat constructor; apply log_entry_ok; set_solver.
  - apply run_eq_fst. vm_compute. reflexivity.
Defined.

(** The report of the sample log counts one step of each kind. *)
Example sample_completion_counts :
  py_getitem sample_completion "summary"
  = Ok (pdict [("total_steps", PInt 2); ("successful_steps", PInt 1);
               ("failed_steps", PInt 1)]).
Proof. vm_compute. reflexivity. Qed.


End RevitGISIntegrationPipeline.
