(* ===== verification/GhTemplates.v ===== *)
(** * The Grasshopper templates, 1 to 7 (src/GH_TEMPLATES.py, lines 1-254)

    The file is a sequence of blocks meant for the Python component of
    Grasshopper.  The inputs of a component are global names; a block
    reads them, does its work inside [try: ... except Exception] and
    leaves its outputs in global names.  Here a block is a function from
    its inputs to its outputs.  An input a block tests with
    ['name' in dir()] is an [option]; the others are taken as bound.

    Several blocks edit the objects of their input list in place.  The
    list a block works on is then part of its state (with the
    environment), an object is reached by its position, and an assignment
    to a field of an object is written back at that position: an
    exception in the middle of a loop leaves the assignments made before
    it, and the handler of the block, which hands back the input, hands
    back the list as it then is.

    The texts a block prints are left out; what is evaluated to print
    them is kept where it can fail.

    Theorems: no block raises; [scale_coords] of template 2 is
    [_scale_coordinates] of gh_helper.py; what templates 2 and 4 do to the
    list, on success and on failure; that template 5 reports success
    whether or not the file was written; that the password of template 6
    goes to the portal only; and that template 7 ends in its handler in
    every environment, so that its three outputs are always [None]. *)

From Stdlib Require Import ZArith String Ascii SpecFloat.
From stdpp Require Import base tactics option list strings gmap.
From S2P Require Import Prelude PyDict PyValue PyStr DateTime PyJson World.
From S2P Require Import GeoJson GhHelper Agol.

Set Default Proof Using "Type".
Local Open Scope string_scope.
Local Open Scope Z_scope.

(** ** Built-ins the templates use *)

(** The float [1.0]. *)
Definition float_one : spec_float := S754_finite false 4503599627370496 (-52).

(** [v * w].  The product with a value that is not a number (a sequence
    repeated, or a [TypeError]) is not modelled. *)
Definition py_mul (v w : pyval) : outcome pyval :=
  match as_number w with
  | Some n => py_mul_number v n
  | None => Unmodelled
  end.

(** The quotient [num / den] for a positive [den], rounded to the nearest
    integer, a tie to the even one. *)
Definition round_half_even (num den : Z) : Z :=
  let q := num / den in
  let r := num mod den in
  if 2 * r <? den then q
  else if den <? 2 * r then q + 1
  else if Z.even q then q else q + 1.

(** [round(f, ndigits)] for a float and [ndigits >= 0]: the float nearest
    to the decimal number of [ndigits] places nearest to [f].  The model
    stops where that decimal number has more than 53 bits. *)
Definition float_round (ndigits : Z) (f : spec_float) : outcome spec_float :=
  match f with
  | S754_finite s m e =>
      if 0 <=? e then Ok f
      else
        let q := round_half_even (Z.pos m * 10 ^ ndigits) (2 ^ (- e)) in
        if q <? 2 ^ 53 then
          Ok (SFdiv prec emax
                (binary_normalize prec emax (if s then - q else q) 0 s)
                (binary_normalize prec emax (10 ^ ndigits) 0 false))
        else Unmodelled
  | _ => Ok f
  end.

(** [round(v, ndigits)] with [ndigits >= 0]: an integer is its own
    rounding. *)
Definition py_round (v : pyval) (ndigits : Z) : outcome pyval :=
  match v with
  | PInt z => Ok (PInt z)
  | PBool b => Ok (PInt (if b then 1 else 0))
  | PFloat f => PFloat <$> float_round ndigits f
  | _ => Raise TypeError
  end.

(** [[x for x in l if keep x]] where [keep] can fail. *)
Fixpoint outcome_filter {A} (keep : A → outcome bool) (l : list A) : outcome (list A) :=
  match l with
  | [] => Ok []
  | x :: l' =>
      b ← keep x;
      rest ← outcome_filter keep l';
      Ok (if b : bool then x :: rest else rest)
  end.

(** [datetime.now().strftime("%Y%m%d")]. *)
Definition now_day : M World string := dt ← now; mret (strftime_day dt).

(** A call that leaves out a required argument raises [TypeError]. *)
Definition required {S A} (x : option A) : M S A :=
  match x with
  | Some a => mret a
  | None => raise TypeError
  end.

(** ** A list edited in place *)

Section Shared.
Context {E : Type}.

(** [obj = x] through the reference to the [i]-th object of the list. *)
Definition put_at (i : nat) (obj : pyval) : M (pyval * E) unit :=
  modify (λ s, (py_set_index s.1 i obj, s.2)).

(** [obj[k] = x] through the reference to the [i]-th object. *)
Definition assign_at (i : nat) (obj : pyval) (k : string) (x : pyval)
    : M (pyval * E) pyval :=
  obj' ← lift (py_setitem obj (PStr k) x);
  put_at i obj';;
  mret obj'.

(** [obj["version"] = obj.get("version", 1) + 1]. *)
Definition next_version (i : nat) (obj : pyval) : M (pyval * E) pyval :=
  v ← lift (py_get obj "version" (PInt 1));
  v' ← lift (py_add v (PInt 1));
  assign_at i obj "version" v'.

(** A computation on the environment. *)
Definition in_env {A} (m : M E A) : M (pyval * E) A :=
  zoom snd (λ e s, (s.1, e)) m.

(** [for obj in data: body], with the position of each object. *)
Definition for_objects {A} (body : nat → pyval → M (pyval * E) A)
    : M (pyval * E) (list A) :=
  data ← gets fst;
  objs ← lift (py_iter data);
  map_each (imap (λ i obj, (i, obj)) objs) (λ io, body io.1 io.2).

(** A block that works on the list [data]. *)
Definition editing {A} (data : pyval) (m : M (pyval * E) A) : M E A :=
  zoom (λ e, (data, e)) (λ s _, s.2) m.

(** What the body of a loop does to an object that is alone in its list:
    the outcome, the object it leaves, and the environment. *)
Definition alone {A} (body : nat → pyval → M (pyval * E) A) (obj : pyval) (e : E)
    : outcome A * pyval * E :=
  let r := body 0%nat obj ⇓ (PList [obj], e) in
  (r.1, match r.2.1 with PList [obj'] => obj' | _ => obj end, r.2.2).

(** One pass over a list, left to right: [f] on each object, up to and
    including the first object on which it does not return. *)
Fixpoint pass {A} (f : pyval → E → outcome A * pyval * E) (l : list pyval) (e : E)
    : outcome (list A) * list pyval * E :=
  match l with
  | [] => (Ok [], [], e)
  | obj :: rest =>
      match f obj e with
      | (Ok a, obj', e') =>
          let r := pass f rest e' in (cons a <$> r.1.1, obj' :: r.1.2, r.2)
      | (Raise x, obj', e') => (Raise x, obj' :: rest, e')
      | (Unmodelled, obj', e') => (Unmodelled, obj' :: rest, e')
      end
  end.

End Shared.

(** ** Running a block on its list *)

Section SharedFacts.
Context {E : Type}.
Implicit Types (s : pyval * E) (obj x : pyval) (i : nat) (l : list pyval).

Lemma run_put_at i obj s : put_at i obj ⇓ s = (Ok tt, (py_set_index s.1 i obj, s.2)).
Proof. reflexivity. Qed.

Lemma run_in_env {A} (m : M E A) s : in_env m ⇓ s = ((m ⇓ s.2).1, (s.1, (m ⇓ s.2).2)).
Proof. unfold in_env. by rewrite run_zoom. Qed.

Lemma run_editing {A} (data : pyval) (m : M (pyval * E) A) (e : E) :
  editing data m ⇓ e = ((m ⇓ (data, e)).1, (m ⇓ (data, e)).2.2).
Proof. unfold editing. by rewrite run_zoom. Qed.

Lemma pass_length {A} (f : pyval → E → outcome A * pyval * E) l (e : E) :
  length (pass f l e).1.2 = length l.
Proof.
  revert e. induction l as [|obj rest IH]; intros e; [done|]. cbn [pass].
  destruct (f obj e) as [[[a| |] obj'] e']; cbn; by rewrite ?IH.
Qed.

(** A pass that does not come to its end stopped on an object: the objects
    before it were passed over, and the objects after it are as they
    were. *)
Lemma pass_stops {A} (f : pyval → E → outcome A * pyval * E) l (e : E) :
  is_ok (pass f l e).1.1 = false →
  ∃ before obj after,
    l = (before ++ obj :: after)%list ∧
    is_ok (pass f before e).1.1 = true ∧
    is_ok (f obj (pass f before e).2).1.1 = false ∧
    (pass f l e).1.2
    = ((pass f before e).1.2 ++ (f obj (pass f before e).2).1.2 :: after)%list.
Proof.
  revert e. induction l as [|obj rest IH]; intros e; [done|]. cbn [pass].
  destruct (f obj e) as [[[a| |] obj'] e'] eqn:Hf; cbn [fst snd].
  - intros Hrest. destruct (IH e') as (before & x & after & -> & Hok & Hx & ->).
    { by destruct (pass f rest e').1.1. }
    exists (obj :: before), x, after. cbn [pass app]. rewrite Hf. cbn [fst snd].
    by destruct (pass f before e').1.1.
  - intros _. exists [], obj, rest. cbn [pass app fst snd]. by rewrite Hf.
  - intros _. exists [], obj, rest. cbn [pass app fst snd]. by rewrite Hf.
Qed.

Lemma pass_ok_length {A} (f : pyval → E → outcome A * pyval * E) l (e : E) (out : list A) :
  (pass f l e).1.1 = Ok out → length out = length l.
Proof.
  revert e out. induction l as [|obj rest IH]; intros e out; cbn [pass].
  { by intros [= <-]. }
  destruct (f obj e) as [[[a| |] obj'] e']; cbn; try done.
  destruct (pass f rest e').1.1 as [out'| |] eqn:Hr; cbn; try done.
  intros [= <-]. cbn. f_equal. by eapply IH.
Qed.

(** *** The body of a loop on a list and on the object alone

    [sim i l m m0]: the computation [m], run on the list [l] with any
    object at position [i], and [m0], run on that object alone, end with the
    same outcome in the same environment, [m] having changed nothing but
    position [i] and that as [m0] changed the object. *)
Definition sim {A} i l (m m0 : M (pyval * E) A) : Prop :=
  ∀ x e, ∃ x' e',
    m ⇓ (PList (<[i := x]> l), e) = ((m0 ⇓ (PList [x], e)).1, (PList (<[i := x']> l), e')) ∧
    (m0 ⇓ (PList [x], e)).2 = (PList [x'], e').

Section Sim.
Context (i : nat) (l : list pyval).

Lemma sim_ret {A} (a : A) : sim i l (mret a) (mret a).
Proof. intros x e. by exists x, e. Qed.

Lemma sim_lift {A} (o : outcome A) : sim i l (lift o) (lift o).
Proof. intros x e. by exists x, e. Qed.

Lemma sim_bind {A B} (m m0 : M (pyval * E) A) (f f0 : A → M (pyval * E) B) :
  sim i l m m0 → (∀ a, sim i l (f a) (f0 a)) → sim i l (m ≫= f) (m0 ≫= f0).
Proof.
  intros Hm Hf x e. destruct (Hm x e) as (x1 & e1 & Hrun & Hrun0).
  rewrite !run_bind, Hrun. destruct (m0 ⇓ (PList [x], e)) as [o s0].
  cbn [fst snd] in *. subst s0. destruct o as [a| |]; [apply Hf|by exists x1, e1..].
Qed.

Lemma sim_put_at obj : sim i l (put_at i obj) (put_at 0 obj).
Proof.
  intros x e. exists obj, e. rewrite !run_put_at. cbn. by rewrite list_insert_insert_eq.
Qed.

Lemma sim_in_env {A} (m : M E A) : sim i l (in_env m) (in_env m).
Proof. intros x e. exists x, (m ⇓ e).2. by rewrite !run_in_env. Qed.

Lemma sim_if {A} (b : bool) (m1 m2 m1' m2' : M (pyval * E) A) :
  sim i l m1 m1' → sim i l m2 m2' →
  sim i l (if b then m1 else m2) (if b then m1' else m2').
Proof. by destruct b. Qed.

Lemma sim_assign_at obj (k : string) (v : pyval) :
  sim i l (assign_at i obj k v) (assign_at 0 obj k v).
Proof.
  unfold assign_at. apply sim_bind; [apply sim_lift|intros ?].
  apply sim_bind; [apply sim_put_at|intros ?; apply sim_ret].
Qed.

Lemma sim_next_version obj : sim i l (next_version i obj) (next_version 0 obj).
Proof.
  unfold next_version. do 2 (apply sim_bind; [apply sim_lift|intros ?]).
  apply sim_assign_at.
Qed.

End Sim.

(** A body that is simulated by itself on the object alone does to the
    [i]-th object of a list what [alone] says, and nothing to the rest. *)
Lemma sim_alone {A} (body : nat → pyval → M (pyval * E) A) i l obj (e : E) :
  sim i l (body i obj) (body 0%nat obj) → l !! i = Some obj →
  body i obj ⇓ (PList l, e) =
    ((alone body obj e).1.1, (PList (<[i := (alone body obj e).1.2]> l), (alone body obj e).2)).
Proof.
  intros Hsim Hi. destruct (Hsim obj e) as (x' & e' & Hrun & Hrun0).
  rewrite list_insert_id in Hrun by done. unfold alone. by rewrite Hrun, Hrun0.
Qed.

(** The loop over the objects of a list is one pass over the list. *)
Lemma map_each_pass {A} (body : nat → pyval → M (pyval * E) A) (before rest : list pyval)
    (e : E) :
  (∀ i l obj, sim i l (body i obj) (body 0%nat obj)) →
  map_each (imap (λ i obj, (length before + i, obj)%nat) rest) (λ io, body io.1 io.2)
    ⇓ (PList (before ++ rest), e) =
  let r := pass (alone body) rest e in (r.1.1, (PList (before ++ r.1.2), r.2)).
Proof.
  intros Hsim. revert before e. induction rest as [|obj rest IH]; intros before e; [done|].
  rewrite imap_cons, map_each_cons. cbn [fst snd pass]. rewrite Nat.add_0_r.
  rewrite (sim_alone body) by (by rewrite ?list_lookup_middle).
  rewrite insert_app_r_alt, Nat.sub_diag by done. cbn [insert list_insert].
  destruct (alone body obj e) as [[[a| |] obj'] e']; cbn [fst snd]; try done.
  specialize (IH (before ++ [obj'])%list e'). rewrite <-!app_assoc, length_app in IH.
  cbn [length app] in IH.
  erewrite imap_ext in IH; [rewrite IH|intros; cbn; f_equal; lia].
  cbn. rewrite <-!app_assoc. by destruct (pass _ _ _).1.1.
Qed.

Lemma for_objects_pass {A} (body : nat → pyval → M (pyval * E) A) l (e : E) :
  (∀ i l obj, sim i l (body i obj) (body 0%nat obj)) →
  for_objects body ⇓ (PList l, e) =
  let r := pass (alone body) l e in (r.1.1, (PList r.1.2, r.2)).
Proof.
  intros Hsim. unfold for_objects. mstep. cbn [py_iter]. mstep.
  exact (map_each_pass body [] l e Hsim).
Qed.

End SharedFacts.

#[export] Hint Resolve @sim_ret @sim_lift @sim_put_at @sim_in_env @sim_assign_at
  @sim_next_version : py.

(** Steps through a computation to show that it is simulated by itself on
    the object alone. *)
Ltac step_sim :=
  repeat first
    [ solve [auto with py]
    | apply sim_bind; [|intros ?]
    | apply sim_if
    | match goal with |- context [match ?x with _ => _ end] => destruct x end ].

Module GH_TEMPLATES.

Import GrassholperDataHelper.

(** What template 6 says of the export: [Success] is the text of success,
    [Failed result] the text of failure followed by [result], and
    [Error text] the text of an exception. *)
Inductive message : Type :=
| Success
| Failed (result : pyval)
| Error (text : string).

Section Blocks.

(** [str(e)]. *)
Context (str_exn : exn → string).
(** [Path(__file__).parent.parent] where the component defines [__file__],
    and [Path.home()]. *)
Context (script_dir : option string) (home : string).

(** [GrassholperDataHelper()]. *)
Definition new_helper : GrassholperDataHelper.t :=
  GrassholperDataHelper.__init__ script_dir home None.

(** A block that builds the helper [h] and calls its methods. *)
Definition with_helper {A} (h : GrassholperDataHelper.t)
    (m : M GrassholperDataHelper.state A) : M World A :=
  zoom (mk_state h) (λ s _, env s) m.

(** ** Template 1: load and display *)

(** The outputs [objects], [count] and [summary]. *)
Definition template_1 : M World (pyval * pyval * pyval) :=
  try_except
    (with_helper new_helper
       (objects ← load_input_data None;
        count ← lift (if py_truthy objects then py_len objects else Ok 0);
        s ← get;
        summary ← lift (get_summary (helper s));
        lift (py_getitem summary "types");;
        mret (objects, PInt count, summary)))
    (λ e, mret (PNone, PInt 0, pdict [("error", PStr (str_exn e))])).

(** ** Template 2: scale the geometry *)

(** The function [scale_coords] the loop defines. *)
Fixpoint scale_coords (c factor : pyval) : outcome pyval :=
  match c with
  | PList l =>
      match l with
      | [] => Raise IndexError
      | first :: _ =>
          if is_list first
          then PList <$> outcome_map (λ sub, scale_coords sub factor) l
          else PList <$> outcome_map (λ val, py_mul val factor) l
      end
  | _ =>
      first ← py_index c 0;
      if is_list first then Unmodelled
      else vals ← py_iter c;
           PList <$> outcome_map (λ val, py_mul val factor) vals
  end.

(** The body of the loop, on the [i]-th object.  The coordinates are
    assigned inside the geometry of the object when it has one, and inside
    a dictionary nobody else holds when it has none. *)
Definition scale_object {E} (scale : pyval) (i : nat) (obj : pyval) : M (pyval * E) unit :=
  geom ← lift (py_get obj "geometry" (PDict []));
  coords ← lift (py_get geom "coordinates" (PList []));
  scaled ← lift (scale_coords coords scale);
  geom' ← lift (py_setitem geom (PStr "coordinates") scaled);
  has_geometry ← lift (py_contains obj "geometry");
  obj ← (if has_geometry : bool then assign_at i obj "geometry" geom' else mret obj);
  next_version i obj;;
  mret tt.

(** The output [processed_objects]. *)
Definition template_2 (objects : pyval) (scale_factor : option pyval) : outcome pyval :=
  let data := if py_truthy objects then objects else PList [] in
  let scale := default (PFloat float_one) scale_factor in
  (editing data
     (try_except
        (for_objects (scale_object scale);;
         processed_objects ← gets fst;
         lift (py_len processed_objects);;
         mret processed_objects)
        (λ _, if py_truthy objects then gets fst else mret objects)) ⇓ tt).1.

(** ** Template 3: filter by type *)

(** [obj.get("type", "") == filter_t]. *)
Definition has_type (filter_t obj : pyval) : outcome bool :=
  ty ← py_get obj "type" (PStr "");
  py_eq ty filter_t.

(** The output [filtered_objects]. *)
Definition template_3 (objects : pyval) (filter_type : option pyval) : outcome pyval :=
  outcome_catch
    (let filter_t := default (PStr "Wall") filter_type in
     objs ← py_iter objects;
     filtered_objects ← outcome_filter (has_type filter_t) objs;
     Ok (PList filtered_objects))
    (λ _, Ok objects).

(** ** Template 4: add custom properties *)

(** [obj["properties"][k] = x] on the [i]-th object. *)
Definition set_property {E} (i : nat) (obj : pyval) (k : string) (x : pyval)
    : M (pyval * E) pyval :=
  props ← lift (py_getitem obj "properties");
  props' ← lift (py_setitem props (PStr k) x);
  assign_at i obj "properties" props'.

(** The body of the loop: the object as it is appended. *)
Definition add_properties (custom_id : pyval) (i : nat) (obj : pyval)
    : M (pyval * World) pyval :=
  obj ← set_property i obj "custom_id" custom_id;
  obj ← set_property i obj "modified_in_gh" (PBool true);
  ts ← in_env now_iso;
  obj ← set_property i obj "gh_timestamp" ts;
  next_version i obj.

(** The output [objects_with_props]. *)
Definition template_4 (objects : pyval) (custom_id : option pyval) : M World pyval :=
  editing objects
    (try_except
       (let custom_id := default (PStr "GH_PROJECT") custom_id in
        objects_with_props ← for_objects (add_properties custom_id);
        mret (PList objects_with_props))
       (λ _, gets fst)).

(** ** Template 5: save the output *)

(** The outputs [output_file] and [success]. *)
Definition template_5 (processed_objects : pyval) : M World (string * bool) :=
  try_except
    (with_helper new_helper
       (modify (set_current_data processed_objects);;
        filepath ← save_output_data processed_objects None;
        mret (default "None" filepath, true)))
    (λ e, mret (str_exn e, false)).

(** ** Template 6: export to ArcGIS Online *)

(** A method of the exporter [x] the block builds. *)
Definition with_exporter {A} (x : AGOLExporter.t) (m : M AGOLExporter.state A) : M Net A :=
  zoom (λ n, (x, n)) (λ s _, s.2) m.

(** The outputs [agol_id], [success] and [message]. *)
Definition template_6 (processed_objects : pyval) (agol_username agol_password : option string)
    : M Net (pyval * bool * message) :=
  try_except
    (let user := default "demo_user" agol_username in
     let pwd := default "demo_pass" agol_password in
     let exporter := AGOLExporter.__init__ user pwd None in
     day ← on_world now_day;
     r ← with_exporter exporter
           (AGOLExporter.export_to_agol processed_objects ("GH Modified - " +:+ day)
              "Exported from Grasshopper" GeoJSONConverter.default_epsg true);
     let success : bool := r.1 in
     let result : pyval := r.2 in
     mret (if success then result else PNone, success,
           if success then Success else Failed result))
    (λ e, mret (PNone, false, Error (str_exn e))).

(** ** Template 7: the complete pipeline *)

(** The function [round_coords] the loop defines, with [decimals=2]. *)
Fixpoint round_coords (c : pyval) (decimals : Z) : outcome pyval :=
  match c with
  | PList l =>
      match l with
      | [] => Raise IndexError
      | first :: _ =>
          if is_list first
          then PList <$> outcome_map (λ sub, round_coords sub decimals) l
          else PList <$> outcome_map (λ val, py_round val decimals) l
      end
  | _ =>
      first ← py_index c 0;
      if is_list first then Unmodelled
      else vals ← py_iter c;
           PList <$> outcome_map (λ val, py_round val decimals) vals
  end.

(** The body of the loop of step 2, on the [i]-th object. *)
Definition round_object (i : nat) (obj : pyval) : M (pyval * Net) unit :=
  geom ← lift (py_get obj "geometry" (PDict []));
  coords ← lift (py_get geom "coordinates" (PList []));
  rounded ← lift (round_coords coords 2);
  geom' ← lift (py_setitem geom (PStr "coordinates") rounded);
  has_geometry ← lift (py_contains obj "geometry");
  obj ← (if has_geometry : bool then assign_at i obj "geometry" geom' else mret obj);
  obj ← set_property i obj "gh_processed" (PBool true);
  ts ← in_env (on_world now_iso);
  obj ← set_property i obj "process_date" ts;
  next_version i obj;;
  mret tt.

(** Step 4: the export, inside a handler of its own that drops every
    exception.  The call of [export_to_agol] gives no title. *)
Definition export_step (data : pyval) : M Net pyval :=
  try_except
    (let exporter := AGOLExporter.__init__ "username" "password" None in
     title ← required None;
     r ← with_exporter exporter
           (AGOLExporter.export_to_agol data title "Exported from Grasshopper"
              GeoJSONConverter.default_epsg true);
     mret (if r.1 : bool then r.2 else PNone))
    (λ _, mret PNone).

(** The outputs [final_objects], [output_file] and [agol_id]. *)
Definition template_7 : M Net (pyval * pyval * pyval) :=
  try_except
    (data ← on_world (with_helper (GrassholperPipeline.__init__ script_dir home None)
                        GrassholperPipeline.load_and_analyze);
     (if negb (py_truthy data) then raise Exception else mret tt);;
     data ← editing data (for_objects round_object;; gets fst);
     output_path ← on_world (with_helper new_helper
                               (modify (set_current_data data);;
                                save_output_data data None));
     agol_id ← export_step data;
     lift (py_len data);;
     mret (data, PStr (default "None" output_path), agol_id))
    (λ _, mret (PNone, PNone, PNone)).

End Blocks.

(** ** Facts on the built-ins *)

Lemma outcome_map_ext_Forall {A B} (f g : A → outcome B) (l : list A) :
  Forall (λ x, f x = g x) l → outcome_map f l = outcome_map g l.
Proof. induction 1 as [|x l Hx _ IH]; [done|]. cbn. by rewrite Hx, IH. Qed.

Lemma py_mul_number_val (v : pyval) (n : number) :
  py_mul v (number_val n) = py_mul_number v n.
Proof. by destruct n. Qed.

Lemma outcome_filter_sublist {A} (keep : A → outcome bool) (l l' : list A) :
  outcome_filter keep l = Ok l' → l' `sublist_of` l.
Proof.
  revert l'. induction l as [|x l IH]; intros l'; cbn.
  { by intros [= <-]. }
  destruct (keep x) as [b| |]; cbn; try done.
  destruct (outcome_filter keep l) as [rest| |]; cbn; try done.
  intros [= <-]. destruct b; [apply sublist_skip|apply sublist_cons]; auto.
Qed.

Lemma outcome_filter_kept {A} (keep : A → outcome bool) (l l' : list A) :
  outcome_filter keep l = Ok l' → Forall (λ x, keep x = Ok true) l'.
Proof.
  revert l'. induction l as [|x l IH]; intros l'; cbn.
  { by intros [= <-]. }
  destruct (keep x) as [b| |] eqn:Hx; cbn; try done.
  destruct (outcome_filter keep l) as [rest| |]; cbn; try done.
  intros [= <-]. destruct b; auto.
Qed.

(** ** The blocks *)

Section Facts.
Context (str_exn : exn → string) (script_dir : option string) (home : string).

Lemma run_with_helper {A} (h : GrassholperDataHelper.t)
    (m : M GrassholperDataHelper.state A) (w : World) :
  with_helper h m ⇓ w = ((m ⇓ mk_state h w).1, env (m ⇓ mk_state h w).2).
Proof. unfold with_helper. by rewrite run_zoom. Qed.

(** *** Template 1 *)

Lemma template_1_no_raise (w : World) :
  is_raise (template_1 str_exn script_dir home ⇓ w).1 = false.
Proof. by apply try_except_no_raise. Qed.

(** *** Template 2 *)

(** C17. [scale_coords] of template 2 is [_scale_coordinates] of gh_helper.py:
    on every value and for every number as the factor the two functions
    return the same list or fail in the same way. *)
Theorem scale_coords_equiv (c : pyval) (n : number) :
  scale_coords c (number_val n) = GrassholperPipeline._scale_coordinates c n.
Proof.
  assert (Hmul : ∀ vals, outcome_map (λ val, py_mul val (number_val n)) vals
                         = outcome_map (λ val, py_mul_number val n) vals).
  { intros. apply outcome_map_ext_Forall, Forall_forall. intros. apply py_mul_number_val. }
  induction c as [| | | | |l IH|d IH] using pyval_ind;
    cbn [scale_coords GrassholperPipeline._scale_coordinates]; try done.
  - destruct (py_index _ 0) as [first| |]; cbn; [|done..].
    destruct (is_list first); [done|]. cbn. by rewrite Hmul.
  - destruct l as [|first rest]; [done|]. destruct (is_list first); f_equal; [|apply Hmul].
    by apply outcome_map_ext_Forall.
Qed.

Lemma sim_scale_object {E} (scale : pyval) (i : nat) (l : list pyval) (obj : pyval) :
  sim (E:=E) i l (scale_object scale i obj) (scale_object scale 0 obj).
Proof. unfold scale_object. step_sim. Qed.

(** The list template 2 works on is its input, or a new empty list. *)
Lemma template_2_data (l : list pyval) :
  (if py_truthy (PList l) then PList l else PList []) = PList l.
Proof. by destruct l. Qed.

(** The block on a list, by what the pass over the list gives. *)
Lemma run_template_2 (l : list pyval) (scale_factor : option pyval) :
  template_2 (PList l) scale_factor =
    match (pass (alone (scale_object (default (PFloat float_one) scale_factor))) l tt).1.1 with
    | Unmodelled => Unmodelled
    | _ => Ok (PList (pass (alone (scale_object (default (PFloat float_one) scale_factor)))
                        l tt).1.2)
    end.
Proof.
  unfold template_2. rewrite template_2_data, run_editing, run_try_except, run_bind.
  rewrite for_objects_pass by (intros; apply sim_scale_object).
  cbv zeta. cbn [fst snd]. destruct (pass _ _ _) as [[[out| |] l'] []] eqn:Hpass; cbn [fst snd].
  - mstep. cbn [py_len]. by mstep.
  - destruct l as [|obj rest]; [done|]. by mstep.
  - done.
Qed.

(** C16. Template 2, which edits the objects of its list in place, is one pass
    over the list: every object is scaled and gets its next version, in
    order, up to the first object on which that fails; the objects after
    it are as they were.  An exception is swallowed: the list is handed
    back as it then is, with the length of the input, and the block never
    raises. *)
Theorem template_2_pass (l : list pyval) (scale_factor : option pyval) :
  let r := pass (alone (scale_object (default (PFloat float_one) scale_factor))) l tt in
  template_2 (PList l) scale_factor =
    match r.1.1 with
    | Unmodelled => Unmodelled
    | _ => Ok (PList r.1.2)
    end ∧
  length r.1.2 = length l ∧
  (is_ok r.1.1 = false → ∃ before obj after, l = (before ++ obj :: after)%list ∧
     r.1.2 = ((pass (alone (scale_object (default (PFloat float_one) scale_factor)))
                 before tt).1.2
              ++ (alone (scale_object (default (PFloat float_one) scale_factor)) obj tt).1.2
              :: after)%list).
Proof.
  cbv zeta. split; [apply run_template_2|]. split; [apply pass_length|].
  intros (before & obj & after & -> & _ & _ & ->)%pass_stops.
  exists before, obj, after. split; [done|]. by destruct (pass _ before tt).2.
Qed.

(** The list template 2 hands back has the length of its input. *)
Lemma template_2_length (l : list pyval) (scale_factor : option pyval) (v : pyval) :
  template_2 (PList l) scale_factor = Ok v → ∃ l', v = PList l' ∧ length l' = length l.
Proof.
  rewrite run_template_2.
  destruct (pass _ _ _).1.1 eqn:Hr; intros [= <-]; eexists; split; try done;
    apply pass_length.
Qed.

(** Without objects the output is a new empty list, also when the input
    is [None]. *)
Lemma template_2_nothing (objects : pyval) (scale_factor : option pyval) :
  py_truthy objects = false → template_2 objects scale_factor = Ok (PList []).
Proof. unfold template_2. by intros ->. Qed.

(** *** Template 3 *)

(** Template 3 never raises, and on a list its output is a list of objects
    of the input, in their order. *)
Theorem template_3_sublist (l : list pyval) (filter_type : option pyval) :
  match template_3 (PList l) filter_type with
  | Ok v => ∃ l', v = PList l' ∧ l' `sublist_of` l
  | Raise _ => False
  | Unmodelled => True
  end.
Proof.
  unfold template_3. cbn [py_iter]. rewrite outcome_bind_ok.
  destruct (outcome_filter _ l) as [l'| |] eqn:Hf; cbn; [|by eauto|done].
  eauto using outcome_filter_sublist.
Qed.

(** An object that has no [get] makes the filter fail, and the block hands
    back every object, of whatever type. *)
Lemma template_3_failure (l : list pyval) (filter_type : option pyval) (e : exn) :
  outcome_filter (has_type (default (PStr "Wall") filter_type)) l = Raise e →
  template_3 (PList l) filter_type = Ok (PList l).
Proof. unfold template_3. cbn [py_iter]. rewrite outcome_bind_ok. by intros ->. Qed.

(** *** Template 4 *)

Lemma sim_set_property {E} (i : nat) (l : list pyval) (obj : pyval) (k : string) (x : pyval) :
  sim (E:=E) i l (set_property i obj k x) (set_property 0 obj k x).
Proof. unfold set_property. step_sim. Qed.

#[local] Hint Resolve @sim_set_property : py.

Lemma sim_add_properties (custom_id : pyval) (i : nat) (l : list pyval) (obj : pyval) :
  sim i l (add_properties custom_id i obj) (add_properties custom_id 0 obj).
Proof. unfold add_properties. step_sim. Qed.

(** Template 4 never raises on a list, and the list it hands back has the
    length of its input, whether the loop came to its end or not. *)
Theorem template_4_length (l : list pyval) (custom_id : option pyval) (w : World) :
  match (template_4 (PList l) custom_id ⇓ w).1 with
  | Ok v => ∃ l', v = PList l' ∧ length l' = length l
  | Raise _ => False
  | Unmodelled => True
  end.
Proof.
  unfold template_4. rewrite run_editing, run_try_except, run_bind.
  rewrite for_objects_pass by (intros; apply sim_add_properties).
  cbv zeta. cbn [fst snd].
  destruct (pass _ _ _) as [[[out| |] l'] w'] eqn:Hpass; cbn [fst snd]; mstep; [| |done].
  - exists out. split; [done|]. eapply pass_ok_length. by rewrite Hpass.
  - exists l'. split; [done|].
    pose proof (pass_length (alone (add_properties (default (PStr "GH_PROJECT") custom_id)))
                  l w) as Hlen.
    by rewrite Hpass in Hlen.
Qed.

(** *** Template 5 *)

(** [save_output_data] returns: the path, or [None]. *)
Lemma save_output_data_returns (data : pyval) (filename : option string)
    (s : GrassholperDataHelper.state) :
  ∃ r, (save_output_data data filename ⇓ s).1 = Ok r.
Proof.
  unfold save_output_data. rewrite run_try_except.
  destruct (_ ⇓ s) as [[r| |] s'] eqn:Hrun; [by eauto|by eauto|].
  exfalso. revert Hrun. destruct filename; mstep; rewrite ?run_helper_io; mstep;
    cbn [env set_env]; rewrite ?run_now_stamp, ?run_write_json; cbn [fst snd];
    mstep; rewrite ?run_helper_io, ?run_write_json; cbn [fst snd env set_env];
    repeat (destruct (unwritable _ _); mstep; try done);
    by destruct data.
Qed.

(** C36. Template 5 reports success in every environment: when the file could
    not be written the helper returns [None], and the block takes it for
    a path. *)
Theorem template_5_reports_success (processed_objects : pyval) (w : World) :
  ∃ output_file,
    (template_5 str_exn script_dir home processed_objects ⇓ w).1 = Ok (output_file, true).
Proof.
  unfold template_5. rewrite run_try_except, run_with_helper, run_bind, run_modify, run_bind.
  destruct (save_output_data_returns processed_objects None
              (set_current_data processed_objects (mk_state (new_helper script_dir home) w)))
    as [r Hr].
  destruct (save_output_data _ _ ⇓ _) as [o s']. cbn [fst] in Hr. subst o. mstep. eauto.
Qed.

(** *** Template 6 *)

Lemma template_6_no_raise (processed_objects : pyval) (u p : option string) (n : Net) :
  is_raise (template_6 str_exn processed_objects u p ⇓ n).1 = false.
Proof. by apply try_except_no_raise. Qed.

(** C29. The password template 6 is given travels in the request for a token
    only: whatever the service answers, every request the block sent that
    holds a password is the request of the credentials to the portal. *)
Theorem template_6_credentials (processed_objects : pyval) (u p : option string) (n : Net) :
  let exporter := AGOLExporter.__init__ (default "demo_user" u) (default "demo_pass" p) None in
  extends (λ req, has_password req = true →
                  req = AGOLAuthentication.auth_request (AGOLExporter.auth exporter))
          n (template_6 str_exn processed_objects u p ⇓ n).2.
Proof.
  intros exporter. set (P := λ req, _ → _).
  assert (preserves (extends P n) (template_6 str_exn processed_objects u p)) as Hpres;
    [|apply Hpres, extends_refl].
  unfold template_6. apply preserves_try; [|intros; apply preserves_ret].
  apply preserves_bind; [apply preserves_on_world|intros day].
  apply preserves_bind; [|intros; apply preserves_ret].
  apply (preserves_zoom _ (λ x : AGOLExporter.state,
           AGOLAuthentication.credentials (AGOLExporter.auth x.1)
           = AGOLAuthentication.credentials (AGOLExporter.auth exporter)
           ∧ extends P n x.2)); [done|by intros ?? ? []|].
  apply AGOLExporter.preserves_export_to_agol; [done|]. unfold P. congruence.
Qed.

(** *** Template 7 *)

(** What [load_and_analyze] returns is the empty dictionary or a
    dictionary whose first key is a string. *)
Lemma load_and_analyze_keys (s s' : GrassholperDataHelper.state) (data : pyval) :
  GrassholperPipeline.load_and_analyze ⇓ s = (Ok data, s') →
  data = PDict [] ∨ ∃ v rest, data = PDict ((KStr "loaded_objects", v) :: rest).
Proof.
  unfold GrassholperPipeline.load_and_analyze. intros H.
  apply run_bind_inv_ok in H as (d & s1 & _ & H).
  destruct (negb (py_truthy d)); [left; by injection H as <- _|right].
  do 7 (apply run_bind_inv_ok in H as (? & ? & _ & H)). injection H as <- _.
  by eexists _, _.
Qed.

(** A key of a dictionary is not an object: the body of the loop fails on
    it before it assigns anything. *)
Lemma round_object_key (i : nat) (k : string) (s : pyval * Net) :
  round_object i (PStr k) ⇓ s = (Raise AttributeError, s).
Proof. unfold round_object. by mstep. Qed.

(** The export of step 4 never takes place: the call gives no title, the
    [TypeError] is dropped, and no request is sent. *)
Lemma export_step_none (data : pyval) (n : Net) : export_step data ⇓ n = (Ok PNone, n).
Proof. reflexivity. Qed.

(** C14. Template 7 ends in its handler in every environment, and its three
    outputs are [None].  Without data it raises itself; with data, what
    [load_and_analyze] returns is the analysis (a dictionary), not the
    objects, and the loop fails on its first key. *)
Theorem template_7_fails (n : Net) :
  (template_7 script_dir home ⇓ n).1 = Ok (PNone, PNone, PNone) ∨
  (template_7 script_dir home ⇓ n).1 = Unmodelled.
Proof.
  unfold template_7. rewrite run_try_except, run_bind, run_on_world, run_with_helper.
  destruct (GrassholperPipeline.load_and_analyze ⇓ _) as [[data| |] s'] eqn:Hload;
    cbn [fst snd]; [|by left|by right].
  apply load_and_analyze_keys in Hload as [->|(v & rest & ->)]; [by left|].
  cbn [py_truthy negb]. mstep. rewrite run_editing, run_bind. unfold for_objects. mstep.
  cbn [py_iter fmap list_fmap fst key_val map]. mstep.
  rewrite imap_cons, map_each_cons. cbn [fst snd]. rewrite round_object_key. by left.
Qed.

End Facts.

(** ** Examples *)

(** A wall with a geometry, and a floor without one. *)
Definition sample_wall : pyval :=
  pdict [("id", PStr "w1"); ("type", PStr "Wall"); ("version", PInt 1);
         ("properties", pdict [("material", PStr "Brick")]);
         ("geometry", pdict [("type", PStr "LineString");
                             ("coordinates", PList [PList [PInt 0; PInt 2];
                                                    PList [PInt 4; PInt 0]])])].

Definition sample_floor : pyval :=
  pdict [("id", PStr "f1"); ("type", PStr "Floor"); ("properties", pdict [])].

Definition scaled_wall : pyval :=
  pdict [("id", PStr "w1"); ("type", PStr "Wall"); ("version", PInt 2);
         ("properties", pdict [("material", PStr "Brick")]);
         ("geometry", pdict [("type", PStr "LineString");
                             ("coordinates", PList [PList [PInt 0; PInt 4];
                                                    PList [PInt 8; PInt 0]])])].

(** Template 2 on the wall and the floor, by the factor 2: the wall is
    scaled, the floor makes the loop fail, and the output is the list with
    the scaled wall and the floor. *)
Example template_2_sample :
  template_2 (PList [sample_wall; sample_floor]) (Some (PInt 2))
  = Ok (PList [scaled_wall; sample_floor]).
Proof. by vm_compute. Qed.

Example template_3_sample :
  template_3 (PList [sample_wall; sample_floor]) None = Ok (PList [sample_wall]).
Proof. by vm_compute. Qed.

Lemma template_2_length_witness :
  ∃ l', PList [scaled_wall; sample_floor] = PList l' ∧
        length l' = length [sample_wall; sample_floor].
Proof. by apply (template_2_length _ (Some (PInt 2))). Defined.

Lemma template_2_nothing_witness : template_2 PNone None = Ok (PList []).
Proof. by apply template_2_nothing. Defined.

Lemma template_3_failure_witness :
  template_3 (PList [sample_wall; PStr "x"]) None = Ok (PList [sample_wall; PStr "x"]).
Proof. by apply (template_3_failure _ _ AttributeError). Defined.

(** Template 4 on the wall, at the first reading of the sample clock. *)
Example template_4_sample :
  (template_4 (PList [sample_wall]) None ⇓ sample_world).1
  = Ok (PList [pdict [("id", PStr "w1"); ("type", PStr "Wall"); ("version", PInt 2);
                      ("properties", pdict [("material", PStr "Brick");
                                            ("custom_id", PStr "GH_PROJECT");
                                            ("modified_in_gh", PBool true);
                                            ("gh_timestamp", PStr "2024-01-15T10:30:00")]);
                      ("geometry", pdict [("type", PStr "LineString");
                                          ("coordinates", PList [PList [PInt 0; PInt 2];
                                                                 PList [PInt 4; PInt 0]])])]]).
Proof. by vm_compute. Qed.

(** Template 1 without an input file: no objects, and the summary of an
    empty helper. *)
Example template_1_sample :
  (template_1 (λ _, "error") None "/home/user" ⇓ sample_world).1
  = Ok (PList [], PInt 0,
        pdict [("total_objects", PInt 0); ("types", PDict []); ("input_file", PNone);
               ("last_modified", PNone)]).
Proof. by vm_compute. Qed.

(** Template 5 where nothing can be written: the output is the text
    [None], and the block reports success. *)
Example template_5_sample :
  (template_5 (λ _, "error") None "/home/user" (PList [sample_wall])
     ⇓ mk_world sample_clock 0 sample_uuids 0 ∅ (λ _, true) ∅ 0).1
  = Ok ("None", true).
Proof. by vm_compute. Qed.

(** Rounding to two places: a tie goes to the even digit. *)
Example round_coords_sample :
  round_coords (PList [PFloat (S754_finite false 1 (-3)); PInt 7]) 2
  = Ok (PList [PFloat (SFdiv prec emax (binary_normalize prec emax 12 0 false)
                         (binary_normalize prec emax 100 0 false));
               PInt 7]).
Proof. by vm_compute. Qed.

End GH_TEMPLATES.
