(* ===== verification/GhDisplay.v ===== *)
(** * The Grasshopper templates, 8 to 10 (src/GH_TEMPLATES.py, lines 256-383)

    Template 8 turns the objects into Rhino geometry for display: points,
    curves and one colour per thing drawn.  Template 9 prints a table of
    the first twenty objects.  Template 10 is the wrapper [safe_execute].

    Rhino's classes are data here: a [Point3d] is its three coordinates, a
    [PolylineCurve] the list of its points, a [Color] one of the six the
    template names.  Whether [Rhino.Geometry] can be imported is a
    parameter, and so are the text of a value ([str(v)], which the table
    prints) and the text of an exception.

    Theorems: no block raises; the colours of template 8 are at least as
    many as the points and curves together and at most as many as the
    objects, and an empty polyline is what makes the counts differ; an
    object whose id is a number turns the whole table of template 9 into
    the text of an error; [safe_execute] returns the flag [True] exactly
    when the function returned. *)

From Stdlib Require Import ZArith String Ascii.
From stdpp Require Import base tactics option list strings.
From S2P Require Import Prelude PyDict PyValue PyStr.

Set Default Proof Using "Type".
Local Open Scope string_scope.
Local Open Scope Z_scope.

(** A loop that builds a value from the elements of a list and may fail. *)
Fixpoint outcome_fold {A B} (f : B → A → outcome B) (l : list A) (b : B) : outcome B :=
  match l with
  | [] => Ok b
  | x :: l' => b' ← f b x; outcome_fold f l' b'
  end.

(** The line feed. *)
Definition nl : string := String (ascii_of_nat 10) EmptyString.

Module GH_DISPLAY.

(** ** Rhino *)

Inductive Color : Type := Red | Blue | Green | Yellow | Magenta | Gray.

(** [Point3d(x, y, z)]. *)
Module Point3d.
Record t : Type := mk { X : number; Y : number; Z : number }.
End Point3d.

(** A [PolylineCurve] is the list of its points. *)
Definition PolylineCurve : Type := list Point3d.t.

(** The outputs of template 8. *)
Record view : Type := mk_view {
  points : list Point3d.t;
  curves : list PolylineCurve;
  colors : list Color
}.

Definition no_view : view := mk_view [] [] [].

(** The dictionary [color_map]. *)
Definition color_map : list (string * Color) :=
  [("Wall", Red); ("Floor", Blue); ("Door", Green); ("Window", Yellow); ("Column", Magenta)].

(** [color_map.get(obj_type, Color.Gray)]: a list or a dictionary cannot be
    looked up, and no other value but a string is a key of the map. *)
Definition color_of (obj_type : pyval) : outcome Color :=
  match obj_type with
  | PStr s => Ok (default Gray (dict_get s color_map))
  | PList _ | PDict _ => Raise TypeError
  | _ => Ok Gray
  end.

(** An argument of [Point3d]: a number.  What the constructor makes of a
    boolean is not modelled. *)
Definition coordinate (v : pyval) : outcome number :=
  match v with
  | PInt z => Ok (NInt z)
  | PFloat f => Ok (NFloat f)
  | PBool _ => Unmodelled
  | _ => Raise TypeError
  end.

(** [Point3d(c[0], c[1], c[2] if len(c) > 2 else 0)]. *)
Definition point_of (c : pyval) : outcome Point3d.t :=
  x ← py_index c 0;
  y ← py_index c 1;
  n ← py_len c;
  z ← (if 2 <? n then py_index c 2 else Ok (PInt 0));
  x ← coordinate x;
  y ← coordinate y;
  z ← coordinate z;
  Ok (Point3d.mk x y z).

(** [geom.get("type") == name]. *)
Definition geometry_is (geom : pyval) (name : string) : outcome bool :=
  ty ← py_get geom "type" PNone;
  py_eq ty (PStr name).

(** The body of the loop of template 8. *)
Definition show_object (v : view) (obj : pyval) : outcome view :=
  obj_type ← py_get obj "type" (PStr "Unknown");
  color ← color_of obj_type;
  geom ← py_get obj "geometry" (PDict []);
  coords ← py_get geom "coordinates" (PList []);
  is_point ← geometry_is geom "Point";
  if is_point : bool then
    pt ← point_of coords;
    Ok (mk_view (points v ++ [pt]) (curves v) (colors v ++ [color]))
  else
    is_line ← geometry_is geom "LineString";
    if is_line : bool then
      cs ← py_iter coords;
      pts ← outcome_map point_of cs;
      if (1 <? length pts)%nat
      then Ok (mk_view (points v) (curves v ++ [pts]) (colors v ++ [color]))
      else Ok (mk_view (points v ++ pts) (curves v) (colors v ++ [color]))
    else
      is_polygon ← geometry_is geom "Polygon";
      if is_polygon : bool then
        if py_truthy coords then
          ring ← py_index coords 0;
          cs ← py_iter ring;
          pts ← outcome_map point_of cs;
          if (1 <? length pts)%nat
          then Ok (mk_view (points v) (curves v ++ [pts]) (colors v ++ [color]))
          else Ok v
        else Ok v
      else Ok v.

(** The outputs [points], [curves] and [colors].  [rhino] says whether
    [Rhino.Geometry] can be imported; the two handlers of the block assign
    the same three empty lists. *)
Definition template_8 (rhino : bool) (processed_objects : pyval) : outcome view :=
  outcome_catch
    (if rhino then
       objs ← py_iter processed_objects;
       outcome_fold show_object objs no_view
     else Raise ImportError)
    (λ _, Ok no_view).

(** ** The table *)

Section Table.

(** [str(v)], which is [v] for a string. *)
Context (py_str : pyval → string).
(** [str(e)]. *)
Context (str_exn : exn → string).

(** A row of the table. *)
Definition row_of (obj : pyval) : outcome pyval :=
  id ← py_get obj "id" (PStr "?");
  ty ← py_get obj "type" (PStr "?");
  version ← py_get obj "version" (PInt 1);
  props ← py_get obj "properties" (PDict []);
  Ok (pdict [("ID", id); ("Type", ty); ("Version", version);
             ("Properties", PStr (substring 0 50 (py_str props) +:+ "..."))]).

(** The line of a row. *)
Definition line_of (row : pyval) : outcome string :=
  id ← py_getitem row "ID";
  id ← py_slice_to id 15;
  ty ← py_getitem row "Type";
  version ← py_getitem row "Version";
  props ← py_getitem row "Properties";
  props ← py_slice_to props 30;
  Ok (py_str id +:+ " | " +:+ py_str ty +:+ " | " +:+ py_str version +:+ " | "
      +:+ py_str props +:+ nl).

Definition table_header : string :=
  "ID | Type | Ver | Properties" +:+ nl +:+ "---|------|-----|----------" +:+ nl.

(** The output [data_table]: the table, or the text of the exception. *)
Definition template_9 (processed_objects : pyval) : outcome string :=
  outcome_catch
    (objs ← py_iter processed_objects;
     data_table ← outcome_map row_of objs;
     lines ← outcome_map line_of (take 20 data_table);
     let output := table_header +:+ String.concat "" lines in
     Ok (if (20 <? length data_table)%nat
         then output +:+ "... and " +:+ str_of_Z (Z.of_nat (length data_table) - 20)
              +:+ " more rows"
         else output))
    (λ e, Ok (str_exn e)).

End Table.

(** ** The wrapper *)

(** [safe_execute(func)]; [format_exc] is [traceback.format_exc()] in the
    handler. *)
Definition safe_execute {S} (format_exc : exn → string) (func : M S pyval)
    : M S (pyval * bool * string) :=
  try_except
    (result ← func;
     mret (result, true, "Success"))
    (λ e, mret (PNone, false, format_exc e)).

(** ** Template 8 *)

Lemma template_8_no_raise (rhino : bool) (processed_objects : pyval) :
  is_raise (template_8 rhino processed_objects) = false.
Proof. unfold template_8. by destruct (if rhino then _ else _). Qed.

(** Outside Grasshopper the three outputs are empty. *)
Lemma template_8_no_rhino (processed_objects : pyval) :
  template_8 false processed_objects = Ok no_view.
Proof. reflexivity. Qed.

(** After [n] objects there are at most [n] colours, and at least one for
    each point and curve. *)
Definition counted (n : nat) (v : view) : Prop :=
  (length (points v) + length (curves v) ≤ length (colors v) ≤ n)%nat.

Lemma show_object_counted (n : nat) (v v' : view) (obj : pyval) :
  counted n v → show_object v obj = Ok v' → counted (S n) v'.
Proof.
  unfold counted, show_object. intros Hv H.
  repeat (apply outcome_bind_inv_ok in H as (? & _ & H));
    repeat (case_match; try done;
            repeat (apply outcome_bind_inv_ok in H as (? & _ & H)));
    injection H as <-; cbn; rewrite ?length_app; cbn;
    repeat match goal with
           | E : (1 <? _)%nat = false |- _ => apply Nat.ltb_ge in E
           end; lia.
Qed.

Lemma outcome_fold_counted (l : list pyval) (n : nat) (v v' : view) :
  counted n v → outcome_fold show_object l v = Ok v' → counted (n + length l) v'.
Proof.
  revert n v. induction l as [|obj l IH]; intros n v Hv; cbn.
  { intros [= <-]. by rewrite Nat.add_0_r. }
  intros (v1 & H1 & H)%outcome_bind_inv_ok.
  replace (n + S (length l))%nat with (S n + length l)%nat by lia.
  eauto using show_object_counted.
Qed.

(** C40. The colours of template 8: at most one per object, and at least one
    per point and curve.  The block never raises. *)
Theorem template_8_colors (rhino : bool) (l : list pyval) :
  match template_8 rhino (PList l) with
  | Ok v => (length (points v) + length (curves v) ≤ length (colors v) ≤ length l)%nat
  | Raise _ => False
  | Unmodelled => True
  end.
Proof.
  unfold template_8. destruct rhino; [|cbn; lia]. cbn [py_iter]. rewrite outcome_bind_ok.
  destruct (outcome_fold show_object l no_view) as [v| |] eqn:Hfold; cbn; [|lia|done].
  by apply (outcome_fold_counted l 0 no_view); [cbv; lia|].
Qed.

(** ** Template 9 *)

Section TableFacts.
Context (py_str : pyval → string) (str_exn : exn → string).

Lemma template_9_no_raise (processed_objects : pyval) :
  is_raise (template_9 py_str str_exn processed_objects) = false.
Proof. unfold template_9. by destruct (_ ≫= _). Qed.

(** The line of a row whose id is an integer cannot be printed. *)
Lemma line_of_int_id (z : Z) (ty version props : pyval) :
  line_of py_str (pdict [("ID", PInt z); ("Type", ty); ("Version", version);
                         ("Properties", props)])
  = Raise TypeError.
Proof. reflexivity. Qed.

(** An object whose id is an integer, among the first twenty, turns the
    table into the text of a [TypeError]. *)
Lemma row_of_dict (d : list (pykey * pyval)) :
  row_of py_str (PDict d) =
    Ok (pdict [("ID", default (PStr "?") (dict_get (KStr "id") d));
               ("Type", default (PStr "?") (dict_get (KStr "type") d));
               ("Version", default (PInt 1) (dict_get (KStr "version") d));
               ("Properties",
                PStr (substring 0 50 (py_str (default (PDict [])
                                                (dict_get (KStr "properties") d))) +:+ "..."))]).
Proof. unfold row_of. by rewrite !py_get_PDict. Qed.

Theorem template_9_int_id (before after : list pyval) (d : list (pykey * pyval)) (z : Z)
    (rows : list pyval) (lines : list string) :
  dict_get (KStr "id") d = Some (PInt z) →
  outcome_map (row_of py_str) before = Ok rows →
  outcome_map (line_of py_str) rows = Ok lines →
  (length before < 20)%nat →
  is_ok (outcome_map (row_of py_str) after) = true →
  template_9 py_str str_exn (PList (before ++ PDict d :: after)) = Ok (str_exn TypeError).
Proof.
  intros Hid Hrows Hlines Hlen Hafter. unfold template_9. cbn [py_iter].
  rewrite outcome_bind_ok, outcome_map_app, Hrows. cbn [outcome_map].
  rewrite row_of_dict, Hid. cbn [default from_option Datatypes.id].
  destruct (outcome_map (row_of py_str) after) as [rows'| |]; try done.
  rewrite outcome_bind_ok. unfold mret, outcome_ret. rewrite !outcome_bind_ok.
  pose proof (outcome_map_ok_length _ _ _ Hrows) as Hl.
  rewrite take_app_ge, outcome_map_app, Hlines by lia.
  replace (20 - length rows)%nat with (S (19 - length rows)) by lia.
  cbn [take outcome_map]. by rewrite line_of_int_id.
Qed.

End TableFacts.

(** ** Template 10 *)

Section Wrapper.
Context {S : Type} (format_exc : exn → string) (func : M S pyval).

Lemma safe_execute_no_raise (s : S) : is_raise (safe_execute format_exc func ⇓ s).1 = false.
Proof. by apply try_except_no_raise. Qed.

(** [safe_execute] in closed form: the result of the function with the
    flag [True], or [None] with the flag [False] and the text of the
    exception; the state is the state the function reached. *)
Theorem safe_execute_spec (s : S) :
  safe_execute format_exc func ⇓ s =
    (match (func ⇓ s).1 with
     | Ok result => Ok (result, true, "Success")
     | Raise e => Ok (PNone, false, format_exc e)
     | Unmodelled => Unmodelled
     end, (func ⇓ s).2).
Proof.
  unfold safe_execute. rewrite run_try_except, run_bind.
  by destruct (func ⇓ s) as [[] ?].
Qed.

End Wrapper.

(** ** Examples *)

Definition origin : Point3d.t := Point3d.mk (NInt 0) (NInt 0) (NInt 0).

Definition door : pyval :=
  pdict [("type", PStr "Door");
         ("geometry", pdict [("type", PStr "Point");
                             ("coordinates", PList [PInt 0; PInt 0])])].

(** A wall whose line has no points. *)
Definition empty_wall : pyval :=
  pdict [("type", PStr "Wall");
         ("geometry", pdict [("type", PStr "LineString"); ("coordinates", PList [])])].

(** An empty polyline adds a colour and nothing to draw: two colours for
    one point. *)
Example template_8_sample :
  template_8 true (PList [door; empty_wall]) = Ok (mk_view [origin] [] [Green; Red]).
Proof. by vm_compute. Qed.

Lemma template_9_int_id_witness :
  template_9 (λ _, "text") (λ _, "error")
    (PList ([] ++ PDict [(KStr "id", PInt 7)] :: [])) = Ok "error".
Proof.
  by apply (template_9_int_id (λ _, "text") (λ _, "error") [] []
              [(KStr "id", PInt 7)] 7 [] []); cbn; try lia.
Defined.

End GH_DISPLAY.
