(* ===== verification/GithubLoader.v ===== *)
(** * The loader of modules from GitHub (src/scripts/github_loader.py)

    The loader downloads the text of a script, executes it in the
    dictionary of a new module and registers the module in [sys.modules],
    after it has removed the module registered under that name.

    The state is [sys.modules], a finite map from names to modules, and the
    web: the answer to the n-th download, and the URLs that were asked
    for.  A module is its dictionary, a finite map from names to
    attributes.  What the interpreter does is a parameter of the model:
    the dictionary of a new module, and [exec], which runs a text in a
    dictionary and may change the whole state, return or raise.  Nothing
    is assumed of either.

    Theorems: a download that fails leaves the name without a module, also
    when one was registered before the call; a load that returns has
    registered what it returns, under the name, with the URL as its file;
    a load changes no other entry of [sys.modules] unless the executed
    text does; [load_all_from_github] never raises and returns modules
    for names of its list only; the example of the file never raises. *)

From Stdlib Require Import String Ascii.
From stdpp Require Import base tactics option list strings gmap.
From S2P Require Import Prelude.

Set Default Proof Using "Type".
Local Open Scope string_scope.

Module github_loader.

(** ** The state *)

(** The answer to a download: the text, bytes that are not UTF-8, or no
    answer. *)
Inductive page : Type :=
| Text (code : string)
| NotText
| NoPage.

Definition is_text (p : page) : bool :=
  match p with Text _ => true | _ => false end.

Section Loader.

(** The values a module holds. *)
Context {obj : Type}.

(** An attribute of a module: a string (its name, its file) or a value of
    the program. *)
Inductive attr : Type :=
| AStr (s : string)
| AObj (o : obj).

(** A module is its [__dict__]. *)
Definition module : Type := gmap string attr.

Record Loader : Type := mk_loader {
  sys_modules : gmap string module;
  pages : nat → string → page;
  fetched : list string
}.

Definition set_modules (m : gmap string module) (s : Loader) : Loader :=
  mk_loader m (pages s) (fetched s).

(** [urllib.request.urlopen(url).read().decode('utf-8')]: no answer is an
    [OSError] ([URLError]), bytes that are not UTF-8 a [ValueError]
    ([UnicodeDecodeError]). *)
Definition download (url : string) : M Loader string := λ s,
  let s' := mk_loader (sys_modules s) (pages s) (fetched s ++ [url])%list in
  match pages s (length (fetched s)) url with
  | Text code => (Ok code, s')
  | NotText => (Raise ValueError, s')
  | NoPage => (Raise OSError, s')
  end.

(** [if module_name in sys.modules: del sys.modules[module_name]]. *)
Definition forget (module_name : string) : M Loader unit :=
  modify (λ s, set_modules (delete module_name (sys_modules s)) s).

(** [sys.modules[module_name] = module]. *)
Definition register (module_name : string) (m : module) : M Loader unit :=
  modify (λ s, set_modules (<[module_name := m]> (sys_modules s)) s).

(** ** The interpreter *)

(** The dictionary of [module_from_spec(spec_from_loader(name, loader=None))]. *)
Context (module_from_spec : string → module).
(** The dictionary of [type(sys)(name)]. *)
Context (new_module : string → module).
(** [exec(code, d)]: the dictionary after the text has run. *)
Context (exec : string → module → M Loader module).

(** ** The functions *)

Definition GITHUB_REPO : string := "TWagenvoort/revit-to-gis".

Definition GITHUB_RAW_URL : string :=
  "https://raw.githubusercontent.com/" +:+ GITHUB_REPO +:+ "/main".

Definition SCRIPTS_URL : string := GITHUB_RAW_URL +:+ "/scripts".

(** The URL of a module. *)
Definition module_url (module_name : string) : string :=
  SCRIPTS_URL +:+ "/" +:+ module_name +:+ ".py".

(** [load_module_from_github(module_name)]: the handler prints and raises
    again. *)
Definition load_module_from_github (module_name : string) : M Loader module :=
  let url := module_url module_name in
  try_except
    (forget module_name;;
     code ← download url;
     let m := <["__file__" := AStr url]> (module_from_spec module_name) in
     m ← exec code m;
     register module_name m;;
     mret m)
    (λ e, raise e).

(** [getattr(module, name)]. *)
Definition getattr (m : module) (name : string) : outcome attr :=
  match m !! name with
  | Some a => Ok a
  | None => Raise AttributeError
  end.

(** [load_class_from_github(module_name, class_name)]. *)
Definition load_class_from_github (module_name class_name : string) : M Loader attr :=
  m ← load_module_from_github module_name;
  lift (getattr m class_name).

(** [load_config_from_github()]. *)
Definition load_config_from_github : M Loader module :=
  load_module_from_github "config".

Definition module_names : list string :=
  ["gh_helper"; "merge_engine"; "revit_gh_bridge"; "agol_exporter";
   "integration_pipeline"; "config"].

(** The body of the loop of [load_all_from_github]: the dictionary
    [modules] with the module, or as it was. *)
Definition load_one (modules : gmap string module) (name : string)
    : M Loader (gmap string module) :=
  try_except
    (m ← load_module_from_github name;
     mret (<[name := m]> modules))
    (λ _, mret modules).

(** A loop that builds a value from the elements of a list. *)
Fixpoint fold_each {S A B} (f : B → A → M S B) (l : list A) (b : B) : M S B :=
  match l with
  | [] => mret b
  | x :: l' => b' ← f b x; fold_each f l' b'
  end.

(** [load_all_from_github()]. *)
Definition load_all_from_github : M Loader (gmap string module) :=
  fold_each load_one module_names ∅.

(** [load_github_module_simple(module_name)]. *)
Definition load_github_module_simple (module_name : string) : M Loader module :=
  let url := module_url module_name in
  try_except
    (forget module_name;;
     code ← download url;
     let m := new_module "module" in
     let m := <["__name__" := AStr module_name]> m in
     let m := <["__file__" := AStr url]> m in
     m ← exec code m;
     register module_name m;;
     mret m)
    (λ e, raise e).

(** The example at the end of the file: whether the helper was loaded. *)
Definition main : M Loader bool :=
  try_except
    (load_github_module_simple "gh_helper";;
     mret true)
    (λ _, mret false).

(** ** Running the parts *)

Lemma run_download (url : string) (s : Loader) :
  download url ⇓ s =
    (match pages s (length (fetched s)) url with
     | Text code => Ok code
     | NotText => Raise ValueError
     | NoPage => Raise OSError
     end, mk_loader (sys_modules s) (pages s) (fetched s ++ [url])).
Proof. unfold run, download. by destruct (pages _ _ _). Qed.

Lemma run_forget (name : string) (s : Loader) :
  forget name ⇓ s = (Ok tt, set_modules (delete name (sys_modules s)) s).
Proof. reflexivity. Qed.

Lemma run_register (name : string) (m : module) (s : Loader) :
  register name m ⇓ s = (Ok tt, set_modules (<[name := m]> (sys_modules s)) s).
Proof. reflexivity. Qed.

(** A handler that raises again is no handler. *)
Lemma try_reraise {S A} (m : M S A) (s : S) : try_except m (λ e, raise e) ⇓ s = m ⇓ s.
Proof. rewrite run_try_except. by destruct (m ⇓ s) as [[] ?]. Qed.

(** The state in which the text of a module is executed: the name has no
    module, and the URL was asked for. *)
Definition ready (module_name : string) (s : Loader) : Loader :=
  mk_loader (delete module_name (sys_modules s)) (pages s)
            (fetched s ++ [module_url module_name]).

(** A load in closed form, by the answer to the download and by what the
    execution of the text does: both loaders differ in the dictionary they
    execute the text in, and in nothing else. *)
Lemma run_load (module_name : string) (m0 : module) (s : Loader) :
  try_except
    (forget module_name;;
     code ← download (module_url module_name);
     m ← exec code m0;
     register module_name m;;
     mret m)
    (λ e, raise e) ⇓ s =
  match pages s (length (fetched s)) (module_url module_name) with
  | Text code =>
      match exec code m0 ⇓ ready module_name s with
      | (Ok m, s') => (Ok m, set_modules (<[module_name := m]> (sys_modules s')) s')
      | r => r
      end
  | NotText => (Raise ValueError, ready module_name s)
  | NoPage => (Raise OSError, ready module_name s)
  end.
Proof.
  rewrite try_reraise, run_bind, run_forget, run_bind, run_download. cbn [fst snd].
  change (mk_loader _ _ _) with (ready module_name s).
  by destruct (pages _ _ _) as [code| |].
Qed.

Lemma run_load_module_from_github (module_name : string) (s : Loader) :
  load_module_from_github module_name ⇓ s =
  match pages s (length (fetched s)) (module_url module_name) with
  | Text code =>
      match exec code (<["__file__" := AStr (module_url module_name)]>
                         (module_from_spec module_name)) ⇓ ready module_name s with
      | (Ok m, s') => (Ok m, set_modules (<[module_name := m]> (sys_modules s')) s')
      | r => r
      end
  | NotText => (Raise ValueError, ready module_name s)
  | NoPage => (Raise OSError, ready module_name s)
  end.
Proof. unfold load_module_from_github. cbv zeta. by rewrite run_load. Qed.

Lemma run_load_github_module_simple (module_name : string) (s : Loader) :
  load_github_module_simple module_name ⇓ s =
  match pages s (length (fetched s)) (module_url module_name) with
  | Text code =>
      match exec code (<["__file__" := AStr (module_url module_name)]>
                         (<["__name__" := AStr module_name]> (new_module "module")))
            ⇓ ready module_name s with
      | (Ok m, s') => (Ok m, set_modules (<[module_name := m]> (sys_modules s')) s')
      | r => r
      end
  | NotText => (Raise ValueError, ready module_name s)
  | NoPage => (Raise OSError, ready module_name s)
  end.
Proof. unfold load_github_module_simple. cbv zeta. by rewrite run_load. Qed.

(** ** What a load does to [sys.modules] *)

(** C24. A download that fails leaves the name without a module, also when one
    was registered before the call: the module is removed before the
    download, and nothing puts it back. *)
Theorem load_fails_forgets (module_name : string) (s : Loader) :
  is_text (pages s (length (fetched s)) (module_url module_name)) = false →
  ∃ e s', load_module_from_github module_name ⇓ s = (Raise e, s') ∧
          sys_modules s' !! module_name = None ∧
          ∀ other, other ≠ module_name → sys_modules s' !! other = sys_modules s !! other.
Proof.
  intros Hpage. rewrite run_load_module_from_github.
  destruct (pages _ _ _) as [code| |]; [done|..];
    eexists _, _; (split; [done|]); cbn;
    (split; [apply lookup_delete_eq|intros; by apply lookup_delete_ne]).
Qed.

(** A load that returns has registered what it returns under the name. *)
Theorem load_registers (module_name : string) (m : module) (s s' : Loader) :
  load_module_from_github module_name ⇓ s = (Ok m, s') →
  sys_modules s' !! module_name = Some m.
Proof.
  rewrite run_load_module_from_github. destruct (pages _ _ _) as [code| |]; try done.
  destruct (exec _ _ ⇓ _) as [[m'| |] s1]; try done.
  intros [= <- <-]. apply lookup_insert_eq.
Qed.

(** [load_class_from_github] returns an attribute of the module it has
    registered. *)
Lemma load_class_registered (module_name class_name : string) (a : attr) (s s' : Loader) :
  load_class_from_github module_name class_name ⇓ s = (Ok a, s') →
  ∃ m, sys_modules s' !! module_name = Some m ∧ m !! class_name = Some a.
Proof.
  unfold load_class_from_github. intros (m & s1 & Hload & H)%run_bind_inv_ok.
  rewrite run_lift in H. unfold getattr in H.
  destruct (m !! class_name) as [a'|] eqn:Ha; try done. injection H as <- <-.
  exists m. split; [by eapply load_registers|done].
Qed.

(** ** Loading all modules *)

Lemma load_one_no_raise (modules : gmap string module) (name : string) (s : Loader) :
  is_raise (load_one modules name ⇓ s).1 = false.
Proof. by apply try_except_no_raise. Qed.

(** What [load_one] returns holds the modules it held, and a module for
    [name] at most. *)
Lemma load_one_keys (modules modules' : gmap string module) (name : string) (s : Loader) :
  (load_one modules name ⇓ s).1 = Ok modules' →
  dom modules' ⊆ dom modules ∪ {[name]}.
Proof.
  unfold load_one. rewrite run_try_except, run_bind.
  destruct (load_module_from_github name ⇓ s) as [[m| |] s1]; cbn; intros [= <-].
  - by rewrite dom_insert_L, (comm_L (∪)).
  - apply union_subseteq_l.
Qed.

Lemma fold_load_one (names : list string) (modules : gmap string module) (s : Loader) :
  match (fold_each load_one names modules ⇓ s).1 with
  | Ok modules' => dom modules' ⊆ dom modules ∪ list_to_set names
  | Raise _ => False
  | Unmodelled => True
  end.
Proof.
  revert modules s. induction names as [|name names IH]; intros modules s; cbn [fold_each].
  { rewrite run_ret. apply union_subseteq_l. }
  rewrite run_bind. pose proof (load_one_no_raise modules name s) as Hraise.
  destruct (load_one modules name ⇓ s) as [[modules1| |] s1] eqn:Hone;
    cbn [fst snd] in *; try done.
  pose proof (load_one_keys modules modules1 name s) as Hkeys.
  rewrite Hone in Hkeys. specialize (Hkeys eq_refl). specialize (IH modules1 s1).
  destruct (fold_each _ _ _ ⇓ _).1 as [modules'| |]; try done.
  etrans; [exact IH|]. rewrite list_to_set_cons. clear -Hkeys. set_solver.
Qed.

(** [load_all_from_github] never raises, and the dictionary it returns
    holds modules for names of its list only. *)
Theorem load_all_keys (s : Loader) :
  match (load_all_from_github ⇓ s).1 with
  | Ok modules => dom modules ⊆ list_to_set module_names
  | Raise _ => False
  | Unmodelled => True
  end.
Proof.
  pose proof (fold_load_one module_names ∅ s) as H. unfold load_all_from_github.
  by destruct (fold_each _ _ _ ⇓ _).1 as [modules| |].
Qed.

(** The example never raises. *)
Lemma main_no_raise (s : Loader) : is_raise (main ⇓ s).1 = false.
Proof. by apply try_except_no_raise. Qed.

(** A page that cannot be had: the example reports the failure, and the
    helper registered before the call is gone. *)
Theorem main_forgets (s : Loader) :
  pages s (length (fetched s)) (module_url "gh_helper") = NoPage →
  main ⇓ s = (Ok false, ready "gh_helper" s).
Proof.
  intros Hpage. unfold main.
  by rewrite run_try_except, run_bind, run_load_github_module_simple, Hpage.
Qed.

End Loader.

(** ** Examples *)

(** A state in which the helper is registered and the web is down. *)
Definition offline : Loader (obj:=unit) :=
  mk_loader {["gh_helper" := {["__name__" := AStr "gh_helper"]}]} (λ _ _, NoPage) [].

Lemma load_fails_forgets_witness :
  ∃ e s', load_module_from_github (λ _, ∅) (λ _ m, mret m) "gh_helper" ⇓ offline
          = (Raise e, s') ∧
          sys_modules s' !! "gh_helper" = None ∧
          ∀ other, other ≠ "gh_helper" →
                   sys_modules s' !! other = sys_modules offline !! other.
Proof. by apply load_fails_forgets. Defined.

Lemma main_forgets_witness :
  main (λ _, ∅) (λ _ m, mret m) ⇓ offline = (Ok false, ready "gh_helper" offline).
Proof. by apply main_forgets. Defined.

(** A web that serves one text for every URL, and an interpreter that
    leaves the dictionary as it is. *)
Definition online : Loader (obj:=unit) := mk_loader ∅ (λ _ _, Text "pass") [].

Lemma load_registers_witness :
  sys_modules (load_module_from_github (λ name, {["__name__" := AStr name]})
                 (λ _ m, mret m) "config" ⇓ online).2 !! "config"
  = Some (<["__file__" := AStr (module_url "config")]> {["__name__" := AStr "config"]}).
Proof.
  by apply (load_registers (λ name, {["__name__" := AStr name]}) (λ _ m, mret m)
              "config" _ online).
Defined.

End github_loader.
