(* ===== verification/Package.v ===== *)
(** * The package: [src/scripts/__init__.py] and [src/setup.py]

    [__init__.py] binds the version and the author, imports the classes of
    the package from its modules and lists in [__all__] the names
    [from scripts import *] hands out.  Here the namespace of the module
    is the list of the names it has bound, in the order of the bindings.
    What the imported modules define is a parameter: a module that cannot
    be found, or that lacks a name the package imports from it, makes the
    import raise [ImportError].

    [setup.py] reads [README.md] and calls [setup] with the description of
    the distribution.  The description is a record; the text of the file
    and what [find_packages()] returns are parameters.

    Theorems: when the import of the package succeeds every name of
    [__all__] is bound, and the names are bound in the order of the
    imports; [setup.py] raises exactly when there is no [README.md]; the
    version it declares is the version of the package, and the package
    whose data it declares is none [find_packages] finds beside
    [scripts]. *)

From Stdlib Require Import String Ascii.
From stdpp Require Import base tactics option list sets strings.
From S2P Require Import Prelude.

Set Default Proof Using "Type".
Local Open Scope string_scope.

(** ** [scripts/__init__.py] *)

Module scripts.

Definition __version__ : string := "1.0.0".

Definition __author__ : string := "GIS Integration Team".

(** What an import statement asks of a module: the names listed, or [*]. *)
Inductive wanted : Type :=
| Names (l : list string)
| Star.

(** The import statements, in the order of the file. *)
Definition imports : list (string * wanted) :=
  [("merge_engine", Names ["SyncEngine"; "DataObject"; "ConflictResolver"]);
   ("revit_gh_bridge", Names ["RevitGHBridge"; "RevitExporter"; "RevitImporter"]);
   ("agol_exporter", Names ["AGOLExporter"; "GeoJSONConverter"]);
   ("integration_pipeline", Names ["RevitGISIntegrationPipeline"]);
   ("gh_helper", Names ["GrassholperDataHelper"; "GrassholperGeometryHelper";
                        "GrassholperPipeline"]);
   ("config", Star)].

Definition __all__ : list string :=
  ["SyncEngine"; "DataObject"; "ConflictResolver"; "RevitGHBridge"; "RevitExporter";
   "RevitImporter"; "AGOLExporter"; "GeoJSONConverter"; "RevitGISIntegrationPipeline";
   "GrassholperDataHelper"; "GrassholperGeometryHelper"; "GrassholperPipeline"].

(** A name [import *] takes: one that does not start with an underscore. *)
Definition public (name : string) : bool :=
  match name with
  | String c _ => negb (bool_decide (c = "_"%char))
  | EmptyString => true
  end.

Section Import.

(** The names each module defines; [None] for a module that is not found. *)
Context (modules : string → option (list string)).

(** [from m import ...]: the names it binds. *)
Definition import_from (m : string) (w : wanted) : outcome (list string) :=
  match modules m with
  | None => Raise ImportError
  | Some defined =>
      match w with
      | Names l =>
          if forallb (λ x, bool_decide (x ∈ defined)) l then Ok l else Raise ImportError
      | Star => Ok (filter (λ x, public x = true) defined)
      end
  end.

(** The import statements [l], after the names [bound]. *)
Fixpoint import_all (l : list (string * wanted)) (bound : list string)
    : outcome (list string) :=
  match l with
  | [] => Ok bound
  | (m, w) :: rest =>
      names ← import_from m w;
      import_all rest (bound ++ names)%list
  end.

(** The body of the module: the names it has bound at its end. *)
Definition __init__ : outcome (list string) :=
  bound ← import_all imports ["__doc__"; "__version__"; "__author__"];
  Ok (bound ++ ["__all__"])%list.

(** ** What the import binds *)

Lemma import_from_names (m : string) (l names : list string) :
  import_from m (Names l) = Ok names → names = l.
Proof.
  unfold import_from. destruct (modules m); [|done].
  by destruct (forallb _ _); intros [= <-].
Qed.

(** The names bound before an import stay bound, in their places. *)
Lemma import_all_prefix (l : list (string * wanted)) (bound ns : list string) :
  import_all l bound = Ok ns → bound `prefix_of` ns.
Proof.
  revert bound. induction l as [|[m w] l IH]; intros bound; cbn [import_all].
  - by intros [= <-].
  - destruct (import_from m w) as [names| |]; cbn; try done.
    intros H%IH. etrans; [|done]. by apply prefix_app_r.
Qed.

(** The names an import lists are bound afterwards. *)
Lemma import_all_names (l : list (string * wanted)) (bound ns : list string)
    (m : string) (names : list string) (x : string) :
  import_all l bound = Ok ns → (m, Names names) ∈ l → x ∈ names → x ∈ ns.
Proof.
  revert bound. induction l as [|[m' w] l IH]; intros bound; cbn [import_all].
  - by intros _ ?%elem_of_nil.
  - destruct (import_from m' w) as [got| |] eqn:Hgot; cbn; try done.
    intros Hrest [[= <- <-]|Hin]%elem_of_cons Hx; [|by eapply IH].
    apply import_from_names in Hgot as ->.
    apply import_all_prefix in Hrest as [tail ->]. set_solver.
Qed.

(** A module that is not found makes the import of the package raise. *)
Lemma import_all_missing (l : list (string * wanted)) (bound : list string) (m : string)
    (w : wanted) :
  (m, w) ∈ l → modules m = None → import_all l bound = Raise ImportError.
Proof.
  revert bound. induction l as [|[m' w'] l IH]; intros bound; cbn [import_all].
  - by intros ?%elem_of_nil.
  - intros [[= <- <-]|Hin]%elem_of_cons Hm.
    + unfold import_from. by rewrite Hm.
    + destruct (import_from m' w') as [got| |] eqn:Hgot; cbn; try done.
      * by apply IH.
      * unfold import_from in Hgot. by repeat case_match.
      * unfold import_from in Hgot. by repeat case_match.
Qed.

(** Is the name listed by an import statement? *)
Definition listed (x : string) : bool :=
  existsb (λ mw, match mw.2 with
                 | Names l => bool_decide (x ∈ l)
                 | Star => false
                 end) imports.

(** Every name of [__all__] comes from an import that lists it. *)
Lemma all_imported (x : string) :
  x ∈ __all__ → ∃ m names, (m, Names names) ∈ imports ∧ x ∈ names.
Proof.
  intros Hx.
  assert (Forall (λ x, listed x = true) __all__) as Hall by by repeat constructor.
  rewrite Forall_forall in Hall. specialize (Hall x Hx).
  apply existsb_exists in Hall as ([m [names|]] & Hin & Hlisted); [|done].
  exists m, names. split; [by apply list_elem_of_In|].
  by apply bool_decide_eq_true in Hlisted.
Qed.

(** When the package can be imported every name of [__all__] is bound:
    [from scripts import *] raises no [AttributeError]. *)
Theorem all_bound (ns : list string) (x : string) :
  __init__ = Ok ns → x ∈ __all__ → x ∈ ns.
Proof.
  unfold __init__.
  destruct (import_all imports _) as [bound| |] eqn:Hbound; cbn; try done.
  intros [= <-] (m & names & Hin & Hx)%all_imported.
  apply elem_of_app. left. by eapply import_all_names.
Qed.

(** The import of the package needs each of its six modules. *)
Theorem init_needs_modules (m : string) (w : wanted) :
  (m, w) ∈ imports → modules m = None → __init__ = Raise ImportError.
Proof.
  intros Hin Hm. unfold __init__. by erewrite import_all_missing.
Qed.

End Import.

(** ** Examples *)

(** The modules of the repository, with the classes they define. *)
Definition repository (m : string) : option (list string) :=
  if decide (m = "merge_engine") then
    Some ["DataObject"; "SyncMetadata"; "ConflictResolver"; "SyncEngine"]
  else if decide (m = "revit_gh_bridge") then
    Some ["RevitExporter"; "RevitImporter"; "RevitGHBridge"]
  else if decide (m = "agol_exporter") then
    Some ["GeoJSONConverter"; "AGOLAuthentication"; "AGOLUploader"; "AGOLExporter"]
  else if decide (m = "integration_pipeline") then Some ["RevitGISIntegrationPipeline"]
  else if decide (m = "gh_helper") then
    Some ["GrassholperDataHelper"; "GrassholperGeometryHelper"; "GrassholperPipeline"]
  else if decide (m = "config") then Some ["WORKSPACE_ROOT"; "DATA_DIR"; "_private"]
  else None.

Definition bound_names : list string :=
  Eval vm_compute in
    match __init__ repository with Ok ns => ns | _ => [] end.

Lemma all_bound_witness : "RevitImporter" ∈ bound_names.
Proof.
  apply (all_bound repository bound_names "RevitImporter"); [by vm_compute|].
  unfold __all__. set_solver.
Defined.

Lemma init_needs_modules_witness :
  __init__ (λ m, if decide (m = "config") then None else repository m)
  = Raise ImportError.
Proof.
  apply (init_needs_modules _ "config" Star); [|done].
  unfold imports. set_solver.
Defined.

End scripts.

(** ** [setup.py] *)

Module setup_py.

(** The keyword arguments of [setup]. *)
Record distribution : Type := mk {
  name : string;
  version : string;
  author : string;
  author_email : string;
  description : string;
  long_description : string;
  long_description_content_type : string;
  url : string;
  packages : list string;
  classifiers : list string;
  python_requires : string;
  install_requires : list string;
  extras_require : list (string * list string);
  include_package_data : bool;
  package_data : list (string * list string)
}.

(** The script: [readme] is the text of [README.md], [None] when the file
    cannot be opened; [found] is what [find_packages()] returns. *)
Definition setup (readme : option string) (found : list string) : outcome distribution :=
  match readme with
  | None => Raise OSError
  | Some long_description =>
      Ok (mk "revit-to-gis" "1.0.0" "Thijs Wagenvoort" ""
             "Bidirectional sync: Revit → Grasshopper → ArcGIS Online"
             long_description "text/markdown"
             "https://github.com/TWagenvoort/revit-to-gis"
             found
             ["Programming Language :: Python :: 3";
              "Programming Language :: Python :: 3.8";
              "Programming Language :: Python :: 3.9";
              "Programming Language :: Python :: 3.10";
              "License :: OSI Approved :: MIT License";
              "Operating System :: OS Independent";
              "Intended Audience :: Developers";
              "Topic :: Scientific/Engineering :: GIS"]
             ">=3.8"
             ["requests>=2.28.0"; "pyproj>=3.4.0"]
             [("dev", ["pytest>=7.0"; "black>=22.0"; "flake8>=4.0"])]
             true
             [("revit_gis", ["data/"; "config/"])])
  end.

(** [setup.py] raises exactly when [README.md] cannot be read. *)
Theorem setup_needs_readme (readme : option string) (found : list string) :
  is_ok (setup readme found) = bool_decide (is_Some readme) ∧
  (readme = None → setup readme found = Raise OSError).
Proof. by destruct readme. Qed.

(** The version of the distribution is the version of the package, and the
    text of [README.md] is its long description. *)
Theorem setup_version (text : string) (found : list string) (d : distribution) :
  setup (Some text) found = Ok d →
  version d = scripts.__version__ ∧ long_description d = text ∧ packages d = found.
Proof. by intros [= <-]. Qed.

(** The data the distribution declares belong to a package [revit_gis]:
    where [find_packages] finds [scripts] only, to no package of the
    distribution. *)
Theorem setup_package_data (text : string) (d : distribution) :
  setup (Some text) ["scripts"] = Ok d →
  ∀ p, p ∈ (package_data d).*1 → p ∉ packages d.
Proof.
  intros [= <-] p. cbn. rewrite !elem_of_cons, !elem_of_nil.
  intros [->|[]] [?|[]]. done.
Qed.

Lemma setup_version_witness :
  version (default (mk "" "" "" "" "" "" "" "" [] [] "" [] [] false [])
             (match setup (Some "# Revit to GIS") ["scripts"] with
              | Ok d => Some d | _ => None end))
  = scripts.__version__.
Proof.
  by destruct (setup_version "# Revit to GIS" ["scripts"]
                 (default (mk "" "" "" "" "" "" "" "" [] [] "" [] [] false [])
                    (match setup (Some "# Revit to GIS") ["scripts"] with
                     | Ok d => Some d | _ => None end))) as (-> & _).
Defined.

End setup_py.
